(** * julian: the fixed-layout ISO date/time codec

    A shallow embedding of [julian/formatter.py] ([format_day], [format_sec],
    [format_day_sec]) and [julian/iso_parser.py] ([day_from_iso],
    [sec_from_iso], [day_sec_from_iso]), and the properties of the codec
    stated over it.

    Conventions of the embedding.
    - A Python [str]/[bytes] value is a [text] (a list of latin-1 characters);
      a NumPy array of kind "S"/"U" is a list of fixed-width records.
    - A Python number is an [Int] (arbitrary precision) or a [Flt]; the float
      type is a parameter with the operations the codec uses ([PyFloat]).
      Two instances are given: exact rationals, on which the general theorems
      are proved, and IEEE binary64, on which concrete calls are evaluated.
    - A 0-d input is a [Scalar], a 1-d input is an [Array]; NumPy views and
      in-place assignment are explicit record updates.
    - A raised exception is an [Err] of the result monad; every [raise] of the
      source is one constructor application carrying the source's message.
    - [julian.calendar], [julian.leap_seconds], [julian.time_of_day] form the
      [Adapter] interface the codec is parameterised by. *)

From Stdlib Require Import ZArith QArith Qround Qabs List String Ascii Bool Lia Lqa.
From Stdlib Require Import Floats Uint63.
Import ListNotations.

Local Open Scope Z_scope.
Local Open Scope list_scope.

(* ====================================================================== *)
(** ** Text *)

Definition text := list ascii.

Definition txt (s : string) : text := list_ascii_of_string s.
Definition str (t : text) : string := string_of_list_ascii t.

Definition NUL : ascii := Ascii.zero.
Definition blank : ascii := " "%char.
Definition dquote : ascii := Ascii false true false false false true false false.

(** The text [s] between double quotes, as the messages show it. *)
Definition quoted (s : text) : string := str (dquote :: s ++ [dquote]).

(** [len(s)] as a Python integer. *)
Definition len {A} (s : list A) : Z := Z.of_nat (List.length s).

(** [s[i:j]] for [0 <= i]. *)
Definition slice (s : text) (i j : Z) : text :=
  firstn (Z.to_nat (j - i)) (skipn (Z.to_nat i) s).

(** [n * b' '] and friends; empty for [n <= 0] as in Python. *)
Definition replicate (n : Z) (c : ascii) : text := repeat c (Z.to_nat n).

Fixpoint index_of (c : ascii) (s : text) : option nat :=
  match s with
  | [] => None
  | x :: r => if Ascii.eqb x c then Some O
              else match index_of c r with Some i => Some (S i) | None => None end
  end.

(** [s.find(c, start)] for a one-character [c] and [start >= 0]. *)
Definition find_from (c : ascii) (s : text) (start : Z) : Z :=
  match index_of c (skipn (Z.to_nat start) s) with
  | Some i => start + Z.of_nat i
  | None => -1
  end.

Definition find (c : ascii) (s : text) : Z := find_from c s 0.

(** [len(s.split(c)) - 1]: the number of occurrences of [c]. *)
Definition count (c : ascii) (s : text) : Z :=
  len (filter (Ascii.eqb c) s).

(** [np.where(np.array(list(s)) == c)[0]]: the positions of [c], ascending. *)
Fixpoint where_from (c : ascii) (s : text) (i : Z) : list Z :=
  match s with
  | [] => []
  | x :: r => if Ascii.eqb x c then i :: where_from c r (i + 1)
              else where_from c r (i + 1)
  end.

Definition where_eq (c : ascii) (s : text) : list Z := where_from c s 0.

(** [c in s]. *)
Definition contains (c : ascii) (s : text) : bool := existsb (Ascii.eqb c) s.

(** NumPy strips trailing NULs when it reads or compares an "S" element. *)
Fixpoint rstrip_nul (s : text) : text :=
  match s with
  | [] => []
  | c :: r => match rstrip_nul r with
              | [] => if Ascii.eqb c NUL then [] else [c]
              | r' => c :: r'
              end
  end.

Definition text_eqb (a b : text) : bool :=
  if list_eq_dec ascii_dec a b then true else false.

(** Equality of two "S" values as NumPy compares them. *)
Definition np_eqb (a b : text) : bool := text_eqb (rstrip_nul a) (rstrip_nul b).

(* ====================================================================== *)
(** ** Exceptions *)

(** The error taxonomy of the codec.  In the source all of these are
    [ValueError]s told apart by their message; the constructor records which
    [raise] statement fired, the argument is the message. *)
Inductive error : Type :=
| ConfigurationError (msg : string)
| FormatNotRecognized (msg : string)
| BufferTooSmall (msg : string)
| MalformedRecord (field : string)      (* NumPy's astype('int') failed *)
| SyntaxError (msg : string)
| InvalidValue (msg : string)           (* raised by the adapter *)
| IndexError                            (* table or array index out of range *)
| TypeError (msg : string)              (* a %-format that does not fit its arguments *)
| NumpyError (what : string).           (* dtype/view/field lookup failure *)

Inductive result (A : Type) : Type :=
| Ok (a : A)
| Err (e : error).
Arguments Ok {A} a.
Arguments Err {A} e.

Definition bind {A B} (r : result A) (k : A -> result B) : result B :=
  match r with Ok a => k a | Err e => Err e end.

Notation "x <- r ;; k" := (bind r (fun x => k))
  (at level 61, r at next level, right associativity).
Notation "' p <- r ;; k" := (bind r (fun p => k))
  (at level 61, p pattern, r at next level, right associativity).

(** [if cond: raise e]. *)
Definition raise_if (cond : bool) (e : error) : result unit :=
  if cond then Err e else Ok tt.

Fixpoint mapM {A B} (f : A -> result B) (l : list A) : result (list B) :=
  match l with
  | [] => Ok []
  | a :: r => b <- f a ;; bs <- mapM f r ;; Ok (b :: bs)
  end.

Definition is_ok {A} (r : result A) : bool :=
  match r with Ok _ => true | Err _ => false end.

(** The message of an error names the text [s]. *)
Fixpoint is_infix (s m : text) : bool :=
  match m with
  | [] => match s with [] => true | _ => false end
  | _ :: r => if text_eqb (firstn (List.length s) m) s then true else is_infix s r
  end.

Definition message (e : error) : string :=
  match e with
  | ConfigurationError m | FormatNotRecognized m | BufferTooSmall m
  | MalformedRecord m | SyntaxError m | InvalidValue m | NumpyError m
  | TypeError m => m
  | IndexError => "index out of range"
  end.

Definition names (e : error) (s : text) : Prop :=
  is_infix s (txt (message e)) = true.

(* ====================================================================== *)
(** ** Numbers *)

(** The float operations the codec performs. *)
Class PyFloat (F : Type) : Type := {
  f_of_Z  : Z -> F;            (* int -> float conversion *)
  f_add   : F -> F -> F;
  f_sub   : F -> F -> F;
  f_mul   : F -> F -> F;
  f_div   : F -> F -> F;
  f_floor : F -> Z;            (* [x // 1], read as an integer *)
  f_leb   : F -> F -> bool;    (* [x <= y] *)
  f_half  : F;                 (* the literal 0.5 *)
  f_tenth : F                  (* the literal 0.1 *)
}.

(** Exact arithmetic: a float is the rational it denotes. *)
#[export] Instance Q_float : PyFloat Q := {
  f_of_Z  := inject_Z;
  f_add   := Qplus;
  f_sub   := Qminus;
  f_mul   := Qmult;
  f_div   := Qdiv;
  f_floor := Qfloor;
  f_leb   := Qle_bool;
  f_half  := (1 # 2)%Q;
  f_tenth := (1 # 10)%Q
}.

(** IEEE binary64, as CPython and NumPy compute. *)
Definition b64_floor (x : float) : Z :=
  match Prim2SF x with
  | S754_finite s m e =>
      let v := if s then Z.neg m else Z.pos m in
      if 0 <=? e then v * 2 ^ e else v / 2 ^ (- e)
  | _ => 0
  end.

Definition b64_of_Z (z : Z) : float :=
  SF2Prim (binary_normalize prec emax z 0 false).

#[export] Instance b64_float : PyFloat float := {
  f_of_Z  := b64_of_Z;
  f_add   := PrimFloat.add;
  f_sub   := PrimFloat.sub;
  f_mul   := PrimFloat.mul;
  f_div   := PrimFloat.div;
  f_floor := b64_floor;
  f_leb   := PrimFloat.leb;
  f_half  := 0x1p-1%float;
  f_tenth := 0x1.999999999999ap-4%float
}.

Section Codec.

Context {F : Type} {FO : PyFloat F}.

(** A Python number: [int] or [float]. *)
Inductive number : Type :=
| Int (n : Z)
| Flt (x : F).

(** A scalar (0-d) or an array (1-d) of numbers. *)
Inductive value : Type :=
| Scalar (x : number)
| Array (xs : list number).

Definition to_float (x : number) : F :=
  match x with Int n => f_of_Z n | Flt x => x end.

Definition is_flt (x : number) : bool :=
  match x with Int _ => false | Flt _ => true end.

(** Modelled from the spec: [julian.utils] is not among the sources.  The
    helpers convert between int and float as §4.3 describes ("truncating to
    integer" rounds downward); an array is float as soon as one element is. *)
Definition _int (x : number) : Z :=
  match x with Int n => n | Flt x => f_floor x end.

Definition _float (x : number) : number := Flt (to_float x).

Definition _is_float (v : value) : bool :=
  match v with Scalar x => is_flt x | Array xs => existsb is_flt xs end.

(** [np.shape(v)]: [None] for [()], [Some n] for [(n,)]. *)
Definition shape (v : value) : option nat :=
  match v with Scalar _ => None | Array xs => Some (List.length xs) end.

Definition elements (v : value) : list number :=
  match v with Scalar x => [x] | Array xs => xs end.

(** Rebuild a value of the shape of [v] from per-element results. *)
Definition reshape (like : option nat) (xs : list number) : value :=
  match like, xs with
  | None, [x] => Scalar x
  | _, _ => Array xs
  end.

(** The external calendar/time collaborators (§6), element by element; the
    codec applies them to whole batches. *)
Record Adapter : Type := {
  day_from_ymd   : Z -> Z -> Z -> bool -> bool -> result Z;
  day_from_yd    : Z -> Z -> bool -> bool -> result Z;
  ymd_from_day   : Z -> bool -> Z * Z * Z;
  yd_from_day    : Z -> bool -> Z * Z;
  seconds_on_day : Z -> Z;
  sec_from_hms   : number -> number -> number -> bool -> bool -> result number;
  hms_from_sec   : number -> result (Z * Z * number)
}.

Variable A : Adapter.

(* ====================================================================== *)
(** ** iso_parser.py *)

(** [_count_white]: the two [for] loops leave the loop variable at the first
    non-blank position, or at the last index when every character is blank. *)
Fixpoint scan_blanks (s : text) (i : Z) : Z :=
  match s with
  | [] => i - 1
  | c :: r => if Ascii.eqb c blank then scan_blanks r (i + 1) else i
  end.

Definition _count_white (string : text) : Z * Z :=
  match string with
  | [] => (0, 0)
  | _ => (scan_blanks string 0, scan_blanks (rev string) 0)
  end.

(** key = (stripped_length, dash_count); value = (y1, m0, d0, dlen, dash_locs) *)
Definition ISO_DATE_FORMAT_INFO : list ((Z * Z) * (Z * Z * Z * Z * list Z)) :=
  [ ((10, 2), (4, 5, 8, 2, [4; 7]));      (* yyyy-mm-dd *)
    (( 8, 1), (4, 0, 5, 3, [4]   ));      (* yyyy-ddd *)
    (( 8, 2), (2, 3, 6, 2, [2; 5]));      (* yy-mm-dd *)
    (( 6, 1), (2, 0, 3, 3, [2]   ));      (* yy-ddd *)
    (( 8, 0), (4, 4, 6, 2, []    ));      (* yyyymmdd *)
    (( 7, 0), (4, 0, 4, 3, []    ));      (* yyyyddd *)
    (( 6, 0), (2, 2, 4, 2, []    ));      (* yymmdd *)
    (( 5, 0), (2, 0, 2, 3, []    )) ].    (* yyddd *)

Definition key_eqb (a b : Z * Z) : bool :=
  (fst a =? fst b) && (snd a =? snd b).

Fixpoint dict_get {V} (d : list ((Z * Z) * V)) (k : Z * Z) : option V :=
  match d with
  | [] => None
  | (k', v) :: r => if key_eqb k' k then Some v else dict_get r k
  end.

(** A structured dtype given as a dictionary: field name -> (size, offset). *)
Definition dtype := list (string * (Z * Z)).

Fixpoint dtype_get (dt : dtype) (name : string) : option (Z * Z) :=
  match dt with
  | [] => None
  | (n, f) :: r => if String.eqb n name then Some f else dtype_get r name
  end.

Definition has_field (dt : dtype) (name : string) : bool :=
  match dtype_get dt name with Some _ => true | None => false end.

(** [dtype_dict[name] = (size, offset)]. *)
Definition dtype_set (dt : dtype) (name : string) (f : Z * Z) : dtype :=
  dt ++ [(name, f)].

(** The item size of [np.dtype(dtype_dict)]: the end of the furthest field.
    A field of negative size or negative offset is no dtype. *)
Definition np_dtype (dt : dtype) : result Z :=
  if forallb (fun nf => (0 <=? fst (snd nf)) && (0 <=? snd (snd nf))) dt
  then Ok (fold_right (fun nf acc => Z.max (fst (snd nf) + snd (snd nf)) acc) 0 dt)
  else Err (NumpyError "invalid dtype").

(** An array of kind "S": its item size and its NUL-padded elements. *)
Record sarray : Type := {
  scalar   : bool;
  itemsize : Z;
  items    : list text
}.

Definition pad_nul (n : Z) (s : text) : text :=
  s ++ replicate (n - len s) NUL.

(** [np.array(strings).astype('S')]. *)
Inductive strings_in : Type :=
| Str (s : text)
| Strs (l : list text).

Definition np_array_S (strings : strings_in) : sarray :=
  match strings with
  | Str s =>
      let n := Z.max 1 (len (rstrip_nul s)) in
      {| scalar := true; itemsize := n; items := [pad_nul n (rstrip_nul s)] |}
  | Strs l =>
      let n := fold_right (fun s acc => Z.max (len (rstrip_nul s)) acc) 1 l in
      {| scalar := false; itemsize := n;
         items := map (fun s => pad_nul n (rstrip_nul s)) l |}
  end.

(** [strings[first_index].decode('latin8')]. *)
Definition first_of (a : sarray) : result text :=
  match items a with
  | [] => Err IndexError
  | r :: _ => Ok (rstrip_nul r)
  end.

Fixpoint chunks (fuel : nat) (n : nat) (s : text) : list text :=
  match fuel with
  | O => []
  | S fuel' => match s with
               | [] => []
               | _ => firstn n s :: chunks fuel' n (skipn n s)
               end
  end.

(** [strings.view(np.dtype(dtype_dict))]: the same bytes read through the
    structured dtype.  When the item sizes differ NumPy re-cuts the last axis
    of a 1-d array, and refuses for a 0-d array or a length that does not
    divide. *)
Definition np_view (a : sarray) (dt : dtype) : result (list text) :=
  size <- np_dtype dt ;;
  if size =? itemsize a then Ok (items a)
  else if scalar a then Err (NumpyError "view: itemsize of a 0d array")
  else if (size =? 0) || negb ((len (items a) * itemsize a) mod size =? 0)
       then Err (NumpyError "view: size not divisible")
  else let flat := List.concat (items a) in
       Ok (chunks (List.length flat) (Z.to_nat size) flat).

(** [rec[name]]: the bytes of one field of one record. *)
Definition field (f : Z * Z) (rec : text) : text :=
  slice rec (snd f) (snd f + fst f).

Definition column (dt : dtype) (name : string) (recs : list text)
  : result (list text) :=
  match dtype_get dt name with
  | Some f => Ok (map (field f) recs)
  | None => Err (NumpyError ("no field of name " ++ name))
  end.

(** [int(s)] on the text of a field: surrounding white space, an optional
    sign, decimal digits. *)
Definition is_digit (c : ascii) : bool :=
  let n := nat_of_ascii c in (48 <=? n)%nat && (n <=? 57)%nat.

Definition digit_val (c : ascii) : Z := Z.of_nat (nat_of_ascii c) - 48.

Definition is_space (c : ascii) : bool :=
  let n := nat_of_ascii c in (n =? 32)%nat || ((9 <=? n)%nat && (n <=? 13)%nat).

Fixpoint lstrip (s : text) : text :=
  match s with
  | c :: r => if is_space c then lstrip r else s
  | [] => []
  end.

Definition strip_space (s : text) : text := rev (lstrip (rev (lstrip s))).

Fixpoint digits_val (s : text) (acc : Z) : option Z :=
  match s with
  | [] => Some acc
  | c :: r => if is_digit c then digits_val r (10 * acc + digit_val c) else None
  end.

Definition unsigned_val (s : text) : option Z :=
  match s with [] => None | _ => digits_val s 0 end.

Definition py_int (s : text) : option Z :=
  match strip_space (rstrip_nul s) with
  | c :: r =>
      if Ascii.eqb c "-" then option_map Z.opp (unsigned_val r)
      else if Ascii.eqb c "+" then unsigned_val r
      else unsigned_val (c :: r)
  | [] => None
  end.

(** [strings[name].astype('int')]. *)
Definition astype_int (dt : dtype) (name : string) (recs : list text)
  : result (list Z) :=
  col <- column dt name recs ;;
  mapM (fun s => match py_int s with
                 | Some n => Ok n
                 | None => Err (MalformedRecord name)
                 end) col.

(** [np.any(strings[name] != literal)]. *)
Definition any_differs (dt : dtype) (name : string) (lit : text)
                       (recs : list text) : bool :=
  match dtype_get dt name with
  | Some f => existsb (fun r => negb (np_eqb (field f r) lit)) recs
  | None => false
  end.

(** [c in bytearray(strings[name])]. *)
Definition column_contains (dt : dtype) (name : string) (c : ascii)
                           (recs : list text) : bool :=
  match dtype_get dt name with
  | Some f => existsb (fun r => contains c (field f r)) recs
  | None => false
  end.

(** What [day_from_iso] reads off the first element: blank counts, the dot,
    the end of the date and of its integer part, and the dash count. *)
Record date_sample : Type := {
  ds_lfirst : Z; ds_w0 : Z; ds_w1 : Z; ds_w2 : Z;
  ds_lstripped : Z; ds_kdot : Z; ds_kend : Z; ds_kints : Z; ds_ndashes : Z
}.

Definition sample_date (itemsize : Z) (first : text) (strip : bool) : date_sample :=
  let lfirst := len first in
  let w2 := itemsize - lfirst in
  let '(w0, w1) := if strip then _count_white first else (0, 0) in
  let lstripped := lfirst - w0 - w1 in
  let kdot := Z.max 0 (find "." first) in
  let kend := w0 + lstripped in
  let kints := if kdot =? 0 then kend else kdot in
  let ndashes := count "-" first in
  {| ds_lfirst := lfirst; ds_w0 := w0; ds_w1 := w1; ds_w2 := w2; ds_lstripped := lstripped;
     ds_kdot := kdot; ds_kend := kend; ds_kints := kints; ds_ndashes := ndashes |}.

Definition date_key (s : date_sample) : Z * Z :=
  (ds_kints s - ds_w0 s, ds_ndashes s).

(** "Identify the format": the table look-up and its [KeyError] handler. *)
Definition identify_date (first : text) (s : date_sample)
  : result (Z * Z * Z * Z * list Z) :=
  match dict_get ISO_DATE_FORMAT_INFO (date_key s) with
  | Some info => Ok info
  | None => Err (FormatNotRecognized
                   ("unrecognized ISO date format: " ++ quoted first))
  end.

Definition nat_string (n : Z) : string :=
  match n with
  | 0 => "0" | 1 => "1" | 2 => "2" | 3 => "3" | 4 => "4"
  | 5 => "5" | 6 => "6" | 7 => "7" | 8 => "8" | _ => "9"
  end.

Fixpoint enumerate_from {T} (i : Z) (l : list T) : list (Z * T) :=
  match l with
  | [] => []
  | x :: r => (i, x) :: enumerate_from (i + 1) r
  end.

(** "Construct the dtype dictionary" of [day_from_iso]. *)
Definition date_dtype (s : date_sample) (info : Z * Z * Z * Z * list Z)
                      (syntax : bool) : dtype :=
  let '(y1, m0, d0, dlen, dashes) := info in
  let w0 := ds_w0 s in
  let dt := dtype_set [] "y" (y1, w0) in
  let dt := dtype_set dt "d" (dlen, w0 + d0) in
  let dt := if m0 =? 0 then dt else dtype_set dt "m" (2, w0 + m0) in
  let dt := if w0 =? 0 then dt else dtype_set dt "white0" (w0, 0) in
  let dt := fold_left (fun dt id => dtype_set dt ("dash" ++ nat_string (fst id))
                                              (1, w0 + snd id))
                      (enumerate_from 0 dashes) dt in
  let flen := ds_kend s - ds_kdot s - 1 in
  let dt := if ds_kdot s =? 0 then dt
            else let dt := dtype_set dt "dot" (1, ds_kdot s) in
                 if flen =? 0 then dt else dtype_set dt "f" (flen, ds_kdot s + 1) in
  let dt := if ds_w1 s =? 0 then dt else dtype_set dt "white1" (ds_w1 s, ds_kend s) in
  let dt := if ds_w2 s =? 0 then dt
            else dtype_set dt "nulls" (1, ds_lfirst s) in
  if syntax then dtype_set dt "data" (ds_kend s - w0, w0) else dt.

Fixpoint zip3 {X Y Z'} (a : list X) (b : list Y) (c : list Z') : list (X * Y * Z') :=
  match a, b, c with
  | x :: a', y :: b', z :: c' => (x, y, z) :: zip3 a' b' c'
  | _, _, _ => []
  end.

(** A field that is absent reads as the scalar 0, broadcast over the batch. *)
Definition astype_int_or_0 (dt : dtype) (name : string) (recs : list text)
  : result (list Z) :=
  if has_field dt name then astype_int dt name recs
  else Ok (map (fun _ => 0) recs).

(** "Validate syntax if necessary" of [day_from_iso]. *)
Definition date_syntax (dt : dtype) (w0 w1 : Z) (recs : list text) : result unit :=
  _ <- raise_if (has_field dt "dash0" && any_differs dt "dash0" (txt "-") recs)
                (SyntaxError "inconsistent dashes in ISO date") ;;
  _ <- raise_if (has_field dt "dash1" && any_differs dt "dash1" (txt "-") recs)
                (SyntaxError "inconsistent dashes in ISO date") ;;
  _ <- raise_if (has_field dt "white0" && any_differs dt "white0" (replicate w0 blank) recs)
                (SyntaxError "inconsistent white space in ISO date") ;;
  _ <- raise_if (has_field dt "white1" && any_differs dt "white1" (replicate w1 blank) recs)
                (SyntaxError "inconsistent white space in ISO date") ;;
  _ <- raise_if (has_field dt "nulls" && any_differs dt "nulls" [NUL] recs)
                (SyntaxError "inconsistent null termination in ISO date") ;;
  _ <- raise_if (column_contains dt "data" blank recs)
                (SyntaxError "invalid blank character in ISO date") ;;
  _ <- mapM (fun key =>
               raise_if (has_field dt key && column_contains dt key "-" recs)
                        (SyntaxError "invalid negative value in ISO date"))
            ["y"; "d"; "m"; "f"]%string ;;
  Ok tt.

(** [day_from_iso] on an array already of kind "S". *)
Definition day_from_iso_S (strings : sarray)
                          (validate syntax strip proleptic : bool) : result value :=
  first <- first_of strings ;;
  let s := sample_date (itemsize strings) first strip in
  (* Identify the format *)
  info <- identify_date first s ;;
  let '(y1, m0, d0, dlen, dashes) := info in
  (* Construct the dtype dictionary *)
  let dt := date_dtype s info syntax in
  let flen := ds_kend s - ds_kdot s - 1 in
  (* Extract year, month, day, and fraction *)
  recs <- np_view strings dt ;;
  y <- astype_int dt "y" recs ;;
  d <- astype_int dt "d" recs ;;
  m <- astype_int_or_0 dt "m" recs ;;
  f <- astype_int_or_0 dt "f" recs ;;
  (* Validate syntax if necessary *)
  _ <- (if syntax then date_syntax dt (ds_w0 s) (ds_w1 s) recs else Ok tt) ;;
  (* Convert to day *)
  day <- mapM (fun '(y, m, d) =>
                 if m0 =? 0 then day_from_yd A y d validate proleptic
                 else day_from_ymd A y m d validate proleptic)
              (zip3 y m d) ;;
  (* Add fraction if needed *)
  let out :=
    if ds_kdot s =? 0 then map Int day
    else map (fun '(day, f) =>
                Flt (f_add (f_of_Z day) (f_div (f_of_Z f) (f_of_Z (10 ^ flen)))))
             (combine day f) in
  Ok (reshape (if scalar strings then None else Some (List.length out)) out).

Definition day_from_iso (strings : strings_in)
                        (validate syntax strip proleptic : bool) : result value :=
  day_from_iso_S (np_array_S strings) validate syntax strip proleptic.

(** [s[i]] with Python's negative indices. *)
Definition py_index (s : text) (i : Z) : result ascii :=
  let j := if i <? 0 then i + len s else i in
  if (j <? 0) || (len s <=? j) then Err IndexError
  else match nth_error s (Z.to_nat j) with
       | Some c => Ok c
       | None => Err IndexError
       end.

(** What [sec_from_iso] reads off the first element. *)
Record time_sample : Type := {
  ts_lfirst : Z; ts_w0 : Z; ts_w1 : Z; ts_w2 : Z; ts_wz : Z;
  ts_kend : Z; ts_kcolons : list Z; ts_kdots : list Z
}.

Definition sample_time (itemsize : Z) (first : text) (strip : bool)
  : result time_sample :=
  let lfirst := len first in
  let w2 := itemsize - lfirst in
  let '(w0, w1) := if strip then _count_white first else (0, 0) in
  (* Check for "Z" *)
  let lstripped := lfirst - w0 - w1 in
  c <- py_index first (w0 + lstripped - 1) ;;
  let wz := if Ascii.eqb c "Z" then 1 else 0 in
  let lstripped := lstripped - wz in
  let kend := w0 + lstripped in
  Ok {| ts_lfirst := lfirst; ts_w0 := w0; ts_w1 := w1; ts_w2 := w2; ts_wz := wz;
        ts_kend := kend;
        ts_kcolons := where_eq ":" first; ts_kdots := where_eq "." first |}.

Fixpoint arange (n : nat) (i : Z) : list Z :=
  match n with
  | O => []
  | S n' => i :: arange n' (i + 1)
  end.

Fixpoint sub_lists (a b : list Z) : list Z :=
  match a, b with
  | x :: a', y :: b' => (x - y) :: sub_lists a' b'
  | _, _ => []
  end.

(** The located fields of a time: [kdot], [kints], the colon positions, and
    the start and width of each integer field. *)
Record time_layout : Type := {
  tl_kdot : Z; tl_kints : Z; tl_kcolons : list Z;
  tl_khms : list Z; tl_widths : list Z
}.

(** "Locate colons and dots" and "Identify the h, m, s, and fraction field
    locations and widths". *)
Definition identify_time (first : text) (s : time_sample) : result time_layout :=
  let kcolons := ts_kcolons s in
  _ <- raise_if (2 <? len kcolons)
         (FormatNotRecognized
            ("unrecognized ISO time format; too many colons: " ++ quoted first)) ;;
  let kdots := ts_kdots s in
  _ <- raise_if (1 <? len kdots)
         (FormatNotRecognized
            ("unrecognized ISO time format; too many decimals: " ++ quoted first)) ;;
  let kdot := match kdots with [k] => k | _ => 0 end in
  let kints := if kdot =? 0 then ts_kend s else kdot in
  match kcolons with
  | _ :: _ =>
      let kcolons' := (ts_w0 s - 1) :: kcolons in
      let khms := map (fun k => k + 1) kcolons' in
      let khms1 := kcolons ++ [kints] in
      let widths := sub_lists khms1 khms in
      _ <- raise_if (existsb (fun w => negb (w =? 2)) widths)
             (FormatNotRecognized ("invalid field width in ISO time: " ++ quoted first)) ;;
      Ok {| tl_kdot := kdot; tl_kints := kints; tl_kcolons := kcolons;
            tl_khms := khms; tl_widths := widths |}
  | [] =>
      let width := kints - ts_w0 s in
      let fields := width / 2 in
      _ <- raise_if ((3 <? fields) || negb (width =? fields * 2))
             (FormatNotRecognized
                ("invalid text width in ISO time format: " ++ quoted first)) ;;
      Ok {| tl_kdot := kdot; tl_kints := kints; tl_kcolons := [];
            tl_khms := map (fun i => ts_w0 s + 2 * i) (arange (Z.to_nat fields) 0);
            tl_widths := repeat 2 (Z.to_nat fields) |}
  end.

Definition hms_key (i : Z) : string :=
  match i with 0 => "h" | 1 => "m" | _ => "s" end.

(** "Construct the dtype dictionary" of [sec_from_iso]. *)
Definition time_dtype (s : time_sample) (l : time_layout) (syntax : bool) : dtype :=
  let w0 := ts_w0 s in
  let dt := fold_left (fun dt iwk => dtype_set dt (hms_key (fst iwk)) (snd iwk))
                      (enumerate_from 0 (combine (tl_widths l) (tl_khms l))) [] in
  let dt := if w0 =? 0 then dt else dtype_set dt "white0" (w0, 0) in
  let dt := fold_left (fun dt ik => dtype_set dt ("colon" ++ nat_string (fst ik))
                                              (1, snd ik))
                      (enumerate_from 0 (tl_kcolons l)) dt in
  let flen := ts_kend s - tl_kdot l - 1 in
  let dt := if tl_kdot l =? 0 then dt
            else let dt := dtype_set dt "dot" (1, tl_kdot l) in
                 if flen =? 0 then dt else dtype_set dt "f" (flen, tl_kdot l + 1) in
  let dt := if ts_wz s =? 0 then dt else dtype_set dt "z" (1, ts_kend s) in
  let dt := if ts_w1 s =? 0 then dt
            else dtype_set dt "white1" (ts_w1 s, ts_kend s + ts_wz s) in
  let dt := if ts_w2 s =? 0 then dt else dtype_set dt "nulls" (1, ts_lfirst s) in
  if syntax then dtype_set dt "data" (ts_kend s - w0, w0) else dt.

(** "Validate if necessary" of [sec_from_iso]. *)
Definition time_syntax (dt : dtype) (w0 w1 : Z) (recs : list text) : result unit :=
  _ <- raise_if (has_field dt "white0" && any_differs dt "white0" (replicate w0 blank) recs)
                (SyntaxError "inconsistent white space in ISO time") ;;
  _ <- raise_if (has_field dt "colon0" && any_differs dt "colon0" (txt ":") recs)
                (SyntaxError "inconsistent colons in ISO time") ;;
  _ <- raise_if (has_field dt "colon1" && any_differs dt "colon1" (txt ":") recs)
                (SyntaxError "inconsistent colons in ISO time") ;;
  _ <- raise_if (has_field dt "dot" && any_differs dt "dot" (txt ".") recs)
                (SyntaxError "inconsistent decimal points in ISO time") ;;
  _ <- raise_if (has_field dt "z" && any_differs dt "z" (txt "Z") recs)
                (SyntaxError ("inconsistent " ++ quoted (txt "Z") ++ " usage in ISO time")) ;;
  _ <- raise_if (has_field dt "white1" && any_differs dt "white1" (replicate w1 blank) recs)
                (SyntaxError "inconsistent white space in ISO time") ;;
  _ <- raise_if (has_field dt "nulls" && any_differs dt "nulls" [NUL] recs)
                (SyntaxError "inconsistent null termination in ISO time") ;;
  _ <- raise_if (column_contains dt "data" blank recs || column_contains dt "data" "-" recs)
                (SyntaxError "invalid blank character in ISO time") ;;
  Ok tt.

(** [x + f] where [f] is a float. *)
Definition add_float (x : Z) (f : F) : number := Flt (f_add (f_of_Z x) f).

(** [sec_from_iso] on an array already of kind "S". *)
Definition sec_from_iso_S (strings : sarray)
                          (validate leapsecs strip syntax : bool) : result value :=
  first <- first_of strings ;;
  s <- sample_time (itemsize strings) first strip ;;
  l <- identify_time first s ;;
  let dt := time_dtype s l syntax in
  let flen := ts_kend s - tl_kdot l - 1 in
  (* Extract hours, minutes, seconds *)
  recs <- np_view strings dt ;;
  h <- astype_int dt "h" recs ;;
  m <- astype_int_or_0 dt "m" recs ;;
  s' <- astype_int_or_0 dt "s" recs ;;
  hms <- (if has_field dt "f" then
            fi <- astype_int dt "f" recs ;;
            let f := map (fun fi => f_div (f_of_Z fi) (f_of_Z (10 ^ flen))) fi in
            Ok (map (fun '(h, m, s, f) =>
                       if has_field dt "s" then (Int h, Int m, add_float s f)
                       else if has_field dt "m" then (Int h, add_float m f, Int s)
                       else (add_float h f, Int m, Int s))
                    (combine (zip3 h m s') f))
          else Ok (map (fun '(h, m, s) => (Int h, Int m, Int s)) (zip3 h m s'))) ;;
  (* Validate if necessary *)
  _ <- (if syntax then time_syntax dt (ts_w0 s) (ts_w1 s) recs else Ok tt) ;;
  out <- mapM (fun '(h, m, s) => sec_from_hms A h m s validate leapsecs) hms ;;
  Ok (reshape (if scalar strings then None else Some (List.length out)) out).

Definition sec_from_iso (strings : strings_in)
                        (validate leapsecs strip syntax : bool) : result value :=
  sec_from_iso_S (np_array_S strings) validate leapsecs strip syntax.

(** [x >= n] for a number [x] and an integer [n]. *)
Definition geb_int (x : number) (n : Z) : bool :=
  match x with
  | Int k => n <=? k
  | Flt y => f_leb (f_of_Z n) y
  end.

(** One field of a structured view, as an array of its own. *)
Definition sub_array (a : sarray) (f : Z * Z) (recs : list text) : sarray :=
  {| scalar := scalar a; itemsize := fst f; items := map (field f) recs |}.

Definition day_sec_from_iso (strings : strings_in)
                            (validate syntax strip proleptic : bool)
  : result (value * value) :=
  let arr := np_array_S strings in
  first <- first_of arr ;;
  let lfirst := len first in
  (* Check for a T or blank separator *)
  let isepT := find "T" first in
  let '(csep, isep) :=
    if isepT =? -1 then
      let '(w0, w1) := _count_white first in
      let isep := find_from blank first w0 in
      (blank, if isep =? lfirst - w1 then -1 else isep)
    else ("T"%char, isepT) in
  (* If no separator is found, it is just a date *)
  if isep =? -1 then
    day <- day_from_iso strings validate false strip false ;;
    Ok (day, Scalar (Int 0))
  else
    (* Otherwise, parse the date and time separately *)
    let fdate := (isep, 0) in
    let ftime := (lfirst - isep - 1, isep + 1) in
    let fsep := (1, isep) in
    let dt := [("date"%string, fdate); ("time"%string, ftime); ("sep"%string, fsep)] in
    recs <- np_view arr dt ;;
    day <- day_from_iso_S (sub_array arr fdate recs) validate syntax strip proleptic ;;
    sec <- sec_from_iso_S (sub_array arr ftime recs) validate true strip syntax ;;
    _ <- raise_if (syntax && any_differs dt "sep" [csep] recs)
                  (SyntaxError "invalid ISO date-time punctuation") ;;
    _ <- raise_if (validate &&
                   existsb (fun '(s, d) => geb_int s (seconds_on_day A (_int d)))
                           (combine (elements sec) (elements day)))
                  (InvalidValue "seconds value is outside allowed range") ;;
    Ok (day, sec).

(* ====================================================================== *)
(** ** formatter.py *)

Definition digit_char (d : Z) : ascii :=
  match d with
  | 0 => "0" | 1 => "1" | 2 => "2" | 3 => "3" | 4 => "4"
  | 5 => "5" | 6 => "6" | 7 => "7" | 8 => "8" | _ => "9"
  end%char.

(** The [w] low-order decimal digits of [n >= 0]. *)
Fixpoint zfill (w : nat) (n : Z) : text :=
  match w with
  | O => []
  | S w' => zfill w' (n / 10) ++ [digit_char (n mod 10)]
  end.

Fixpoint ndigits_fuel (fuel : nat) (n : Z) : nat :=
  match fuel with
  | O => 1%nat
  | S fuel' => if n <? 10 then 1%nat else S (ndigits_fuel fuel' (n / 10))
  end.

(** The number of decimal digits of [n >= 0]. *)
Definition ndigits (n : Z) : nat := ndigits_fuel (Z.to_nat (Z.log2 n)) n.

(** ['%0wd' % n], which is also ['{:0wd}'.format(n)]. *)
Definition pct_d (w : Z) (n : Z) : text :=
  if n <? 0
  then "-"%char :: zfill (Nat.max (Z.to_nat (w - 1)) (ndigits (- n))) (- n)
  else zfill (Nat.max (Z.to_nat w) (ndigits n)) n.

(** [str(i)] for [i >= 0]. *)
Definition str_int (i : Z) : string := str (pct_d 1 i).

Definition DIGITS1 : list text := map (pct_d 1) (arange 10 0).
Definition DIGITS2 : list text := map (pct_d 2) (arange 100 0).
Definition DIGITS3 : list text := map (pct_d 3) (arange 367 0).

(** [table[i]] for an integer (array) index: negative indices wrap once,
    anything else out of range raises. *)
Definition take (table : list text) (i : Z) : result text :=
  let j := if i <? 0 then i + len table else i in
  if (j <? 0) || (len table <=? j) then Err IndexError
  else match nth_error table (Z.to_nat j) with
       | Some t => Ok t
       | None => Err IndexError
       end.

Inductive kind : Type := KU | KS | KOther.

Definition kind_is_US (k : kind) : bool :=
  match k with KU | KS => true | KOther => false end.

(** A caller-supplied or freshly made output array: its element kind, its
    width in characters ([dtype.itemsize // w]) and its elements, each of
    exactly that width. *)
Record buffer : Type := {
  bkind  : kind;
  bwidth : Z;
  belems : list text
}.

Inductive output : Type :=
| Single (s : text)          (* a str or bytes *)
| Filled (b : buffer).       (* the array written into *)

(** Bytes per character of the two kinds. *)
Definition char_size (k : kind) : Z := match k with KU => 4 | _ => 1 end.

(** [((x * scale + 0.5) // 1 + 0.1) / scale] *)
Definition round_bias (x : number) (scale : Z) : F :=
  let xs := match x with
            | Int n => f_of_Z (n * scale)
            | Flt y => f_mul y (f_of_Z scale)
            end in
  f_div (f_add (f_of_Z (f_floor (f_add xs f_half))) f_tenth) (f_of_Z scale).

(** [int(x)] of Python: truncation towards zero. *)
Definition py_trunc (x : number) : Z :=
  match x with
  | Int n => n
  | Flt y => if f_leb (f_of_Z 0) y then f_floor y
             else - f_floor (f_sub (f_of_Z 0) y)
  end.

(** [int((frac * 10.**digits) // 1)] *)
Definition frac_int (frac : F) (digits : Z) : Z :=
  f_floor (f_mul frac (f_of_Z (10 ^ digits))).

(** "Interpret the buffer and kind": the element kind in force. *)
Definition interpret_kind (shp : option nat) (buf : option buffer) (knd : kind)
                          (what : string) : result kind :=
  match buf with
  | None =>
      _ <- raise_if (negb (kind_is_US knd))
             (ConfigurationError ("invalid kind, must be " ++ quoted (txt "U")
                                  ++ " or " ++ quoted (txt "S"))) ;;
      Ok knd
  | Some b =>
      _ <- raise_if (negb (kind_is_US (bkind b)))
             (ConfigurationError ("invalid buffer; kind must be " ++ quoted (txt "U")
                                  ++ " or " ++ quoted (txt "S"))) ;;
      _ <- match shp with
           | Some n => raise_if (len (belems b) <? Z.of_nat n)
                         (BufferTooSmall ("buffer shape is too small for the "
                                          ++ what ++ " array"))
           | None => Ok tt
           end ;;
      Ok (bkind b)
  end.

(** A value cut or NUL-padded to the width of the field it is stored in. *)
Definition fit (n : Z) (v : text) : text :=
  firstn (Z.to_nat n) v ++ replicate (n - len v) NUL.

(** [view[name] = v] on one record; [w] converts the byte offset. *)
Definition store (w : Z) (f : Z * Z) (v : text) (rec : text) : text :=
  let off := snd f / w in
  firstn (Z.to_nat off) rec ++ fit (fst f) v ++ skipn (Z.to_nat (off + fst f)) rec.

(** [if name in dtype_dict: view[name] = v]. *)
Definition store_if (w : Z) (dt : dtype) (name : string) (v : text) (rec : text) : text :=
  match dtype_get dt name with
  | Some f => store w f v rec
  | None => rec
  end.

(** "Create a buffer if necessary; otherwise, check dimensions", then
    [buffer.fill(null)]: the layout completed by the [extra] field, and the
    cleared array. *)
Definition prepare (shp : option nat) (buf : option buffer) (knd : kind)
                   (dt : dtype) (lstring : Z) (what : string)
  : result (dtype * buffer) :=
  let w := char_size knd in
  match buf with
  | None =>
      let n := match shp with Some n => n | None => 1%nat end in
      Ok (dt, {| bkind := knd; bwidth := lstring;
                 belems := repeat (replicate lstring NUL) n |})
  | Some b =>
      let itemsize := bwidth b * w in
      _ <- raise_if (itemsize <? lstring * w)
             (BufferTooSmall ("buffer itemsize is too small for the " ++ what)) ;;
      let dt := if lstring * w <? itemsize
                then dtype_set dt "extra" (itemsize / w - lstring, lstring * w)
                else dt in
      Ok (dt, {| bkind := bkind b; bwidth := bwidth b;
                 belems := map (fun _ => replicate (bwidth b) NUL) (belems b) |})
  end.

(** The elements the view addresses: all of them for a 0-d input (which is
    broadcast), the first [n] for an input of shape [(n,)]. *)
Definition targets (shp : option nat) (b : buffer) : nat :=
  match shp with
  | Some n => n
  | None => List.length (belems b)
  end.

(** The per-element inputs, broadcast over the targets. *)
Definition broadcast {T} (shp : option nat) (b : buffer) (xs : list T) : list T :=
  match shp, xs with
  | None, [x] => repeat x (List.length (belems b))
  | _, _ => xs
  end.

(** Write one rendered record per target; the other elements stay cleared. *)
Definition fill_targets (shp : option nat) (b : buffer) (recs : list text) : buffer :=
  {| bkind := bkind b; bwidth := bwidth b;
     belems := recs ++ skipn (targets shp b) (belems b) |}.

(** The pieces of a format string. *)
Inductive fmt_item : Type :=
| Lit (s : text)
| FmtY (w : Z)     (* {y:0wd} *)
| FmtM             (* {m:02d} *)
| FmtD (w : Z)     (* {d:0wd} *)
| FmtF (w : Z).    (* {f:0wd} *)

Definition fmt_format (fmt : list fmt_item) (y m d f : Z) : text :=
  List.concat (map (fun it => match it with
                         | Lit s => s
                         | FmtY w => pct_d w y
                         | FmtM => pct_d 2 m
                         | FmtD w => pct_d w d
                         | FmtF w => pct_d w f
                         end) fmt).

(** The state of the layout loop of [format_day]. *)
Record day_layout : Type := {
  dl_fmt : list fmt_item;
  dl_dtype : dtype;
  dl_lstring : Z
}.

Definition dl_field (l : day_layout) (w : Z) (name : string) (n : Z) : day_layout :=
  {| dl_fmt := dl_fmt l;
     dl_dtype := dtype_set (dl_dtype l) name (n, dl_lstring l * w);
     dl_lstring := dl_lstring l + n |}.

Definition dl_append (l : day_layout) (it : fmt_item) : day_layout :=
  {| dl_fmt := dl_fmt l ++ [it]; dl_dtype := dl_dtype l; dl_lstring := dl_lstring l |}.

(** One turn of [for field, c in enumerate(order)]. *)
Definition day_layout_step (w : Z) (order dash : text) (ydigits : Z)
                           (has_dot : bool) (ddigits : Z)
                           (l : day_layout) (fc : Z * ascii) : day_layout :=
  let '(field, c) := fc in
  let ldash := len dash in
  let l := if (0 <? field) && negb (ldash =? 0)
           then dl_field (dl_append l (Lit dash)) w ("dash" ++ str_int field) ldash
           else l in
  if Ascii.eqb c "Y" then
    let l := dl_append l (FmtY ydigits) in
    let l := if ydigits =? 4 then dl_field l w "y12" 2 else l in
    dl_field l w "y34" 2
  else if Ascii.eqb c "M" then
    dl_field (dl_append l FmtM) w "m" 2
  else
    let dlen := if len order =? 2 then 3 else 2 in
    let l := dl_field (dl_append l (FmtD dlen)) w "d" dlen in
    if has_dot then
      let l := dl_field (dl_append l (Lit (txt "."))) w "dot" 1 in
      if 0 <? ddigits then
        fold_left (fun l i => dl_field l w ("f" ++ str_int i) 1)
                  (arange (Z.to_nat ddigits) 0)
                  (dl_append l (FmtF ddigits))
      else l
    else l.

Definition day_layout_of (w : Z) (order dash : text) (ydigits : Z)
                         (has_dot : bool) (ddigits : Z) : day_layout :=
  fold_left (day_layout_step w order dash ydigits has_dot ddigits)
            (enumerate_from 0 order)
            {| dl_fmt := []; dl_dtype := []; dl_lstring := 0 |}.

(** The fraction loop: [frac *= 10; f = frac // 1; frac -= f; view[f_i] = vals1[f]]. *)
Fixpoint store_fraction (w : Z) (dt : dtype) (idx : list Z) (frac : F) (rec : text)
  : result text :=
  match idx with
  | [] => Ok rec
  | i :: r =>
      let frac := f_mul frac (f_of_Z 10) in
      let f := f_floor frac in
      let frac := f_sub frac (f_of_Z f) in
      v <- take DIGITS1 f ;;
      store_fraction w dt r frac (store_if w dt ("f" ++ str_int i) v rec)
  end.

Definition text_in (s : text) (l : list string) : bool :=
  existsb (fun o => text_eqb s (txt o)) l.

Definition ddigits_ge0 (ddigits : option Z) : bool :=
  match ddigits with Some n => 0 <=? n | None => false end.

Definition digits_of (ddigits : option Z) : Z :=
  match ddigits with Some n => n | None => 0 end.

(** The integer/fraction split of one element. *)
Definition split_number (has_dot : bool) (scale : Z) (x : number) : Z * option F :=
  if has_dot then
    let v := round_bias (_float x) scale in
    let i := f_floor v in
    (i, Some (f_sub v (f_of_Z i)))
  else (_int x, None).

(** "Fill in the fields" of [format_day], for one element. *)
Definition day_record (w : Z) (dt : dtype) (order dash : text) (ddigits : Z)
                      (width : Z) (y m d : Z) (frac : option F) : result text :=
  let rec := replicate width NUL in
  rec <- (if has_field dt "y12"
          then v <- take DIGITS2 (y / 100) ;; Ok (store_if w dt "y12" v rec)
          else Ok rec) ;;
  v <- take DIGITS2 (y mod 100) ;;
  let rec := store_if w dt "y34" v rec in
  rec <- (if len order =? 3
          then vm <- take DIGITS2 m ;;
               vd <- take DIGITS2 d ;;
               Ok (store_if w dt "d" vd (store_if w dt "m" vm rec))
          else vd <- take DIGITS3 d ;;
               Ok (store_if w dt "d" vd rec)) ;;
  let rec := store_if w dt "dash1" dash rec in
  let rec := store_if w dt "dash2" dash rec in
  let rec := store_if w dt "dot" (txt ".") rec in
  match frac with
  | Some fr => store_fraction w dt (arange (Z.to_nat ddigits) 0) fr rec
  | None => Ok rec
  end.

Definition format_day (day : value) (order : text) (ydigits : Z) (dash : text)
                      (ddigits : option Z) (proleptic : bool)
                      (buf : option buffer) (knd : kind) : result output :=
  _ <- raise_if (negb (text_in order ["YMD"; "MDY"; "DMY"; "YD"; "DY"]%string))
         (ConfigurationError ("unrecognized date format order: '" ++ str order ++ "'")) ;;
  _ <- raise_if (negb ((ydigits =? 2) || (ydigits =? 4)))
         (ConfigurationError "ydigits must equal 2 or 4") ;;
  let has_dot := _is_float day && ddigits_ge0 ddigits in
  let scale := 10 ^ digits_of ddigits in
  let parts := map (split_number has_dot scale) (elements day) in
  let shp := shape day in
  (* Interpret the buffer and kind *)
  knd <- interpret_kind shp buf knd "date" ;;
  let w := char_size knd in
  (* Translate the days; determine the string format and dtype *)
  let l := day_layout_of w order dash ydigits has_dot (digits_of ddigits) in
  (* Convert to y,m,d *)
  let ymd := map (fun p => if len order =? 3
                           then ymd_from_day A (fst p) proleptic
                           else let '(y, d) := yd_from_day A (fst p) proleptic in
                                (y, 0, d)) parts in
  match shp, buf, combine ymd parts with
  | None, None, [((y, m, d), (_, frac))] =>
      (* Use string formatting for a scalar return without a buffer *)
      let y := if ydigits =? 2 then y mod 100 else y in
      let f := match frac with
               | Some fr => if 0 <? digits_of ddigits
                            then frac_int fr (digits_of ddigits) else 0
               | None => 0
               end in
      Ok (Single (fmt_format (dl_fmt l) y m d f))
  | _, _, rows =>
      (* Create a buffer if necessary; otherwise, check dimensions *)
      '(dt, b) <- prepare shp buf knd (dl_dtype l) (dl_lstring l) "date format" ;;
      (* Fill in the fields *)
      recs <- mapM (fun '((y, m, d), (_, frac)) =>
                      day_record w dt order dash (digits_of ddigits) (bwidth b)
                                 y m d frac)
                   (broadcast shp b rows) ;;
      Ok (Filled (fill_targets shp b recs))
  end.

(** The layout of [format_sec]: the dtype dictionary and the record width. *)
Definition sec_layout (w : Z) (colon suffix : text) (has_dot : bool) (digits : Z)
  : dtype * Z :=
  let lcolon := len colon in
  let dt := [("h"%string, (2, 0));
             ("m"%string, (2, (2 + lcolon) * w));
             ("s"%string, (2, (4 + 2 * lcolon) * w))] in
  let dt := if lcolon =? 0 then dt
            else dtype_set (dtype_set dt "colon1" (lcolon, 2 * w))
                           "colon2" (lcolon, (4 + lcolon) * w) in
  let lstring := 6 + 2 * lcolon in
  let '(dt, lstring) :=
    if has_dot then
      let dt := dtype_set dt "dot" (1, lstring * w) in
      if digits =? 0 then (dt, lstring + 1)
      else (fold_left (fun dt i => dtype_set dt ("f" ++ str_int i) (1, (lstring + 1 + i) * w))
                      (arange (Z.to_nat digits) 0) dt,
            lstring + 1 + digits)
    else (dt, lstring) in
  let lsuffix := len suffix in
  if lsuffix =? 0 then (dt, lstring)
  else (dtype_set dt "z" (lsuffix, lstring * w), lstring + lsuffix).

(** [fmt % (h, m, int(s), f)] with
    [fmt = '%02d' + colon + '%02d' + colon + '%02d' (+ '.' | '.%0Nd') + suffix].
    The separators are spliced into the format string unescaped; a ["%"] in
    one of them is reported as the format error it generally causes. *)
Definition sec_format (colon suffix : text) (has_dot : bool) (digits : Z)
                      (h m s f : Z) : result text :=
  _ <- raise_if (contains "%" colon || contains "%" suffix)
         (TypeError "format string") ;;
  Ok (pct_d 2 h ++ colon ++ pct_d 2 m ++ colon ++ pct_d 2 s
      ++ (if has_dot then txt "." ++ (if 0 <? digits then pct_d digits f else [])
          else [])
      ++ suffix).

(** "Fill in the fields" of [format_sec], for one element. *)
Definition sec_record (w : Z) (dt : dtype) (colon suffix : text) (digits : Z)
                      (width : Z) (h m : Z) (s : number) (frac : option F)
  : result text :=
  let rec := replicate width NUL in
  let int_s := _int s in
  vh <- take DIGITS2 h ;;
  vm <- take DIGITS2 m ;;
  vs <- take DIGITS2 int_s ;;
  let rec := store_if w dt "s" vs (store_if w dt "m" vm (store_if w dt "h" vh rec)) in
  let rec := store_if w dt "colon2" colon (store_if w dt "colon1" colon rec) in
  let rec := store_if w dt "dot" (txt ".") rec in
  let rec := store_if w dt "z" suffix rec in
  match frac with
  | Some fr => store_fraction w dt (arange (Z.to_nat digits) 0) fr rec
  | None => Ok rec
  end.

Definition format_sec (sec : value) (digits : option Z) (colon suffix : text)
                      (buf : option buffer) (knd : kind) : result output :=
  (* Convert secs to h,m,s *)
  let shp := shape sec in
  hms <- mapM (hms_from_sec A) (elements sec) ;;
  let has_dot := ddigits_ge0 digits in
  let scale := 10 ^ digits_of digits in
  let fracs := map (fun x => snd (split_number has_dot scale x)) (elements sec) in
  let hms := map (fun '(h, m, s) => (h, m, if has_dot then s else Int (_int s))) hms in
  (* Interpret the buffer and kind *)
  knd <- interpret_kind shp buf knd "time" ;;
  let w := char_size knd in
  (* Determine the string format and dtype *)
  let '(dt, lstring) := sec_layout w colon suffix has_dot (digits_of digits) in
  match shp, buf, combine hms fracs with
  | None, None, [((h, m, s), frac)] =>
      (* 0-D return without a buffer is easy *)
      let f := match frac with
               | Some fr => if 0 <? digits_of digits
                            then frac_int fr (digits_of digits) else 0
               | None => 0
               end in
      r <- sec_format colon suffix has_dot (digits_of digits) h m (py_trunc s) f ;;
      Ok (Single r)
  | _, _, rows =>
      (* Create a buffer if necessary; otherwise, check dimensions *)
      '(dt, b) <- prepare shp buf knd dt lstring "ISO time format" ;;
      (* Fill in the fields *)
      recs <- mapM (fun '((h, m, s), frac) =>
                      sec_record w dt colon suffix (digits_of digits) (bwidth b)
                                 h m s frac)
                   (broadcast shp b rows) ;;
      Ok (Filled (fill_targets shp b recs))
  end.

(** [np.broadcast_arrays(day, sec)]: the common shape and the two element
    lists. *)
Definition broadcast_arrays (day sec : value)
  : result (option nat * list number * list number) :=
  match day, sec with
  | Scalar d, Scalar s => Ok (None, [d], [s])
  | Scalar d, Array ss => Ok (Some (List.length ss), map (fun _ => d) ss, ss)
  | Array ds, Scalar s => Ok (Some (List.length ds), ds, map (fun _ => s) ds)
  | Array ds, Array ss =>
      if (List.length ds =? List.length ss)%nat then Ok (Some (List.length ds), ds, ss)
      else match ds, ss with
           | [d], _ => Ok (Some (List.length ss), map (fun _ => d) ss, ss)
           | _, [s] => Ok (Some (List.length ds), ds, map (fun _ => s) ds)
           | _, _ => Err (NumpyError "shape mismatch")
           end
  end.

(** "Handle leap seconds and cases of seconds rounding up to the next day",
    for one element: the rounded seconds, and the cross-over into the next
    day when they reach the length of the day. *)
Definition rollover (scale : Z) (ds : Z * number) : Z * F :=
  let '(day, sec) := ds in
  let sec := round_bias sec scale in
  let secs_on_day := f_of_Z (seconds_on_day A day) in
  if f_leb secs_on_day sec then (day + 1, f_sub sec secs_on_day)
  else (day, sec).

(** Write the sub-records a sub-formatter produced back into their field. *)
Fixpoint store_column (w : Z) (f : Z * Z) (sub : list text) (elems : list text)
  : list text :=
  match sub, elems with
  | s :: sub', e :: elems' => store w f s e :: store_column w f sub' elems'
  | _, _ => elems
  end.

Definition single (o : output) : result text :=
  match o with
  | Single s => Ok s
  | Filled _ => Err (TypeError "array where a string is expected")
  end.

Definition filled (o : output) : result buffer :=
  match o with
  | Filled b => Ok b
  | Single _ => Err (TypeError "string where an array is expected")
  end.

Definition format_day_sec (day sec : value) (order : text) (ydigits : Z)
                          (dash sep colon : text) (digits : option Z)
                          (suffix : text) (proleptic : bool)
                          (buf : option buffer) (knd : kind) : result output :=
  let ymd_order := filter (fun c => negb (Ascii.eqb c "T")) order in
  c0 <- py_index order 0 ;;
  cl <- py_index order (-1) ;;
  _ <- raise_if (negb (Ascii.eqb c0 "T") && negb (Ascii.eqb cl "T"))
         (ConfigurationError (quoted (txt "T") ++ " missing from order specification")) ;;
  '(shp, days, secs) <- broadcast_arrays day sec ;;
  (* Interpret the buffer and kind *)
  knd <- interpret_kind shp buf knd "date" ;;
  let w := char_size knd in
  (* Handle leap seconds and cases of seconds rounding up to the next day *)
  let digits_ := match digits with None => 0 | Some d => Z.max d 0 end in
  let scale := 10 ^ digits_ in
  let rolled := map (rollover scale) (combine (map _int days) secs) in
  (* Determine the field widths by formatting the first value *)
  match rolled with
  | [] => Err IndexError
  | (day0, sec0) :: _ =>
      o <- format_day (Scalar (Int day0)) ymd_order ydigits dash None proleptic None KU ;;
      day_formatted <- single o ;;
      o <- format_sec (Scalar (Flt sec0)) digits colon suffix None KU ;;
      sec_formatted <- single o ;;
      let result0 := if Ascii.eqb c0 "T"
                     then sec_formatted ++ sep ++ day_formatted
                     else day_formatted ++ sep ++ sec_formatted in
      match shp, buf with
      | None, None =>
          (* For a shapeless case with no buffer, we're basically done *)
          Ok (Single result0)
      | _, _ =>
          let ltime := len sec_formatted in
          let ldate := len day_formatted in
          let lsep := len sep in
          let lstring := ltime + ldate + lsep in
          (* Construct the dtype *)
          let ftime := if Ascii.eqb c0 "T" then (ltime, 0)
                       else (ltime, (ldate + lsep) * w) in
          let fdate := if Ascii.eqb c0 "T" then (ldate, (ltime + lsep) * w)
                       else (ldate, 0) in
          let fsep := if Ascii.eqb c0 "T" then (lsep, ltime * w)
                      else (lsep, ldate * w) in
          let dt := [("time"%string, ftime); ("date"%string, fdate)] in
          let dt := if lsep =? 0 then dt else dtype_set dt "sep" fsep in
          (* Create a buffer if necessary; otherwise, check dimensions *)
          '(dt, b) <- prepare shp buf knd dt lstring "date/time format" ;;
          (* Fill in the date, time, and separator *)
          let n := targets shp b in
          let view := firstn n (belems b) in
          let view := map (store_if w dt "sep" sep) view in
          let sub (f : Z * Z) := {| bkind := bkind b; bwidth := fst f;
                                    belems := map (field (fst f, snd f / w)) view |} in
          let days' := reshape shp (map (fun r => Int (fst r)) rolled) in
          let secs' := reshape shp (map (fun r => Flt (snd r)) rolled) in
          o <- format_day days' ymd_order ydigits dash None proleptic (Some (sub fdate)) KU ;;
          bdate <- filled o ;;
          let view := store_column w fdate (belems bdate) view in
          o <- format_sec secs' digits colon suffix (Some (sub ftime)) KU ;;
          btime <- filled o ;;
          let view := store_column w ftime (belems btime) view in
          Ok (Filled {| bkind := bkind b; bwidth := bwidth b;
                        belems := view ++ skipn n (belems b) |})
      end
  end.

End Codec.

Arguments number F : clear implicits.
Arguments value F : clear implicits.
Arguments Adapter F : clear implicits.

(* ====================================================================== *)
(** ** A reference adapter *)

(** Modelled from the spec: [julian.calendar], [julian.leap_seconds] and
    [julian.time_of_day] are not among the sources.  This instance of the
    interface of §6 counts days from 2000-01-01, uses the Gregorian calendar
    from 1582-10-15 on (and throughout when [proleptic]) and the Julian
    calendar before, knows the days that end in a leap second, and splits a
    second of day into hours, minutes and seconds.  It instantiates the
    general theorems and evaluates the concrete calls. *)
Module Ref.

(** Days from 2000-01-01 of a date in a calendar with a leap day every
    fourth year, corrected by [centuries] for the Gregorian rule. *)
Definition day_of (gregorian : bool) (y m d : Z) : Z :=
  let y' := if m <=? 2 then y - 1 else y in
  let mp := if m <=? 2 then m + 9 else m - 3 in
  let doy := (153 * mp + 2) / 5 + d - 1 in
  let base := 365 * y' + y' / 4 + doy in
  if gregorian then base - y' / 100 + y' / 400 - 730425
  else base - 730427.

Definition date_of (gregorian : bool) (day : Z) : Z * Z * Z :=
  let '(y', doy) :=
    if gregorian then
      let z := day + 730425 in
      let era := z / 146097 in
      let doe := z - era * 146097 in
      let yoe := (doe - doe / 1460 + doe / 36524 - doe / 146096) / 365 in
      (yoe + era * 400, doe - (365 * yoe + yoe / 4 - yoe / 100))
    else
      let z := day + 730427 in
      let era := z / 1461 in
      let doe := z - era * 1461 in
      let yoe := (doe - doe / 1460) / 365 in
      (yoe + era * 4, doe - 365 * yoe)
  in
  let mp := (5 * doy + 2) / 153 in
  let d := doy - (153 * mp + 2) / 5 + 1 in
  let m := if mp <? 10 then mp + 3 else mp - 9 in
  (if m <=? 2 then y' + 1 else y', m, d).

(** 1582-10-15, the first Gregorian day. *)
Definition gregorian_start : Z := day_of true 1582 10 15.

Definition uses_gregorian_ymd (proleptic : bool) (y m d : Z) : bool :=
  proleptic || (1582 <? y) || ((y =? 1582) && ((10 <? m) || ((m =? 10) && (15 <=? d)))).

Definition ymd_from_day (day : Z) (proleptic : bool) : Z * Z * Z :=
  date_of (proleptic || (gregorian_start <=? day)) day.

Definition ymd_eqb (a b : Z * Z * Z) : bool :=
  let '(y, m, d) := a in
  let '(y', m', d') := b in
  (y =? y') && (m =? m') && (d =? d').

Definition day_from_ymd (y m d : Z) (validate proleptic : bool) : result Z :=
  let day := day_of (uses_gregorian_ymd proleptic y m d) y m d in
  if validate && negb (ymd_eqb (ymd_from_day day proleptic) (y, m, d))
  then Err (InvalidValue "year, month or day out of range")
  else Ok day.

Definition yd_from_day (day : Z) (proleptic : bool) : Z * Z :=
  let '(y, _, _) := ymd_from_day day proleptic in
  (y, day - day_of (uses_gregorian_ymd proleptic y 1 1) y 1 1 + 1).

Definition day_from_yd (y d : Z) (validate proleptic : bool) : result Z :=
  let day := day_of (uses_gregorian_ymd proleptic y 1 1) y 1 1 + d - 1 in
  if validate && negb (fst (yd_from_day day proleptic) =? y)
  then Err (InvalidValue "day of year out of range")
  else Ok day.

(** The days that end in a positive leap second. *)
Definition leap_second_days : list Z :=
  map (fun '(y, m, d) => day_of true y m d)
      [ (1972, 6, 30); (1972, 12, 31); (1973, 12, 31); (1974, 12, 31);
        (1975, 12, 31); (1976, 12, 31); (1977, 12, 31); (1978, 12, 31);
        (1979, 12, 31); (1981, 6, 30); (1982, 6, 30); (1983, 6, 30);
        (1985, 6, 30); (1987, 12, 31); (1989, 12, 31); (1990, 12, 31);
        (1992, 6, 30); (1993, 6, 30); (1994, 6, 30); (1995, 12, 31);
        (1997, 6, 30); (1998, 12, 31); (2005, 12, 31); (2008, 12, 31);
        (2012, 6, 30); (2015, 6, 30); (2016, 12, 31) ].

Definition seconds_on_day (day : Z) : Z :=
  if existsb (Z.eqb day) leap_second_days then 86401 else 86400.

Section Times.

Context {F : Type} {FO : PyFloat F}.

Definition num_add (a b : number F) : number F :=
  match a, b with
  | Int x, Int y => Int (x + y)
  | _, _ => Flt (f_add (to_float a) (to_float b))
  end.

Definition num_scale (k : Z) (a : number F) : number F :=
  match a with
  | Int x => Int (k * x)
  | Flt x => Flt (f_mul (f_of_Z k) x)
  end.

Definition num_leb (a b : number F) : bool :=
  match a, b with
  | Int x, Int y => x <=? y
  | _, _ => f_leb (to_float a) (to_float b)
  end.

Definition num_ltb (a b : number F) : bool := negb (num_leb b a).

Definition in_range (lo : Z) (x : number F) (hi : Z) : bool :=
  num_leb (Int lo) x && num_ltb x (Int hi).

Definition sec_from_hms (h m s : number F) (validate leapsecs : bool)
  : result (number F) :=
  if validate && negb (in_range 0 h 24 && in_range 0 m 60
                       && in_range 0 s (if leapsecs then 70 else 60))
  then Err (InvalidValue "hour, minute or second out of range")
  else Ok (num_add (num_add (num_scale 3600 h) (num_scale 60 m)) s).

Definition hms_from_sec (sec : number F) : result (Z * Z * number F) :=
  if negb (in_range 0 sec 86410)
  then Err (InvalidValue "seconds out of range")
  else
    let floor_div (x : number F) (k : Z) : Z :=
      match x with
      | Int n => n / k
      | Flt y => f_floor (f_div y (f_of_Z k))
      end in
    let h := Z.min (floor_div sec 3600) 23 in
    let t := num_add sec (Int (- (3600 * h))) in
    let m := Z.min (floor_div t 60) 59 in
    Ok (h, m, num_add t (Int (- (60 * m)))).

Definition adapter : Adapter F :=
  Build_Adapter day_from_ymd day_from_yd ymd_from_day yd_from_day
                seconds_on_day sec_from_hms hms_from_sec.

End Times.

End Ref.

(* ====================================================================== *)
(** ** The callers of the codec *)

(** The time-system conversions of [julian.utc_tai_tdb] (§6), which the
    callers apply to whole values. *)
Record TimeSystems {F : Type} : Type := {
  tai_from_day_sec : value F -> value F -> result (value F);
  day_sec_from_tai : value F -> result (value F * value F);
  tdb_from_tai     : value F -> result (value F);
  time_from_time   : value F -> string -> string -> result (value F)
}.

Arguments TimeSystems F : clear implicits.

(** The message the deprecated option is reported with. *)
Definition use_julian_message : string :=
  "use_julian option is deprecated; use proleptic=(negated value)".

(** A result together with the warnings issued on the way. *)
Definition warned (X : Type) : Type := (list string * X)%type.

(** [if use_julian is not None: _warn(...); proleptic = not use_julian] *)
Definition use_julian_given (use_julian : option bool) (proleptic : bool)
  : warned bool :=
  match use_julian with
  | Some b => ([use_julian_message], negb b)
  | None => ([], proleptic)
  end.

Section Callers.

Context {F : Type} {FO : PyFloat F}.
Variable A : Adapter F.
Variable T : TimeSystems F.

(** *** iso_parser.py *)

Definition tai_from_iso (strings : strings_in) (validate strip proleptic : bool)
                        (use_julian : option bool) : warned (result (value F)) :=
  let '(w, proleptic) := use_julian_given use_julian proleptic in
  (w, '(day, sec) <- day_sec_from_iso A strings validate false strip proleptic ;;
      tai_from_day_sec T day sec).

Definition tdb_from_iso (strings : strings_in) (validate strip proleptic : bool)
  : result (value F) :=
  '(day, sec) <- day_sec_from_iso A strings validate false strip proleptic ;;
  tai <- tai_from_day_sec T day sec ;;
  tdb_from_tai T tai.

Definition time_from_iso (strings : strings_in) (timesys : string)
                         (validate strip proleptic : bool)
  : warned (result (value F)) :=
  let '(w, tai) := tai_from_iso strings validate strip proleptic None in
  (w, tai <- tai ;; time_from_time T tai "TAI" timesys).

(** *** formatter.py *)

Definition format_tai (tai : value F) (order : text) (ydigits : Z)
                      (dash sep colon : text) (digits : option Z) (suffix : text)
                      (proleptic : bool) (buf : option buffer) (knd : kind)
  : result output :=
  '(day, sec) <- day_sec_from_tai T tai ;;
  format_day_sec A day sec order ydigits dash sep colon digits suffix proleptic buf knd.

Definition iso_from_tai (tai : value F) (ymd : bool) (digits : option Z)
                        (suffix : text) (proleptic : bool) (use_julian : option bool)
                        (buf : option buffer) (knd : kind) : warned (result output) :=
  let '(w, proleptic) := use_julian_given use_julian proleptic in
  (w, if ymd
      then format_tai tai (txt "YMDT") 4 (txt "-") (txt "T") (txt ":") digits suffix
                      proleptic buf knd
      else format_tai tai (txt "YDT") 4 (txt "-") (txt "T") (txt ":") digits suffix
                      proleptic buf knd).

(** The deprecated names. *)
Definition ymd_format_from_day (day : value F) (ydigits : Z) (dash : text)
                               (ddigits : option Z) (proleptic : bool)
                               (use_julian : option bool) (buf : option buffer)
                               (knd : kind) : warned (result output) :=
  let '(w, proleptic) := use_julian_given use_julian proleptic in
  (w, format_day A day (txt "YMD") ydigits dash ddigits proleptic buf knd).

Definition yd_format_from_day (day : value F) (ydigits : Z) (dash : text)
                              (ddigits : option Z) (proleptic : bool)
                              (buf : option buffer) (use_julian : option bool)
                              (knd : kind) : warned (result output) :=
  let '(w, proleptic) := use_julian_given use_julian proleptic in
  (w, format_day A day (txt "YD") ydigits dash ddigits proleptic buf knd).

Definition hms_format_from_sec (sec : value F) (digits : option Z) (suffix colon : text)
                               (buf : option buffer) (knd : kind) : result output :=
  format_sec A sec digits colon suffix buf knd.

Definition ymdhms_format_from_day_sec (day sec : value F) (sep : text)
                                      (digits : option Z) (suffix : text)
                                      (proleptic : bool) (use_julian : option bool)
                                      (buf : option buffer) (knd : kind)
  : warned (result output) :=
  let '(w, proleptic) := use_julian_given use_julian proleptic in
  (w, format_day_sec A day sec (txt "YMDT") 4 (txt "-") sep (txt ":") digits suffix
                     proleptic buf knd).

Definition ydhms_format_from_day_sec (day sec : value F) (sep : text)
                                     (digits : option Z) (suffix : text)
                                     (proleptic : bool) (use_julian : option bool)
                                     (buf : option buffer) (knd : kind)
  : warned (result output) :=
  let '(w, proleptic) := use_julian_given use_julian proleptic in
  (w, format_day_sec A day sec (txt "YDT") 4 (txt "-") sep (txt ":") digits suffix
                     proleptic buf knd).

Definition ymdhms_format_from_tai (tai : value F) (sep : text) (digits : option Z)
                                  (suffix : text) (proleptic : bool)
                                  (use_julian : option bool) (buf : option buffer)
                                  (knd : kind) : warned (result output) :=
  let '(w, proleptic) := use_julian_given use_julian proleptic in
  (w, format_tai tai (txt "YMDT") 4 (txt "-") sep (txt ":") digits suffix proleptic
                 buf knd).

Definition ydhms_format_from_tai (tai : value F) (sep : text) (digits : option Z)
                                 (suffix : text) (proleptic : bool)
                                 (use_julian : option bool) (buf : option buffer)
                                 (knd : kind) : warned (result output) :=
  let '(w, proleptic) := use_julian_given use_julian proleptic in
  (w, format_tai tai (txt "YDT") 4 (txt "-") sep (txt ":") digits suffix proleptic
                 buf knd).

End Callers.

(** Modelled from the spec: [julian.utc_tai_tdb] is not among the sources.
    This instance of the time systems of §6 counts TAI in seconds from the
    start of day 0, every day with its own length, and keeps TDB and TT
    apart from TAI by the constant 32.184 s. *)
Module RefTime.

Section Systems.

Context {F : Type} {FO : PyFloat F}.

(** The leap seconds before the start of a day. *)
Definition leaps_before (day : Z) : Z :=
  len (filter (fun l => l <? day) Ref.leap_second_days).

Definition day_start (day : Z) : Z := 86400 * day + leaps_before day.

Definition tai_of (day sec : number F) : number F :=
  Ref.num_add (Int (day_start (_int day))) sec.

Definition tai_from_day_sec (day sec : value F) : result (value F) :=
  '(shp, days, secs) <- broadcast_arrays day sec ;;
  Ok (reshape shp (map (fun ds => tai_of (fst ds) (snd ds)) (combine days secs))).

Definition day_sec_of (tai : number F) : number F * number F :=
  let guess := match tai with
               | Int n => n / 86400
               | Flt x => f_floor (f_div x (f_of_Z 86400))
               end in
  let day := if Ref.num_leb (Int (day_start guess)) tai then guess else guess - 1 in
  (Int day, Ref.num_add tai (Int (- day_start day))).

Definition day_sec_from_tai (tai : value F) : result (value F * value F) :=
  let ds := map day_sec_of (elements tai) in
  Ok (reshape (shape tai) (map fst ds), reshape (shape tai) (map snd ds)).

Definition shifted (k : Z) (v : value F) : value F :=
  reshape (shape v)
          (map (fun x => Flt (f_add (to_float x) (f_div (f_of_Z k) (f_of_Z 1000))))
               (elements v)).

Definition tdb_from_tai (tai : value F) : result (value F) := Ok (shifted 32184 tai).

Definition time_from_time (v : value F) (oldsys newsys : string) : result (value F) :=
  let dynamical (s : string) := String.eqb s "TDB" || String.eqb s "TT" in
  if String.eqb oldsys newsys then Ok v
  else if String.eqb oldsys "TAI" && dynamical newsys then Ok (shifted 32184 v)
  else if dynamical oldsys && String.eqb newsys "TAI" then Ok (shifted (-32184) v)
  else if dynamical oldsys && dynamical newsys then Ok v
  else Err (ConfigurationError "time system not in the reference instance").

Definition systems : TimeSystems F :=
  Build_TimeSystems F tai_from_day_sec day_sec_from_tai tdb_from_tai time_from_time.

End Systems.

End RefTime.

(* ====================================================================== *)
(** ** Specification-side definitions *)

(** The catalogue of date layouts as §4.1 lists it, by layout name:
    (year digits, month offset or 0, day offset, day width, dash offsets). *)
Definition catalogued (length dashes : Z) : option (Z * Z * Z * Z * list Z) :=
  if (length =? 10) && (dashes =? 2) then Some (4, 5, 8, 2, [4; 7])     (* yyyy-mm-dd *)
  else if (length =? 8) && (dashes =? 1) then Some (4, 0, 5, 3, [4])    (* yyyy-ddd *)
  else if (length =? 8) && (dashes =? 2) then Some (2, 3, 6, 2, [2; 5]) (* yy-mm-dd *)
  else if (length =? 6) && (dashes =? 1) then Some (2, 0, 3, 3, [2])    (* yy-ddd *)
  else if (length =? 8) && (dashes =? 0) then Some (4, 4, 6, 2, [])     (* yyyymmdd *)
  else if (length =? 7) && (dashes =? 0) then Some (4, 0, 4, 3, [])     (* yyyyddd *)
  else if (length =? 6) && (dashes =? 0) then Some (2, 2, 4, 2, [])     (* yymmdd *)
  else if (length =? 5) && (dashes =? 0) then Some (2, 0, 2, 3, [])     (* yyddd *)
  else None.

(** The width of a rendered date as §4.3 synthesises it from the options:
    the year digits, a 2-digit month and day or a 3-digit day of year, and a
    separator between consecutive fields. *)
Definition date_width (order : text) (ydigits ldash : Z) : Z :=
  ydigits + (if len order =? 3 then 2 + 2 else 3) + (len order - 1) * ldash.

(** A field lies inside the first [L] characters of a record. *)
Definition within (w L : Z) (f : Z * Z) : Prop :=
  0 <= fst f /\ 0 <= snd f / w /\ snd f / w + fst f <= L.

Definition fields_within (w L : Z) (dt : dtype) : Prop :=
  Forall (fun nf => within w L (snd nf)) dt.

Definition valid_order (order : text) : Prop :=
  order = txt "YMD" \/ order = txt "MDY" \/ order = txt "DMY"
  \/ order = txt "YD" \/ order = txt "DY".

(** A record of width [W] whose characters from [L] on are all NUL. *)
Definition framed (W L : Z) (r : text) : Prop :=
  len r = W /\ skipn (Z.to_nat L) r = replicate (W - L) NUL.

(** Every field a formatter writes lies within the first [L] characters;
    the [extra] field, which is declared but never written, is exempt. *)
Definition frame_ok (w L : Z) (dt : dtype) : Prop :=
  forall name f, name <> "extra"%string -> dtype_get dt name = Some f -> within w L f.

(** The state of a caller's buffer [b0] after a formatter wrote [n] records
    of synthesised width [L] into it: same kind, width and element count;
    the first [n] elements hold NUL from [L] on; the elements after them are
    NUL throughout. *)
Definition cleared_beyond (n : nat) (L : Z) (b0 b : buffer) : Prop :=
  bkind b = bkind b0 /\ bwidth b = bwidth b0 /\
  List.length (belems b) = List.length (belems b0) /\
  L <= bwidth b /\
  Forall (framed (bwidth b) L) (firstn n (belems b)) /\
  Forall (fun r => r = replicate (bwidth b) NUL) (skipn n (belems b)).

(** The number of elements a formatter addresses in a buffer of [N]. *)
Definition addressed (shp : option nat) (N : nat) : nat :=
  match shp with Some n => n | None => N end.

(** The text of a date as §4.3 describes it: the fields in the given order,
    the separator between consecutive fields; a 2- or 4-digit year, a
    2-digit month, a 2-digit day of month or 3-digit day of year, the day
    followed by the optional fraction. *)
Fixpoint join (sep : text) (parts : list text) : text :=
  match parts with
  | [] => []
  | [p] => p
  | p :: r => p ++ sep ++ join sep r
  end.

Definition fraction_text (has_dot : bool) (dd f : Z) : text :=
  if has_dot then txt "." ++ (if 0 <? dd then pct_d dd f else []) else [].

Definition field_text (order : text) (ydigits : Z) (has_dot : bool) (dd : Z)
                      (y m d f : Z) (c : ascii) : text :=
  if Ascii.eqb c "Y" then pct_d ydigits y
  else if Ascii.eqb c "M" then pct_d 2 m
  else pct_d (if len order =? 2 then 3 else 2) d ++ fraction_text has_dot dd f.

Definition date_text (order : text) (ydigits : Z) (dash : text)
                     (has_dot : bool) (dd : Z) (y m d f : Z) : text :=
  join dash (map (field_text order ydigits has_dot dd y m d f) order).

(** The calendar fields of a day number in the convention of an order:
    (year, month, day of month) for a three-field order, (year, 0, day of
    year) otherwise. *)
Definition calendar_fields {F : Type} (A : Adapter F) (order : text)
                           (day : Z) (proleptic : bool) : Z * Z * Z :=
  if len order =? 3 then ymd_from_day A day proleptic
  else let '(y, d) := yd_from_day A day proleptic in (y, 0, d).

(** The year as a scalar rendering shows it. *)
Definition shown_year (ydigits y : Z) : Z :=
  if ydigits =? 2 then y mod 100 else y.

(** The fraction digits of a scalar rendering, as one integer. *)
Definition shown_fraction {F : Type} {FO : PyFloat F} (frac : option F) (dd : Z) : Z :=
  match frac with
  | Some fr => if 0 <? dd then frac_int fr dd else 0
  | None => 0
  end.

(** The ISO 8601 date texts the decoder catalogues: a [ydig]-digit year,
    then month and day of month or the day of year, with or without dashes;
    and the optional decimal fraction of [dd] digits. *)
Definition iso_date (ydig : nat) (dashed ymd : bool) (y m d : Z) : text :=
  let dash := if dashed then txt "-" else [] in
  zfill ydig y ++ dash ++ (if ymd then zfill 2 m ++ dash ++ zfill 2 d else zfill 3 d).

Definition iso_fraction (fr : option (nat * Z)) : text :=
  match fr with
  | None => []
  | Some (dd, f) => "."%char :: zfill dd f
  end.

(** What a decoded date is worth: the day number the adapter gives for the
    calendar fields, plus the fraction read after the decimal point. *)
Definition date_value {F : Type} {FO : PyFloat F} (day : Z) (fr : option (nat * Z))
  : number F :=
  match fr with
  | None => Int day
  | Some (dd, f) =>
      Flt (f_add (f_of_Z day)
                 (f_div (f_of_Z (match dd with O => 0 | S _ => f end))
                        (f_of_Z (10 ^ Z.of_nat dd))))
  end.

Definition fraction_in_range (fr : option (nat * Z)) : Prop :=
  match fr with
  | None => True
  | Some (dd, f) => 0 <= f < 10 ^ Z.of_nat dd
  end.

(** The ISO 8601 time texts: two-digit hours, minutes and seconds, with or
    without colons; the optional zone suffix. *)
Definition iso_time (colons : bool) (h m s : Z) : text :=
  let colon := if colons then txt ":" else [] in
  zfill 2 h ++ colon ++ zfill 2 m ++ colon ++ zfill 2 s.

Definition iso_zone (z : bool) : text := if z then txt "Z" else [].

(** The seconds field of a decoded time: an integer, or the float that adds
    the fraction read after the decimal point. *)
Definition seconds_value {F : Type} {FO : PyFloat F} (s : Z) (fr : option (nat * Z))
  : number F :=
  match fr with
  | Some (S n, f) => add_float s (f_div (f_of_Z f) (f_of_Z (10 ^ Z.of_nat (S n))))
  | _ => Int s
  end.

(** The options under which the encoder writes ISO 8601 text: year first,
    and nothing or one dash between the date fields, nothing or one colon
    between the time fields, nothing or ["Z"] after the time. *)
Definition iso_order (ymd : bool) : text := if ymd then txt "YMD" else txt "YD".
Definition iso_dash (dashed : bool) : text := if dashed then txt "-" else [].
Definition iso_colon (colons : bool) : text := if colons then txt ":" else [].

(** The fraction a rendering shows, as the decoder's sample describes it. *)
Definition shown (has_dot : bool) (dd f : Z) : option (nat * Z) :=
  if has_dot then Some (Z.to_nat dd, f) else None.

(** The value rounded half up to a whole number of units of [1/scale], in
    exact arithmetic. *)
Definition units (x : number Q) (scale : Z) : Z :=
  Qfloor (to_float x * inject_Z scale + (1 # 2))%Q.

(** The formula of §4.3 for the biased value, as the spec words it:
    [((value * scale + 0.5) // 1 + 0.1) / scale]. *)
Definition biased {F : Type} {FO : PyFloat F} (value : F) (scale : Z) : F :=
  f_div (f_add (f_of_Z (f_floor (f_add (f_mul value (f_of_Z scale)) f_half))) f_tenth)
        (f_of_Z scale).

(** [y] is [x] to within half a unit of [1/scale]. *)
Definition close_to (x y : Q) (scale : Z) : Prop :=
  (Qabs (y - x) * inject_Z scale <= 1 # 2)%Q.

(** The day and the units of seconds after the cross-over into the next
    day, in exact arithmetic. *)
Definition crossed {F : Type} (A : Adapter F) (scale : Z) (day N : Z) : Z * Z :=
  if seconds_on_day A day * scale <=? N
  then (day + 1, N - seconds_on_day A day * scale)
  else (day, N).

(** What the round trip asks of the adapter at a day: a year of at most
    [ydig] digits, month and day within their columns, and the calendar
    functions inverse to each other there. *)
Definition date_contract {F : Type} (A : Adapter F) (ydig : nat) (ymd : bool)
                         (day : Z) (validate proleptic : bool) : Prop :=
  let '(y, m, d) := calendar_fields A (iso_order ymd) day proleptic in
  0 <= y < 10 ^ Z.of_nat ydig /\ 0 <= m < 100 /\
  0 <= d < (if ymd then 100 else 1000) /\
  (if ymd then day_from_ymd A y m d validate proleptic
   else day_from_yd A y d validate proleptic) = Ok day.

(** What the round trip asks of the adapter at a second of day: hours and
    minutes of two digits, the seconds what remains, and [sec_from_hms] the
    sum of the three fields for any seconds with the same whole part. *)
Definition time_contract (A : Adapter Q) (sec : Q) (validate : bool) : Prop :=
  exists h m sq,
    hms_from_sec A (Flt sec) = Ok (h, m, Flt sq) /\
    0 <= h < 100 /\ 0 <= m < 100 /\ (0 <= sq)%Q /\ (sq < 100)%Q /\
    (sq == sec - inject_Z (3600 * h + 60 * m))%Q /\
    forall S : number Q,
      (inject_Z (Qfloor sq) <= to_float S)%Q ->
      (to_float S < inject_Z (Qfloor sq) + 1)%Q ->
      exists r, sec_from_hms A (Int h) (Int m) S validate true = Ok r /\
                (to_float r == inject_Z (3600 * h + 60 * m) + to_float S)%Q.

(** A text made of [a] blanks, a body free of blanks, and [b] blanks. *)
Definition padded (a b : nat) (body : text) : text :=
  repeat blank a ++ body ++ repeat blank b.

(** The invariant of the layout loop of [format_day]: the record width is
    not negative and every field lies within it. *)
Definition day_layout_ok (w : Z) (l : day_layout) : Prop :=
  0 <= dl_lstring l /\ fields_within w (dl_lstring l) (dl_dtype l).

(** A caller's column of two 12-byte cells, both holding text. *)
Definition used_cells : buffer :=
  {| bkind := KS; bwidth := 12;
     belems := [txt "XXXXXXXXXXXX"; txt "YYYYYYYYYYYY"] |}.

(** The width one turn of the layout loop of [format_day] adds. *)
Definition step_width (order dash : text) (ydigits : Z) (has_dot : bool) (dd : Z)
                      (fc : Z * ascii) : Z :=
  (if (0 <? fst fc) then len dash else 0)
  + (if Ascii.eqb (snd fc) "Y" then (if ydigits =? 4 then 4 else 2)
     else if Ascii.eqb (snd fc) "M" then 2
     else (if len order =? 2 then 3 else 2)
          + (if has_dot then 1 + (if 0 <? dd then dd else 0) else 0)).

(** Characters of a rendered date or time: no NUL, no blank. *)
Definition solid (c : ascii) : Prop := c <> NUL /\ c <> blank.

(** A rendered scalar as the array NumPy makes of it. *)
Definition scalar_array (s : text) : sarray :=
  {| scalar := true; itemsize := len s; items := [s] |}.

(** The fields of a structured dtype follow each other without a gap, from
    character [k] of the record to character [L]. *)
Fixpoint tiles (w k : Z) (dt : dtype) (L : Z) : Prop :=
  match dt with
  | [] => k = L
  | (_, (n, off)) :: r => 0 <= n /\ off = k * w /\ tiles w (k + n) r L
  end.

(** A sequence of assignments [view[name] = v] on one record. *)
Definition apply_ops (w : Z) (dt : dtype) (ops : list (string * text)) (rec : text)
  : text :=
  fold_left (fun r nv => store_if w dt (fst nv) (snd nv) r) ops rec.

(** The digits the fraction loop takes off, one per turn. *)
Fixpoint fraction_digits {F : Type} {FO : PyFloat F} (n : nat) (frac : F) : list Z :=
  match n with
  | O => []
  | S n' =>
      let frac := f_mul frac (f_of_Z 10) in
      let f := f_floor frac in
      f :: fraction_digits n' (f_sub frac (f_of_Z f))
  end.

(** The assignments of the fraction loop. *)
Definition fraction_ops (digits : list Z) : list (string * text) :=
  map (fun id => (("f" ++ str_int (fst id))%string, zfill 1 (snd id)))
      (enumerate_from 0 digits).

(** The assignments of "Fill in the fields" of [format_day], for calendar
    fields that index their tables in range. *)
Definition day_ops (order dash : text) (y m d : Z) (digits : list Z)
  : list (string * text) :=
  [("y12"%string, zfill 2 ((y / 100) mod 100));
   ("y34"%string, zfill 2 (y mod 100));
   ("m"%string, zfill 2 m);
   ("d"%string, zfill (if len order =? 2 then 3 else 2) d);
   ("dash1"%string, dash);
   ("dash2"%string, dash);
   ("dot"%string, txt ".")] ++ fraction_ops digits.

(** The assignments of "Fill in the fields" of [format_sec]. *)
Definition sec_ops (colon suffix : text) (h m s : Z) (digits : list Z)
  : list (string * text) :=
  [("h"%string, zfill 2 h);
   ("m"%string, zfill 2 m);
   ("s"%string, zfill 2 s);
   ("colon1"%string, colon);
   ("colon2"%string, colon);
   ("dot"%string, txt ".");
   ("z"%string, suffix)] ++ fraction_ops digits.

(** What a date layout says about a record: its fields tile the first
    [dl_lstring] characters, and each is assigned the value [v] of its own
    width among the assignments [ops]. *)
Definition day_tiling (w : Z) (ops : list (string * text)) (l : day_layout)
                      (vs : list text) : Prop :=
  0 <= dl_lstring l /\
  tiles w 0 (dl_dtype l) (dl_lstring l) /\
  Forall2 (fun nf v => len v = fst (snd nf) /\ In (fst nf, v) ops) (dl_dtype l) vs.

(** The names of the fraction fields: f0, f1, ... *)
Definition fraction_names (n : nat) : list string :=
  map (fun i => ("f" ++ str_int i)%string) (arange n 0).

(** The part of [day_from_iso] that works on the records, once the layout
    has been read off the first element: "Extract year, month, day, and
    fraction", "Validate syntax if necessary", "Convert to day" and "Add
    fraction if needed". *)
Definition date_rows {F : Type} {FO : PyFloat F} (A : Adapter F)
    (s : date_sample) (info : Z * Z * Z * Z * list Z) (dt : dtype)
    (validate syntax proleptic : bool) (recs : list text) : result (list (number F)) :=
  let '(y1, m0, d0, dlen, dashes) := info in
  let flen := ds_kend s - ds_kdot s - 1 in
  y <- astype_int dt "y" recs ;;
  d <- astype_int dt "d" recs ;;
  m <- astype_int_or_0 dt "m" recs ;;
  f <- astype_int_or_0 dt "f" recs ;;
  _ <- (if syntax then date_syntax dt (ds_w0 s) (ds_w1 s) recs else Ok tt) ;;
  day <- mapM (fun '(y, m, d) =>
                 if m0 =? 0 then day_from_yd A y d validate proleptic
                 else day_from_ymd A y m d validate proleptic)
              (zip3 y m d) ;;
  Ok (if ds_kdot s =? 0 then map Int day
      else map (fun '(day, f) =>
                  Flt (f_add (f_of_Z day) (f_div (f_of_Z f) (f_of_Z (10 ^ flen)))))
               (combine day f)).

(** The part of [sec_from_iso] that works on the records: "Extract hours,
    minutes, seconds", "Validate if necessary" and the call of
    [sec_from_hms]. *)
Definition time_rows {F : Type} {FO : PyFloat F} (A : Adapter F)
    (s : time_sample) (l : time_layout) (dt : dtype)
    (validate leapsecs syntax : bool) (recs : list text) : result (list (number F)) :=
  let flen := ts_kend s - tl_kdot l - 1 in
  h <- astype_int dt "h" recs ;;
  m <- astype_int_or_0 dt "m" recs ;;
  s' <- astype_int_or_0 dt "s" recs ;;
  hms <- (if has_field dt "f" then
            fi <- astype_int dt "f" recs ;;
            let f := map (fun fi => f_div (f_of_Z fi) (f_of_Z (10 ^ flen))) fi in
            Ok (map (fun '(h, m, s, f) =>
                       if has_field dt "s" then (Int h, Int m, add_float s f)
                       else if has_field dt "m" then (Int h, add_float m f, Int s)
                       else (add_float h f, Int m, Int s))
                    (combine (zip3 h m s') f))
          else Ok (map (fun '(h, m, s) => (Int h, Int m, Int s)) (zip3 h m s'))) ;;
  _ <- (if syntax then time_syntax dt (ts_w0 s) (ts_w1 s) recs else Ok tt) ;;
  mapM (fun '(h, m, s) => sec_from_hms A h m s validate leapsecs) hms.

(* ====================================================================== *)
(** * Properties *)

(** ** Text and result lemmas *)

Lemma txt_str (t : text) : txt (str t) = t.
Proof. apply list_ascii_of_string_of_list_ascii. Qed.

Lemma txt_app (a b : string) : txt (a ++ b)%string = txt a ++ txt b.
Proof.
  unfold txt. induction a as [|c a IH]; simpl; [reflexivity|].
  now rewrite IH.
Qed.

Lemma text_eqb_refl (s : text) : text_eqb s s = true.
Proof. unfold text_eqb. destruct (list_eq_dec ascii_dec s s); congruence. Qed.

Lemma text_eqb_eq (a b : text) : text_eqb a b = true <-> a = b.
Proof.
  unfold text_eqb. destruct (list_eq_dec ascii_dec a b); split; congruence.
Qed.

Lemma firstn_length_app {T} (s r : list T) : firstn (List.length s) (s ++ r) = s.
Proof. induction s; simpl; congruence. Qed.

Lemma is_infix_mid (pre s post : text) : is_infix s (pre ++ s ++ post) = true.
Proof.
  induction pre as [|c pre IH]; simpl.
  - destruct s as [|x s]; simpl.
    + destruct post; reflexivity.
    + rewrite firstn_length_app, text_eqb_refl. reflexivity.
  - rewrite IH. now destruct (text_eqb _ _).
Qed.

(** A message that ends in the quoted text names that text. *)
Lemma names_quoted (mk : string -> error) (pre : string) (s : text) :
  (forall m, message (mk m) = m) ->
  names (mk (pre ++ quoted s)%string) s.
Proof.
  intros Hm. unfold names, quoted. rewrite Hm, txt_app, txt_str.
  change (dquote :: s ++ [dquote]) with ([dquote] ++ s ++ [dquote]).
  rewrite app_assoc. apply is_infix_mid.
Qed.

Lemma bind_ok {X Y} (r : result X) (k : X -> result Y) x :
  r = Ok x -> bind r k = k x.
Proof. now intros ->. Qed.

Lemma bind_err {X Y} (r : result X) (k : X -> result Y) e :
  r = Err e -> bind r k = Err e.
Proof. now intros ->. Qed.

(** ** Date layout classification *)

Section DateClassification.

Context {F : Type} {FO : PyFloat F} (A : Adapter F).

(** The table of the source and the catalogue of the specification are the
    same function of the key. *)
Lemma table_is_catalogue (length dashes : Z) :
  dict_get ISO_DATE_FORMAT_INFO (length, dashes) = catalogued length dashes.
Proof.
  unfold catalogued, ISO_DATE_FORMAT_INFO, dict_get, key_eqb; cbn [fst snd].
  rewrite !(Z.eqb_sym _ length), !(Z.eqb_sym _ dashes).
  reflexivity.
Qed.

(** Without a decimal point the first component of the key is the stripped
    length of the sample. *)
Lemma date_key_no_dot (itemsize : Z) (first : text) (strip : bool) :
  let s := sample_date itemsize first strip in
  ds_kdot s = 0 -> date_key s = (ds_lstripped s, ds_ndashes s).
Proof.
  unfold sample_date, date_key.
  destruct (if strip then _count_white first else (0, 0)) as [w0 w1]; cbn.
  intros ->. cbn. f_equal. lia.
Qed.

(** C3, as amended: [day_from_iso] classifies the sample by the static table
    at the key (length of the integer part, dash count) -- the text from the
    first non-blank character up to the decimal point or, without one, up to
    the end of the stripped text; without a decimal point that is the
    stripped length.  The table holds exactly the eight catalogued layouts,
    the classification succeeds exactly on them, and every other key makes
    [day_from_iso] raise the format error that names the sample. *)
Theorem date_layout_classification
    (strings : strings_in) (validate syntax strip proleptic : bool) :
  forall first, first_of (np_array_S strings) = Ok first ->
  let s := sample_date (itemsize (np_array_S strings)) first strip in
  (ds_kdot s = 0 -> date_key s = (ds_lstripped s, ds_ndashes s)) /\
  match catalogued (ds_kints s - ds_w0 s) (ds_ndashes s) with
  | Some info => identify_date first s = Ok info
  | None => exists msg,
      day_from_iso A strings validate syntax strip proleptic
        = Err (FormatNotRecognized msg)
      /\ names (FormatNotRecognized msg) first
  end.
Proof.
  intros first Hfirst s. split.
  - apply date_key_no_dot.
  - pose proof (table_is_catalogue (ds_kints s - ds_w0 s) (ds_ndashes s)) as Ht.
    destruct (catalogued _ _) as [info|] eqn:Hc.
    + unfold identify_date, date_key. now rewrite Ht.
    + eexists. split.
      * unfold day_from_iso, day_from_iso_S.
        rewrite (bind_ok _ _ _ Hfirst). fold s.
        unfold identify_date, date_key. rewrite Ht. reflexivity.
      * apply (names_quoted FormatNotRecognized). reflexivity.
Qed.

End DateClassification.

(** The classification at work on a plain calendar date. *)
Lemma date_layout_classification_witness :
  first_of (np_array_S (Str (txt "2000-01-01"))) = Ok (txt "2000-01-01") /\
  identify_date (txt "2000-01-01")
    (sample_date 10 (txt "2000-01-01") false) = Ok (4, 5, 8, 2, [4; 7]).
Proof.
  split; [reflexivity|].
  exact (proj2 (date_layout_classification (F:=Q) Ref.adapter
                  (Str (txt "2000-01-01")) true false false false
                  (txt "2000-01-01") eq_refl)).
Defined.

(** C3 as stated fails: two samples of the same stripped length (8) and the
    same dash count (0) are classified differently, because a decimal point
    ends the part that is measured; and a sample whose (stripped length, dash
    count) is no key of the table, (13, 2), is decoded without an error. *)
Lemma date_layout_not_by_stripped_length :
  let a := sample_date 8 (txt "20000101") false in
  let b := sample_date 8 (txt "200001.5") false in
  let c := sample_date 13 (txt "2000-01-01.25") false in
  (ds_lstripped a, ds_ndashes a) = (8, 0) /\
  (ds_lstripped b, ds_ndashes b) = (8, 0) /\
  identify_date (txt "20000101") a = Ok (4, 4, 6, 2, []) /\
  identify_date (txt "200001.5") b = Ok (2, 2, 4, 2, []) /\
  (ds_lstripped c, ds_ndashes c) = (13, 2) /\
  catalogued 13 2 = None /\
  exists x, day_from_iso (F:=Q) Ref.adapter (Str (txt "2000-01-01.25"))
              true false false false = Ok (Scalar (Flt x))
            /\ Qeq x (1 # 4).
Proof.
  cbv zeta. repeat split; try reflexivity.
  eexists. split; [vm_compute; reflexivity | reflexivity].
Qed.

(** ** Time layout inference *)

Section TimeInference.

Context {F : Type} {FO : PyFloat F} (A : Adapter F).

Lemma len_where_from (c : ascii) (s : text) (i : Z) :
  len (where_from c s i) = count c s.
Proof.
  unfold count, len. f_equal. revert i.
  induction s as [|x s IH]; intros i; simpl; [reflexivity|].
  rewrite (Ascii.eqb_sym c x).
  destruct (Ascii.eqb x c); simpl; now rewrite IH.
Qed.

Lemma len_where_eq (c : ascii) (s : text) : len (where_eq c s) = count c s.
Proof. apply len_where_from. Qed.

Lemma existsb_neq2_false (ws : list Z) :
  existsb (fun w => negb (w =? 2)) ws = false <-> Forall (fun w => w = 2) ws.
Proof.
  induction ws as [|w ws IH]; simpl.
  - split; auto.
  - rewrite orb_false_iff, IH, negb_false_iff, Z.eqb_eq.
    split.
    + intros [H1 H2]. now constructor.
    + intros H. inversion H. auto.
Qed.

Lemma sub_lists_forall2 (ends starts : list Z) :
  List.length ends = List.length starts ->
  Forall (fun w => w = 2) (sub_lists ends starts) ->
  Forall2 (fun a b => b - a = 2) starts ends.
Proof.
  revert starts. induction ends as [|e ends IH]; intros [|s starts]; simpl;
    try discriminate; intros Hl Hf.
  - constructor.
  - inversion Hf; subst. constructor; auto.
Qed.

Lemma sub_lists_length (a b : list Z) :
  List.length a = List.length b -> List.length (sub_lists a b) = List.length a.
Proof.
  revert b. induction a as [|x a IH]; intros [|y b]; simpl; try discriminate; auto.
Qed.

Lemma arange_length (n : nat) (i : Z) : List.length (arange n i) = n.
Proof. revert i. induction n; simpl; auto. Qed.

(** Every failure of the inference is a format error naming the sample. *)
Lemma identify_time_total (first : text) (s : time_sample) :
  (exists l, identify_time first s = Ok l) \/
  (exists msg, identify_time first s = Err (FormatNotRecognized msg)
               /\ names (FormatNotRecognized msg) first).
Proof.
  unfold identify_time.
  destruct (2 <? len (ts_kcolons s)); cbn [raise_if bind].
  { right. eexists. split; [reflexivity|].
    apply (names_quoted FormatNotRecognized); reflexivity. }
  destruct (1 <? len (ts_kdots s)); cbn [raise_if bind].
  { right. eexists. split; [reflexivity|].
    apply (names_quoted FormatNotRecognized); reflexivity. }
  destruct (ts_kcolons s) as [|k0 ks].
  - match goal with |- context [raise_if ?c _] => destruct c end; cbn [raise_if bind].
    + right. eexists. split; [reflexivity|].
      apply (names_quoted FormatNotRecognized); reflexivity.
    + left. eexists. reflexivity.
  - match goal with |- context [raise_if ?c _] => destruct c end; cbn [raise_if bind].
    + right. eexists. split; [reflexivity|].
      apply (names_quoted FormatNotRecognized); reflexivity.
    + left. eexists. reflexivity.
Qed.

(** What a successful inference has established. *)
Lemma identify_time_ok (first : text) (s : time_sample) (l : time_layout) :
  identify_time first s = Ok l ->
  let kdot := hd 0 (ts_kdots s) in
  let kints := if kdot =? 0 then ts_kend s else kdot in
  let width := kints - ts_w0 s in
  len (ts_kcolons s) <= 2 /\ len (ts_kdots s) <= 1 /\
  tl_kdot l = kdot /\ tl_kints l = kints /\ tl_kcolons l = ts_kcolons s /\
  Forall (fun w => w = 2) (tl_widths l) /\
  (List.length (tl_widths l) <= 3)%nat /\
  List.length (tl_khms l) = List.length (tl_widths l) /\
  (ts_kcolons s <> [] ->
     tl_khms l = ts_w0 s :: map (fun k => k + 1) (ts_kcolons s) /\
     tl_widths l = sub_lists (ts_kcolons s ++ [kints]) (tl_khms l) /\
     Forall2 (fun a b => b - a = 2) (tl_khms l) (ts_kcolons s ++ [kints])) /\
  (ts_kcolons s = [] ->
     width mod 2 = 0 /\ width <= 6 /\
     len (tl_khms l) = Z.max 0 (width / 2) /\
     tl_khms l = map (fun i => ts_w0 s + 2 * i) (arange (List.length (tl_khms l)) 0)).
Proof.
  unfold identify_time.
  destruct (2 <? len (ts_kcolons s)) eqn:Hc; cbn [raise_if bind]; [discriminate|].
  destruct (1 <? len (ts_kdots s)) eqn:Hd; cbn [raise_if bind]; [discriminate|].
  apply Z.ltb_ge in Hc, Hd.
  assert (Hk : match ts_kdots s with [k] => k | _ => 0 end = hd 0 (ts_kdots s)).
  { destruct (ts_kdots s) as [|k [|k' r]]; try reflexivity.
    unfold len in Hd; simpl in Hd; lia. }
  rewrite Hk. clear Hk.
  set (kdot := hd 0 (ts_kdots s)).
  set (kints := if kdot =? 0 then ts_kend s else kdot).
  destruct (ts_kcolons s) as [|k0 ks] eqn:Hks.
  - match goal with |- context [raise_if ?c _] => destruct c eqn:Hw end;
      cbn [raise_if bind]; [discriminate|].
    intros [= <-]; cbn.
    apply orb_false_iff in Hw. destruct Hw as [Hf Hw].
    apply Z.ltb_ge in Hf. apply negb_false_iff, Z.eqb_eq in Hw.
    set (fields := (kints - ts_w0 s) / 2) in *.
    rewrite !length_map, !repeat_length, !arange_length.
    repeat split; try lia; try congruence.
    + apply Forall_forall. intros w Hin. now apply repeat_spec in Hin.
    + rewrite Hw. apply Z_mod_mult.
    + unfold len. rewrite length_map, arange_length. fold fields. lia.
  - remember (map (fun k => k + 1) ((ts_w0 s - 1) :: k0 :: ks)) as khms eqn:Ekh.
    remember ((k0 :: ks) ++ [kints]) as ends eqn:Een.
    destruct (existsb (fun w => negb (w =? 2)) (sub_lists ends khms)) eqn:Hw;
      cbn [raise_if bind]; [discriminate|].
    intros [= <-]; cbn [tl_kdot tl_kints tl_kcolons tl_khms tl_widths].
    apply existsb_neq2_false in Hw.
    assert (Hlen : List.length ends = List.length khms).
    { subst ends khms. rewrite length_app, !length_map. simpl. lia. }
    assert (Hkh : khms = ts_w0 s :: map (fun k => k + 1) (k0 :: ks)).
    { subst khms. simpl. f_equal. lia. }
    assert (Hle : (List.length ends <= 3)%nat).
    { subst ends. rewrite length_app. unfold len in Hc. simpl in *. lia. }
    rewrite (sub_lists_length _ _ Hlen).
    repeat split; try lia; try congruence; auto.
    all: apply sub_lists_forall2; [exact Hlen | exact Hw].
Qed.

Lemma sample_time_fields (itemsize : Z) (first : text) (strip : bool) (s : time_sample) :
  sample_time itemsize first strip = Ok s ->
  ts_kcolons s = where_eq ":" first /\ ts_kdots s = where_eq "." first /\
  (ts_wz s = 0 \/ ts_wz s = 1).
Proof.
  unfold sample_time.
  destruct (if strip then _count_white first else (0, 0)) as [w0 w1].
  destruct (py_index first _) as [c|e]; cbn [bind]; [|discriminate].
  intros [= <-]; cbn. repeat split.
  destruct (Ascii.eqb c "Z"); auto.
Qed.

Lemma sec_from_iso_identify_err (strings : strings_in)
    (validate leapsecs strip syntax : bool) first s e :
  first_of (np_array_S strings) = Ok first ->
  sample_time (itemsize (np_array_S strings)) first strip = Ok s ->
  identify_time first s = Err e ->
  sec_from_iso A strings validate leapsecs strip syntax = Err e.
Proof.
  intros Hf Hs Hi. unfold sec_from_iso, sec_from_iso_S.
  rewrite (bind_ok _ _ _ Hf), (bind_ok _ _ _ Hs), (bind_err _ _ _ Hi).
  reflexivity.
Qed.


End TimeInference.


(** ** The date-only path of [day_sec_from_iso] *)

Section DateOnly.

Context {F : Type} {FO : PyFloat F} (A : Adapter F).

Lemma index_of_none (c : ascii) (s : text) :
  Forall (fun x => x <> c) s -> index_of c s = None.
Proof.
  induction 1 as [|x s Hx _ IH]; simpl; [reflexivity|].
  apply Ascii.eqb_neq in Hx. now rewrite Hx, IH.
Qed.

Lemma index_of_app_none (c : ascii) (s r : text) :
  Forall (fun x => x <> c) s ->
  index_of c (s ++ r) = option_map (fun i => (List.length s + i)%nat) (index_of c r).
Proof.
  induction 1 as [|x s Hx _ IH]; simpl.
  - now destruct (index_of c r).
  - apply Ascii.eqb_neq in Hx. rewrite Hx, IH. now destruct (index_of c r).
Qed.

Lemma index_of_repeat (c : ascii) (n : nat) :
  index_of c (repeat c n) = match n with O => None | S _ => Some O end.
Proof. destruct n; simpl; [reflexivity|]. now rewrite Ascii.eqb_refl. Qed.

Lemma scan_blanks_prefix (n : nat) (x : ascii) (r : text) (i : Z) :
  x <> blank ->
  scan_blanks (repeat blank n ++ x :: r) i = i + Z.of_nat n.
Proof.
  intros Hx. revert i. induction n as [|n IH]; intros i; simpl.
  - apply Ascii.eqb_neq in Hx. rewrite Hx. lia.
  - rewrite IH. lia.
Qed.

Lemma skipn_repeat_app {T} (x : T) (n : nat) (r : list T) :
  skipn n (repeat x n ++ r) = r.
Proof. induction n; simpl; auto. Qed.

Lemma rev_repeat {T} (x : T) (n : nat) : rev (repeat x n) = repeat x n.
Proof.
  induction n as [|n IH]; simpl; [reflexivity|].
  rewrite IH. clear IH. induction n; simpl; congruence.
Qed.


Lemma count_white_padded (a b : nat) (body : text) :
  body <> [] -> Forall (fun x => x <> blank) body ->
  _count_white (padded a b body) = (Z.of_nat a, Z.of_nat b).
Proof.
  intros Hne Hb. unfold _count_white, padded.
  destruct (repeat blank a ++ body ++ repeat blank b) as [|c0 r0] eqn:E.
  { apply app_eq_nil in E. destruct E as [_ E].
    apply app_eq_nil in E. now destruct E. }
  rewrite <- E. clear E c0 r0.
  f_equal.
  - destruct body as [|x body]; [contradiction|].
    inversion Hb; subst.
    change ((x :: body) ++ repeat blank b) with (x :: body ++ repeat blank b).
    now rewrite scan_blanks_prefix.
  - rewrite !rev_app_distr, !rev_repeat.
    destruct (rev body) as [|x rb] eqn:Er.
    { apply (f_equal (@rev _)) in Er. rewrite rev_involutive in Er. contradiction. }
    assert (Hx : x <> blank).
    { apply (proj1 (Forall_forall _ _) Hb). apply in_rev. rewrite Er. now left. }
    rewrite <- app_assoc.
    change ((x :: rb) ++ repeat blank a) with (x :: rb ++ repeat blank a).
    now rewrite scan_blanks_prefix.
Qed.

Lemma find_blank_padded (a b : nat) (body : text) :
  Forall (fun x => x <> blank) body ->
  find_from blank (padded a b body) (Z.of_nat a)
  = match b with
    | O => -1
    | S _ => len (padded a b body) - Z.of_nat b
    end.
Proof.
  intros Hb. unfold find_from, padded.
  rewrite Nat2Z.id, skipn_repeat_app, (index_of_app_none _ _ _ Hb), index_of_repeat.
  destruct b; simpl option_map; cbv iota; [reflexivity|].
  unfold len. rewrite !length_app, !repeat_length. lia.
Qed.

Lemma find_T_padded (a b : nat) (body : text) :
  Forall (fun x => x <> "T"%char) body ->
  find "T" (padded a b body) = -1.
Proof.
  intros Hb. unfold find, find_from, padded. simpl skipn.
  rewrite index_of_none; [reflexivity|].
  rewrite !Forall_app. repeat split; auto.
  all: apply Forall_forall; intros x Hx; apply repeat_spec in Hx; subst;
    discriminate.
Qed.

(** C9: when the first element is a blank-free text without "T", possibly
    between leading and trailing blanks, [day_sec_from_iso] is the date
    parsed by [day_from_iso] with only [validate] and [strip] forwarded
    ([syntax] and [proleptic] at their defaults), paired with the integer 0;
    the caller's [syntax] and [proleptic] do not enter the result. *)
Theorem date_only_path
    (strings : strings_in) (validate syntax strip proleptic : bool)
    (a b : nat) (body : text) :
  first_of (np_array_S strings) = Ok (padded a b body) ->
  body <> [] ->
  Forall (fun x => x <> blank /\ x <> "T"%char) body ->
  day_sec_from_iso A strings validate syntax strip proleptic
    = (day <- day_from_iso A strings validate false strip false ;;
       Ok (day, Scalar (Int 0)))
  /\ forall syntax' proleptic',
       day_sec_from_iso A strings validate syntax' strip proleptic'
       = day_sec_from_iso A strings validate syntax strip proleptic.
Proof.
  intros Hf Hne Hb.
  assert (Hblank : Forall (fun x => x <> blank) body)
    by (eapply Forall_impl; [|exact Hb]; now intros x [? _]).
  assert (HT : Forall (fun x => x <> "T"%char) body)
    by (eapply Forall_impl; [|exact Hb]; now intros x [_ ?]).
  assert (Hpath : forall sx pr,
    day_sec_from_iso A strings validate sx strip pr
    = (day <- day_from_iso A strings validate false strip false ;;
       Ok (day, Scalar (Int 0)))).
  { intros sx pr. unfold day_sec_from_iso.
    rewrite (bind_ok _ _ _ Hf).
    rewrite (find_T_padded a b body HT). cbn [Z.eqb Pos.eqb].
    rewrite (count_white_padded a b body Hne Hblank).
    rewrite (find_blank_padded a b body Hblank).
    destruct b as [|b].
    - now destruct (-1 =? _).
    - rewrite Z.eqb_refl. reflexivity. }
  split; [apply Hpath|].
  intros sx pr. now rewrite !Hpath.
Qed.

End DateOnly.

(** The date-only path on a padded calendar date, strict syntax requested. *)
Lemma date_only_path_witness :
  day_sec_from_iso (F:=Q) Ref.adapter (Str (txt " 2000-01-02 ")) true true true true
  = Ok (Scalar (Int 1), Scalar (Int 0)).
Proof.
  refine (eq_trans (proj1 (date_only_path (F:=Q) Ref.adapter
            (Str (txt " 2000-01-02 ")) true true true true
            1 1 (txt "2000-01-02") eq_refl _ _)) _).
  - discriminate.
  - repeat constructor; discriminate.
  - reflexivity.
Defined.

(** ** Strict syntax verification *)

(** C5 fails on the code: under [syntax=True], [day_from_iso] declares the
    field of the decimal point but never compares it, so a record of the
    batch whose decimal point is replaced by another character is decoded
    without an error; [sec_from_iso] on the same defect raises the syntax
    error. *)
Lemma date_syntax_misses_decimal_point :
  (exists x y,
     day_from_iso (F:=Q) Ref.adapter
       (Strs [txt "2000-01-01.5"; txt "2000-01-01x5"]) true true false false
     = Ok (Array [Flt x; Flt y]) /\ Qeq x (1 # 2) /\ Qeq y (1 # 2)) /\
  sec_from_iso (F:=Q) Ref.adapter
    (Strs [txt "12:34:56.5"; txt "12:34:56x5"]) true true false true
  = Err (SyntaxError "inconsistent decimal points in ISO time") /\
  day_from_iso (F:=Q) Ref.adapter
    (Strs [txt "2000-01-01.5"; txt "2000x01-01.5"]) true true false false
  = Err (SyntaxError "inconsistent dashes in ISO date").
Proof.
  split; [|split].
  - eexists _, _. split; [vm_compute; reflexivity|]. split; reflexivity.
  - vm_compute. reflexivity.
  - vm_compute. reflexivity.
Qed.

(** ** Decimal rendering and parsing *)

Lemma zfill_length (w : nat) (n : Z) : List.length (zfill w n) = w.
Proof.
  revert n. induction w as [|w IH]; intros n; simpl; [reflexivity|].
  rewrite length_app, IH. simpl. lia.
Qed.

Lemma len_zfill (w : nat) (n : Z) : len (zfill w n) = Z.of_nat w.
Proof. unfold len. now rewrite zfill_length. Qed.

Lemma ndigits_fuel_le (fuel k : nat) (n : Z) :
  (1 <= k)%nat -> n < 10 ^ Z.of_nat k -> (ndigits_fuel fuel n <= k)%nat.
Proof.
  revert k n. induction fuel as [|fuel IH]; intros k n Hk Hn; simpl; [lia|].
  destruct (n <? 10) eqn:E; [lia|].
  apply Z.ltb_ge in E.
  destruct k as [|[|k]]; [lia| simpl in Hn; lia |].
  apply le_n_S. apply IH; [lia|].
  replace (Z.of_nat (S (S k))) with (Z.of_nat (S k) + 1) in Hn by lia.
  rewrite Z.pow_add_r, Z.pow_1_r in Hn by lia.
  apply Z.div_lt_upper_bound; lia.
Qed.

(** Within its width, ['%0wd'] is the plain zero-filled rendering. *)
Lemma pct_d_zfill (w n : Z) :
  1 <= w -> 0 <= n < 10 ^ w -> pct_d w n = zfill (Z.to_nat w) n.
Proof.
  intros Hw Hn. unfold pct_d.
  destruct (n <? 0) eqn:E; [apply Z.ltb_lt in E; lia|].
  f_equal. apply Nat.max_l. apply ndigits_fuel_le; [lia|].
  rewrite Z2Nat.id by lia. lia.
Qed.

Lemma len_pct_d (w n : Z) :
  1 <= w -> 0 <= n < 10 ^ w -> len (pct_d w n) = w.
Proof.
  intros Hw Hn. rewrite pct_d_zfill, len_zfill by assumption. lia.
Qed.

Lemma digit_char_is_digit (d : Z) : is_digit (digit_char d) = true.
Proof.
  destruct d as [|p|p]; try reflexivity.
  do 4 (destruct p as [p|p|]; try reflexivity).
Qed.

Lemma digit_val_char (d : Z) : 0 <= d < 10 -> digit_val (digit_char d) = d.
Proof.
  intros H.
  assert (d = 0 \/ d = 1 \/ d = 2 \/ d = 3 \/ d = 4 \/ d = 5 \/ d = 6 \/ d = 7
          \/ d = 8 \/ d = 9) as C by lia.
  repeat (destruct C as [-> | C]; [reflexivity|]). now subst.
Qed.

Lemma zfill_digits (w : nat) (n : Z) : Forall (fun c => is_digit c = true) (zfill w n).
Proof.
  revert n. induction w as [|w IH]; intros n; simpl; [constructor|].
  apply Forall_app. split; [apply IH|].
  constructor; [apply digit_char_is_digit | constructor].
Qed.

Lemma digits_val_app (a b : text) (acc : Z) :
  digits_val (a ++ b) acc
  = match digits_val a acc with Some v => digits_val b v | None => None end.
Proof.
  revert acc. induction a as [|c a IH]; intros acc; simpl; [reflexivity|].
  destruct (is_digit c); [apply IH | reflexivity].
Qed.

Lemma digits_val_zfill (w : nat) (n acc : Z) :
  0 <= n ->
  digits_val (zfill w n) acc = Some (acc * 10 ^ Z.of_nat w + n mod 10 ^ Z.of_nat w).
Proof.
  revert n acc. induction w as [|w IH]; intros n acc Hn.
  - simpl. rewrite Z.mod_1_r. f_equal. lia.
  - cbn [zfill]. rewrite digits_val_app, IH by (apply Z.div_pos; lia).
    cbn [digits_val]. rewrite digit_char_is_digit, digit_val_char
      by (apply Z.mod_pos_bound; lia).
    f_equal.
    replace (Z.of_nat (S w)) with (1 + Z.of_nat w) by lia.
    rewrite Z.pow_add_r, Z.pow_1_r by lia.
    set (p := 10 ^ Z.of_nat w). assert (0 < p) by (apply Z.pow_pos_nonneg; lia).
    rewrite Z.rem_mul_r by lia.
    lia.
Qed.

Lemma is_digit_not (c x : ascii) :
  is_digit c = true -> is_digit x = false -> c <> x.
Proof. intros H1 H2 ->. congruence. Qed.

Lemma rstrip_nul_id (s : text) :
  Forall (fun c => c <> NUL) s -> rstrip_nul s = s.
Proof.
  induction 1 as [|c s Hc _ IH]; simpl; [reflexivity|].
  rewrite IH. destruct s; [|reflexivity].
  apply Ascii.eqb_neq in Hc. now rewrite Hc.
Qed.

Lemma lstrip_id (s : text) :
  match s with c :: _ => is_space c = false | [] => True end -> lstrip s = s.
Proof. destruct s as [|c s]; simpl; [reflexivity|]. now intros ->. Qed.

Lemma digits_not_nul (s : text) :
  Forall (fun c => is_digit c = true) s -> Forall (fun c => c <> NUL) s.
Proof.
  apply Forall_impl. intros c Hc. now apply (is_digit_not c NUL).
Qed.

Lemma strip_space_digits (s : text) :
  Forall (fun c => is_digit c = true) s -> strip_space s = s.
Proof.
  intros Hd. unfold strip_space.
  assert (Hsp : forall c, is_digit c = true -> is_space c = false).
  { intros c Hc. unfold is_digit, is_space in *.
    destruct (nat_of_ascii c =? 32)%nat eqn:E1; simpl.
    - apply Nat.eqb_eq in E1. rewrite E1 in Hc. discriminate.
    - apply andb_true_iff in Hc. destruct Hc as [Hc _].
      apply Nat.leb_le in Hc.
      destruct (nat_of_ascii c <=? 13)%nat eqn:E2;
        [apply Nat.leb_le in E2; lia | now rewrite andb_false_r]. }
  rewrite (lstrip_id s).
  - rewrite lstrip_id, rev_involutive; [reflexivity|].
    destruct (rev s) as [|c r] eqn:E; [exact I|].
    apply Hsp. apply (proj1 (Forall_forall _ _) Hd). apply in_rev.
    rewrite E. now left.
  - destruct s as [|c r]; [exact I|]. inversion Hd; subst. now apply Hsp.
Qed.

(** Reading back a zero-filled field gives the number that was rendered. *)
Lemma py_int_zfill (w : nat) (n : Z) :
  (1 <= w)%nat -> 0 <= n < 10 ^ Z.of_nat w -> py_int (zfill w n) = Some n.
Proof.
  intros Hw Hn. unfold py_int.
  pose proof (zfill_digits w n) as Hd.
  rewrite rstrip_nul_id by now apply digits_not_nul.
  rewrite strip_space_digits by assumption.
  destruct (zfill w n) as [|c r] eqn:E.
  { apply (f_equal (@List.length _)) in E. rewrite zfill_length in E.
    simpl in E. lia. }
  assert (Hc : is_digit c = true) by now inversion Hd.
  rewrite (proj2 (Ascii.eqb_neq c "-")) by now apply is_digit_not.
  rewrite (proj2 (Ascii.eqb_neq c "+")) by now apply is_digit_not.
  unfold unsigned_val. rewrite <- E, digits_val_zfill by lia.
  f_equal. rewrite Z.mod_small; lia.
Qed.

Lemma zfill_split (a b : nat) (n : Z) :
  0 <= n ->
  zfill (a + b) n = zfill a (n / 10 ^ Z.of_nat b) ++ zfill b (n mod 10 ^ Z.of_nat b).
Proof.
  revert n. induction b as [|b IH]; intros n Hn.
  - rewrite Nat.add_0_r. simpl. rewrite Z.div_1_r. now rewrite app_nil_r.
  - rewrite Nat.add_succ_r. cbn [zfill].
    rewrite IH by (apply Z.div_pos; lia).
    replace (Z.of_nat (S b)) with (1 + Z.of_nat b) by lia.
    rewrite Z.pow_add_r, Z.pow_1_r by lia.
    set (p := 10 ^ Z.of_nat b).
    assert (Hp : 0 < p) by (apply Z.pow_pos_nonneg; lia).
    assert (Hr : 0 <= n mod 10 < 10) by (apply Z.mod_pos_bound; lia).
    assert (E1 : n / 10 / p = n / (10 * p)) by (apply Z.div_div; lia).
    assert (E0 : n mod (10 * p) = (n / 10) mod p * 10 + n mod 10)
      by (rewrite Z.rem_mul_r by lia; lia).
    assert (E2 : n mod (10 * p) / 10 = (n / 10) mod p).
    { rewrite E0, Z.div_add_l, (Z.div_small (n mod 10) 10) by lia. lia. }
    assert (E3 : (n mod (10 * p)) mod 10 = n mod 10).
    { rewrite E0, Z.add_comm, Z.mod_add, Z.mod_mod by lia. reflexivity. }
    rewrite E1, E2, E3, <- app_assoc. reflexivity.
Qed.

(** ** The synthesised layouts *)

Lemma dtype_get_app (dt : dtype) (name : string) (x : string * (Z * Z)) :
  dtype_get (dt ++ [x]) name
  = match dtype_get dt name with
    | Some f => Some f
    | None => if String.eqb (fst x) name then Some (snd x) else None
    end.
Proof.
  induction dt as [|[n f] dt IH]; simpl.
  - now destruct x.
  - destruct (String.eqb n name); [reflexivity | exact IH].
Qed.

Lemma dtype_get_within (w L : Z) (dt : dtype) (name : string) (f : Z * Z) :
  fields_within w L dt -> dtype_get dt name = Some f -> within w L f.
Proof.
  induction 1 as [|[n g] dt Hg _ IH]; simpl; [discriminate|].
  destruct (String.eqb n name); [now intros [= <-] | exact IH].
Qed.

Lemma within_mono (w L L' : Z) (f : Z * Z) : L <= L' -> within w L f -> within w L' f.
Proof. unfold within. intros ? (? & ? & ?). repeat split; lia. Qed.

Lemma fields_within_mono (w L L' : Z) (dt : dtype) :
  L <= L' -> fields_within w L dt -> fields_within w L' dt.
Proof.
  intros HL. apply Forall_impl. intros nf. now apply within_mono.
Qed.

Lemma fields_within_set (w L n : Z) (dt : dtype) (name : string) :
  0 < w -> 0 <= n -> 0 <= L ->
  fields_within w L dt ->
  fields_within w (L + n) (dtype_set dt name (n, L * w)).
Proof.
  intros Hw Hn HL H. unfold dtype_set, fields_within.
  apply Forall_app. split.
  - apply (fields_within_mono w L); [lia | exact H].
  - constructor; [|constructor]. unfold within; cbn [fst snd].
    rewrite Z.div_mul by lia. lia.
Qed.


Lemma dl_field_ok (w : Z) (l : day_layout) (name : string) (n : Z) :
  0 < w -> 0 <= n -> day_layout_ok w l -> day_layout_ok w (dl_field l w name n).
Proof.
  intros Hw Hn [H0 Hf]. split; cbn [dl_field dl_lstring dl_dtype]; [lia|].
  now apply fields_within_set.
Qed.

Lemma dl_append_ok (w : Z) (l : day_layout) (it : fmt_item) :
  day_layout_ok w l -> day_layout_ok w (dl_append l it).
Proof. now intros [H0 Hf]. Qed.

Lemma fraction_fields_ok (w : Z) (idx : list Z) (l : day_layout) :
  0 < w -> day_layout_ok w l ->
  day_layout_ok w (fold_left (fun l i => dl_field l w ("f" ++ str_int i) 1) idx l).
Proof.
  intros Hw. revert l. induction idx as [|i idx IH]; intros l Hl; simpl; [exact Hl|].
  apply IH. apply dl_field_ok; [assumption | lia | assumption].
Qed.

Lemma len_nonneg {T} (s : list T) : 0 <= len s.
Proof. unfold len. lia. Qed.

Lemma day_layout_step_ok (w : Z) (order dash : text) (ydigits : Z)
    (has_dot : bool) (ddigits : Z) (l : day_layout) (fc : Z * ascii) :
  0 < w -> day_layout_ok w l ->
  day_layout_ok w (day_layout_step w order dash ydigits has_dot ddigits l fc).
Proof.
  intros Hw Hl. destruct fc as [field c]. unfold day_layout_step.
  pose proof (len_nonneg dash) as Hd.
  set (l1 := if (0 <? field) && negb (len dash =? 0) then _ else l).
  assert (H1 : day_layout_ok w l1).
  { unfold l1. destruct ((0 <? field) && negb (len dash =? 0)); [|exact Hl].
    apply dl_field_ok; auto. }
  clearbody l1.
  destruct (Ascii.eqb c "Y").
  { apply dl_field_ok; [assumption | lia |].
    destruct (ydigits =? 4).
    - apply dl_field_ok; [assumption | lia |]. now apply dl_append_ok.
    - now apply dl_append_ok. }
  destruct (Ascii.eqb c "M").
  { apply dl_field_ok; [assumption | lia |]. now apply dl_append_ok. }
  assert (H2 : day_layout_ok w
                 (dl_field (dl_append l1 (FmtD (if len order =? 2 then 3 else 2)))
                           w "d" (if len order =? 2 then 3 else 2))).
  { apply dl_field_ok; [assumption | destruct (len order =? 2); lia |].
    now apply dl_append_ok. }
  destruct has_dot; [|exact H2].
  assert (H3 : day_layout_ok w
     (dl_field (dl_append (dl_field (dl_append l1 (FmtD (if len order =? 2 then 3 else 2)))
                           w "d" (if len order =? 2 then 3 else 2))
                          (Lit (txt "."))) w "dot" 1)).
  { apply dl_field_ok; [assumption | lia |]. now apply dl_append_ok. }
  destruct (0 <? ddigits); [|exact H3].
  apply fraction_fields_ok; [assumption|]. now apply dl_append_ok.
Qed.

Lemma day_layout_of_ok (w : Z) (order dash : text) (ydigits : Z)
    (has_dot : bool) (ddigits : Z) :
  0 < w -> day_layout_ok w (day_layout_of w order dash ydigits has_dot ddigits).
Proof.
  intros Hw. unfold day_layout_of.
  assert (H0 : day_layout_ok w {| dl_fmt := []; dl_dtype := []; dl_lstring := 0 |}).
  { split; [cbn; lia | constructor]. }
  revert H0. generalize {| dl_fmt := []; dl_dtype := []; dl_lstring := 0 |}.
  generalize (enumerate_from 0 order).
  induction l as [|fc l IH]; intros l0 H0; simpl; [exact H0|].
  apply IH. now apply day_layout_step_ok.
Qed.

Lemma char_size_pos (k : kind) : 0 < char_size k.
Proof. destruct k; cbn; lia. Qed.

(** ** Writing fields into records *)

Lemma fit_length (n : Z) (v : text) : 0 <= n -> List.length (fit n v) = Z.to_nat n.
Proof.
  intros Hn. unfold fit, replicate, len.
  rewrite length_app, length_firstn, repeat_length. lia.
Qed.

Lemma store_length (w L : Z) (f : Z * Z) (v rec : text) :
  within w L f -> L <= len rec -> len (store w f v rec) = len rec.
Proof.
  intros (Hn & Ho & Hl) HL. unfold store, len in *.
  rewrite !length_app, length_firstn, length_skipn, fit_length by assumption.
  lia.
Qed.

Lemma store_skipn (w L : Z) (f : Z * Z) (v rec : text) :
  within w L f -> L <= len rec ->
  skipn (Z.to_nat L) (store w f v rec) = skipn (Z.to_nat L) rec.
Proof.
  intros (Hn & Ho & Hl) HL. unfold store, len in *.
  rewrite app_assoc, skipn_app.
  rewrite skipn_all2.
  2:{ rewrite length_app, length_firstn, fit_length by assumption. lia. }
  rewrite length_app, length_firstn, fit_length by assumption.
  cbn [app]. rewrite skipn_skipn. f_equal. lia.
Qed.

Lemma framed_init (W L : Z) : 0 <= L <= W -> framed W L (replicate W NUL).
Proof.
  intros H. unfold framed, replicate, len. rewrite repeat_length. split; [lia|].
  replace (Z.to_nat W) with (Z.to_nat L + Z.to_nat (W - L))%nat by lia.
  rewrite repeat_app. apply skipn_repeat_app.
Qed.

Lemma framed_store (w W L : Z) (f : Z * Z) (v r : text) :
  within w L f -> L <= W -> framed W L r -> framed W L (store w f v r).
Proof.
  intros Hf HL [Hlen Hsk]. split.
  - rewrite (store_length w L) by (auto; lia). exact Hlen.
  - rewrite (store_skipn w L) by (auto; lia). exact Hsk.
Qed.

Lemma framed_store_if (w W L : Z) (dt : dtype) (name : string) (v r : text) :
  frame_ok w L dt -> name <> "extra"%string -> L <= W ->
  framed W L r -> framed W L (store_if w dt name v r).
Proof.
  intros Hdt Hname HL Hr. unfold store_if.
  destruct (dtype_get dt name) as [f|] eqn:E; [|exact Hr].
  apply framed_store; auto. now apply (Hdt name).
Qed.

Lemma fraction_name_not_extra (i : Z) : ("f" ++ str_int i)%string <> "extra"%string.
Proof. discriminate. Qed.

Lemma framed_store_fraction {F} {FO : PyFloat F}
    (w W L : Z) (dt : dtype) (idx : list Z) (frac : F) (r r' : text) :
  frame_ok w L dt -> L <= W -> framed W L r ->
  store_fraction w dt idx frac r = Ok r' -> framed W L r'.
Proof.
  intros Hdt HL. revert frac r.
  induction idx as [|i idx IH]; intros frac r Hr; cbn [store_fraction].
  - now intros [= <-].
  - destruct (take DIGITS1 _) as [v|e]; cbn [bind]; [|discriminate].
    apply IH. apply framed_store_if; auto. apply fraction_name_not_extra.
Qed.

(** The layout handed to the writers after "Create a buffer if necessary":
    its fields lie within the synthesised width. *)
Lemma frame_ok_of_within (w L : Z) (dt : dtype) :
  fields_within w L dt -> frame_ok w L dt.
Proof. intros H name f _ Hg. now apply (dtype_get_within w L dt name). Qed.

Lemma frame_ok_extra (w L : Z) (dt : dtype) (f : Z * Z) :
  fields_within w L dt -> frame_ok w L (dtype_set dt "extra" f).
Proof.
  intros H name g Hname. unfold dtype_set. rewrite dtype_get_app.
  destruct (dtype_get dt name) as [g'|] eqn:E.
  - intros [= <-]. now apply (dtype_get_within w L dt name).
  - cbn [fst snd]. destruct (String.eqb "extra" name) eqn:E'; [|discriminate].
    apply String.eqb_eq in E'. congruence.
Qed.

(** What "Create a buffer if necessary; otherwise, check dimensions" and
    [buffer.fill(null)] guarantee. *)
Lemma prepare_spec (shp : option nat) (buf : option buffer) (knd : kind)
    (dt dt' : dtype) (L : Z) (what : string) (b : buffer) :
  0 <= L -> fields_within (char_size knd) L dt ->
  prepare shp buf knd dt L what = Ok (dt', b) ->
  frame_ok (char_size knd) L dt' /\ L <= bwidth b /\
  Forall (fun r => r = replicate (bwidth b) NUL) (belems b) /\
  match buf with
  | Some b0 => bkind b = bkind b0 /\ bwidth b = bwidth b0
               /\ List.length (belems b) = List.length (belems b0)
  | None => bkind b = knd /\ bwidth b = L
            /\ List.length (belems b) = match shp with Some n => n | None => 1%nat end
  end.
Proof.
  intros HL Hdt. unfold prepare.
  pose proof (char_size_pos knd) as Hw.
  destruct buf as [b0|].
  - destruct (bwidth b0 * char_size knd <? L * char_size knd) eqn:E;
      cbn [raise_if bind]; [discriminate|].
    apply Z.ltb_ge in E. intros [= <- <-]. cbn [bkind bwidth belems].
    assert (L <= bwidth b0) by nia.
    split; [|split; [assumption|split; [|split; [reflexivity|split; [reflexivity|]]]]].
    + destruct (L * char_size knd <? bwidth b0 * char_size knd).
      * now apply frame_ok_extra.
      * now apply frame_ok_of_within.
    + apply Forall_forall. intros r Hr. apply in_map_iff in Hr.
      now destruct Hr as (? & <- & _).
    + apply length_map.
  - intros [= <- <-]. cbn [bkind bwidth belems].
    split; [|split; [lia|split; [|split; [reflexivity|split; [reflexivity|]]]]].
    + now apply frame_ok_of_within.
    + apply Forall_forall. intros r Hr. now apply repeat_spec in Hr.
    + apply repeat_length.
Qed.

Lemma mapM_length {X Y} (f : X -> result Y) (l : list X) (l' : list Y) :
  mapM f l = Ok l' -> List.length l' = List.length l.
Proof.
  revert l'. induction l as [|x l IH]; intros l'; simpl.
  - now intros [= <-].
  - destruct (f x); cbn [bind]; [|discriminate].
    destruct (mapM f l); cbn [bind]; [|discriminate].
    intros [= <-]. simpl. f_equal. now apply IH.
Qed.

Lemma mapM_Forall {X Y} (f : X -> result Y) (P : Y -> Prop) (l : list X) (l' : list Y) :
  (forall x y, In x l -> f x = Ok y -> P y) ->
  mapM f l = Ok l' -> Forall P l'.
Proof.
  revert l'. induction l as [|x l IH]; intros l' Hf; simpl.
  - intros [= <-]. constructor.
  - destruct (f x) as [y|] eqn:E; cbn [bind]; [|discriminate].
    destruct (mapM f l) as [ys|] eqn:E'; cbn [bind]; [|discriminate].
    intros [= <-]. constructor.
    + apply (Hf x); [now left | exact E].
    + apply IH; [|reflexivity]. intros x' y' Hin. apply Hf. now right.
Qed.

Lemma in_skipn_in {T} (x : T) (n : nat) (l : list T) : In x (skipn n l) -> In x l.
Proof.
  revert l. induction n as [|n IH]; intros l; simpl; [auto|].
  destruct l as [|y l]; simpl; auto.
Qed.

Lemma in_firstn_in {T} (x : T) (n : nat) (l : list T) : In x (firstn n l) -> In x l.
Proof.
  revert l. induction n as [|n IH]; intros l; simpl; [contradiction|].
  destruct l as [|y l]; simpl; [auto|]. intros [H|H]; auto.
Qed.

(** ** Writing into a caller's buffer *)

Section Frame.

Context {F : Type} {FO : PyFloat F} (A : Adapter F).

Ltac step_take :=
  match goal with
  | |- context [take ?t ?i] =>
      let E := fresh "E" in
      destruct (take t i) eqn:E; cbn [bind]; [|discriminate]
  end.

Lemma day_record_framed (w W L : Z) (dt : dtype) (order dash : text) (ddigits : Z)
    (y m d : Z) (frac : option F) (r : text) :
  frame_ok w L dt -> 0 <= L <= W ->
  day_record w dt order dash ddigits W y m d frac = Ok r -> framed W L r.
Proof.
  intros Hdt HL. unfold day_record. cbv zeta.
  pose proof (framed_init W L HL) as H0.
  assert (Hs : forall name v r, name <> "extra"%string -> framed W L r ->
                                framed W L (store_if w dt name v r)).
  { intros. apply framed_store_if; auto; lia. }
  destruct (has_field dt "y12"); destruct (len order =? 3);
    repeat step_take; cbn [bind];
    (destruct frac as [fr|];
     [ apply (framed_store_fraction w W L dt); [assumption | lia |]
     | intros [= <-] ]);
    repeat (apply Hs; [discriminate|]); exact H0.
Qed.

Lemma broadcast_length {T} (shp : option nat) (b : buffer) (xs : list T) :
  List.length xs = match shp with Some n => n | None => 1%nat end ->
  List.length (broadcast shp b xs) = addressed shp (List.length (belems b)).
Proof.
  unfold broadcast, addressed. destruct shp as [n|]; [auto|].
  destruct xs as [|x [|x' xs]]; simpl; try discriminate.
  intros _. apply repeat_length.
Qed.

Lemma In_broadcast {T} (shp : option nat) (b : buffer) (xs : list T) (x : T) :
  In x (broadcast shp b xs) -> In x xs.
Proof.
  unfold broadcast. destruct shp; [auto|].
  destruct xs as [|x0 [|x1 xs]]; auto.
  intros H. apply repeat_spec in H. subst. now left.
Qed.

(** Writing the rendered records over a cleared buffer. *)
Lemma fill_targets_cleared (shp : option nat) (L : Z) (b0 b : buffer) (recs : list text) :
  bkind b = bkind b0 -> bwidth b = bwidth b0 ->
  List.length (belems b) = List.length (belems b0) ->
  L <= bwidth b ->
  Forall (fun r => r = replicate (bwidth b) NUL) (belems b) ->
  (addressed shp (List.length (belems b)) <= List.length (belems b))%nat ->
  List.length recs = addressed shp (List.length (belems b)) ->
  Forall (framed (bwidth b) L) recs ->
  cleared_beyond (addressed shp (List.length (belems b0))) L b0 (fill_targets shp b recs).
Proof.
  intros Hk Hw Hn HL Hnul Hle Hlen Hrecs.
  unfold cleared_beyond, fill_targets; cbn [bkind bwidth belems].
  assert (Ht : targets shp b = addressed shp (List.length (belems b)))
    by (unfold targets, addressed; now destruct shp).
  rewrite Ht, <- Hn. rewrite <- Hlen.
  split; [assumption|]. split; [assumption|].
  split; [rewrite length_app, length_skipn; lia|].
  split; [assumption|].
  split.
  - rewrite firstn_app, Nat.sub_diag, firstn_all. cbn [firstn].
    now rewrite app_nil_r.
  - rewrite skipn_app, Nat.sub_diag, skipn_all. cbn [skipn app].
    apply Forall_forall. intros r Hr.
    apply (proj1 (Forall_forall _ _) Hnul). eapply in_skipn_in; eauto.
Qed.

Lemma interpret_kind_some (shp : option nat) (b0 : buffer) (knd k : kind) (what : string) :
  interpret_kind shp (Some b0) knd what = Ok k ->
  k = bkind b0 /\ (addressed shp (List.length (belems b0)) <= List.length (belems b0))%nat.
Proof.
  unfold interpret_kind.
  destruct (negb (kind_is_US (bkind b0))); cbn [raise_if bind]; [discriminate|].
  destruct shp as [n|]; cbn [addressed].
  - destruct (len (belems b0) <? Z.of_nat n) eqn:E; cbn [raise_if bind]; [discriminate|].
    apply Z.ltb_ge in E. unfold len in E. intros [= <-]. split; [reflexivity | lia].
  - intros [= <-]. split; [reflexivity | lia].
Qed.

Lemma format_day_frame (day : value F) (order : text) (ydigits : Z) (dash : text)
    (ddigits : option Z) (proleptic : bool) (b0 : buffer) (knd : kind) (out : output) :
  format_day A day order ydigits dash ddigits proleptic (Some b0) knd = Ok out ->
  exists b, out = Filled b /\
    cleared_beyond (addressed (shape day) (List.length (belems b0)))
      (dl_lstring (day_layout_of (char_size (bkind b0)) order dash ydigits
                     (_is_float day && ddigits_ge0 ddigits) (digits_of ddigits)))
      b0 b.
Proof.
  unfold format_day.
  destruct (negb (text_in order _)); cbn [raise_if bind]; [discriminate|].
  destruct (negb _); cbn [raise_if bind]; [discriminate|].
  destruct (interpret_kind (shape day) (Some b0) knd "date") as [k|] eqn:Ek;
    cbn [bind]; [|discriminate].
  apply interpret_kind_some in Ek. destruct Ek as [-> Hle].
  set (w := char_size (bkind b0)).
  set (l := day_layout_of w order dash ydigits _ _).
  set (rows := combine _ _).
  assert (Hrows : List.length rows
                  = match shape day with Some n => n | None => 1%nat end).
  { unfold rows. rewrite length_combine, !length_map, Nat.min_id.
    destruct day; reflexivity. }
  assert (Hgoal :
    ('(dt, b) <- prepare (shape day) (Some b0) (bkind b0) (dl_dtype l) (dl_lstring l)
                   "date format" ;;
     recs <- mapM (fun '((y, m, d), (_, frac)) =>
                     day_record w dt order dash (digits_of ddigits) (bwidth b)
                                y m d frac)
                  (broadcast (shape day) b rows) ;;
     Ok (Filled (fill_targets (shape day) b recs))) = Ok out ->
    exists b, out = Filled b /\
      cleared_beyond (addressed (shape day) (List.length (belems b0))) (dl_lstring l) b0 b).
  { pose proof (day_layout_of_ok w order dash ydigits
                  (_is_float day && ddigits_ge0 ddigits) (digits_of ddigits)
                  (char_size_pos _)) as [Hl0 Hlf].
    fold l in Hl0, Hlf.
    destruct (prepare _ _ _ _ _ _) as [[dt b]|] eqn:Ep; cbn [bind]; [|discriminate].
    apply prepare_spec in Ep; auto.
    destruct Ep as (Hdt & HLb & Hnul & Hk & Hw & Hn).
    destruct (mapM _ _) as [recs|] eqn:Em; cbn [bind]; [|discriminate].
    intros [= <-]. eexists. split; [reflexivity|].
    apply fill_targets_cleared; auto.
    - now rewrite Hn.
    - rewrite (mapM_length _ _ _ Em). now apply broadcast_length.
    - eapply mapM_Forall; [|exact Em].
      intros [[[y m] d] [i frac]] r _ Hr.
      eapply day_record_framed; eauto; lia. }
  destruct (shape day); [exact Hgoal|].
  destruct rows as [|[[[y m] d] [i frac]] [|? ?]]; exact Hgoal.
Qed.

Lemma arange_bounds (n : nat) (lo : Z) :
  Forall (fun i => lo <= i < lo + Z.of_nat n) (arange n lo).
Proof.
  revert lo. induction n as [|n IH]; intros lo; simpl; constructor; [lia|].
  eapply Forall_impl; [|apply IH]. cbn beta. intros; lia.
Qed.

Lemma single_field_within (w L n k : Z) :
  0 < w -> 0 <= n -> 0 <= k -> k + n <= L -> within w L (n, k * w).
Proof.
  intros. unfold within; cbn [fst snd]. rewrite Z.div_mul by lia. lia.
Qed.

Lemma fraction_fields_within (w L base : Z) (idx : list Z) (dt : dtype) :
  0 < w -> 0 <= base ->
  fields_within w L dt ->
  Forall (fun i => 0 <= i /\ base + i + 1 <= L) idx ->
  fields_within w L
    (fold_left (fun dt i => dtype_set dt ("f" ++ str_int i) (1, (base + i) * w)) idx dt).
Proof.
  intros Hw Hb. revert dt. induction idx as [|i idx IH]; intros dt Hdt Hidx; simpl.
  - exact Hdt.
  - inversion Hidx; subst. apply IH; [|assumption].
    unfold dtype_set. apply Forall_app. split; [exact Hdt|].
    constructor; [|constructor]. apply single_field_within; lia.
Qed.

Lemma sec_layout_ok (w : Z) (colon suffix : text) (has_dot : bool) (digits : Z) :
  0 < w -> (has_dot = true -> 0 <= digits) ->
  0 <= snd (sec_layout w colon suffix has_dot digits) /\
  fields_within w (snd (sec_layout w colon suffix has_dot digits))
                  (fst (sec_layout w colon suffix has_dot digits)).
Proof.
  intros Hw Hdig. unfold sec_layout. cbv zeta.
  pose proof (len_nonneg colon) as Hc. pose proof (len_nonneg suffix) as Hz.
  set (lc := len colon) in *. set (lz := len suffix) in *.
  set (dt0 := [("h"%string, (2, 0)); ("m"%string, (2, (2 + lc) * w));
               ("s"%string, (2, (4 + 2 * lc) * w))]).
  assert (H0 : fields_within w (6 + 2 * lc) dt0).
  { unfold dt0. repeat constructor; cbn [fst snd]; try lia;
      rewrite ?Z.div_mul, ?Z.div_0_l by lia; lia. }
  set (dt1 := if lc =? 0 then dt0 else _).
  assert (H1 : fields_within w (6 + 2 * lc) dt1).
  { unfold dt1. destruct (lc =? 0); [exact H0|].
    unfold dtype_set. repeat (apply Forall_app; split); auto.
    all: constructor; [|constructor]; apply single_field_within; lia. }
  clearbody dt1. clear H0 dt0.
  assert (Hdot : fields_within w (6 + 2 * lc + 1)
                   (dtype_set dt1 "dot" (1, (6 + 2 * lc) * w))).
  { unfold dtype_set. apply Forall_app. split.
    - apply (fields_within_mono w (6 + 2 * lc)); [lia | exact H1].
    - constructor; [|constructor]. apply single_field_within; lia. }
  match goal with
  | |- context [if has_dot then ?a else ?b] => set (p := if has_dot then a else b)
  end.
  assert (H2 : 0 <= snd p /\ fields_within w (snd p) (fst p)).
  { unfold p. destruct has_dot; [|cbn [fst snd]; split; [lia | exact H1]].
    destruct (digits =? 0) eqn:Ed; cbn [fst snd]; [split; [lia | exact Hdot]|].
    apply Z.eqb_neq in Ed. specialize (Hdig eq_refl).
    split; [lia|].
    apply fraction_fields_within; [lia | lia | |].
    + apply (fields_within_mono w (6 + 2 * lc + 1)); [lia | exact Hdot].
    + eapply Forall_impl; [|apply arange_bounds]. cbn beta. intros; lia. }
  clearbody p. destruct p as [dt2 L2]. cbn [fst snd] in H2. destruct H2 as [HL2 H2].
  destruct (lz =? 0); cbn [fst snd]; [now split|].
  split; [lia|].
  unfold dtype_set. apply Forall_app. split.
  - apply (fields_within_mono w L2); [lia | exact H2].
  - constructor; [|constructor]. apply single_field_within; lia.
Qed.

Lemma sec_record_framed (w W L : Z) (dt : dtype) (colon suffix : text) (digits : Z)
    (h m : Z) (sv : number F) (frac : option F) (r : text) :
  frame_ok w L dt -> 0 <= L <= W ->
  sec_record w dt colon suffix digits W h m sv frac = Ok r -> framed W L r.
Proof.
  intros Hdt HL. unfold sec_record. cbv zeta.
  pose proof (framed_init W L HL) as H0.
  assert (Hs : forall name v r, name <> "extra"%string -> framed W L r ->
                                framed W L (store_if w dt name v r)).
  { intros. apply framed_store_if; auto; lia. }
  repeat step_take; cbn [bind].
  destruct frac as [fr|];
    [ apply (framed_store_fraction w W L dt); [assumption | lia |]
    | intros [= <-] ];
    repeat (apply Hs; [discriminate|]); exact H0.
Qed.

Lemma ddigits_ge0_digits (digits : option Z) :
  ddigits_ge0 digits = true -> 0 <= digits_of digits.
Proof. destruct digits as [n|]; cbn; [apply Z.leb_le | discriminate]. Qed.

Lemma format_sec_frame (sec : value F) (digits : option Z) (colon suffix : text)
    (b0 : buffer) (knd : kind) (out : output) :
  format_sec A sec digits colon suffix (Some b0) knd = Ok out ->
  exists b, out = Filled b /\
    cleared_beyond (addressed (shape sec) (List.length (belems b0)))
      (snd (sec_layout (char_size (bkind b0)) colon suffix
                       (ddigits_ge0 digits) (digits_of digits)))
      b0 b.
Proof.
  unfold format_sec.
  destruct (mapM (hms_from_sec A) (elements sec)) as [hms|] eqn:Eh;
    cbn [bind]; [|discriminate].
  apply mapM_length in Eh.
  destruct (interpret_kind (shape sec) (Some b0) knd "time") as [k|] eqn:Ek;
    cbn [bind]; [|discriminate].
  apply interpret_kind_some in Ek. destruct Ek as [-> Hle].
  set (w := char_size (bkind b0)).
  pose proof (sec_layout_ok w colon suffix (ddigits_ge0 digits) (digits_of digits)
                (char_size_pos _) (ddigits_ge0_digits digits)) as [Hl0 Hlf].
  destruct (sec_layout w colon suffix (ddigits_ge0 digits) (digits_of digits))
    as [dt0 L] eqn:El. cbn [fst snd] in *.
  set (rows := combine _ _).
  assert (Hrows : List.length rows
                  = match shape sec with Some n => n | None => 1%nat end).
  { unfold rows. rewrite length_combine, !length_map, Eh, Nat.min_id.
    destruct sec; reflexivity. }
  assert (Hgoal :
    ('(dt, b) <- prepare (shape sec) (Some b0) (bkind b0) dt0 L "ISO time format" ;;
     recs <- mapM (fun '((h, m, s), frac) =>
                     sec_record w dt colon suffix (digits_of digits) (bwidth b)
                                h m s frac)
                  (broadcast (shape sec) b rows) ;;
     Ok (Filled (fill_targets (shape sec) b recs))) = Ok out ->
    exists b, out = Filled b /\
      cleared_beyond (addressed (shape sec) (List.length (belems b0))) L b0 b).
  { destruct (prepare _ _ _ _ _ _) as [[dt b]|] eqn:Ep; cbn [bind]; [|discriminate].
    apply prepare_spec in Ep; auto.
    destruct Ep as (Hdt & HLb & Hnul & Hk & Hw & Hn).
    destruct (mapM _ _) as [recs|] eqn:Em; cbn [bind]; [|discriminate].
    intros [= <-]. eexists. split; [reflexivity|].
    apply fill_targets_cleared; auto.
    - now rewrite Hn.
    - rewrite (mapM_length _ _ _ Em). now apply broadcast_length.
    - eapply mapM_Forall; [|exact Em].
      intros [[[h m] sv] frac] r _ Hr.
      eapply sec_record_framed; eauto; lia. }
  destruct (shape sec); [exact Hgoal|].
  destruct rows as [|[[[h m] sv] frac] [|? ?]]; exact Hgoal.
Qed.

Lemma store_column_length (w : Z) (f : Z * Z) (sub elems : list text) :
  List.length (store_column w f sub elems) = List.length elems.
Proof.
  revert elems. induction sub as [|s sub IH]; intros [|e elems]; simpl; auto.
Qed.

Lemma store_column_framed (w W L : Z) (f : Z * Z) (sub elems : list text) :
  within w L f -> L <= W ->
  Forall (framed W L) elems -> Forall (framed W L) (store_column w f sub elems).
Proof.
  intros Hf HL. revert elems.
  induction sub as [|s sub IH]; intros [|e elems] H; simpl; auto.
  inversion H; subst. constructor; [now apply framed_store | now apply IH].
Qed.

Lemma single_inv (o : output) (s : text) : single o = Ok s -> o = Single s.
Proof. destruct o; cbn; [now intros [= <-] | discriminate]. Qed.

Lemma filled_inv (o : output) (b : buffer) : filled o = Ok b -> o = Filled b.
Proof. destruct o; cbn; [discriminate | now intros [= <-]]. Qed.

Lemma format_day_sec_frame (day sec : value F) (order : text) (ydigits : Z)
    (dash sep colon : text) (digits : option Z) (suffix : text) (proleptic : bool)
    (b0 : buffer) (knd : kind) (out : output) :
  format_day_sec A day sec order ydigits dash sep colon digits suffix proleptic
                 (Some b0) knd = Ok out ->
  exists b shp days secs day0 sec0 rest dtext stext,
    out = Filled b /\
    broadcast_arrays day sec = Ok (shp, days, secs) /\
    map (rollover A (10 ^ match digits with None => 0 | Some d => Z.max d 0 end))
        (combine (map _int days) secs) = (day0, sec0) :: rest /\
    format_day A (Scalar (Int day0)) (filter (fun c => negb (Ascii.eqb c "T")) order)
               ydigits dash None proleptic None KU = Ok (Single dtext) /\
    format_sec A (Scalar (Flt sec0)) digits colon suffix None KU = Ok (Single stext) /\
    cleared_beyond (addressed shp (List.length (belems b0)))
                   (len dtext + len sep + len stext) b0 b.
Proof.
  unfold format_day_sec.
  destruct (py_index order 0) as [c0|]; cbn [bind]; [|discriminate].
  destruct (py_index order (-1)) as [cl|]; cbn [bind]; [|discriminate].
  destruct (negb (Ascii.eqb c0 "T") && negb (Ascii.eqb cl "T"));
    cbn [raise_if bind]; [discriminate|].
  destruct (broadcast_arrays day sec) as [[[shp days] secs]|] eqn:Eb;
    cbn [bind]; [|discriminate].
  destruct (interpret_kind shp (Some b0) knd "date") as [k|] eqn:Ek;
    cbn [bind]; [|discriminate].
  apply interpret_kind_some in Ek. destruct Ek as [-> Hle].
  set (w := char_size (bkind b0)).
  pose proof (char_size_pos (bkind b0)) as Hw. fold w in Hw.
  destruct (map _ _) as [|[day0 sec0] rest] eqn:Er; [discriminate|].
  destruct (format_day A (Scalar (Int day0)) _ _ _ _ _ _ _) as [o1|] eqn:E1;
    cbn [bind]; [|discriminate].
  destruct (single o1) as [dtext|] eqn:S1; cbn [bind]; [|discriminate].
  apply single_inv in S1. subst o1.
  destruct (format_sec A (Scalar (Flt sec0)) _ _ _ _ _) as [o2|] eqn:E2;
    cbn [bind]; [|discriminate].
  destruct (single o2) as [stext|] eqn:S2; cbn [bind]; [|discriminate].
  apply single_inv in S2. subst o2.
  pose proof (len_nonneg dtext) as Hd. pose proof (len_nonneg stext) as Ht.
  pose proof (len_nonneg sep) as Hp.
  set (L := len stext + len dtext + len sep).
  set (ftime := if Ascii.eqb c0 "T" then (len stext, 0)
                else (len stext, (len dtext + len sep) * w)).
  set (fdate := if Ascii.eqb c0 "T" then (len dtext, (len stext + len sep) * w)
                else (len dtext, 0)).
  set (fsep := if Ascii.eqb c0 "T" then (len sep, len stext * w)
               else (len sep, len dtext * w)).
  assert (Hft : within w L ftime).
  { unfold ftime, L. destruct (Ascii.eqb c0 "T").
    - apply (single_field_within w _ _ 0); lia.
    - apply single_field_within; lia. }
  assert (Hfd : within w L fdate).
  { unfold fdate, L. destruct (Ascii.eqb c0 "T").
    - apply single_field_within; lia.
    - apply (single_field_within w _ _ 0); lia. }
  assert (Hfs : within w L fsep).
  { unfold fsep, L. destruct (Ascii.eqb c0 "T"); apply single_field_within; lia. }
  match goal with
  | |- context [prepare _ _ _ ?d _ _] => set (dt0 := d)
  end.
  assert (Hdt0 : fields_within w L dt0).
  { assert (Hbase : fields_within w L [("time"%string, ftime); ("date"%string, fdate)])
      by (constructor; [exact Hft | constructor; [exact Hfd | constructor]]).
    unfold dt0. destruct (len sep =? 0); [exact Hbase|].
    unfold dtype_set. apply Forall_app. split; [exact Hbase|].
    constructor; [exact Hfs | constructor]. }
  clearbody dt0.
  assert (Hgoal : forall X : result output,
    X = ('(dt, b) <- prepare shp (Some b0) (bkind b0) dt0 L "date/time format" ;;
         let n := targets shp b in
         let view := firstn n (belems b) in
         let view := map (store_if w dt "sep" sep) view in
         let sub (f : Z * Z) := {| bkind := bkind b; bwidth := fst f;
                                   belems := map (field (fst f, snd f / w)) view |} in
         let days' := reshape shp (map (fun r => Int (fst r)) ((day0, sec0) :: rest)) in
         let secs' := reshape shp (map (fun r => Flt (snd r)) ((day0, sec0) :: rest)) in
         o <- format_day A days' (filter (fun c => negb (Ascii.eqb c "T")) order)
                ydigits dash None proleptic (Some (sub fdate)) KU ;;
         bdate <- filled o ;;
         let view := store_column w fdate (belems bdate) view in
         o <- format_sec A secs' digits colon suffix (Some (sub ftime)) KU ;;
         btime <- filled o ;;
         let view := store_column w ftime (belems btime) view in
         Ok (Filled {| bkind := bkind b; bwidth := bwidth b;
                       belems := view ++ skipn n (belems b) |})) ->
    X = Ok out ->
    exists b, out = Filled b /\
      cleared_beyond (addressed shp (List.length (belems b0))) L b0 b).
  { intros X ->.
    destruct (prepare _ _ _ _ _ _) as [[dt b]|] eqn:Ep; cbn [bind]; [|discriminate].
    apply prepare_spec in Ep; [|unfold L; lia | exact Hdt0].
    destruct Ep as (Hdt & HLb & Hnul & Hk & Hwd & Hn).
    cbv zeta.
    match goal with
    | |- bind ?x _ = _ -> _ => destruct x as [o|]; cbn [bind]; [|discriminate]
    end.
    destruct (filled o) as [bdate|]; cbn [bind]; [|discriminate].
    match goal with
    | |- bind ?x _ = _ -> _ => destruct x as [o'|]; cbn [bind]; [|discriminate]
    end.
    destruct (filled o') as [btime|]; cbn [bind]; [|discriminate].
    intros [= <-]. eexists. split; [reflexivity|].
    assert (Htg : targets shp b = addressed shp (List.length (belems b0)))
      by (unfold targets, addressed; rewrite Hn; now destruct shp).
    rewrite Htg.
    set (n := addressed shp (List.length (belems b0))) in *.
    set (view := store_column w ftime _ _).
    assert (Hvl : List.length view = n).
    { unfold view. rewrite !store_column_length, length_map, length_firstn. lia. }
    assert (Hvf : Forall (framed (bwidth b) L) view).
    { unfold view. do 2 (apply store_column_framed; [assumption | lia |]).
      apply Forall_forall. intros r Hr. apply in_map_iff in Hr.
      destruct Hr as (r0 & <- & Hr0).
      apply framed_store_if; [assumption | discriminate | lia |].
      apply in_firstn_in in Hr0.
      rewrite (proj1 (Forall_forall _ _) Hnul r0 Hr0).
      apply framed_init. unfold L. lia. }
    unfold cleared_beyond; cbn [bkind bwidth belems].
    split; [assumption|]. split; [assumption|].
    split; [rewrite length_app, length_skipn; lia|].
    split; [assumption|].
    split.
    - rewrite <- Hvl, firstn_app, Nat.sub_diag, firstn_all. cbn [firstn].
      now rewrite app_nil_r.
    - rewrite <- Hvl, skipn_app, Nat.sub_diag, skipn_all. cbn [skipn app].
      apply Forall_forall. intros r Hr.
      apply (proj1 (Forall_forall _ _) Hnul). eapply in_skipn_in; eauto. }
  intros H.
  assert (Hex : exists b, out = Filled b /\
      cleared_beyond (addressed shp (List.length (belems b0))) L b0 b).
  { destruct shp; eapply Hgoal; try exact H; reflexivity. }
  destruct Hex as (b & -> & Hc).
  exists b, shp, days, secs, day0, sec0, rest, dtext, stext.
  repeat (split; [reflexivity || assumption|]).
  replace (len dtext + len sep + len stext) with L by (unfold L; lia).
  exact Hc.
Qed.

End Frame.

(** C4, as amended: a formatter that writes into a caller-supplied buffer
    first clears the whole buffer ([buffer.fill(null)]) and then writes the
    declared fields of the addressed elements.  So after [format_day],
    [format_sec] or [format_day_sec] returns, the buffer has its kind, width
    and length, every addressed element holds NUL from the synthesised
    record width on, and every element beyond the batch holds NUL
    throughout -- whatever the caller had stored there. *)
Theorem buffer_is_cleared_beyond_the_record
    {F : Type} {FO : PyFloat F} (A : Adapter F) :
  (forall day order ydigits dash ddigits proleptic b0 knd out,
     format_day A day order ydigits dash ddigits proleptic (Some b0) knd = Ok out ->
     exists b, out = Filled b /\
       cleared_beyond (addressed (shape day) (List.length (belems b0)))
         (dl_lstring (day_layout_of (char_size (bkind b0)) order dash ydigits
                        (_is_float day && ddigits_ge0 ddigits) (digits_of ddigits)))
         b0 b) /\
  (forall sec digits colon suffix b0 knd out,
     format_sec A sec digits colon suffix (Some b0) knd = Ok out ->
     exists b, out = Filled b /\
       cleared_beyond (addressed (shape sec) (List.length (belems b0)))
         (snd (sec_layout (char_size (bkind b0)) colon suffix
                          (ddigits_ge0 digits) (digits_of digits)))
         b0 b) /\
  (forall day sec order ydigits dash sep colon digits suffix proleptic b0 knd out,
     format_day_sec A day sec order ydigits dash sep colon digits suffix proleptic
                    (Some b0) knd = Ok out ->
     exists b shp days secs day0 sec0 rest dtext stext,
       out = Filled b /\
       broadcast_arrays day sec = Ok (shp, days, secs) /\
       map (rollover A (10 ^ match digits with None => 0 | Some d => Z.max d 0 end))
           (combine (map _int days) secs) = (day0, sec0) :: rest /\
       format_day A (Scalar (Int day0)) (filter (fun c => negb (Ascii.eqb c "T")) order)
                  ydigits dash None proleptic None KU = Ok (Single dtext) /\
       format_sec A (Scalar (Flt sec0)) digits colon suffix None KU = Ok (Single stext) /\
       cleared_beyond (addressed shp (List.length (belems b0)))
                      (len dtext + len sep + len stext) b0 b).
Proof.
  split; [|split].
  - intros. eapply format_day_frame; eauto.
  - intros. eapply format_sec_frame; eauto.
  - intros. eapply format_day_sec_frame; eauto.
Qed.


(** One date written into the first of the two cells. *)
Lemma buffer_is_cleared_beyond_the_record_witness :
  exists b,
    format_day (F:=Q) Ref.adapter (Array [Int 0]) (txt "YMD") 4 (txt "-") None false
               (Some used_cells) KS = Ok (Filled b)
    /\ cleared_beyond 1 10 used_cells b.
Proof.
  destruct (proj1 (buffer_is_cleared_beyond_the_record (F:=Q) Ref.adapter)
              (Array [Int 0]) (txt "YMD") 4 (txt "-") None false used_cells KS
              (Filled {| bkind := KS; bwidth := 12;
                         belems := [pad_nul 12 (txt "2000-01-01");
                                    replicate 12 NUL] |})
              eq_refl) as (b & Hb & Hc).
  exists b. split; [rewrite <- Hb; reflexivity | exact Hc].
Defined.

(** C4 as stated fails: the two bytes after the 10-byte date and the whole
    second cell, all outside the declared fields and the batch, are
    overwritten with NUL. *)
Lemma caller_bytes_are_overwritten :
  format_day (F:=Q) Ref.adapter (Array [Int 0]) (txt "YMD") 4 (txt "-") None false
             (Some used_cells) KS
  = Ok (Filled {| bkind := KS; bwidth := 12;
                  belems := [txt "2000-01-01" ++ [NUL; NUL]; replicate 12 NUL] |})
  /\ slice (txt "XXXXXXXXXXXX") 10 12 <> [NUL; NUL]
  /\ txt "YYYYYYYYYYYY" <> replicate 12 NUL
  /\ format_day_sec (F:=Q) Ref.adapter (Array [Int 0]) (Array [Int 0]) (txt "YMDT") 4
       (txt "-") (txt "T") (txt ":") None (txt "") false
       (Some {| bkind := KS; bwidth := 20;
                belems := [txt "XXXXXXXXXXXXXXXXXXXX"; txt "YYYYYYYYYYYYYYYYYYYY"] |}) KS
     = Ok (Filled {| bkind := KS; bwidth := 20;
                     belems := [txt "2000-01-01T00:00:00" ++ [NUL];
                                replicate 20 NUL] |}).
Proof.
  split; [reflexivity|]. split; [discriminate|]. split; [discriminate|].
  vm_compute. reflexivity.
Qed.

(** ** The layouts of [format_day], order by order *)

Ltac order_cases Ho :=
  let H := fresh in
  pose proof Ho as H; unfold valid_order in H;
  destruct H as [-> | [-> | [-> | [-> | ->]]]].

Lemma valid_order_text_in (order : text) :
  valid_order order <-> text_in order ["YMD"; "MDY"; "DMY"; "YD"; "DY"]%string = true.
Proof.
  unfold valid_order, text_in. cbn [existsb]. rewrite !orb_true_iff, !text_eqb_eq.
  intuition discriminate.
Qed.

(** Without a decimal point the layout does not depend on [ddigits]. *)
Lemma day_layout_no_dot_indep (w : Z) (order dash : text) (ydigits dd dd' : Z) :
  day_layout_of w order dash ydigits false dd
  = day_layout_of w order dash ydigits false dd'.
Proof. reflexivity. Qed.

Lemma fraction_fold_get (w : Z) (idx : list Z) (l : day_layout) (name : string) :
  (forall i, ("f" ++ str_int i)%string <> name) ->
  dtype_get (dl_dtype (fold_left (fun l i => dl_field l w ("f" ++ str_int i) 1) idx l))
            name
  = dtype_get (dl_dtype l) name.
Proof.
  intros Hn. revert l. induction idx as [|i idx IH]; intros l; simpl; [reflexivity|].
  rewrite IH. cbn [dl_field dl_dtype]. unfold dtype_set. rewrite dtype_get_app.
  destruct (dtype_get (dl_dtype l) name); [reflexivity|].
  cbn [fst snd]. destruct (String.eqb _ name) eqn:E; [|reflexivity].
  apply String.eqb_eq in E. now elim (Hn i).
Qed.

Lemma fraction_fold_lstring (w : Z) (idx : list Z) (l : day_layout) :
  dl_lstring (fold_left (fun l i => dl_field l w ("f" ++ str_int i) 1) idx l)
  = dl_lstring l + len idx.
Proof.
  revert l. induction idx as [|i idx IH]; intros l; simpl.
  - unfold len. simpl. lia.
  - rewrite IH. cbn [dl_field dl_lstring]. unfold len. simpl List.length. lia.
Qed.

Lemma len_arange (n : nat) (i : Z) : len (arange n i) = Z.of_nat n.
Proof. unfold len. now rewrite arange_length. Qed.

Lemma fraction_fold_fmt (w : Z) (idx : list Z) (l : day_layout) :
  dl_fmt (fold_left (fun l i => dl_field l w ("f" ++ str_int i) 1) idx l) = dl_fmt l.
Proof.
  revert l. induction idx as [|i idx IH]; intros l; simpl; [reflexivity|].
  now rewrite IH.
Qed.

Lemma fmt_format_app (a b : list fmt_item) (y m d f : Z) :
  fmt_format (a ++ b) y m d f = fmt_format a y m d f ++ fmt_format b y m d f.
Proof. unfold fmt_format. now rewrite map_app, concat_app. Qed.

Lemma len_0_nil {T} (s : list T) : len s = 0 -> s = [].
Proof. destruct s; [reflexivity|]. unfold len. simpl. lia. Qed.

Lemma fmt_format_one (it : fmt_item) (y m d f : Z) :
  fmt_format [it] y m d f
  = match it with
    | Lit s => s
    | FmtY w => pct_d w y
    | FmtM => pct_d 2 m
    | FmtD w => pct_d w d
    | FmtF w => pct_d w f
    end.
Proof. unfold fmt_format. cbn [map List.concat]. apply app_nil_r. Qed.

(** One turn of the layout loop appends the separator (after the first
    field) and the text of one field to what the format renders, and their
    widths to the record width. *)
Lemma day_layout_step_fmt (w : Z) (order dash : text) (ydigits : Z)
    (has_dot : bool) (dd : Z) (l : day_layout) (field : Z) (c : ascii) (y m d f : Z) :
  fmt_format (dl_fmt (day_layout_step w order dash ydigits has_dot dd l (field, c)))
             y m d f
  = fmt_format (dl_fmt l) y m d f
    ++ (if 0 <? field then dash else [])
    ++ field_text order ydigits has_dot dd y m d f c.
Proof.
  unfold day_layout_step, field_text, fraction_text.
  destruct (0 <? field); destruct (len dash =? 0) eqn:Ed; cbn [andb negb];
    try (apply Z.eqb_eq, len_0_nil in Ed; subst dash);
    destruct (Ascii.eqb c "Y"); [destruct (ydigits =? 4)| | destruct (ydigits =? 4)|
      | destruct (ydigits =? 4)| | destruct (ydigits =? 4)| ];
    try (destruct (Ascii.eqb c "M"); [|destruct has_dot; [destruct (0 <? dd)|]]);
    cbn [dl_field dl_append dl_fmt];
    rewrite ?fraction_fold_fmt; cbn [dl_field dl_append dl_fmt];
    rewrite ?fmt_format_app, ?fmt_format_one;
    cbn [app]; rewrite ?app_nil_r, <- ?app_assoc; reflexivity.
Qed.


Lemma day_layout_step_lstring (w : Z) (order dash : text) (ydigits : Z)
    (has_dot : bool) (dd : Z) (l : day_layout) (fc : Z * ascii) :
  dl_lstring (day_layout_step w order dash ydigits has_dot dd l fc)
  = dl_lstring l + step_width order dash ydigits has_dot dd fc.
Proof.
  destruct fc as [field c]. unfold day_layout_step, step_width. cbn [fst snd].
  destruct (0 <? field); destruct (len dash =? 0) eqn:Ed; cbn [andb negb];
    try (apply Z.eqb_eq in Ed);
    destruct (Ascii.eqb c "Y"); [destruct (ydigits =? 4)| | destruct (ydigits =? 4)|
      | destruct (ydigits =? 4)| | destruct (ydigits =? 4)| ];
    try (destruct (Ascii.eqb c "M");
         [|destruct has_dot; [destruct (0 <? dd) eqn:E0|]]);
    cbn [dl_field dl_append dl_lstring];
    rewrite ?fraction_fold_lstring, ?len_arange; cbn [dl_field dl_append dl_lstring];
    try (apply Z.ltb_lt in E0); lia.
Qed.

Lemma fold_step_lstring (w : Z) (order dash : text) (ydigits : Z)
    (has_dot : bool) (dd : Z) (fcs : list (Z * ascii)) (l : day_layout) :
  dl_lstring (fold_left (day_layout_step w order dash ydigits has_dot dd) fcs l)
  = dl_lstring l
    + fold_right Z.add 0 (map (step_width order dash ydigits has_dot dd) fcs).
Proof.
  revert l. induction fcs as [|fc fcs IH]; intros l; simpl; [lia|].
  rewrite IH, day_layout_step_lstring. lia.
Qed.

(** The synthesised width, for every recognised order. *)
Lemma day_layout_width (w : Z) (order dash : text) (ydigits : Z)
    (has_dot : bool) (dd : Z) :
  valid_order order -> ydigits = 2 \/ ydigits = 4 -> (has_dot = true -> 0 <= dd) ->
  dl_lstring (day_layout_of w order dash ydigits has_dot dd)
  = date_width order ydigits (len dash) + (if has_dot then 1 + dd else 0).
Proof.
  intros Ho Hy Hdd. unfold day_layout_of. rewrite fold_step_lstring.
  cbn [dl_lstring].
  remember (if has_dot then 1 + dd else 0) as tail eqn:Et.
  assert (Ht : (if has_dot then 1 + (if 0 <? dd then dd else 0) else 0) = tail).
  { subst tail. destruct has_dot; [|reflexivity]. specialize (Hdd eq_refl).
    destruct (0 <? dd) eqn:E; [reflexivity|]. apply Z.ltb_ge in E. lia. }
  unfold step_width. rewrite Ht. clear Et Ht Hdd.
  unfold date_width. set (ld := len dash).
  order_cases Ho; destruct Hy as [-> | ->];
    cbn [txt list_ascii_of_string enumerate_from map fold_right fst snd
         Ascii.eqb Bool.eqb];
    change (0 <? 0) with false; change (0 <? 0 + 1) with true;
    change (0 <? 0 + 1 + 1) with true;
    repeat match goal with
           | |- context [len ?s =? ?k] =>
               let b := eval vm_compute in (len s =? k) in
               change (len s =? k) with b
           | |- context [len ?s - 1] =>
               let b := eval vm_compute in (len s - 1) in
               change (len s - 1) with b
           end;
    change (2 =? 4) with false; change (4 =? 4) with true;
    cbv iota; lia.
Qed.

Lemma fold_step_fmt (w : Z) (order dash : text) (ydigits : Z)
    (has_dot : bool) (dd : Z) (y m d f : Z) (fcs : list (Z * ascii)) (l : day_layout) :
  fmt_format (dl_fmt (fold_left (day_layout_step w order dash ydigits has_dot dd) fcs l))
             y m d f
  = fmt_format (dl_fmt l) y m d f
    ++ List.concat (map (fun fc => (if 0 <? fst fc then dash else [])
                                   ++ field_text order ydigits has_dot dd y m d f (snd fc))
                        fcs).
Proof.
  revert l. induction fcs as [|[field c] fcs IH]; intros l;
    cbn [fold_left map List.concat fst snd].
  - now rewrite app_nil_r.
  - rewrite IH, day_layout_step_fmt, <- !app_assoc. reflexivity.
Qed.

Lemma concat_separated (dash : text) (g : ascii -> text) (o : text) (k : Z) :
  0 < k ->
  List.concat (map (fun fc => (if 0 <? fst fc then dash else []) ++ g (snd fc))
                   (enumerate_from k o))
  = List.concat (map (fun c => dash ++ g c) o).
Proof.
  revert k. induction o as [|c o IH]; intros k Hk; simpl; [reflexivity|].
  rewrite (proj2 (Z.ltb_lt 0 k) Hk), IH by lia. reflexivity.
Qed.

Lemma join_cons (dash : text) (p : text) (ps : list text) :
  join dash (p :: ps) = p ++ List.concat (map (fun q => dash ++ q) ps).
Proof.
  revert p. induction ps as [|q ps IH]; intros p.
  - simpl. now rewrite app_nil_r.
  - change (join dash (p :: q :: ps)) with (p ++ dash ++ join dash (q :: ps)).
    rewrite IH. cbn [map List.concat]. now rewrite <- app_assoc.
Qed.

(** What the synthesised format string renders is the date text of the
    specification, for every order. *)
Lemma fmt_format_day_layout (w : Z) (order dash : text) (ydigits : Z)
    (has_dot : bool) (dd : Z) (y m d f : Z) :
  fmt_format (dl_fmt (day_layout_of w order dash ydigits has_dot dd)) y m d f
  = date_text order ydigits dash has_dot dd y m d f.
Proof.
  unfold day_layout_of, date_text. rewrite fold_step_fmt.
  cbn [dl_fmt fmt_format map List.concat app].
  generalize (field_text order ydigits has_dot dd y m d f). intros g.
  destruct order as [|c o]; [reflexivity|].
  cbn [enumerate_from map List.concat fst snd]. change (0 <? 0) with false.
  cbn [app]. rewrite concat_separated by lia.
  rewrite join_cons, map_map. reflexivity.
Qed.

(** Which fields a turn of the loop declares. *)
Lemma day_layout_step_dot (w : Z) (order dash : text) (ydigits : Z)
    (has_dot : bool) (dd : Z) (l : day_layout) (fc : Z * ascii) :
  has_field (dl_dtype (day_layout_step w order dash ydigits has_dot dd l fc)) "dot"
  = has_field (dl_dtype l) "dot"
    || (negb (Ascii.eqb (snd fc) "Y") && negb (Ascii.eqb (snd fc) "M") && has_dot).
Proof.
  destruct fc as [field c]. unfold day_layout_step, has_field. cbn [fst snd].
  assert (Hdash : forall k, String.eqb ("dash" ++ str_int k) "dot" = false).
  { intros k. reflexivity. }
  destruct (dtype_get (dl_dtype l) "dot") as [g|] eqn:Eg;
    destruct ((0 <? field) && negb (len dash =? 0));
    destruct (Ascii.eqb c "Y"); [destruct (ydigits =? 4)| | destruct (ydigits =? 4)|
      | destruct (ydigits =? 4)| | destruct (ydigits =? 4)| ];
    try (destruct (Ascii.eqb c "M");
         [|destruct has_dot; [destruct (0 <? dd) eqn:E0|]]);
    cbn [dl_field dl_append dl_dtype negb andb orb];
    rewrite ?fraction_fold_get by discriminate;
    cbn [dl_field dl_append dl_dtype];
    unfold dtype_set; rewrite ?dtype_get_app, ?Eg; cbn [fst snd];
    rewrite ?Hdash; reflexivity.
Qed.

Lemma day_layout_step_y12 (w : Z) (order dash : text) (ydigits : Z)
    (has_dot : bool) (dd : Z) (l : day_layout) (fc : Z * ascii) :
  has_field (dl_dtype (day_layout_step w order dash ydigits has_dot dd l fc)) "y12"
  = has_field (dl_dtype l) "y12" || (Ascii.eqb (snd fc) "Y" && (ydigits =? 4)).
Proof.
  destruct fc as [field c]. unfold day_layout_step, has_field. cbn [fst snd].
  assert (Hdash : forall k, String.eqb ("dash" ++ str_int k) "y12" = false).
  { intros k. reflexivity. }
  destruct (dtype_get (dl_dtype l) "y12") as [g|] eqn:Eg;
    destruct ((0 <? field) && negb (len dash =? 0));
    destruct (Ascii.eqb c "Y"); [destruct (ydigits =? 4)| | destruct (ydigits =? 4)|
      | destruct (ydigits =? 4)| | destruct (ydigits =? 4)| ];
    try (destruct (Ascii.eqb c "M");
         [|destruct has_dot; [destruct (0 <? dd) eqn:E0|]]);
    cbn [dl_field dl_append dl_dtype negb andb orb];
    rewrite ?fraction_fold_get by discriminate;
    cbn [dl_field dl_append dl_dtype];
    unfold dtype_set; rewrite ?dtype_get_app, ?Eg; cbn [fst snd];
    rewrite ?Hdash; reflexivity.
Qed.

Lemma fold_step_has (name : string) (w : Z) (order dash : text) (ydigits : Z)
    (has_dot : bool) (dd : Z) (declares : Z * ascii -> bool) :
  (forall l fc,
     has_field (dl_dtype (day_layout_step w order dash ydigits has_dot dd l fc)) name
     = has_field (dl_dtype l) name || declares fc) ->
  forall fcs l,
  has_field (dl_dtype (fold_left (day_layout_step w order dash ydigits has_dot dd) fcs l))
            name
  = has_field (dl_dtype l) name || existsb declares fcs.
Proof.
  intros Hstep. induction fcs as [|fc fcs IH]; intros l; simpl.
  - now rewrite orb_false_r.
  - rewrite IH, Hstep, orb_assoc. reflexivity.
Qed.

(** The decimal point is declared exactly when [has_dot] holds, and the
    century field exactly for 4-digit years. *)
Lemma day_layout_fields (w : Z) (order dash : text) (ydigits : Z)
    (has_dot : bool) (dd : Z) :
  valid_order order ->
  let l := day_layout_of w order dash ydigits has_dot dd in
  has_field (dl_dtype l) "dot" = has_dot /\
  has_field (dl_dtype l) "y12" = (ydigits =? 4).
Proof.
  intros Ho. cbv zeta. unfold day_layout_of. split.
  - rewrite (fold_step_has "dot" _ _ _ _ _ _ _
               (day_layout_step_dot w order dash ydigits has_dot dd)).
    order_cases Ho; cbn; now destruct has_dot.
  - rewrite (fold_step_has "y12" _ _ _ _ _ _ _
               (day_layout_step_y12 w order dash ydigits has_dot dd)).
    order_cases Ho; cbn; now destruct (ydigits =? 4).
Qed.

(** ** Scalar dates, integer days, two-digit years *)

Section ScalarDates.

Context {F : Type} {FO : PyFloat F} (A : Adapter F).

(** The string [format_day] returns for a scalar day and no buffer. *)
Lemma format_day_scalar (x : number F) (order : text) (ydigits : Z) (dash : text)
    (ddigits : option Z) (proleptic : bool) (knd : kind) :
  valid_order order -> ydigits = 2 \/ ydigits = 4 -> kind_is_US knd = true ->
  let has_dot := is_flt x && ddigits_ge0 ddigits in
  let dd := digits_of ddigits in
  let part := split_number has_dot (10 ^ dd) x in
  let '(y, m, d) := calendar_fields A order (fst part) proleptic in
  format_day A (Scalar x) order ydigits dash ddigits proleptic None knd
  = Ok (Single (date_text order ydigits dash has_dot dd
                          (shown_year ydigits y) m d (shown_fraction (snd part) dd))).
Proof.
  intros Ho Hy Hk. cbv zeta.
  destruct (calendar_fields A order _ proleptic) as [[y m] d] eqn:Ec.
  unfold format_day.
  rewrite (proj1 (valid_order_text_in order) Ho). cbn [negb raise_if bind].
  assert (Hyd : (ydigits =? 2) || (ydigits =? 4) = true)
    by (destruct Hy as [-> | ->]; reflexivity).
  rewrite Hyd. cbn [negb raise_if bind shape _is_float elements map].
  unfold interpret_kind. rewrite Hk. cbn [negb raise_if bind combine].
  unfold calendar_fields in Ec.
  destruct (split_number _ _ x) as [i frac] eqn:Es. cbn [fst snd] in *.
  destruct (len order =? 3).
  - rewrite Ec. rewrite fmt_format_day_layout. reflexivity.
  - destruct (yd_from_day A i proleptic) as [y' d'].
    injection Ec as <- <- <-. rewrite fmt_format_day_layout. reflexivity.
Qed.

Lemma mapM_ext_in {X Y} (f g : X -> result Y) (l : list X) :
  (forall x, In x l -> f x = g x) -> mapM f l = mapM g l.
Proof.
  induction l as [|x l IH]; intros H; simpl; [reflexivity|].
  rewrite (H x) by now left. rewrite IH; [reflexivity|].
  intros y Hy. apply H. now right.
Qed.

Lemma in_combine_snd {X Y} (a : list X) (b : list Y) (p : X * Y) :
  In p (combine a b) -> In (snd p) b.
Proof. destruct p. apply in_combine_r. Qed.

(** For integer days [ddigits] does not enter the result. *)
Lemma format_day_int_ignores_ddigits (day : value F) (order : text) (ydigits : Z)
    (dash : text) (ddigits : option Z) (proleptic : bool)
    (buf : option buffer) (knd : kind) :
  _is_float day = false ->
  format_day A day order ydigits dash ddigits proleptic buf knd
  = format_day A day order ydigits dash None proleptic buf knd.
Proof.
  intros Hf. unfold format_day. rewrite Hf. cbn [andb].
  destruct (raise_if (negb (text_in order _)) _); cbn [bind]; [|reflexivity].
  destruct (raise_if (negb _) _); cbn [bind]; [|reflexivity].
  destruct (interpret_kind _ _ _ _) as [k|]; cbn [bind]; [|reflexivity].
  change (map (split_number false (10 ^ digits_of ddigits)) (elements day))
    with (map (fun x : number F => (_int x, @None F)) (elements day)).
  change (map (split_number false (10 ^ digits_of None)) (elements day))
    with (map (fun x : number F => (_int x, @None F)) (elements day)).
  set (parts := map (fun x : number F => (_int x, @None F)) (elements day)).
  set (rows := combine _ parts).
  assert (Hrows : forall r, In r rows -> snd (snd r) = None).
  { intros r Hr. apply in_combine_snd in Hr. unfold parts in Hr.
    apply in_map_iff in Hr. now destruct Hr as (x & <- & _). }
  change (day_layout_of (char_size k) order dash ydigits false (digits_of None))
    with (day_layout_of (char_size k) order dash ydigits false (digits_of ddigits)).
  set (l := day_layout_of _ _ _ _ _ _).
  assert (Hbatch :
    ('(dt, b) <- prepare (shape day) buf k (dl_dtype l) (dl_lstring l) "date format" ;;
     recs <- mapM (fun '((y, m, d), (_, frac)) =>
                     day_record (char_size k) dt order dash (digits_of ddigits) (bwidth b)
                                y m d frac) (broadcast (shape day) b rows) ;;
     Ok (Filled (fill_targets (shape day) b recs)))
    = ('(dt, b) <- prepare (shape day) buf k (dl_dtype l) (dl_lstring l) "date format" ;;
       recs <- mapM (fun '((y, m, d), (_, frac)) =>
                       day_record (char_size k) dt order dash (digits_of None) (bwidth b)
                                  y m d frac) (broadcast (shape day) b rows) ;;
       Ok (Filled (fill_targets (shape day) b recs)))).
  { destruct (prepare _ _ _ _ _ _) as [[dt b]|]; cbn [bind]; [|reflexivity].
    erewrite mapM_ext_in; [reflexivity|].
    intros [[[y m] d] [i frac]] Hin. apply In_broadcast in Hin.
    apply Hrows in Hin. cbn [snd] in Hin. subst frac. reflexivity. }
  destruct (shape day); [exact Hbatch|].
  destruct buf; [exact Hbatch|].
  destruct rows as [|[[[y m] d] [i frac]] [|? ?]] eqn:Er; try exact Hbatch.
  assert (Hn : frac = None) by (apply (Hrows (y, m, d, (i, frac))); now left).
  subst frac. reflexivity.
Qed.

Lemma pct_d_chars (w n : Z) :
  Forall (fun c => c = "-"%char \/ is_digit c = true) (pct_d w n).
Proof.
  unfold pct_d. destruct (n <? 0).
  - constructor; [now left|].
    eapply Forall_impl; [|apply zfill_digits]. now right.
  - eapply Forall_impl; [|apply zfill_digits]. now right.
Qed.

Lemma contains_false (c : ascii) (s : text) :
  contains c s = false <-> Forall (fun x => x <> c) s.
Proof.
  unfold contains. induction s as [|x s IH]; simpl.
  - split; auto.
  - rewrite orb_false_iff, IH, Ascii.eqb_neq. split.
    + intros [H1 H2]. constructor; congruence.
    + intros H. inversion H; subst. split; congruence.
Qed.

Lemma pct_d_no_dot (w n : Z) : Forall (fun x => x <> "."%char) (pct_d w n).
Proof.
  eapply Forall_impl; [|apply pct_d_chars].
  intros c [-> | Hc]; [discriminate|]. now apply (is_digit_not c ".").
Qed.

Lemma join_forall (P : ascii -> Prop) (sep : text) (parts : list text) :
  Forall P sep -> Forall (Forall P) parts -> Forall P (join sep parts).
Proof.
  intros Hs. induction 1 as [|p ps Hp _ IH]; [constructor|].
  destruct ps as [|q ps]; [exact Hp|].
  change (join sep (p :: q :: ps)) with (p ++ sep ++ join sep (q :: ps)).
  rewrite !Forall_app. auto.
Qed.

(** Without a fraction the date text holds a decimal point only if the
    separator does. *)
Lemma date_text_no_dot (order : text) (ydigits : Z) (dash : text) (dd y m d f : Z) :
  contains "." dash = false ->
  contains "." (date_text order ydigits dash false dd y m d f) = false.
Proof.
  rewrite !contains_false. intros Hd. unfold date_text.
  apply join_forall; [exact Hd|].
  apply Forall_forall. intros p Hp. apply in_map_iff in Hp.
  destruct Hp as (c & <- & _). unfold field_text, fraction_text.
  destruct (Ascii.eqb c "Y"); [apply pct_d_no_dot|].
  destruct (Ascii.eqb c "M"); [apply pct_d_no_dot|].
  rewrite app_nil_r. apply pct_d_no_dot.
Qed.

Lemma len_app {T} (a b : list T) : len (a ++ b) = len a + len b.
Proof. unfold len. rewrite length_app. lia. Qed.

(** A date text whose calendar fields fit their columns has the synthesised
    width. *)
Lemma len_date_text (order : text) (ydigits : Z) (dash : text) (dd y m d f : Z) :
  valid_order order -> ydigits = 2 \/ ydigits = 4 ->
  0 <= y < 10 ^ ydigits -> 0 <= m < 100 ->
  0 <= d < (if len order =? 3 then 100 else 1000) ->
  len (date_text order ydigits dash false dd y m d f)
  = date_width order ydigits (len dash).
Proof.
  intros Ho Hy Hyr Hm Hd. unfold date_text, date_width, field_text, fraction_text.
  assert (Ey : len (pct_d ydigits y) = ydigits)
    by (apply len_pct_d; [destruct Hy; lia | exact Hyr]).
  assert (Em : len (pct_d 2 m) = 2) by (apply len_pct_d; lia).
  set (ld := len dash).
  order_cases Ho;
    cbn [txt list_ascii_of_string map join Ascii.eqb Bool.eqb];
    repeat match goal with
           | |- context [len ?s =? ?k] =>
               let b := eval vm_compute in (len s =? k) in
               change (len s =? k) with b
           | |- context [len ?s - 1] =>
               let b := eval vm_compute in (len s - 1) in
               change (len s - 1) with b
           | H : context [len ?s =? ?k] |- _ =>
               let b := eval vm_compute in (len s =? k) in
               change (len s =? k) with b in H
           end;
    cbv iota in Hd |- *;
    rewrite ?len_app, ?app_nil_r, ?Ey, ?Em, ?len_pct_d by lia; fold ld;
    change (len (@nil ascii)) with 0; lia.
Qed.

(** A batch without a buffer comes back as a fresh array whose elements all
    have the synthesised width. *)
Lemma format_day_fresh (xs : list (number F)) (order : text) (ydigits : Z)
    (dash : text) (ddigits : option Z) (proleptic : bool) (knd : kind) (out : output) :
  format_day A (Array xs) order ydigits dash ddigits proleptic None knd = Ok out ->
  exists b, out = Filled b /\ bkind b = knd /\
    bwidth b = dl_lstring (day_layout_of (char_size knd) order dash ydigits
                             (existsb is_flt xs && ddigits_ge0 ddigits)
                             (digits_of ddigits)) /\
    List.length (belems b) = List.length xs /\
    Forall (fun r => len r = bwidth b) (belems b).
Proof.
  unfold format_day.
  destruct (negb (text_in order _)); cbn [raise_if bind]; [discriminate|].
  destruct (negb _); cbn [raise_if bind]; [discriminate|].
  unfold interpret_kind.
  destruct (negb (kind_is_US knd)); cbn [raise_if bind]; [discriminate|].
  cbn [shape _is_float elements].
  set (w := char_size knd).
  set (l := day_layout_of w order dash ydigits _ _).
  set (rows := combine _ _).
  assert (Hrows : List.length rows = List.length xs).
  { unfold rows. rewrite length_combine, !length_map. apply Nat.min_id. }
  pose proof (day_layout_of_ok w order dash ydigits
                (existsb is_flt xs && ddigits_ge0 ddigits) (digits_of ddigits)
                (char_size_pos _)) as [Hl0 Hlf].
  fold l in Hl0, Hlf.
  destruct (prepare _ _ _ _ _ _) as [[dt b]|] eqn:Ep; cbn [bind]; [|discriminate].
  apply prepare_spec in Ep; auto.
  destruct Ep as (Hdt & HLb & Hnul & Hk & Hw & Hn).
  destruct (mapM _ _) as [recs|] eqn:Em; cbn [bind]; [|discriminate].
  intros [= <-]. eexists. split; [reflexivity|].
  unfold fill_targets, targets, broadcast in *; cbn [bkind bwidth belems].
  assert (Hlen : List.length recs = List.length xs)
    by (rewrite (mapM_length _ _ _ Em); exact Hrows).
  split; [assumption|]. split; [assumption|].
  rewrite skipn_all2 by lia. rewrite app_nil_r.
  split; [assumption|].
  eapply mapM_Forall; [|exact Em].
  intros [[[y m] d] [i frac]] r _ Hr.
  assert (Hfr : framed (bwidth b) (dl_lstring l) r)
    by (eapply day_record_framed; eauto; lia).
  apply Hfr.
Qed.

End ScalarDates.



(** ** Reading rendered text back *)


Lemma digit_solid (c : ascii) : is_digit c = true -> solid c.
Proof. intros H. split; now apply (is_digit_not c). Qed.

Lemma zfill_solid (w : nat) (n : Z) : Forall solid (zfill w n).
Proof. eapply Forall_impl; [|apply zfill_digits]. apply digit_solid. Qed.

Lemma solid_not_nul (s : text) : Forall solid s -> Forall (fun c => c <> NUL) s.
Proof. apply Forall_impl. now intros c []. Qed.

Lemma solid_not_blank (s : text) : Forall solid s -> Forall (fun c => c <> blank) s.
Proof. apply Forall_impl. now intros c []. Qed.

Lemma replicate_0 (n : Z) (c : ascii) : n <= 0 -> replicate n c = [].
Proof. intros H. unfold replicate. now replace (Z.to_nat n) with 0%nat by lia. Qed.

Lemma pad_nul_exact (n : Z) (s : text) : n = len s -> pad_nul n s = s.
Proof.
  intros ->. unfold pad_nul. rewrite replicate_0 by lia. apply app_nil_r.
Qed.


Lemma np_array_S_solid (s : text) :
  Forall solid s -> s <> [] -> np_array_S (Str s) = scalar_array s.
Proof.
  intros Hs Hne. unfold np_array_S, scalar_array.
  rewrite rstrip_nul_id by now apply solid_not_nul.
  assert (1 <= len s) by (destruct s; [contradiction | unfold len; simpl; lia]).
  rewrite Z.max_r by lia. now rewrite pad_nul_exact.
Qed.

Lemma first_of_scalar_array (s : text) :
  Forall solid s -> first_of (scalar_array s) = Ok s.
Proof.
  intros Hs. unfold first_of, scalar_array; cbn [items].
  now rewrite rstrip_nul_id by now apply solid_not_nul.
Qed.

Lemma count_white_solid (s : text) :
  Forall solid s -> _count_white s = (0, 0).
Proof.
  intros Hs. destruct s as [|c r]; [reflexivity|].
  pose proof (count_white_padded 0 0 (c :: r)) as H.
  unfold padded in H. cbn [repeat app] in H. rewrite app_nil_r in H.
  apply H; [discriminate | now apply solid_not_blank].
Qed.

Lemma strip_offsets_solid (s : text) (strip : bool) :
  Forall solid s -> (if strip then _count_white s else (0, 0)) = (0, 0).
Proof. intros Hs. destruct strip; [now apply count_white_solid | reflexivity]. Qed.

Lemma find_none (c : ascii) (s : text) :
  Forall (fun x => x <> c) s -> find c s = -1.
Proof.
  intros H. unfold find, find_from. simpl skipn. now rewrite index_of_none.
Qed.

Lemma find_at (c : ascii) (a b : text) :
  Forall (fun x => x <> c) a -> find c (a ++ c :: b) = len a.
Proof.
  intros H. unfold find, find_from. simpl skipn.
  rewrite (index_of_app_none c a (c :: b) H). simpl index_of.
  rewrite Ascii.eqb_refl. simpl option_map. unfold len. lia.
Qed.

Lemma count_app (c : ascii) (a b : text) : count c (a ++ b) = count c a + count c b.
Proof. unfold count. rewrite filter_app. apply len_app. Qed.

Lemma count_none (c : ascii) (s : text) :
  Forall (fun x => x <> c) s -> count c s = 0.
Proof.
  induction 1 as [|x s Hx _ IH]; [reflexivity|].
  unfold count in *. cbn [filter]. rewrite Ascii.eqb_sym.
  apply Ascii.eqb_neq in Hx. now rewrite Hx.
Qed.

Lemma count_cons_same (c : ascii) (s : text) : count c (c :: s) = 1 + count c s.
Proof.
  unfold count. cbn [filter]. rewrite Ascii.eqb_refl. unfold len.
  cbn [List.length]. lia.
Qed.

Lemma where_from_none (c : ascii) (s : text) (i : Z) :
  Forall (fun x => x <> c) s -> where_from c s i = [].
Proof.
  intros H. revert i. induction H as [|x s Hx _ IH]; intros i; simpl; [reflexivity|].
  apply Ascii.eqb_neq in Hx. now rewrite Hx, IH.
Qed.

Lemma where_from_app (c : ascii) (a b : text) (i : Z) :
  where_from c (a ++ b) i = where_from c a i ++ where_from c b (i + len a).
Proof.
  revert i. induction a as [|x a IH]; intros i; cbn [app where_from].
  - f_equal. unfold len. cbn [List.length]. lia.
  - rewrite IH. replace (i + 1 + len a) with (i + len (x :: a))
      by (unfold len; cbn [List.length]; lia).
    now destruct (Ascii.eqb x c).
Qed.

Lemma where_from_cons_same (c : ascii) (s : text) (i : Z) :
  where_from c (c :: s) i = i :: where_from c s (i + 1).
Proof. simpl. now rewrite Ascii.eqb_refl. Qed.

Lemma digits_not (c : ascii) (s : text) :
  is_digit c = false -> Forall (fun x => is_digit x = true) s ->
  Forall (fun x => x <> c) s.
Proof.
  intros Hc. apply Forall_impl. intros x Hx. now apply (is_digit_not x c).
Qed.

Lemma contains_none (c : ascii) (s : text) :
  Forall (fun x => x <> c) s -> contains c s = false.
Proof. apply contains_false. Qed.

(** The field at the end of a known prefix. *)
Lemma field_after (pre body post : text) (n off : Z) :
  off = len pre -> n = len body -> field (n, off) (pre ++ body ++ post) = body.
Proof.
  intros -> ->. unfold field, slice, len; cbn [fst snd].
  rewrite Nat2Z.id.
  replace (Z.to_nat (Z.of_nat (List.length pre) + Z.of_nat (List.length body)
                     - Z.of_nat (List.length pre)))
    with (List.length body) by lia.
  rewrite skipn_app, skipn_all, Nat.sub_diag. cbn [skipn app].
  apply firstn_length_app.
Qed.

Lemma field_last (pre body : text) (n off : Z) :
  off = len pre -> n = len body -> field (n, off) (pre ++ body) = body.
Proof.
  intros H1 H2. rewrite <- (app_nil_r body) at 1. now apply field_after.
Qed.

Lemma field_first (body post : text) (n : Z) :
  n = len body -> field (n, 0) (body ++ post) = body.
Proof. intros H. now apply (field_after [] body post). Qed.

Lemma mapM_one {X Y} (f : X -> result Y) (x : X) :
  mapM f [x] = (y <- f x ;; Ok [y]).
Proof. simpl. now destruct (f x). Qed.

Lemma len_cons {T} (c : T) (s : list T) : len (c :: s) = 1 + len s.
Proof. unfold len. cbn [List.length]. lia. Qed.

Lemma len_nil {T} : len (@nil T) = 0.
Proof. reflexivity. Qed.

Ltac len_tac :=
  repeat first [ rewrite len_app | rewrite len_cons | rewrite len_zfill
               | progress change (len (@nil ascii)) with 0 ];
  try lia.

Ltac solid_tac :=
  repeat first [ apply zfill_solid | apply Forall_nil
               | apply Forall_cons; [split; discriminate|]
               | apply Forall_app; split ].

(** No character of the text is [c], for texts made of digits and other
    literal characters. *)
Ltac none_tac :=
  repeat first [ apply digits_not; [reflexivity | apply zfill_digits]
               | apply Forall_nil
               | apply Forall_cons; [discriminate|]
               | apply Forall_app; split ].

Ltac count_tac :=
  repeat first [ rewrite count_app | rewrite count_cons_same
               | rewrite count_none by none_tac ];
  try reflexivity; try lia.

(** ** Decoding a rendered date *)

Lemma sample_date_solid (s : text) (strip : bool) (p k : Z) :
  Forall solid s -> find "." s = p -> count "-" s = k ->
  sample_date (len s) s strip
  = {| ds_lfirst := len s; ds_w0 := 0; ds_w1 := 0; ds_w2 := 0;
       ds_lstripped := len s; ds_kdot := Z.max 0 p; ds_kend := len s;
       ds_kints := if Z.max 0 p =? 0 then len s else Z.max 0 p;
       ds_ndashes := k |}.
Proof.
  intros Hs Hp Hk. unfold sample_date.
  rewrite (strip_offsets_solid s strip Hs), Hp, Hk.
  f_equal; try lia.
  destruct (Z.max 0 p =? 0); lia.
Qed.

Lemma np_view_scalar (s : text) (dt : dtype) :
  np_dtype dt = Ok (len s) -> np_view (scalar_array s) dt = Ok [s].
Proof.
  intros H. unfold np_view. rewrite H. cbn [bind scalar_array itemsize items].
  now rewrite Z.eqb_refl.
Qed.

Lemma astype_int_one (dt : dtype) (name : string) (f : Z * Z) (s : text) (n : Z) :
  dtype_get dt name = Some f -> py_int (field f s) = Some n ->
  astype_int dt name [s] = Ok [n].
Proof.
  intros Hg Hp. unfold astype_int, column. rewrite Hg. cbn [bind map mapM].
  now rewrite Hp.
Qed.

Lemma any_differs_one (dt : dtype) (name : string) (f : Z * Z) (lit s : text) :
  dtype_get dt name = Some f -> field f s = lit ->
  Forall (fun c => c <> NUL) lit ->
  any_differs dt name lit [s] = false.
Proof.
  intros Hg Hf Hn. unfold any_differs. rewrite Hg. cbn [existsb].
  rewrite Hf. unfold np_eqb. now rewrite text_eqb_refl.
Qed.

Lemma column_contains_one (dt : dtype) (name : string) (f : Z * Z) (c : ascii) (s : text) :
  dtype_get dt name = Some f -> Forall (fun x => x <> c) (field f s) ->
  column_contains dt name c [s] = false.
Proof.
  intros Hg Hf. unfold column_contains. rewrite Hg. cbn [existsb].
  now rewrite (contains_none c _ Hf).
Qed.

Lemma column_contains_absent (dt : dtype) (name : string) (c : ascii) (recs : list text) :
  dtype_get dt name = None -> column_contains dt name c recs = false.
Proof. intros Hg. unfold column_contains. now rewrite Hg. Qed.

Lemma has_field_some (dt : dtype) (name : string) (f : Z * Z) :
  dtype_get dt name = Some f -> has_field dt name = true.
Proof. intros H. unfold has_field. now rewrite H. Qed.

Lemma has_field_none (dt : dtype) (name : string) :
  dtype_get dt name = None -> has_field dt name = false.
Proof. intros H. unfold has_field. now rewrite H. Qed.

Lemma field_skip (a b : text) (n off : Z) :
  len a <= off -> field (n, off) (a ++ b) = field (n, off - len a) b.
Proof.
  intros H. unfold field, slice, len in *; cbn [fst snd].
  replace (off + n - off) with (off - Z.of_nat (List.length a) + n
                                - (off - Z.of_nat (List.length a))) by lia.
  f_equal. rewrite skipn_app.
  rewrite skipn_all2 by lia. cbn [app]. f_equal. lia.
Qed.

Lemma field_skip_cons (c : ascii) (b : text) (n off : Z) :
  1 <= off -> field (n, off) (c :: b) = field (n, off - 1) b.
Proof. intros H. apply (field_skip [c] b n off). exact H. Qed.

Lemma field_take_cons (c : ascii) (b : text) : field (1, 0) (c :: b) = [c].
Proof. reflexivity. Qed.

Lemma field_all (a : text) (n : Z) : n = len a -> field (n, 0) a = a.
Proof.
  intros H. pose proof (field_first a [] n H) as E.
  now rewrite app_nil_r in E.
Qed.

Lemma of_nat_succ_eqb_0 (n : nat) : (Z.of_nat (S n) =? 0) = false.
Proof. apply Z.eqb_neq. lia. Qed.

(** The item size of a dtype whose fields all end by [L], one of them at [L]. *)
Lemma np_dtype_ok (dt : dtype) (L : Z) :
  0 <= L ->
  Forall (fun nf => 0 <= fst (snd nf) /\ 0 <= snd (snd nf)
                    /\ fst (snd nf) + snd (snd nf) <= L) dt ->
  Exists (fun nf => fst (snd nf) + snd (snd nf) = L) dt ->
  np_dtype dt = Ok L.
Proof.
  intros HL Hall Hex. unfold np_dtype.
  assert (Hf : forallb (fun nf : string * (Z * Z) =>
                          (0 <=? fst (snd nf)) && (0 <=? snd (snd nf))) dt = true).
  { apply forallb_forall. intros nf Hin.
    rewrite Forall_forall in Hall. destruct (Hall nf Hin) as (H1 & H2 & _).
    apply andb_true_iff. split; now apply Z.leb_le. }
  rewrite Hf. f_equal.
  induction Hall as [|nf dt Hnf Hall IH]; [inversion Hex|].
  cbn [fold_right].
  assert (Hle : forall l, Forall (fun nf : string * (Z * Z) =>
                  0 <= fst (snd nf) /\ 0 <= snd (snd nf)
                  /\ fst (snd nf) + snd (snd nf) <= L) l ->
                fold_right (fun (nf : string * (Z * Z)) acc =>
                              Z.max (fst (snd nf) + snd (snd nf)) acc) 0 l <= L).
  { induction 1 as [|x l Hx _ IHl]; cbn [fold_right]; lia. }
  specialize (Hle dt Hall).
  inversion Hex as [? ? Hhd | ? ? Htl]; subst.
  - lia.
  - rewrite (IH Htl) by (rewrite forallb_forall in *; intros; apply Hf; now right).
    lia.
Qed.

Ltac norm_off :=
  repeat match goal with
  | |- context [field (?n, ?a - ?b) _] =>
      let v := eval vm_compute in (a - b) in change (a - b) with v
  end.

(** The field of a text that is a right-nested concatenation of blocks of
    known length. *)
Ltac field_tac :=
  repeat first
    [ rewrite field_take_cons
    | rewrite field_first by len_tac
    | rewrite field_all by len_tac
    | rewrite field_skip by len_tac; rewrite ?len_zfill; norm_off
    | rewrite field_skip_cons by lia; norm_off ].

Ltac right_nest := repeat (progress (rewrite <- ?app_assoc; cbn [app])).

Ltac dtype_tac :=
  apply np_dtype_ok;
  [ lia
  | repeat first [ apply Forall_nil | apply Forall_cons; [cbn [fst snd]; lia|] ]
  | repeat first [ apply Exists_cons_hd; cbn [fst snd]; lia | apply Exists_cons_tl ] ].

(** Closed comparisons, evaluated. *)
Ltac eqb_tac :=
  repeat match goal with
  | |- context [?a =? ?b] =>
      let v := eval vm_compute in (a =? b) in
      match v with true => idtac | false => idtac end;
      change (a =? b) with v
  end.

Ltac has_field_tac dt :=
  repeat match goal with
  | |- context [has_field dt ?k] =>
      let b := eval vm_compute in (has_field dt k) in
      change (has_field dt k) with b
  end.

(** Unfold a rendered date into its blocks. *)
Ltac unfold_iso := unfold iso_date; cbn [txt list_ascii_of_string]; right_nest.

Section DecodeDate.
Context {F : Type} {FO : PyFloat F} (A : Adapter F).

Ltac sample_tac s Hsolid strip t :=
  lazymatch t with
  | iso_date ?yd ?da ?ym _ _ _ ++ _ =>
      let p := eval vm_compute in (len (iso_date yd da ym 0 0 0)) in
      let k := eval vm_compute in (count "-" (iso_date yd da ym 0 0 0)) in
      rewrite (sample_date_solid s strip p k Hsolid);
      [ | unfold s; rewrite find_at
            by (unfold iso_date; cbn [txt list_ascii_of_string]; none_tac);
          unfold iso_date; cbn [txt list_ascii_of_string]; len_tac
        | unfold s, iso_date; cbn [txt list_ascii_of_string]; count_tac ]
  | iso_date ?yd ?da ?ym _ _ _ =>
      let k := eval vm_compute in (count "-" (iso_date yd da ym 0 0 0)) in
      rewrite (sample_date_solid s strip (-1) k Hsolid);
      [ | unfold s; apply find_none; unfold iso_date;
          cbn [txt list_ascii_of_string]; none_tac
        | unfold s, iso_date; cbn [txt list_ascii_of_string]; count_tac ]
  end.

Ltac len_of t :=
  lazymatch t with
  | iso_date ?yd ?da ?ym _ _ _ ++ _ :: zfill (S ?n) _ =>
      let p := eval vm_compute in (len (iso_date yd da ym 0 0 0) + 1) in
      constr:(p + Z.of_nat (S n))
  | iso_date ?yd ?da ?ym _ _ _ ++ _ :: zfill O _ =>
      let p := eval vm_compute in (len (iso_date yd da ym 0 0 0) + 1) in
      constr:(p)
  | iso_date ?yd ?da ?ym _ _ _ =>
      let p := eval vm_compute in (len (iso_date yd da ym 0 0 0)) in
      constr:(p)
  end.

Ltac decode_date_tac strip :=
  unfold iso_fraction; rewrite ?app_nil_r;
  match goal with |- context [scalar_array ?t] =>
    let s := fresh "s" in
    let Hsolid := fresh "Hsolid" in
    let Hlen := fresh "Hlen" in
    let L := len_of t in
    set (s := t);
    assert (Hsolid : Forall solid s)
      by (unfold s, iso_date; cbn [txt list_ascii_of_string]; solid_tac);
    assert (Hlen : len s = L)
      by (unfold s, iso_date; cbn [txt list_ascii_of_string]; len_tac);
    unfold day_from_iso_S;
    rewrite (first_of_scalar_array s Hsolid); cbn [bind];
    cbn [scalar_array itemsize scalar];
    sample_tac s Hsolid strip t;
    rewrite Hlen;
    repeat match goal with |- context [Z.max 0 ?p] =>
      let v := eval vm_compute in (Z.max 0 p) in change (Z.max 0 p) with v end;
    eqb_tac; cbv iota;
    unfold identify_date, date_key;
    cbn [ds_lfirst ds_w0 ds_w1 ds_w2 ds_lstripped ds_kdot ds_kend ds_kints ds_ndashes];
    match goal with |- context [dict_get ISO_DATE_FORMAT_INFO ?k] =>
      let v := eval vm_compute in (dict_get ISO_DATE_FORMAT_INFO k) in
      change (dict_get ISO_DATE_FORMAT_INFO k) with v end;
    cbv beta iota; cbn [bind];
    unfold date_dtype;
    cbn [ds_lfirst ds_w0 ds_w1 ds_w2 ds_lstripped ds_kdot ds_kend ds_kints ds_ndashes];
    try (match goal with |- context [?a + Z.of_nat (S ?n) - ?b - 1] =>
           replace (a + Z.of_nat (S n) - b - 1) with (Z.of_nat (S n)) by lia end;
         rewrite of_nat_succ_eqb_0);
    eqb_tac; cbv beta iota zeta;
    cbn [dtype_set fold_left enumerate_from nat_string String.append app fst snd];
    rewrite ?Z.add_0_l, ?Z.sub_0_r; cbn [nat_string];
    match goal with |- context [np_view _ ?d] =>
      let dt := fresh "dt" in
      set (dt := d);
      rewrite (np_view_scalar s dt) by (rewrite Hlen; dtype_tac);
      cbn [bind]; unfold astype_int_or_0;
      has_field_tac dt; cbv iota;
      repeat (erewrite (astype_int_one dt);
        [ | reflexivity
          | unfold s; unfold_iso; field_tac; apply py_int_zfill; [lia | assumption] ];
        cbn [bind]);
      unfold date_syntax;
      has_field_tac dt; cbn [andb];
      repeat (erewrite (any_differs_one dt);
        [ | reflexivity
          | unfold s; unfold_iso; field_tac; reflexivity
          | repeat constructor; discriminate ]);
      cbn [mapM];
      has_field_tac dt; cbn [andb];
      repeat (erewrite (column_contains_one dt);
        [ | reflexivity
          | unfold s; unfold_iso; field_tac; none_tac ]);
      cbn [raise_if bind zip3 mapM map]
    end
  end.

(** Decoding a rendered date: the decoder hands the adapter the very numbers
    the text shows -- the two-digit year as it stands -- and adds the
    fraction read after the decimal point. *)
Lemma day_from_iso_S_rendered (ydig : nat) (dashed ymd : bool) (y m d : Z)
    (fr : option (nat * Z)) (validate syntax strip proleptic : bool) :
  ydig = 2%nat \/ ydig = 4%nat ->
  0 <= y < 10 ^ Z.of_nat ydig -> 0 <= m < 100 ->
  0 <= d < (if ymd then 100 else 1000) ->
  fraction_in_range fr ->
  day_from_iso_S A (scalar_array (iso_date ydig dashed ymd y m d ++ iso_fraction fr))
                 validate syntax strip proleptic
  = (day <- (if ymd then day_from_ymd A y m d validate proleptic
             else day_from_yd A y d validate proleptic) ;;
     Ok (Scalar (date_value day fr))).
Proof.
  intros Hyd Hy Hm Hd Hf.
  destruct fr as [[[|n] f]|]; cbn [fraction_in_range] in Hf;
  destruct Hyd as [-> | ->]; destruct dashed, ymd, syntax.
  all: decode_date_tac strip.
  all: match goal with |- bind (bind ?x _) _ = _ => destruct x end; reflexivity.
Qed.
End DecodeDate.

(** ** Decoding a rendered time *)

Lemma field_here (a b : text) (n off : Z) :
  off = 0 -> n = len a -> field (n, off) (a ++ b) = a.
Proof. intros -> H. now apply field_first. Qed.

Lemma field_here_cons (c : ascii) (b : text) (n off : Z) :
  off = 0 -> n = 1 -> field (n, off) (c :: b) = [c].
Proof. now intros -> ->. Qed.

Lemma field_whole (a : text) (n off : Z) :
  off = 0 -> n = len a -> field (n, off) a = a.
Proof. intros -> H. now apply field_all. Qed.

Lemma field_forall (P : ascii -> Prop) (f : Z * Z) (s : text) :
  Forall P s -> Forall P (field f s).
Proof.
  intros H. rewrite Forall_forall in *. intros x Hx. apply H.
  unfold field, slice in Hx. eapply in_skipn_in, in_firstn_in, Hx.
Qed.

(** The field of a text that is a right-nested concatenation of blocks,
    whatever the form of the offset. *)
Ltac field_at :=
  rewrite ?len_zfill;
  repeat first
    [ rewrite field_here_cons by lia
    | rewrite field_here by len_tac
    | rewrite field_whole by len_tac
    | rewrite field_skip by len_tac; rewrite ?len_zfill
    | rewrite field_skip_cons by lia ].

Lemma py_index_last (s : text) :
  s <> [] -> py_index s (len s - 1) = Ok (last s NUL).
Proof.
  intros Hne. rewrite (app_removelast_last NUL Hne).
  generalize (removelast s) (last s NUL). clear. intros a c.
  rewrite last_last. unfold py_index.
  assert (Hl : len (a ++ [c]) = len a + 1) by (unfold len; rewrite length_app; simpl; lia).
  rewrite Hl. assert (0 <= len a) by (unfold len; lia).
  replace (len a + 1 - 1) with (len a) by lia.
  destruct (len a <? 0) eqn:E1; [apply Z.ltb_lt in E1; lia|].
  destruct (len a + 1 <=? len a) eqn:E2; [apply Z.leb_le in E2; lia|].
  rewrite ?E1, ?E2. cbn [orb]. unfold len. rewrite Nat2Z.id.
  rewrite nth_error_app2 by lia. now rewrite Nat.sub_diag.
Qed.

Lemma last_app_ne (a b : text) (d : ascii) :
  b <> [] -> last (a ++ b) d = last b d.
Proof.
  intros Hb. rewrite (app_removelast_last d Hb), app_assoc.
  now rewrite !last_last.
Qed.

Lemma last_cons_ne (c : ascii) (b : text) (d : ascii) :
  b <> [] -> last (c :: b) d = last b d.
Proof. intros Hb. apply (last_app_ne [c] b d Hb). Qed.

Lemma last_zfill (w : nat) (n : Z) (d : ascii) :
  last (zfill (S w) n) d = digit_char (n mod 10).
Proof. cbn [zfill]. apply last_last. Qed.

Lemma digit_char_not_Z (k : Z) : Ascii.eqb (digit_char k) "Z" = false.
Proof.
  apply Ascii.eqb_neq. apply (is_digit_not (digit_char k) "Z");
    [apply digit_char_is_digit | reflexivity].
Qed.

Lemma len_ne (s : text) : 0 < len s -> s <> [].
Proof. intros H ->. unfold len in H. cbn in H. lia. Qed.

Ltac ne_tac := first [ discriminate | apply len_ne; len_tac ].

(** The last character of a right-nested concatenation. *)
Ltac last_tac :=
  repeat first
    [ rewrite last_zfill
    | rewrite last_app_ne by ne_tac
    | rewrite last_cons_ne by ne_tac ];
  cbn [last].

Lemma sample_time_solid (s : text) (strip : bool) (wz : bool) (K : Z) :
  Forall solid s -> s <> [] -> Ascii.eqb (last s NUL) "Z" = wz ->
  len s = K + (if wz then 1 else 0) ->
  sample_time (len s) s strip
  = Ok {| ts_lfirst := len s; ts_w0 := 0; ts_w1 := 0; ts_w2 := 0;
          ts_wz := if wz then 1 else 0;
          ts_kend := K;
          ts_kcolons := where_eq ":" s; ts_kdots := where_eq "." s |}.
Proof.
  intros Hs Hne Hz HK. unfold sample_time.
  rewrite (strip_offsets_solid s strip Hs).
  replace (0 + (len s - 0 - 0) - 1) with (len s - 1) by lia.
  rewrite (py_index_last s Hne). cbn [bind]. rewrite Hz.
  do 2 f_equal; lia.
Qed.

Lemma where_from_cons_other (c x : ascii) (s : text) (i : Z) :
  x <> c -> where_from c (x :: s) i = where_from c s (i + 1).
Proof. intros H. simpl. apply Ascii.eqb_neq in H. now rewrite H. Qed.

(** The positions of a character in a right-nested concatenation. *)
Ltac where_tac :=
  unfold where_eq;
  repeat first
    [ rewrite where_from_none by none_tac
    | rewrite where_from_cons_same
    | rewrite where_from_cons_other by discriminate
    | rewrite where_from_app ];
  rewrite ?len_zfill; cbn [app].

Ltac is_pos p :=
  lazymatch p with xH => idtac | xO ?q => is_pos q | xI ?q => is_pos q end.
Ltac is_num v :=
  lazymatch v with Z0 => idtac | Zpos ?p => is_pos p | Zneg ?p => is_pos p end.

(** Closed sums and differences, evaluated. *)
Ltac arith_tac :=
  repeat match goal with
  | |- context [?a + ?b] =>
      let v := eval vm_compute in (a + b) in
      is_num v; progress change (a + b) with v
  | |- context [?a - ?b] =>
      let v := eval vm_compute in (a - b) in
      is_num v; progress change (a - b) with v
  end.

(** Unfold a rendered time into its blocks. *)
Ltac unfold_time :=
  unfold iso_time, iso_fraction, iso_zone; cbn [txt list_ascii_of_string];
  rewrite ?app_nil_r; right_nest;
  repeat match goal with |- context [zfill O ?f] =>
    change (zfill O f) with (@nil ascii) end;
  cbn [app].

Ltac has_char t c :=
  lazymatch t with context [c] => constr:(true) | _ => constr:(false) end.

(** The end of the time proper (before the zone suffix) of a rendered time. *)
Ltac kend_of t :=
  let colons := has_char t ":"%char in
  let dot := has_char t "."%char in
  let b := lazymatch colons with true => constr:(8) | false => constr:(6) end in
  lazymatch dot with
  | false => b
  | true =>
      let b1 := eval vm_compute in (b + 1) in
      lazymatch t with
      | context ["."%char :: zfill (S ?n) _] => constr:(b1 + Z.of_nat (S n))
      | context ["."%char :: zfill (S ?n) _ ++ _] => constr:(b1 + Z.of_nat (S n))
      | _ => b1
      end
  end.

Section DecodeTime.
Context {F : Type} {FO : PyFloat F} (A : Adapter F).

(** Decoding a rendered time: the decoder hands the adapter the hours, the
    minutes and the seconds the text shows, the seconds with the fraction
    read after the decimal point. *)
Lemma sec_from_iso_S_rendered (colons : bool) (h m s : Z) (fr : option (nat * Z))
    (z : bool) (validate leapsecs strip syntax : bool) :
  0 <= h < 100 -> 0 <= m < 100 -> 0 <= s < 100 -> fraction_in_range fr ->
  sec_from_iso_S A (scalar_array (iso_time colons h m s ++ iso_fraction fr ++ iso_zone z))
                 validate leapsecs strip syntax
  = (x <- sec_from_hms A (Int h) (Int m) (seconds_value s fr) validate leapsecs ;;
     Ok (Scalar x)).
Proof.
  intros Hh Hm Hs Hf.
  destruct fr as [[[|n] f]|]; cbn [fraction_in_range] in Hf;
  destruct colons, z, syntax.
  all: unfold_time.
  all: match goal with |- context [scalar_array ?t] => set (s0 := t) end.
  all: assert (Hsolid : Forall solid s0) by (unfold s0; solid_tac).
  all: assert (Hne : s0 <> []) by (unfold s0; ne_tac).
  all: unfold sec_from_iso_S; rewrite (first_of_scalar_array s0 Hsolid); cbn [bind];
       cbn [scalar_array itemsize scalar].
  all: lazymatch goal with s0 := ?t |- _ =>
         let wz := has_char t "Z"%char in
         let K := kend_of t in
         assert (Hlen : len s0 = K + (if wz then 1 else 0)) by (unfold s0; len_tac);
         rewrite (sample_time_solid s0 strip wz K Hsolid Hne);
         [ | unfold s0; last_tac; first [reflexivity | apply digit_char_not_Z]
           | exact Hlen ]
       end.
  all: cbn [bind].
  all: lazymatch goal with s0 := ?t |- _ =>
         let colons := has_char t ":"%char in
         let dot := has_char t "."%char in
         let kc := lazymatch colons with true => constr:([2; 5]) | false => constr:(@nil Z) end in
         let kd := lazymatch dot with
                   | true => lazymatch colons with true => constr:([8]) | false => constr:([6]) end
                   | false => constr:(@nil Z) end in
         replace (where_eq ":" s0) with kc by (unfold s0; where_tac; reflexivity);
         replace (where_eq "." s0) with kd by (unfold s0; where_tac; reflexivity)
       end.
  all: match goal with |- context [identify_time ?s ?r] =>
         let v := eval vm_compute in (identify_time [] r) in
         replace (identify_time s r) with v by reflexivity
       end.
  all: cbn [bind].
  all: unfold time_dtype;
       cbn [ts_lfirst ts_w0 ts_w1 ts_w2 ts_wz ts_kend ts_kcolons ts_kdots
            tl_kdot tl_kints tl_kcolons tl_khms tl_widths].
  all: try (match goal with |- context [?a + Z.of_nat (S ?n) - ?b - 1] =>
           replace (a + Z.of_nat (S n) - b - 1) with (Z.of_nat (S n)) by lia end;
         rewrite of_nat_succ_eqb_0).
  all: eqb_tac; cbv beta iota zeta;
       cbn [dtype_set fold_left enumerate_from combine hms_key nat_string
            String.append app fst snd];
       arith_tac; cbn [hms_key nat_string String.append].
  all: match goal with |- context [np_view _ ?d] => set (dt := d) end.
  all: rewrite (np_view_scalar s0 dt) by (rewrite Hlen; dtype_tac).
  all: cbn [bind]; unfold astype_int_or_0; has_field_tac dt; cbv iota.
  all: repeat (erewrite (astype_int_one dt);
        [ | reflexivity
          | unfold s0; field_at; apply py_int_zfill; [lia | assumption] ];
        cbn [bind]).
  all: unfold time_syntax; has_field_tac dt; cbn [andb].
  all: repeat (erewrite (any_differs_one dt);
        [ | reflexivity
          | unfold s0; field_at; reflexivity
          | repeat constructor; discriminate ]).
  all: repeat (erewrite (column_contains_one dt);
        [ | reflexivity
          | apply field_forall; unfold s0; none_tac ]).
  all: cbn [orb raise_if bind zip3 combine map mapM].
  all: cbn [seconds_value];
       match goal with |- bind (bind ?x _) _ = _ => destruct x end; reflexivity.
Qed.
End DecodeTime.

(** ** Decoding a date with a time *)

Section DecodeBoth.
Context {F : Type} {FO : PyFloat F} (A : Adapter F).

(** A date and a time joined by ["T"]: the decoder splits at the ["T"] and
    decodes the two parts on their own, the time with leap seconds allowed;
    then it compares the seconds with the length of the day. *)
Lemma day_sec_from_iso_joined (dtext ttext : text)
    (validate syntax strip proleptic : bool) :
  Forall solid dtext -> Forall solid ttext ->
  Forall (fun c => c <> "T"%char) dtext -> dtext <> [] ->
  day_sec_from_iso A (Str (dtext ++ "T"%char :: ttext)) validate syntax strip proleptic
  = (day <- day_from_iso_S A (scalar_array dtext) validate syntax strip proleptic ;;
     sec <- sec_from_iso_S A (scalar_array ttext) validate true strip syntax ;;
     _ <- raise_if (validate &&
                    existsb (fun '(s, d) => geb_int s (seconds_on_day A (_int d)))
                            (combine (elements sec) (elements day)))
                   (InvalidValue "seconds value is outside allowed range") ;;
     Ok (day, sec)).
Proof.
  intros Hd Ht HT Hdne.
  set (s := dtext ++ "T"%char :: ttext).
  assert (Hsolid : Forall solid s).
  { unfold s. apply Forall_app. split; [assumption|].
    apply Forall_cons; [split; discriminate | assumption]. }
  assert (Hne : s <> []) by (unfold s; destruct dtext; discriminate).
  assert (Hlen : len s = len dtext + 1 + len ttext) by (unfold s; len_tac).
  assert (0 <= len dtext) by (unfold len; lia).
  assert (0 <= len ttext) by (unfold len; lia).
  unfold day_sec_from_iso.
  rewrite (np_array_S_solid s Hsolid Hne).
  rewrite (first_of_scalar_array s Hsolid). cbn [bind].
  assert (Hfind : find "T" s = len dtext) by (unfold s; now apply find_at).
  rewrite Hfind.
  destruct (len dtext =? -1) eqn:E; [apply Z.eqb_eq in E; lia|].
  rewrite E.
  match goal with |- context [np_view _ ?d] => set (dt := d) end.
  rewrite (np_view_scalar s dt) by (unfold dt; rewrite Hlen; dtype_tac).
  cbn [bind].
  assert (Hdate : sub_array (scalar_array s) (len dtext, 0) (@cons text s nil) = scalar_array dtext).
  { unfold sub_array, scalar_array. cbn [scalar fst map]. f_equal. f_equal.
    unfold s. now apply field_first. }
  assert (Htime : sub_array (scalar_array s) (len s - len dtext - 1, len dtext + 1)
                            (@cons text s nil)
                  = scalar_array ttext).
  { unfold sub_array, scalar_array. cbn [scalar fst map].
    replace (len s - len dtext - 1) with (len ttext) by lia.
    do 2 f_equal.
    unfold s. rewrite field_skip by lia. rewrite field_skip_cons by lia.
    apply field_whole; lia. }
  rewrite Hdate, Htime.
  rewrite (any_differs_one dt "sep" (1, len dtext) ["T"%char] s);
    [ | reflexivity
      | unfold s; rewrite field_skip by lia; apply field_here_cons; lia
      | repeat constructor; discriminate ].
  rewrite andb_false_r. cbn [raise_if].
  destruct (day_from_iso_S A (scalar_array dtext) validate syntax strip proleptic);
    [|reflexivity]. cbn [bind].
  destruct (sec_from_iso_S A (scalar_array ttext) validate true strip syntax);
    reflexivity.
Qed.
End DecodeBoth.

(** ** What the encoders write, as ISO text *)

Lemma fraction_text_iso (has_dot : bool) (dd f : Z) :
  (has_dot = true -> 0 <= dd /\ 0 <= f < 10 ^ dd) ->
  fraction_text has_dot dd f = iso_fraction (shown has_dot dd f).
Proof.
  intros H. unfold fraction_text, shown, iso_fraction. destruct has_dot; [|reflexivity].
  destruct (H eq_refl) as [Hdd Hf]. cbn [txt list_ascii_of_string app]. f_equal.
  destruct (0 <? dd) eqn:E.
  - apply Z.ltb_lt in E. apply pct_d_zfill; lia.
  - apply Z.ltb_ge in E. now replace dd with 0 by lia.
Qed.

Lemma shown_in_range (has_dot : bool) (dd f : Z) :
  (has_dot = true -> 0 <= dd /\ 0 <= f < 10 ^ dd) ->
  fraction_in_range (shown has_dot dd f).
Proof.
  intros H. unfold shown, fraction_in_range. destruct has_dot; [|exact I].
  destruct (H eq_refl) as [Hdd Hf]. now rewrite Z2Nat.id.
Qed.

Lemma date_text_iso (ydig : nat) (dashed ymd : bool) (has_dot : bool)
    (dd y m d f : Z) :
  ydig = 2%nat \/ ydig = 4%nat ->
  0 <= y < 10 ^ Z.of_nat ydig -> 0 <= m < 100 ->
  0 <= d < (if ymd then 100 else 1000) ->
  (has_dot = true -> 0 <= dd /\ 0 <= f < 10 ^ dd) ->
  date_text (iso_order ymd) (Z.of_nat ydig) (iso_dash dashed) has_dot dd y m d f
  = iso_date ydig dashed ymd y m d ++ iso_fraction (shown has_dot dd f).
Proof.
  intros Hyd Hy Hm Hd Hf.
  rewrite <- (fraction_text_iso has_dot dd f Hf).
  unfold date_text, iso_date, iso_order.
  assert (Ey : pct_d (Z.of_nat ydig) y = zfill ydig y).
  { rewrite pct_d_zfill, Nat2Z.id; [reflexivity | destruct Hyd; subst; lia | assumption]. }
  destruct ymd; cbn [txt list_ascii_of_string map join field_text len List.length
                     Ascii.eqb Bool.eqb Z.of_nat Pos.of_succ_nat Pos.succ Z.eqb Pos.eqb].
  - rewrite Ey, !pct_d_zfill by lia. cbn [Z.to_nat Pos.to_nat Pos.iter_op Nat.add].
    unfold iso_dash. destruct dashed; cbn [txt list_ascii_of_string];
      now rewrite <- ?app_assoc.
  - rewrite Ey, !pct_d_zfill by lia. cbn [Z.to_nat Pos.to_nat Pos.iter_op Nat.add].
    unfold iso_dash. destruct dashed; cbn [txt list_ascii_of_string];
      now rewrite <- ?app_assoc.
Qed.
Section ScalarTimes.
Context {F : Type} {FO : PyFloat F} (A : Adapter F).

(** The string [format_sec] returns for a scalar and no buffer. *)
Lemma format_sec_scalar (x : number F) (digits : option Z) (colon suffix : text)
    (knd : kind) (h m : Z) (s : number F) :
  kind_is_US knd = true ->
  contains "%" colon = false -> contains "%" suffix = false ->
  hms_from_sec A x = Ok (h, m, s) ->
  let has_dot := ddigits_ge0 digits in
  let dd := digits_of digits in
  let frac := snd (split_number has_dot (10 ^ dd) x) in
  format_sec A (Scalar x) digits colon suffix None knd
  = Ok (Single (pct_d 2 h ++ colon ++ pct_d 2 m ++ colon
                ++ pct_d 2 (if has_dot then py_trunc s else _int s)
                ++ fraction_text has_dot dd (shown_fraction frac dd) ++ suffix)).
Proof.
  intros Hk Hc Hs Hhms. cbv zeta.
  unfold format_sec. cbn [elements shape mapM map]. rewrite Hhms. cbn [bind map].
  unfold interpret_kind. rewrite Hk. cbn [negb raise_if bind combine].
  destruct (sec_layout _ _ _ _ _) as [dt lstring].
  unfold sec_format. rewrite Hc, Hs. cbn [orb raise_if bind].
  destruct (ddigits_ge0 digits); reflexivity.
Qed.

End ScalarTimes.

Lemma time_text_iso (colons z : bool) (has_dot : bool) (dd h m s f : Z) :
  0 <= h < 100 -> 0 <= m < 100 -> 0 <= s < 100 ->
  (has_dot = true -> 0 <= dd /\ 0 <= f < 10 ^ dd) ->
  pct_d 2 h ++ iso_colon colons ++ pct_d 2 m ++ iso_colon colons ++ pct_d 2 s
    ++ fraction_text has_dot dd f ++ iso_zone z
  = iso_time colons h m s ++ iso_fraction (shown has_dot dd f) ++ iso_zone z.
Proof.
  intros Hh Hm Hs Hf.
  rewrite (fraction_text_iso has_dot dd f Hf).
  rewrite !pct_d_zfill by lia. cbn [Z.to_nat Pos.to_nat Pos.iter_op Nat.add].
  unfold iso_time, iso_colon. now rewrite <- !app_assoc.
Qed.
Section ScalarDateTimes.
Context {F : Type} {FO : PyFloat F} (A : Adapter F).

(** The string [format_day_sec] returns for scalars and no buffer, the date
    first: the date of the day and the time of the seconds after the
    cross-over, around the separator. *)
Lemma format_day_sec_scalar (d s : number F) (date_order : text) (ydigits : Z)
    (dash sep colon : text) (digits : option Z) (suffix : text) (proleptic : bool)
    (knd : kind) (dtext stext : text) :
  valid_order date_order -> kind_is_US knd = true ->
  let scale := 10 ^ (match digits with None => 0 | Some n => Z.max n 0 end) in
  format_day A (Scalar (Int (fst (rollover A scale (_int d, s))))) date_order ydigits
             dash None proleptic None KU = Ok (Single dtext) ->
  format_sec A (Scalar (Flt (snd (rollover A scale (_int d, s))))) digits colon suffix
             None KU = Ok (Single stext) ->
  format_day_sec A (Scalar d) (Scalar s) (date_order ++ txt "T") ydigits dash sep colon
                 digits suffix proleptic None knd
  = Ok (Single (dtext ++ sep ++ stext)).
Proof.
  intros Ho Hk scale Hd Hs.
  unfold format_day_sec.
  assert (Hfilter : filter (fun c => negb (Ascii.eqb c "T")) (date_order ++ txt "T")
                    = date_order) by (order_cases Ho; reflexivity).
  assert (H0 : exists c0, py_index (date_order ++ txt "T") 0 = Ok c0
                          /\ Ascii.eqb c0 "T" = false)
    by (order_cases Ho; eexists; split; reflexivity).
  assert (Hl : py_index (date_order ++ txt "T") (-1) = Ok "T"%char)
    by (order_cases Ho; reflexivity).
  destruct H0 as (c0 & Hc0 & Hne).
  rewrite Hfilter, Hc0, Hl. cbn [bind]. rewrite Hne.
  cbn [Ascii.eqb Bool.eqb negb andb raise_if bind broadcast_arrays].
  unfold interpret_kind. rewrite Hk. cbn [negb raise_if bind map combine].
  fold scale.
  destruct (rollover A scale (_int d, s)) as [day0 sec0]. cbn [fst snd] in Hd, Hs.
  rewrite Hd. cbn [bind single]. rewrite Hs. cbn [bind single]. reflexivity.
Qed.

End ScalarDateTimes.

(** ** The bias rule in exact arithmetic *)

Lemma Qfloor_unique (q : Q) (z : Z) :
  (inject_Z z <= q)%Q -> (q < inject_Z (z + 1))%Q -> Qfloor q = z.
Proof.
  intros H1 H2.
  assert (z <= Qfloor q).
  { rewrite <- (Qfloor_Z z). now apply Qfloor_resp_le. }
  assert (Qfloor q < z + 1).
  { rewrite Zlt_Qlt. eapply Qle_lt_trans; [apply Qfloor_le | exact H2]. }
  lia.
Qed.

Lemma inject_Z_pos (s : Z) : 0 < s -> (0 < inject_Z s)%Q.
Proof. intros H. change 0%Q with (inject_Z 0). now rewrite <- Zlt_Qlt. Qed.

Lemma round_bias_units (x : number Q) (scale : Z) :
  round_bias x scale
  = ((inject_Z (units x scale) + (1 # 10)) / inject_Z scale)%Q.
Proof.
  unfold round_bias, units. destruct x as [n|y]; cbn [to_float f_of_Z f_add f_mul f_div
    f_floor f_half f_tenth Q_float]; [|reflexivity].
  now rewrite inject_Z_mult.
Qed.

(** The biased value has the integer part and, scaled, the fraction digits
    of the rounded value. *)
Lemma floor_biased (N scale : Z) :
  0 < scale ->
  Qfloor ((inject_Z N + (1 # 10)) / inject_Z scale) = N / scale.
Proof.
  intros Hs. pose proof (inject_Z_pos scale Hs) as Hq.
  pose proof (Z.div_mod N scale ltac:(lia)) as Hdm.
  pose proof (Z.mod_pos_bound N scale Hs) as Hb.
  apply Qfloor_unique.
  - apply Qle_shift_div_l; [exact Hq|]. rewrite <- inject_Z_mult.
    assert (inject_Z (N / scale * scale) <= inject_Z N)%Q by (rewrite <- Zle_Qle; lia).
    lra.
  - apply Qlt_shift_div_r; [exact Hq|]. rewrite <- inject_Z_mult.
    assert (inject_Z N + 1 <= inject_Z ((N / scale + 1) * scale))%Q.
    { change 1%Q with (inject_Z 1). rewrite <- inject_Z_plus, <- Zle_Qle. lia. }
    lra.
Qed.

Lemma biased_split (N scale : Z) :
  0 < scale ->
  ((inject_Z N + (1 # 10)) / inject_Z scale
   == inject_Z (N / scale) + (inject_Z (N mod scale) + (1 # 10)) / inject_Z scale)%Q.
Proof.
  intros Hs. pose proof (inject_Z_pos scale Hs) as Hq.
  pose proof (Z.div_mod N scale ltac:(lia)) as Hdm.
  rewrite Hdm at 1. rewrite inject_Z_plus, inject_Z_mult.
  field. lra.
Qed.

Lemma frac_biased (N dd : Z) :
  0 <= dd ->
  let v := ((inject_Z N + (1 # 10)) / inject_Z (10 ^ dd))%Q in
  frac_int (f_sub v (f_of_Z (f_floor v))) dd = N mod 10 ^ dd.
Proof.
  intros Hdd v. assert (Hs : 0 < 10 ^ dd) by (apply Z.pow_pos_nonneg; lia).
  pose proof (inject_Z_pos _ Hs) as Hq.
  pose proof (Z.mod_pos_bound N _ Hs) as Hb.
  unfold frac_int. cbn [f_sub f_of_Z f_floor f_mul Q_float].
  unfold v at 2. rewrite (floor_biased N _ Hs).
  assert (E : ((v - inject_Z (N / 10 ^ dd)) * inject_Z (10 ^ dd)
               == inject_Z (N mod 10 ^ dd) + (1 # 10))%Q).
  { unfold v. rewrite (biased_split N _ Hs). field. lra. }
  rewrite E. apply Qfloor_unique.
  - lra.
  - rewrite inject_Z_plus. change (inject_Z 1) with 1%Q. lra.
Qed.
Lemma units_close (x : number Q) (scale : Z) :
  0 < scale ->
  close_to (to_float x) (inject_Z (units x scale) / inject_Z scale) scale.
Proof.
  intros Hs. pose proof (inject_Z_pos scale Hs) as Hq.
  unfold close_to, units.
  set (q := (to_float x * inject_Z scale + (1 # 2))%Q).
  pose proof (Qfloor_le q) as H1. pose proof (Qlt_floor q) as H2.
  rewrite inject_Z_plus in H2. change (inject_Z 1) with 1%Q in H2.
  assert (E : ((inject_Z (Qfloor q) / inject_Z scale - to_float x) * inject_Z scale
               == inject_Z (Qfloor q) - to_float x * inject_Z scale)%Q) by (field; lra).
  set (y := (inject_Z (Qfloor q) / inject_Z scale - to_float x)%Q) in *.
  assert (E2 : (Qabs y * inject_Z scale == Qabs (y * inject_Z scale))%Q).
  { rewrite Qabs_Qmult. rewrite (Qabs_pos (inject_Z scale)) by lra. reflexivity. }
  rewrite E2, E.
  apply Qabs_Qle_condition. unfold q in *. split; lra.
Qed.

Lemma units_of_biased (v : Q) (N scale : Z) :
  0 < scale ->
  (v == (inject_Z N + (1 # 10)) / inject_Z scale)%Q ->
  units (Flt v) scale = N.
Proof.
  intros Hs Hv. pose proof (inject_Z_pos scale Hs) as Hq.
  unfold units. cbn [to_float].
  assert (E : (v * inject_Z scale + (1 # 2) == inject_Z N + (6 # 10))%Q).
  { rewrite Hv. field. lra. }
  rewrite E. apply Qfloor_unique.
  - lra.
  - rewrite inject_Z_plus. change (inject_Z 1) with 1%Q. lra.
Qed.

Lemma rollover_exact (A : Adapter Q) (scale day : Z) (sec : number Q) :
  0 < scale ->
  let N := units sec scale in
  fst (rollover A scale (day, sec)) = fst (crossed A scale day N) /\
  (snd (rollover A scale (day, sec))
   == (inject_Z (snd (crossed A scale day N)) + (1 # 10)) / inject_Z scale)%Q.
Proof.
  intros Hs N. pose proof (inject_Z_pos scale Hs) as Hq.
  unfold rollover, crossed. rewrite round_bias_units. fold N.
  cbn [f_leb f_of_Z f_sub Q_float].
  set (sod := seconds_on_day A day).
  assert (Hiff : Qle_bool (inject_Z sod) ((inject_Z N + (1 # 10)) / inject_Z scale)
                 = (sod * scale <=? N)).
  { destruct (sod * scale <=? N) eqn:E.
    - apply Z.leb_le in E. apply Qle_bool_iff.
      apply Qle_shift_div_l; [exact Hq|]. rewrite <- inject_Z_mult.
      rewrite Zle_Qle in E. lra.
    - apply Z.leb_gt in E. apply not_true_is_false. intros H.
      apply Qle_bool_iff in H.
      assert (H' : (inject_Z sod * inject_Z scale <= inject_Z N + (1 # 10))%Q).
      { setoid_replace (inject_Z N + (1 # 10))%Q
          with ((inject_Z N + (1 # 10)) / inject_Z scale * inject_Z scale)%Q
          by (field; lra).
        apply Qmult_le_compat_r; [exact H | lra]. }
      rewrite <- inject_Z_mult in H'.
      assert (inject_Z N + 1 <= inject_Z (sod * scale))%Q.
      { change 1%Q with (inject_Z 1). rewrite <- inject_Z_plus, <- Zle_Qle. lia. }
      lra. }
  rewrite Hiff. destruct (sod * scale <=? N); cbn [fst snd]; split; try reflexivity.
  unfold Z.sub. rewrite inject_Z_plus, inject_Z_opp, inject_Z_mult. field. lra.
Qed.

(** ** Encoding, then decoding *)

Lemma iso_date_solid (ydig : nat) (dashed ymd : bool) (y m d : Z) :
  Forall solid (iso_date ydig dashed ymd y m d).
Proof.
  unfold iso_date. destruct dashed, ymd; cbn [txt list_ascii_of_string]; solid_tac.
Qed.

Lemma iso_fraction_solid (fr : option (nat * Z)) : Forall solid (iso_fraction fr).
Proof. destruct fr as [[dd f]|]; cbn [iso_fraction]; solid_tac. Qed.

Lemma iso_date_ne (ydig : nat) (dashed ymd : bool) (y m d : Z) (rest : text) :
  iso_date ydig dashed ymd y m d ++ rest <> [].
Proof.
  apply len_ne. unfold iso_date.
  assert (0 <= len rest) by (unfold len; lia).
  destruct dashed, ymd; cbn [txt list_ascii_of_string]; len_tac.
Qed.

Lemma iso_date_no_T (ydig : nat) (dashed ymd : bool) (y m d : Z) :
  Forall (fun c => c <> "T"%char) (iso_date ydig dashed ymd y m d).
Proof.
  unfold iso_date. destruct dashed, ymd; cbn [txt list_ascii_of_string]; none_tac.
Qed.

Lemma iso_time_solid (colons : bool) (h m s : Z) (fr : option (nat * Z)) (z : bool) :
  Forall solid (iso_time colons h m s ++ iso_fraction fr ++ iso_zone z).
Proof.
  unfold iso_time, iso_zone.
  destruct colons, z, fr as [[dd f]|]; cbn [txt list_ascii_of_string iso_fraction];
    solid_tac.
Qed.

Section Rendered.
Context {F : Type} {FO : PyFloat F} (A : Adapter F).

Lemma day_from_iso_rendered (ydig : nat) (dashed ymd : bool) (y m d : Z)
    (fr : option (nat * Z)) (validate syntax strip proleptic : bool) :
  ydig = 2%nat \/ ydig = 4%nat ->
  0 <= y < 10 ^ Z.of_nat ydig -> 0 <= m < 100 ->
  0 <= d < (if ymd then 100 else 1000) ->
  fraction_in_range fr ->
  day_from_iso A (Str (iso_date ydig dashed ymd y m d ++ iso_fraction fr))
               validate syntax strip proleptic
  = (day <- (if ymd then day_from_ymd A y m d validate proleptic
             else day_from_yd A y d validate proleptic) ;;
     Ok (Scalar (date_value day fr))).
Proof.
  intros. unfold day_from_iso. rewrite np_array_S_solid.
  - now apply day_from_iso_S_rendered.
  - apply Forall_app. split; [apply iso_date_solid | apply iso_fraction_solid].
  - apply iso_date_ne.
Qed.

End Rendered.
Lemma biased_value (N scale : Z) :
  0 < scale ->
  (inject_Z (N / scale) + inject_Z (N mod scale) / inject_Z scale
   == inject_Z N / inject_Z scale)%Q.
Proof.
  intros Hs. pose proof (inject_Z_pos scale Hs) as Hq.
  pose proof (Z.div_mod N scale ltac:(lia)) as Hdm.
  rewrite Hdm at 3. rewrite inject_Z_plus, inject_Z_mult. field. lra.
Qed.

Lemma ddigits_ge0_inv (ddigits : option Z) :
  ddigits_ge0 ddigits = true -> 0 <= digits_of ddigits.
Proof. destruct ddigits as [n|]; cbn; [apply Z.leb_le | discriminate]. Qed.

(** The split of a float day in exact arithmetic. *)
Lemma split_number_exact (x : number Q) (dd : Z) :
  0 <= dd ->
  let N := units x (10 ^ dd) in
  split_number true (10 ^ dd) x
  = (N / 10 ^ dd,
     Some (f_sub (round_bias (_float x) (10 ^ dd))
                 (f_of_Z (N / 10 ^ dd)))) /\
  shown_fraction (snd (split_number true (10 ^ dd) x)) dd
  = (if 0 <? dd then N mod 10 ^ dd else 0).
Proof.
  intros Hdd N. assert (Hs : 0 < 10 ^ dd) by (apply Z.pow_pos_nonneg; lia).
  assert (Ev : round_bias (_float x) (10 ^ dd)
               = ((inject_Z N + (1 # 10)) / inject_Z (10 ^ dd))%Q)
    by apply (round_bias_units (_float x) (10 ^ dd)).
  assert (Ef : f_floor (round_bias (_float x) (10 ^ dd)) = N / 10 ^ dd)
    by (rewrite Ev; apply (floor_biased N _ Hs)).
  unfold split_number. rewrite Ef. split; [reflexivity|].
  cbn [snd shown_fraction]. destruct (0 <? dd); [|reflexivity].
  rewrite <- Ef, Ev. apply (frac_biased N dd Hdd).
Qed.

(** The date part of the round trip. *)
Lemma date_round_trip (A : Adapter Q) (x : number Q) (ymd dashed : bool)
    (ddigits : option Z) (proleptic validate syntax strip : bool) (knd : kind) :
  kind_is_US knd = true ->
  let has_dot := is_flt x && ddigits_ge0 ddigits in
  let scale := 10 ^ digits_of ddigits in
  let day := if has_dot then units x scale / scale else _int x in
  date_contract A 4 ymd day validate proleptic ->
  exists s v,
    format_day A (Scalar x) (iso_order ymd) 4 (iso_dash dashed) ddigits proleptic
               None knd = Ok (Single s) /\
    s = (let '(y, m, d) := calendar_fields A (iso_order ymd) day proleptic in
         iso_date 4 dashed ymd y m d
         ++ iso_fraction (shown has_dot (digits_of ddigits)
                            (if 0 <? digits_of ddigits then units x scale mod scale
                             else 0))) /\
    day_from_iso A (Str s) validate syntax strip proleptic = Ok (Scalar v) /\
    (if has_dot
     then (to_float v == inject_Z (units x scale) / inject_Z scale)%Q
     else v = Int (_int x)).
Proof.
  intros Hk has_dot scale day Hc.
  set (dd := digits_of ddigits) in *.
  assert (Hdd : has_dot = true -> 0 <= dd).
  { unfold has_dot. intros H. apply andb_true_iff in H.
    now apply ddigits_ge0_inv. }
  assert (Hs : has_dot = true -> 0 < scale)
    by (intros H; apply Z.pow_pos_nonneg; [lia | auto]).
  pose proof (format_day_scalar A x (iso_order ymd) 4 (iso_dash dashed) ddigits
                proleptic knd) as He.
  cbv zeta in He. fold has_dot dd scale in He.
  assert (Hpart : fst (split_number has_dot scale x) = day /\
                  shown_fraction (snd (split_number has_dot scale x)) dd
                  = (if has_dot then if 0 <? dd then units x scale mod scale else 0
                     else 0)).
  { unfold day. destruct has_dot eqn:Eh.
    - destruct (split_number_exact x dd (Hdd eq_refl)) as [H1 H2].
      fold scale in H1, H2. split; [now rewrite H1 | exact H2].
    - split; reflexivity. }
  destruct Hpart as [Hday Hfrac]. rewrite Hday, Hfrac in He.
  unfold date_contract in Hc.
  destruct (calendar_fields A (iso_order ymd) day proleptic) as [[y m] d].
  destruct Hc as (Hy & Hm & Hd & Hinv).
  set (f := if 0 <? dd then units x scale mod scale else 0).
  assert (Hfr : has_dot = true -> 0 <= dd /\ 0 <= f < 10 ^ dd).
  { intros H. split; [auto|]. unfold f. destruct (0 <? dd).
    - apply Z.mod_pos_bound. auto.
    - pose proof (Hs H). unfold scale in *. lia. }
  assert (Htext : date_text (iso_order ymd) 4 (iso_dash dashed) has_dot dd
                    (shown_year 4 y) m d
                    (if has_dot then f else 0)
                  = iso_date 4 dashed ymd y m d ++ iso_fraction (shown has_dot dd f)).
  { change (shown_year 4 y) with y. destruct has_dot eqn:Eh.
    - apply (date_text_iso 4 dashed ymd true dd y m d f); auto.
    - pose proof (date_text_iso 4 dashed ymd false dd y m d 0) as H.
      change (Z.of_nat 4) with 4 in H at 2. rewrite H; auto. discriminate. }
  exists (iso_date 4 dashed ymd y m d ++ iso_fraction (shown has_dot dd f)).
  eexists. split; [|split; [reflexivity|split]].
  - rewrite <- Htext. apply He.
    + unfold iso_order. destruct ymd; [now left | now right; right; right; left].
    + now right.
    + exact Hk.
  - rewrite (day_from_iso_rendered A 4 dashed ymd y m d (shown has_dot dd f)
               validate syntax strip proleptic (or_intror eq_refl) Hy Hm Hd
               (shown_in_range _ _ _ Hfr)).
    rewrite Hinv. cbn [bind]. reflexivity.
  - unfold shown. destruct has_dot eqn:Eh.
    + cbn [date_value to_float]. cbn [f_add f_div f_of_Z Q_float].
      pose proof (Hdd eq_refl) as Hdd'. rewrite Z2Nat.id by exact Hdd'.
      fold scale. unfold day, f.
      destruct (Z.to_nat dd) eqn:En.
      * assert (E0 : dd = 0) by lia.
        assert (Es : scale = 1) by (unfold scale; now rewrite E0).
        rewrite Es, Z.div_1_r. field.
      * assert (E : (0 <? dd) = true) by (apply Z.ltb_lt; lia).
        rewrite E. apply biased_value. auto.
    + cbn [date_value]. unfold day. reflexivity.
Qed.
Lemma Qfloor_shift (q : Q) (k : Z) : Qfloor (q - inject_Z k) = Qfloor q - k.
Proof.
  apply Qfloor_unique.
  - unfold Z.sub. rewrite inject_Z_plus, inject_Z_opp.
    pose proof (Qfloor_le q). lra.
  - replace (Qfloor q - k + 1) with (Qfloor q + 1 - k) by lia.
    unfold Z.sub. rewrite inject_Z_plus, inject_Z_opp.
    pose proof (Qlt_floor q). lra.
Qed.

Lemma Qfloor_range (q : Q) (lo hi : Z) :
  (inject_Z lo <= q)%Q -> (q < inject_Z hi)%Q -> lo <= Qfloor q < hi.
Proof.
  intros H1 H2. split.
  - rewrite <- (Qfloor_Z lo). now apply Qfloor_resp_le.
  - rewrite Zlt_Qlt. eapply Qle_lt_trans; [apply Qfloor_le | exact H2].
Qed.

(** The time part of the encoder's output, in exact arithmetic. *)
Lemma encode_time_exact (A : Adapter Q) (sec : Q) (N : Z) (digits : option Z)
    (colons z : bool) (h m : Z) (sq : Q) :
  let scale := 10 ^ (match digits with None => 0 | Some n => Z.max n 0 end) in
  let has_dot := ddigits_ge0 digits in
  let dd := digits_of digits in
  (sec == (inject_Z N + (1 # 10)) / inject_Z scale)%Q ->
  hms_from_sec A (Flt sec) = Ok (h, m, Flt sq) ->
  0 <= h < 100 -> 0 <= m < 100 -> (0 <= sq)%Q -> (sq < 100)%Q ->
  (sq == sec - inject_Z (3600 * h + 60 * m))%Q ->
  let f := if has_dot then if 0 <? dd then N mod scale else 0 else 0 in
  format_sec A (Scalar (Flt sec)) digits (iso_colon colons) (iso_zone z) None KU
  = Ok (Single (iso_time colons h m (Qfloor sq) ++ iso_fraction (shown has_dot dd f)
                ++ iso_zone z)) /\
  0 <= Qfloor sq < 100 /\
  Qfloor sq = N / scale - (3600 * h + 60 * m) /\
  (has_dot = true -> 0 <= dd /\ scale = 10 ^ dd /\ 0 <= f < 10 ^ dd) /\
  (has_dot = false -> scale = 1).
Proof.
  intros scale has_dot dd Hsec Hhms Hh Hm Hq0 Hq1 Hsq f.
  assert (Hdot : has_dot = true -> 0 <= dd /\ scale = 10 ^ dd).
  { unfold has_dot, dd, scale. destruct digits as [n|]; cbn; [|discriminate].
    intros H. apply Z.leb_le in H. split; [exact H|]. now rewrite Z.max_l. }
  assert (Hnodot : has_dot = false -> scale = 1).
  { unfold has_dot, scale. destruct digits as [n|]; cbn; [|reflexivity].
    intros H. apply Z.leb_gt in H. now rewrite Z.max_r by lia. }
  assert (Hs : 0 < scale).
  { destruct has_dot eqn:E.
    - destruct (Hdot eq_refl) as [H1 ->]. apply Z.pow_pos_nonneg; lia.
    - rewrite (Hnodot eq_refl). lia. }
  pose proof (inject_Z_pos scale Hs) as Hqs.
  assert (Hfl : Qfloor sq = N / scale - (3600 * h + 60 * m)).
  { rewrite Hsq, Qfloor_shift, Hsec. now rewrite floor_biased. }
  assert (Hr : 0 <= Qfloor sq < 100) by (apply Qfloor_range; assumption).
  assert (Hf : has_dot = true -> 0 <= f < 10 ^ dd).
  { intros H. destruct (Hdot H) as [H1 H2]. unfold f. rewrite H.
    destruct (0 <? dd).
    - rewrite H2. apply Z.mod_pos_bound. lia.
    - rewrite <- H2. lia. }
  split; [|split; [exact Hr|split; [exact Hfl|split; [|exact Hnodot]]]].
  - pose proof (format_sec_scalar A (Flt sec) digits (iso_colon colons) (iso_zone z)
                  KU h m (Flt sq) eq_refl) as He.
    cbv zeta in He. fold has_dot dd in He.
    rewrite He; [|now destruct colons | now destruct z | exact Hhms].
    do 2 f_equal.
    assert (Ht : (if has_dot then py_trunc (Flt sq) else _int (Flt sq)) = Qfloor sq).
    { cbn [py_trunc _int f_leb f_of_Z f_floor Q_float].
      assert (E : Qle_bool (inject_Z 0) sq = true) by now apply Qle_bool_iff.
      rewrite E. now destruct has_dot. }
    rewrite Ht.
    assert (Hfr : shown_fraction (snd (split_number has_dot (10 ^ dd) (Flt sec))) dd = f).
    { unfold f. destruct has_dot eqn:E; [|reflexivity].
      destruct (Hdot eq_refl) as [H1 H2].
      destruct (split_number_exact (Flt sec) dd H1) as [_ H3].
      rewrite H3, <- H2. now rewrite (units_of_biased sec N scale Hs Hsec). }
    rewrite Hfr.
    apply time_text_iso; try assumption.
    intros H. split; [apply (Hdot H) | now apply Hf].
  - intros H. destruct (Hdot H) as [H1 H2]. split; [exact H1|]. split; [exact H2|].
    now apply Hf.
Qed.
(** The date-and-time part of the round trip. *)
Lemma date_time_round_trip (A : Adapter Q) (d x : number Q) (ymd dashed colons z : bool)
    (digits : option Z) (proleptic validate syntax strip : bool) (knd : kind) :
  kind_is_US knd = true ->
  let scale := 10 ^ (match digits with None => 0 | Some n => Z.max n 0 end) in
  let rolled := rollover A scale (_int d, x) in
  let N' := snd (crossed A scale (_int d) (units x scale)) in
  date_contract A 4 ymd (fst rolled) validate proleptic ->
  time_contract A (snd rolled) validate ->
  (validate = true -> N' < seconds_on_day A (fst rolled) * scale) ->
  exists s r,
    format_day_sec A (Scalar d) (Scalar x) (iso_order ymd ++ txt "T") 4 (iso_dash dashed)
                   (txt "T") (iso_colon colons) digits (iso_zone z) proleptic None knd
    = Ok (Single s) /\
    day_sec_from_iso A (Str s) validate syntax strip proleptic
    = Ok (Scalar (Int (fst rolled)), Scalar r) /\
    fst rolled = fst (crossed A scale (_int d) (units x scale)) /\
    (to_float r == inject_Z N' / inject_Z scale)%Q.
Proof.
  intros Hk scale rolled N' Hdc Htc Hval.
  assert (Hs : 0 < scale).
  { unfold scale. apply Z.pow_pos_nonneg; [lia|]. destruct digits; lia. }
  pose proof (inject_Z_pos scale Hs) as Hqs.
  destruct (rollover_exact A scale (_int d) x Hs) as [Hfst Hsnd].
  fold rolled N' in Hfst, Hsnd.
  (* the date *)
  destruct (date_round_trip A (Int (fst rolled)) ymd dashed None proleptic validate
              syntax strip KU eq_refl Hdc) as (dtext & v & Hfd & Hdt & Hdd & Hv).
  cbn [is_flt andb] in Hdt, Hv. cbn [_int] in Hdt, Hv. subst v.
  unfold date_contract in Hdc.
  destruct (calendar_fields A (iso_order ymd) (fst rolled) proleptic) as [[y m] dy].
  cbn [shown iso_fraction] in Hdt. rewrite app_nil_r in Hdt.
  assert (Hdsolid : Forall solid dtext) by (subst dtext; apply iso_date_solid).
  assert (HdT : Forall (fun c => c <> "T"%char) dtext)
    by (subst dtext; apply iso_date_no_T).
  assert (Hdne : dtext <> []).
  { subst dtext. pose proof (iso_date_ne 4 dashed ymd y m dy []) as H.
    now rewrite app_nil_r in H. }
  unfold day_from_iso in Hdd. rewrite (np_array_S_solid dtext Hdsolid Hdne) in Hdd.
  (* the time *)
  destruct Htc as (h & mi & sq & Hhms & Hh & Hm & Hq0 & Hq1 & Hsq & Hback).
  destruct (encode_time_exact A (snd rolled) N' digits colons z h mi sq Hsnd Hhms
              Hh Hm Hq0 Hq1 Hsq) as (Hft & Hr & Hfl & Hdot & Hnodot).
  fold scale in Hft, Hfl, Hdot, Hnodot.
  set (has_dot := ddigits_ge0 digits) in *.
  set (dd := digits_of digits) in *.
  set (f := if has_dot then if 0 <? dd then N' mod scale else 0 else 0) in *.
  set (ttext := iso_time colons h mi (Qfloor sq) ++ iso_fraction (shown has_dot dd f)
                ++ iso_zone z) in *.
  assert (Htsolid : Forall solid ttext) by apply iso_time_solid.
  exists (dtext ++ "T"%char :: ttext).
  (* decoding the time *)
  assert (Hfr : fraction_in_range (shown has_dot dd f)).
  { apply shown_in_range. intros H. destruct (Hdot H) as (H1 & _ & H3). now split. }
  pose proof (sec_from_iso_S_rendered A colons h mi (Qfloor sq) (shown has_dot dd f) z
                validate true strip syntax Hh Hm Hr Hfr) as Hts.
  fold ttext in Hts.
  set (S := seconds_value (Qfloor sq) (shown has_dot dd f)) in *.
  assert (HS : (to_float S == inject_Z (Qfloor sq) + inject_Z f / inject_Z scale)%Q /\
               (inject_Z f / inject_Z scale < 1)%Q /\ 0 <= f).
  { unfold S, shown. destruct has_dot eqn:E.
    - destruct (Hdot eq_refl) as (H1 & H2 & H3).
      assert (Hf1 : (inject_Z f / inject_Z scale < 1)%Q).
      { apply Qlt_shift_div_r; [exact Hqs|]. rewrite Qmult_1_l, <- Zlt_Qlt. lia. }
      split; [|split; [exact Hf1 | lia]].
      destruct (Z.to_nat dd) eqn:En; cbn [seconds_value to_float].
      + assert (E0 : (0 <? dd) = false) by (apply Z.ltb_ge; lia).
        unfold f. rewrite E0. cbn [f_of_Z Q_float]. field. lra.
      + cbn [add_float to_float f_add f_div f_of_Z Q_float].
        rewrite <- En, Z2Nat.id, <- H2 by exact H1. reflexivity.
    - cbn [seconds_value to_float f_of_Z Q_float]. unfold f.
      split; [field; lra|]. split; [|lia].
      apply Qlt_shift_div_r; [exact Hqs|]. rewrite Qmult_1_l, <- Zlt_Qlt. lia. }
  destruct HS as (HS & Hf1 & Hf0).
  assert (Hf2 : (0 <= inject_Z f / inject_Z scale)%Q).
  { apply Qle_shift_div_l; [exact Hqs|]. rewrite Qmult_0_l.
    change 0%Q with (inject_Z 0). now rewrite <- Zle_Qle. }
  destruct (Hback S) as (r & Hr1 & Hr2); [lra | lra |].
  rewrite Hr1 in Hts. cbn [bind] in Hts.
  assert (Hrv : (to_float r == inject_Z N' / inject_Z scale)%Q).
  { rewrite Hr2, HS, Hfl.
    assert (Ef : (inject_Z f / inject_Z scale
                  == inject_Z (N' mod scale) / inject_Z scale)%Q).
    { unfold f. destruct has_dot eqn:E.
      - destruct (Hdot eq_refl) as (H1 & H2 & H3).
        destruct (0 <? dd) eqn:E0; [reflexivity|].
        apply Z.ltb_ge in E0. assert (E1 : scale = 1) by (rewrite H2; now replace dd with 0 by lia).
        now rewrite E1, Z.mod_1_r.
      - now rewrite (Hnodot eq_refl), Z.mod_1_r. }
    rewrite Ef, <- (biased_value N' scale Hs).
    unfold Z.sub. rewrite (inject_Z_plus (N' / scale)), inject_Z_opp. ring. }
  exists r. split; [|split; [|split; [exact Hfst | exact Hrv]]].
  - apply (format_day_sec_scalar A d x (iso_order ymd) 4 (iso_dash dashed) (txt "T")
             (iso_colon colons) digits (iso_zone z) proleptic knd dtext ttext).
    + unfold iso_order. destruct ymd; [now left | now right; right; right; left].
    + exact Hk.
    + exact Hfd.
    + exact Hft.
  - rewrite (day_sec_from_iso_joined A dtext ttext validate syntax strip proleptic
               Hdsolid Htsolid HdT Hdne).
    rewrite Hdd. cbn [bind]. rewrite Hts. cbn [bind elements combine existsb _int].
    assert (Hge : validate && (geb_int r (seconds_on_day A (fst rolled)) || false) = false).
    { destruct validate; [|reflexivity]. cbn [andb]. rewrite orb_false_r.
      pose proof (Hval eq_refl) as Hlt.
      assert (Hq : (to_float r < inject_Z (seconds_on_day A (fst rolled)))%Q).
      { rewrite Hrv. apply Qlt_shift_div_r; [exact Hqs|].
        rewrite <- inject_Z_mult, <- Zlt_Qlt. exact Hlt. }
      destruct r as [k|q]; cbn [geb_int to_float] in *.
      - apply Z.leb_gt. cbn [f_of_Z Q_float] in Hq. now rewrite Zlt_Qlt.
      - cbn [f_leb f_of_Z Q_float]. apply not_true_is_false. intros H.
        apply Qle_bool_iff in H. lra. }
    rewrite Hge. reflexivity.
Qed.

(** ** The batch path of the composer *)

Section Batch.
Context {F : Type} {FO : PyFloat F} (A : Adapter F).

(** With a shape or a buffer, [format_day_sec] runs [format_day] on the days
    and [format_sec] on the seconds after the cross-over, element by
    element, and copies their records into the date and the time field. *)
Lemma format_day_sec_batch (day sec : value F) (order : text) (ydigits : Z)
    (dash sep colon : text) (digits : option Z) (suffix : text) (proleptic : bool)
    (buf : option buffer) (knd : kind) (out : output)
    (shp : option nat) (days secs : list (number F)) :
  broadcast_arrays day sec = Ok (shp, days, secs) ->
  shp <> None \/ buf <> None ->
  format_day_sec A day sec order ydigits dash sep colon digits suffix proleptic buf knd
  = Ok out ->
  let scale := 10 ^ match digits with None => 0 | Some d => Z.max d 0 end in
  let rolled := map (rollover A scale) (combine (map _int days) secs) in
  exists b subd subt bdate btime w fdate ftime view rest,
    out = Filled b /\
    format_day A (reshape shp (map (fun r => Int (fst r)) rolled))
               (filter (fun c => negb (Ascii.eqb c "T")) order)
               ydigits dash None proleptic (Some subd) KU = Ok (Filled bdate) /\
    format_sec A (reshape shp (map (fun r => Flt (snd r)) rolled))
               digits colon suffix (Some subt) KU = Ok (Filled btime) /\
    belems b = store_column w ftime (belems btime)
                 (store_column w fdate (belems bdate) view) ++ rest.
Proof.
  intros Eb Hsb. unfold format_day_sec.
  destruct (py_index order 0) as [c0|]; cbn [bind]; [|discriminate].
  destruct (py_index order (-1)) as [cl|]; cbn [bind]; [|discriminate].
  destruct (negb (Ascii.eqb c0 "T") && negb (Ascii.eqb cl "T"));
    cbn [raise_if bind]; [discriminate|].
  rewrite Eb. cbn [bind].
  destruct (interpret_kind shp buf knd "date") as [k|]; cbn [bind]; [|discriminate].
  destruct (map _ _) as [|[day0 sec0] rest] eqn:Er; [discriminate|].
  destruct (format_day A (Scalar (Int day0)) _ _ _ _ _ _ _) as [o1|];
    cbn [bind]; [|discriminate].
  destruct (single o1) as [dtext|]; cbn [bind]; [|discriminate].
  destruct (format_sec A (Scalar (Flt sec0)) _ _ _ _ _) as [o2|];
    cbn [bind]; [|discriminate].
  destruct (single o2) as [stext|]; cbn [bind]; [|discriminate].
  intros H.
  assert (Hgoal : forall X : result output,
    X = ('(dt, b) <- prepare shp buf k
            (let dt := [("time"%string,
                         if Ascii.eqb c0 "T" then (len stext, 0)
                         else (len stext, (len dtext + len sep) * char_size k));
                        ("date"%string,
                         if Ascii.eqb c0 "T"
                         then (len dtext, (len stext + len sep) * char_size k)
                         else (len dtext, 0))] in
             if len sep =? 0 then dt
             else dtype_set dt "sep"
                    (if Ascii.eqb c0 "T" then (len sep, len stext * char_size k)
                     else (len sep, len dtext * char_size k)))
            (len stext + len dtext + len sep) "date/time format" ;;
         let n := targets shp b in
         let view := firstn n (belems b) in
         let view := map (store_if (char_size k) dt "sep" sep) view in
         let sub (f : Z * Z) := {| bkind := bkind b; bwidth := fst f;
                                   belems := map (field (fst f, snd f / char_size k)) view |} in
         let days' := reshape shp (map (fun r => Int (fst r)) ((day0, sec0) :: rest)) in
         let secs' := reshape shp (map (fun r => Flt (snd r)) ((day0, sec0) :: rest)) in
         o <- format_day A days' (filter (fun c => negb (Ascii.eqb c "T")) order)
                ydigits dash None proleptic
                (Some (sub (if Ascii.eqb c0 "T"
                            then (len dtext, (len stext + len sep) * char_size k)
                            else (len dtext, 0)))) KU ;;
         bdate <- filled o ;;
         let view := store_column (char_size k)
                       (if Ascii.eqb c0 "T"
                        then (len dtext, (len stext + len sep) * char_size k)
                        else (len dtext, 0)) (belems bdate) view in
         o <- format_sec A secs' digits colon suffix
                (Some (sub (if Ascii.eqb c0 "T" then (len stext, 0)
                            else (len stext, (len dtext + len sep) * char_size k)))) KU ;;
         btime <- filled o ;;
         let view := store_column (char_size k)
                       (if Ascii.eqb c0 "T" then (len stext, 0)
                        else (len stext, (len dtext + len sep) * char_size k))
                       (belems btime) view in
         Ok (Filled {| bkind := bkind b; bwidth := bwidth b;
                       belems := view ++ skipn n (belems b) |})) ->
    X = Ok out ->
    exists b subd subt bdate btime w fdate ftime view rest',
      out = Filled b /\
      format_day A (reshape shp (map (fun r => Int (fst r)) ((day0, sec0) :: rest)))
                 (filter (fun c => negb (Ascii.eqb c "T")) order)
                 ydigits dash None proleptic (Some subd) KU = Ok (Filled bdate) /\
      format_sec A (reshape shp (map (fun r => Flt (snd r)) ((day0, sec0) :: rest)))
                 digits colon suffix (Some subt) KU = Ok (Filled btime) /\
      belems b = store_column w ftime (belems btime)
                   (store_column w fdate (belems bdate) view) ++ rest').
  { intros X ->.
    destruct (prepare _ _ _ _ _ _) as [[dt b]|]; cbn [bind]; [|discriminate].
    cbv zeta.
    match goal with
    | |- bind ?x _ = _ -> _ => destruct x as [o|] eqn:E1; cbn [bind]; [|discriminate]
    end.
    destruct (filled o) as [bdate|] eqn:F1; cbn [bind]; [|discriminate].
    apply filled_inv in F1. subst o.
    match goal with
    | |- bind ?x _ = _ -> _ => destruct x as [o'|] eqn:E2; cbn [bind]; [|discriminate]
    end.
    destruct (filled o') as [btime|] eqn:F2; cbn [bind]; [|discriminate].
    apply filled_inv in F2. subst o'.
    intros [= <-].
    do 10 eexists. split; [reflexivity|]. split; [exact E1|]. split; [exact E2|].
    cbn [belems]. reflexivity. }
  destruct shp as [n|]; [eapply Hgoal; [reflexivity | exact H]|].
  destruct buf as [b0|]; [eapply Hgoal; [reflexivity | exact H]|].
  destruct Hsb as [Hs | Hs]; contradiction.
Qed.

End Batch.

(** ** Two-digit years *)

(** C8: with [ydigits=2] the encoder shows the year modulo 100 -- the scalar
    string has [y mod 100] in the year column and the record layout has no
    field for the century digits --; the decoder of a two-digit-year layout
    hands the adapter the two-digit number as the year; so the pair is not
    inverse on the year: 2099-01-01 is written ["99-01-01"], which is read
    back as 1 January of the year 99. *)
Theorem two_digit_year_wraps {F : Type} {FO : PyFloat F} (A : Adapter F) :
  (forall x order dash ddigits proleptic knd,
     valid_order order -> kind_is_US knd = true ->
     let has_dot := is_flt x && ddigits_ge0 ddigits in
     let dd := digits_of ddigits in
     let part := split_number has_dot (10 ^ dd) x in
     let '(y, m, d) := calendar_fields A order (fst part) proleptic in
     format_day A (Scalar x) order 2 dash ddigits proleptic None knd
     = Ok (Single (date_text order 2 dash has_dot dd (y mod 100) m d
                             (shown_fraction (snd part) dd)))) /\
  (forall w order dash has_dot dd,
     valid_order order ->
     has_field (dl_dtype (day_layout_of w order dash 2 has_dot dd)) "y12" = false) /\
  (forall (dashed ymd : bool) yy m d validate syntax strip proleptic,
     0 <= yy < 100 -> 0 <= m < 100 -> 0 <= d < (if ymd then 100 else 1000) ->
     day_from_iso A (Str (iso_date 2 dashed ymd yy m d)) validate syntax strip proleptic
     = (day <- (if ymd then day_from_ymd A yy m d validate proleptic
                else day_from_yd A yy d validate proleptic) ;;
        Ok (Scalar (Int day)))) /\
  (ymd_from_day (Ref.adapter (F:=Q)) 36160 false = (2099, 1, 1) /\
   format_day (F:=Q) Ref.adapter (Scalar (Int 36160)) (txt "YMD") 2 (txt "-") None false
              None KU = Ok (Single (txt "99-01-01")) /\
   day_from_iso (F:=Q) Ref.adapter (Str (txt "99-01-01")) true true true false
   = Ok (Scalar (Int (-694327))) /\
   ymd_from_day (Ref.adapter (F:=Q)) (-694327) false = (99, 1, 1)).
Proof.
  split; [|split; [|split]].
  - intros x order dash ddigits proleptic knd Ho Hk.
    apply (format_day_scalar A x order 2 dash ddigits proleptic knd Ho
             (or_introl eq_refl) Hk).
  - intros w order dash has_dot dd Ho.
    apply (day_layout_fields w order dash 2 has_dot dd Ho).
  - intros dashed ymd yy m d validate syntax strip proleptic Hy Hm Hd.
    pose proof (day_from_iso_rendered A 2 dashed ymd yy m d None validate syntax strip
                  proleptic (or_introl eq_refl) Hy Hm Hd I) as H.
    cbn [iso_fraction date_value] in H. now rewrite app_nil_r in H.
  - repeat split; vm_compute; reflexivity.
Qed.

(** The year 2099 in the two-digit layouts, with and without dashes. *)
Lemma two_digit_year_wraps_witness :
  valid_order (txt "YD") /\ 0 <= 99 < 100 /\
  format_day (F:=Q) Ref.adapter (Scalar (Int 36160)) (txt "YD") 2 (txt "") None false
             None KS = Ok (Single (txt "99001")) /\
  day_from_iso (F:=Q) Ref.adapter (Str (txt "99001")) false false false false
  = Ok (Scalar (Int (-694327))).
Proof.
  split; [right; right; right; left; reflexivity|]. split; [lia|].
  pose proof (two_digit_year_wraps (F:=Q) Ref.adapter) as (He & _ & Hd & _).
  split.
  - exact (He (Int 36160) (txt "YD") (txt "") None false KS
              (or_intror (or_intror (or_intror (or_introl eq_refl)))) eq_refl).
  - exact (Hd false false 99 0 1 false false false false
              ltac:(lia) ltac:(lia) ltac:(cbn; lia)).
Defined.

(** ** The rounding rule *)



(** ** Cross-over into the next day *)



(** ** The round trip *)




(** ** Further properties of the decoders and the encoders *)





(** [day_sec_from_iso] on a scalar text with a ["T"]: the text before the
    first ["T"] is decoded as a date with the caller's options, the text
    after it as a time with leap seconds allowed, and under [validate] the
    seconds must be below the length of the day. *)
Theorem date_time_is_split_at_T {F : Type} {FO : PyFloat F} (A : Adapter F)
    (dtext ttext : text) (validate syntax strip proleptic : bool) :
  Forall solid dtext -> Forall solid ttext ->
  Forall (fun c => c <> "T"%char) dtext -> dtext <> [] ->
  day_sec_from_iso A (Str (dtext ++ "T"%char :: ttext)) validate syntax strip proleptic
  = (day <- day_from_iso_S A (scalar_array dtext) validate syntax strip proleptic ;;
     sec <- sec_from_iso_S A (scalar_array ttext) validate true strip syntax ;;
     _ <- raise_if (validate &&
                    existsb (fun '(s, d) => geb_int s (seconds_on_day A (_int d)))
                            (combine (elements sec) (elements day)))
                   (InvalidValue "seconds value is outside allowed range") ;;
     Ok (day, sec)).
Proof. apply day_sec_from_iso_joined. Qed.

(** A time past the end of its day is refused under [validate]. *)
Lemma date_time_is_split_at_T_witness :
  day_sec_from_iso (F:=Q) Ref.adapter (Str (txt "2000-01-01" ++ "T"%char :: txt "23:59:60"))
                   true true true false
  = Err (InvalidValue "seconds value is outside allowed range") /\
  day_sec_from_iso (F:=Q) Ref.adapter (Str (txt "2016-12-31" ++ "T"%char :: txt "23:59:60"))
                   true true true false
  = Ok (Scalar (Int 6209), Scalar (Int 86400)).
Proof.
  assert (Hs : forall s, Forall solid (txt s) <-> forallb (fun c => negb (Ascii.eqb c NUL)
                && negb (Ascii.eqb c blank)) (txt s) = true).
  { intros s. rewrite forallb_forall, Forall_forall. unfold solid.
    split; intros H c Hc; specialize (H c Hc).
    - destruct H as [H1 H2]. apply Ascii.eqb_neq in H1, H2. now rewrite H1, H2.
    - apply andb_true_iff in H. destruct H as [H1 H2].
      apply negb_true_iff in H1, H2. split; now apply Ascii.eqb_neq. }
  assert (HT : forall s, forallb (fun c => negb (Ascii.eqb c "T")) (txt s) = true ->
                         Forall (fun c => c <> "T"%char) (txt s)).
  { intros s H. rewrite forallb_forall in H. apply Forall_forall. intros c Hc.
    specialize (H c Hc). apply negb_true_iff in H. now apply Ascii.eqb_neq. }
  split.
  - rewrite (date_time_is_split_at_T (F:=Q) Ref.adapter (txt "2000-01-01") (txt "23:59:60")
               true true true false);
      [vm_compute; reflexivity | now apply Hs | now apply Hs | now apply HT | discriminate].
  - rewrite (date_time_is_split_at_T (F:=Q) Ref.adapter (txt "2016-12-31") (txt "23:59:60")
               true true true false);
      [vm_compute; reflexivity | now apply Hs | now apply Hs | now apply HT | discriminate].
Defined.
(** [format_sec] takes the hours, minutes and whole seconds of the input as
    it is and only the fraction digits of the rounded input: 59.96 at one
    digit is written 00:00:59.0, as a string and as a record, in binary64
    and in exact arithmetic.  [format_day_sec] rounds before it calls
    [format_sec] and writes 00:01:00.0. *)
Theorem format_sec_rounds_the_fraction_only :
  format_sec (F:=float) Ref.adapter (Scalar (Flt 0x1.dfae147ae147bp+5%float)) (Some 1)
             (txt ":") (txt "") None KU
  = Ok (Single (txt "00:00:59.0")) /\
  format_sec (F:=float) Ref.adapter (Array [Flt 0x1.dfae147ae147bp+5%float]) (Some 1)
             (txt ":") (txt "") None KS
  = Ok (Filled {| bkind := KS; bwidth := 10; belems := [txt "00:00:59.0"] |}) /\
  format_sec (F:=Q) Ref.adapter (Scalar (Flt (5996 # 100)%Q)) (Some 1)
             (txt ":") (txt "") None KU
  = Ok (Single (txt "00:00:59.0")) /\
  format_day_sec (F:=float) Ref.adapter (Scalar (Int 0))
                 (Scalar (Flt 0x1.dfae147ae147bp+5%float)) (txt "YMDT") 4 (txt "-")
                 (txt "T") (txt ":") (Some 1) (txt "") false None KU
  = Ok (Single (txt "2000-01-01T00:01:00.0")).
Proof. repeat split; vm_compute; reflexivity. Qed.

(** [format_day_sec] refuses an order that has its ["T"] neither first nor
    last, before it looks at anything else. *)
Theorem format_day_sec_needs_T {F : Type} {FO : PyFloat F} (A : Adapter F)
    (day sec : value F) (order : text) (ydigits : Z) (dash sep colon : text)
    (digits : option Z) (suffix : text) (proleptic : bool) (buf : option buffer)
    (knd : kind) (c0 cl : ascii) :
  py_index order 0 = Ok c0 -> py_index order (-1) = Ok cl ->
  c0 <> "T"%char -> cl <> "T"%char ->
  format_day_sec A day sec order ydigits dash sep colon digits suffix proleptic buf knd
  = Err (ConfigurationError (quoted (txt "T") ++ " missing from order specification")).
Proof.
  intros H0 Hl Hc0 Hcl. unfold format_day_sec. rewrite H0, Hl. cbn [bind].
  apply Ascii.eqb_neq in Hc0, Hcl. now rewrite Hc0, Hcl.
Qed.

(** The order ["YMD"] given to the composer. *)
Lemma format_day_sec_needs_T_witness :
  format_day_sec (F:=Q) Ref.adapter (Scalar (Int 0)) (Scalar (Int 0)) (txt "YMD") 4
                 (txt "-") (txt "T") (txt ":") None (txt "") false None KU
  = Err (ConfigurationError (quoted (txt "T") ++ " missing from order specification")).
Proof.
  apply (format_day_sec_needs_T (F:=Q) Ref.adapter _ _ (txt "YMD") _ _ _ _ _ _ _ _ _
           "Y"%char "D"%char eq_refl eq_refl); discriminate.
Defined.



(** An integer day is read back as it was written, whatever the float type:
    for the ISO options, at a day where the adapter's calendar functions are
    inverse to each other and the year has at most four digits. *)
Theorem integer_day_round_trip {F : Type} {FO : PyFloat F} (A : Adapter F)
    (n : Z) (ymd dashed : bool) (ddigits : option Z)
    (proleptic validate syntax strip : bool) (knd : kind) :
  kind_is_US knd = true ->
  date_contract A 4 ymd n validate proleptic ->
  exists s,
    format_day A (Scalar (Int n)) (iso_order ymd) 4 (iso_dash dashed) ddigits proleptic
               None knd = Ok (Single s) /\
    day_from_iso A (Str s) validate syntax strip proleptic = Ok (Scalar (Int n)).
Proof.
  intros Hk Hc.
  pose proof (format_day_scalar A (Int n) (iso_order ymd) 4 (iso_dash dashed) ddigits
                proleptic knd) as He.
  cbv zeta in He. cbn [is_flt andb split_number fst snd _int shown_fraction] in He.
  unfold date_contract in Hc.
  destruct (calendar_fields A (iso_order ymd) n proleptic) as [[y m] d].
  destruct Hc as (Hy & Hm & Hd & Hinv).
  pose proof (date_text_iso 4 dashed ymd false (digits_of ddigits) y m d 0
                (or_intror eq_refl) Hy Hm Hd ltac:(discriminate)) as Ht.
  change (Z.of_nat 4) with 4 in Ht.
  cbn [shown iso_fraction] in Ht.
  exists (iso_date 4 dashed ymd y m d ++ []). split.
  - rewrite <- Ht. apply He.
    + unfold iso_order. destruct ymd; [now left | now right; right; right; left].
    + now right.
    + exact Hk.
  - pose proof (day_from_iso_rendered A 4 dashed ymd y m d None validate syntax strip
                  proleptic (or_intror eq_refl) Hy Hm Hd I) as H.
    cbn [iso_fraction] in H. rewrite H, Hinv. reflexivity.
Qed.

(** Day 10000 in binary64. *)
Lemma integer_day_round_trip_witness :
  date_contract (Ref.adapter (F:=float)) 4 false 10000 true false /\
  exists s,
    format_day (F:=float) Ref.adapter (Scalar (Int 10000)) (txt "YD") 4 (txt "") (Some 3)
               false None KS = Ok (Single s) /\
    day_from_iso (F:=float) Ref.adapter (Str s) true true true false
    = Ok (Scalar (Int 10000)).
Proof.
  assert (Hd : date_contract (Ref.adapter (F:=float)) 4 false 10000 true false).
  { unfold date_contract. vm_compute. repeat split; discriminate. }
  split; [exact Hd|].
  exact (integer_day_round_trip (F:=float) Ref.adapter 10000 false false (Some 3)
           false true true true KS eq_refl Hd).
Defined.

(** ** The callers: time systems and deprecated names *)

Section CallersOfDecoders.
Context {F : Type} {FO : PyFloat F} (A : Adapter F) (T : TimeSystems F).

(** The date-only path of [day_sec_from_iso], for the callers. *)
Lemma day_sec_from_iso_date_only (strings : strings_in)
    (validate syntax strip proleptic : bool) (a b : nat) (body : text) :
  first_of (np_array_S strings) = Ok (padded a b body) ->
  body <> [] ->
  Forall (fun x => x <> blank /\ x <> "T"%char) body ->
  day_sec_from_iso A strings validate syntax strip proleptic
  = (day <- day_from_iso A strings validate false strip false ;;
     Ok (day, Scalar (Int 0))).
Proof.
  intros Hf Hne Hb.
  assert (Hblank : Forall (fun x => x <> blank) body)
    by (eapply Forall_impl; [|exact Hb]; now intros x [? _]).
  assert (HT : Forall (fun x => x <> "T"%char) body)
    by (eapply Forall_impl; [|exact Hb]; now intros x [_ ?]).
  unfold day_sec_from_iso.
  rewrite (bind_ok _ _ _ Hf).
  rewrite (find_T_padded a b body HT). cbn [Z.eqb Pos.eqb].
  rewrite (count_white_padded a b body Hne Hblank).
  rewrite (find_blank_padded a b body Hblank).
  destruct b as [|b].
  - now destruct (-1 =? _).
  - rewrite Z.eqb_refl. reflexivity.
Qed.

(** [tai_from_iso] on dates without a time: the day is decoded with
    [proleptic=False] whatever the caller asks for, through [proleptic] or
    through the deprecated [use_julian], and is converted with 0 seconds. *)
Theorem tai_from_iso_date_only (strings : strings_in)
    (validate strip proleptic : bool) (use_julian : option bool)
    (a b : nat) (body : text) :
  first_of (np_array_S strings) = Ok (padded a b body) ->
  body <> [] ->
  Forall (fun x => x <> blank /\ x <> "T"%char) body ->
  snd (tai_from_iso A T strings validate strip proleptic use_julian)
  = (day <- day_from_iso A strings validate false strip false ;;
     tai_from_day_sec T day (Scalar (Int 0))) /\
  snd (tai_from_iso A T strings validate strip proleptic use_julian)
  = snd (tai_from_iso A T strings validate strip false None).
Proof.
  intros Hf Hne Hb.
  assert (H : forall p u,
    snd (tai_from_iso A T strings validate strip p u)
    = (day <- day_from_iso A strings validate false strip false ;;
       tai_from_day_sec T day (Scalar (Int 0)))).
  { intros p u. unfold tai_from_iso.
    destruct (use_julian_given u p) as [w p']. cbn [snd].
    rewrite (day_sec_from_iso_date_only strings validate false strip p' a b body Hf Hne Hb).
    now destruct (day_from_iso A strings validate false strip false). }
  split; [apply H | now rewrite !H].
Qed.

End CallersOfDecoders.

(** 1 January 1500, where the calendars differ by nine days: with a time
    the proleptic reading is another instant, without a time it is not. *)
Lemma tai_from_iso_date_only_witness :
  snd (tai_from_iso (F:=Q) Ref.adapter RefTime.systems (Str (txt "1500-01-01"))
                    true false true None)
  = snd (tai_from_iso (F:=Q) Ref.adapter RefTime.systems (Str (txt "1500-01-01"))
                      true false false None) /\
  snd (tai_from_iso (F:=Q) Ref.adapter RefTime.systems (Str (txt "1500-01-01T00:00:00"))
                    true false true None)
  <> snd (tai_from_iso (F:=Q) Ref.adapter RefTime.systems
                       (Str (txt "1500-01-01T00:00:00")) true false false None).
Proof.
  split.
  - exact (proj2 (tai_from_iso_date_only (F:=Q) Ref.adapter RefTime.systems
                    (Str (txt "1500-01-01")) true false true None 0 0 (txt "1500-01-01")
                    eq_refl ltac:(discriminate)
                    ltac:(repeat constructor; discriminate))).
  - vm_compute. discriminate.
Defined.



Lemma sec_from_iso_rendered {F : Type} {FO : PyFloat F} (A : Adapter F)
    (colons : bool) (h m s : Z) (fr : option (nat * Z)) (z : bool)
    (validate leapsecs strip syntax : bool) :
  0 <= h < 100 -> 0 <= m < 100 -> 0 <= s < 100 -> fraction_in_range fr ->
  sec_from_iso A (Str (iso_time colons h m s ++ iso_fraction fr ++ iso_zone z))
               validate leapsecs strip syntax
  = (x <- sec_from_hms A (Int h) (Int m) (seconds_value s fr) validate leapsecs ;;
     Ok (Scalar x)).
Proof.
  intros Hh Hm Hs Hf. unfold sec_from_iso. rewrite np_array_S_solid.
  - now apply sec_from_iso_S_rendered.
  - apply iso_time_solid.
  - apply len_ne. unfold iso_time.
    assert (0 <= len (iso_fraction fr)) by (unfold len; lia).
    assert (0 <= len (iso_zone z)) by (unfold len; lia).
    destruct colons; cbn [txt list_ascii_of_string]; rewrite <- ?app_assoc; len_tac.
Qed.

(** A time written without fraction digits ([digits] absent or negative) is
    read back as the whole seconds of what was written, in any float
    arithmetic: [sec_from_iso] hands [sec_from_hms] the hours and minutes
    [hms_from_sec] gave and the seconds truncated to an integer. *)
Theorem whole_seconds_round_trip {F : Type} {FO : PyFloat F} (A : Adapter F)
    (x : number F) (colons z : bool) (digits : option Z)
    (validate leapsecs strip syntax : bool) (knd : kind) (h m : Z) (s v : number F) :
  kind_is_US knd = true -> ddigits_ge0 digits = false ->
  hms_from_sec A x = Ok (h, m, s) ->
  0 <= h < 100 -> 0 <= m < 100 -> 0 <= _int s < 100 ->
  sec_from_hms A (Int h) (Int m) (Int (_int s)) validate leapsecs = Ok v ->
  exists t,
    hms_format_from_sec A (Scalar x) digits (iso_zone z) (iso_colon colons) None knd
    = Ok (Single t) /\
    t = iso_time colons h m (_int s) ++ iso_zone z /\
    sec_from_iso A (Str t) validate leapsecs strip syntax = Ok (Scalar v).
Proof.
  intros Hk Hdot Hhms Hh Hm Hs Hback.
  pose proof (format_sec_scalar A x digits (iso_colon colons) (iso_zone z) knd h m s Hk)
    as He.
  cbv zeta in He. rewrite Hdot in He.
  pose proof (time_text_iso colons z false (digits_of digits) h m (_int s) 0
                Hh Hm Hs ltac:(discriminate)) as Ht.
  cbn [shown iso_fraction app] in Ht.
  exists (iso_time colons h m (_int s) ++ iso_zone z). split; [|split; [reflexivity|]].
  - unfold hms_format_from_sec. rewrite He; [|now destruct colons | now destruct z | exact Hhms].
    do 2 f_equal. rewrite <- Ht.
    assert (Ef : shown_fraction (snd (split_number false (10 ^ digits_of digits) x))
                                (digits_of digits) = 0) by reflexivity.
    now rewrite Ef.
  - pose proof (sec_from_iso_rendered A colons h m (_int s) None z validate leapsecs
                  strip syntax Hh Hm Hs I) as Hd.
    cbn [iso_fraction app seconds_value] in Hd. rewrite Hd, Hback. reflexivity.
Qed.

(** 3661 seconds under the deprecated name, with the reference adapter in
    binary64. *)
Lemma whole_seconds_round_trip_witness :
  exists t,
    hms_format_from_sec (F:=float) Ref.adapter (Scalar (Int 3661)) None (txt "Z")
                        (txt ":") None KS = Ok (Single t) /\
    t = txt "01:01:01Z" /\
    sec_from_iso (F:=float) Ref.adapter (Str t) true true true true
    = Ok (Scalar (Int 3661)).
Proof.
  exact (whole_seconds_round_trip (F:=float) Ref.adapter (Int 3661) true true None
           true true true true KS 1 1 (Int 1) (Int 3661) eq_refl eq_refl eq_refl
           ltac:(lia) ltac:(lia) ltac:(cbn; lia) eq_refl).
Defined.
(** ** Empty inputs *)

Lemma rstrip_nul_nuls (n : Z) : rstrip_nul (replicate n NUL) = [].
Proof.
  unfold replicate. induction (Z.to_nat n) as [|k IH]; [reflexivity|].
  cbn [repeat rstrip_nul]. now rewrite IH.
Qed.

(** An empty batch has no first element to take the layout from, so
    every decoder fails on it with an index error, whatever the options; an
    empty string (or one of NUL characters only, which NumPy reads as empty)
    is an unrecognized date for [day_from_iso] and [day_sec_from_iso], but
    an index error for [sec_from_iso], which looks at its last character
    before anything else. *)
Theorem decoders_on_empty_input {F : Type} {FO : PyFloat F} (A : Adapter F)
    (T : TimeSystems F) (validate syntax strip proleptic leapsecs : bool)
    (use_julian : option bool) (n : Z) :
  (day_from_iso A (Strs []) validate syntax strip proleptic = Err IndexError /\
   sec_from_iso A (Strs []) validate leapsecs strip syntax = Err IndexError /\
   day_sec_from_iso A (Strs []) validate syntax strip proleptic = Err IndexError /\
   snd (tai_from_iso A T (Strs []) validate strip proleptic use_julian) = Err IndexError) /\
  (let unrecognized :=
     FormatNotRecognized ("unrecognized ISO date format: " ++ quoted []) in
   day_from_iso A (Str (replicate n NUL)) validate syntax strip proleptic
   = Err unrecognized /\
   sec_from_iso A (Str (replicate n NUL)) validate leapsecs strip syntax
   = Err IndexError /\
   day_sec_from_iso A (Str (replicate n NUL)) validate syntax strip proleptic
   = Err unrecognized /\
   snd (tai_from_iso A T (Str (replicate n NUL)) validate strip proleptic use_julian)
   = Err unrecognized).
Proof.
  split.
  - repeat split; try reflexivity.
    unfold tai_from_iso. now destruct use_julian.
  - cbv zeta.
    assert (Hd : forall v sy st p,
      day_from_iso A (Str (replicate n NUL)) v sy st p
      = Err (FormatNotRecognized ("unrecognized ISO date format: " ++ quoted []))).
    { intros v sy st p. unfold day_from_iso, day_from_iso_S, np_array_S, first_of.
      rewrite rstrip_nul_nuls. cbn [items bind len List.length Z.of_nat Z.max].
      now destruct st. }
    assert (Hds : forall v sy st p,
      day_sec_from_iso A (Str (replicate n NUL)) v sy st p
      = Err (FormatNotRecognized ("unrecognized ISO date format: " ++ quoted []))).
    { intros v sy st p. unfold day_sec_from_iso.
      unfold np_array_S at 1, first_of. rewrite rstrip_nul_nuls.
      cbn -[day_from_iso]. rewrite Hd. reflexivity. }
    repeat split.
    + apply Hd.
    + unfold sec_from_iso, sec_from_iso_S, np_array_S, first_of.
      rewrite rstrip_nul_nuls. cbn [items bind len List.length Z.of_nat Z.max].
      now destruct strip.
    + apply Hds.
    + unfold tai_from_iso. destruct use_julian; cbn [use_julian_given snd];
        now rewrite Hds.
Qed.

(** ** The checks on the output buffer *)

(** The width of a time record. *)
Lemma sec_layout_width (w : Z) (colon suffix : text) (has_dot : bool) (digits : Z) :
  (has_dot = true -> 0 <= digits) ->
  snd (sec_layout w colon suffix has_dot digits)
  = 6 + 2 * len colon + (if has_dot then 1 + digits else 0) + len suffix.
Proof.
  intros Hd. unfold sec_layout. cbv zeta.
  destruct has_dot.
  - specialize (Hd eq_refl).
    destruct (digits =? 0) eqn:E.
    + apply Z.eqb_eq in E. subst digits.
      destruct (len suffix =? 0) eqn:Ez; cbn [fst snd];
        [apply Z.eqb_eq in Ez|]; lia.
    + destruct (len suffix =? 0) eqn:Ez; cbn [fst snd];
        [apply Z.eqb_eq in Ez|]; lia.
  - destruct (len suffix =? 0) eqn:Ez; cbn [fst snd];
      [apply Z.eqb_eq in Ez|]; lia.
Qed.

Section BufferChecks.

Context {F : Type} {FO : PyFloat F} (A : Adapter F).

Lemma prepare_too_narrow (shp : option nat) (b : buffer) (knd : kind) (dt : dtype)
    (L : Z) (what : string) :
  bwidth b < L ->
  prepare shp (Some b) knd dt L what
  = Err (BufferTooSmall ("buffer itemsize is too small for the " ++ what)).
Proof.
  intros H. unfold prepare. pose proof (char_size_pos knd) as Hw.
  assert (E : (bwidth b * char_size knd <? L * char_size knd) = true)
    by (apply Z.ltb_lt; nia).
  now rewrite E.
Qed.

Lemma interpret_kind_fits (shp : option nat) (b : buffer) (knd : kind) (what : string) :
  kind_is_US (bkind b) = true ->
  (forall n, shp = Some n -> Z.of_nat n <= len (belems b)) ->
  interpret_kind shp (Some b) knd what = Ok (bkind b).
Proof.
  intros Hk Hn. unfold interpret_kind. rewrite Hk. cbn [negb raise_if bind].
  destruct shp as [n|]; [|reflexivity].
  assert (E : (len (belems b) <? Z.of_nat n) = false)
    by (apply Z.ltb_ge; now apply Hn).
  now rewrite E.
Qed.

Lemma interpret_kind_short (n : nat) (b : buffer) (knd : kind) (what : string) :
  kind_is_US (bkind b) = true -> len (belems b) < Z.of_nat n ->
  interpret_kind (Some n) (Some b) knd what
  = Err (BufferTooSmall ("buffer shape is too small for the " ++ what ++ " array")).
Proof.
  intros Hk Hn. unfold interpret_kind. rewrite Hk. cbn [negb raise_if bind].
  assert (E : (len (belems b) <? Z.of_nat n) = true) by now apply Z.ltb_lt.
  now rewrite E.
Qed.

End BufferChecks.

(** [format_day] and [format_sec] with valid options (and times the adapter
    accepts) check the output in this order.  Without a buffer, a [kind]
    other than "U" and "S" is refused.  With a buffer, [kind] is ignored
    and the buffer's own kind must be "U" or "S"; then the buffer must have
    at least as many elements as the input array; then its elements must be
    at least as wide as the record: the width of the date (year digits, two
    2-digit fields or a 3-digit day of year, the separators, and the point
    and the digits of the fraction for a float input) or of the time (six
    digits, two separators, the point and the digits, the suffix). *)
Theorem encoders_check_the_buffer {F : Type} {FO : PyFloat F} (A : Adapter F)
    (day : value F) (order : text) (ydigits : Z) (dash : text) (ddigits : option Z)
    (proleptic : bool)
    (sec : value F) (digits : option Z) (colon suffix : text)
    (hms : list (Z * Z * number F)) (b : buffer) (knd : kind) :
  valid_order order -> ydigits = 2 \/ ydigits = 4 ->
  mapM (hms_from_sec A) (elements sec) = Ok hms ->
  let dwidth := date_width order ydigits (len dash)
                + (if _is_float day && ddigits_ge0 ddigits
                   then 1 + digits_of ddigits else 0) in
  let swidth := 6 + 2 * len colon
                + (if ddigits_ge0 digits then 1 + digits_of digits else 0)
                + len suffix in
  let invalid (what : string) :=
    ConfigurationError (what ++ " must be " ++ quoted (txt "U") ++ " or "
                        ++ quoted (txt "S"))%string in
  let fits (v : value F) := forall n, shape v = Some n -> Z.of_nat n <= len (belems b) in
  (kind_is_US knd = false ->
     format_day A day order ydigits dash ddigits proleptic None knd
     = Err (invalid "invalid kind,"%string) /\
     format_sec A sec digits colon suffix None knd = Err (invalid "invalid kind,"%string)) /\
  (kind_is_US (bkind b) = false ->
     format_day A day order ydigits dash ddigits proleptic (Some b) knd
     = Err (invalid "invalid buffer; kind"%string) /\
     format_sec A sec digits colon suffix (Some b) knd
     = Err (invalid "invalid buffer; kind"%string)) /\
  (kind_is_US (bkind b) = true ->
     (~ fits day ->
        format_day A day order ydigits dash ddigits proleptic (Some b) knd
        = Err (BufferTooSmall "buffer shape is too small for the date array")) /\
     (~ fits sec ->
        format_sec A sec digits colon suffix (Some b) knd
        = Err (BufferTooSmall "buffer shape is too small for the time array")) /\
     (fits day -> bwidth b < dwidth ->
        format_day A day order ydigits dash ddigits proleptic (Some b) knd
        = Err (BufferTooSmall "buffer itemsize is too small for the date format")) /\
     (fits sec -> bwidth b < swidth ->
        format_sec A sec digits colon suffix (Some b) knd
        = Err (BufferTooSmall "buffer itemsize is too small for the ISO time format"))).
Proof.
  intros Ho Hy Hhms dwidth swidth invalid fits.
  assert (Hyd : (ydigits =? 2) || (ydigits =? 4) = true)
    by (destruct Hy as [-> | ->]; reflexivity).
  assert (Hday : forall buf k,
    format_day A day order ydigits dash ddigits proleptic buf k
    = (knd' <- interpret_kind (shape day) buf k "date" ;;
       let w := char_size knd' in
       let has_dot := _is_float day && ddigits_ge0 ddigits in
       let l := day_layout_of w order dash ydigits has_dot (digits_of ddigits) in
       let parts := map (split_number has_dot (10 ^ digits_of ddigits)) (elements day) in
       let ymd := map (fun p => if len order =? 3
                                then ymd_from_day A (fst p) proleptic
                                else let '(y, d) := yd_from_day A (fst p) proleptic in
                                     (y, 0, d)) parts in
       match shape day, buf, combine ymd parts with
       | None, None, [((y, m, d), (_, frac))] =>
           let y := if ydigits =? 2 then y mod 100 else y in
           let f := match frac with
                    | Some fr => if 0 <? digits_of ddigits
                                 then frac_int fr (digits_of ddigits) else 0
                    | None => 0
                    end in
           Ok (Single (fmt_format (dl_fmt l) y m d f))
       | _, _, rows =>
           '(dt, b) <- prepare (shape day) buf knd' (dl_dtype l) (dl_lstring l)
                               "date format" ;;
           recs <- mapM (fun '((y, m, d), (_, frac)) =>
                           day_record w dt order dash (digits_of ddigits) (bwidth b)
                                      y m d frac)
                        (broadcast (shape day) b rows) ;;
           Ok (Filled (fill_targets (shape day) b recs))
       end)).
  { intros buf k. unfold format_day.
    rewrite (proj1 (valid_order_text_in order) Ho), Hyd. reflexivity. }
  assert (Hsec : forall buf k,
    format_sec A sec digits colon suffix buf k
    = (knd' <- interpret_kind (shape sec) buf k "time" ;;
       let has_dot := ddigits_ge0 digits in
       let w := char_size knd' in
       let fracs := map (fun x => snd (split_number has_dot (10 ^ digits_of digits) x))
                        (elements sec) in
       let hms := map (fun '(h, m, s) => (h, m, if has_dot then s else Int (_int s))) hms in
       let '(dt, lstring) := sec_layout w colon suffix has_dot (digits_of digits) in
       match shape sec, buf, combine hms fracs with
       | None, None, [((h, m, s), frac)] =>
           let f := match frac with
                    | Some fr => if 0 <? digits_of digits
                                 then frac_int fr (digits_of digits) else 0
                    | None => 0
                    end in
           r <- sec_format colon suffix has_dot (digits_of digits) h m (py_trunc s) f ;;
           Ok (Single r)
       | _, _, rows =>
           '(dt, b) <- prepare (shape sec) buf knd' dt lstring "ISO time format" ;;
           recs <- mapM (fun '((h, m, s), frac) =>
                           sec_record w dt colon suffix (digits_of digits) (bwidth b)
                                      h m s frac)
                        (broadcast (shape sec) b rows) ;;
           Ok (Filled (fill_targets (shape sec) b recs))
       end)).
  { intros buf k. unfold format_sec. rewrite Hhms. reflexivity. }
  assert (Hnot : forall v : value F, ~ fits v ->
            exists n, shape v = Some n /\ len (belems b) < Z.of_nat n).
  { intros v Hv. destruct (shape v) as [n|] eqn:E.
    - exists n. split; [reflexivity|].
      destruct (Z_lt_le_dec (len (belems b)) (Z.of_nat n)) as [H|H]; [exact H|].
      exfalso. apply Hv. intros n' Hn'. unfold fits. rewrite E in Hn'.
      injection Hn' as <-. exact H.
    - exfalso. apply Hv. intros n' Hn'. unfold fits in *. rewrite E in Hn'.
      discriminate. }
  split; [|split].
  - intros Hk. rewrite Hday, Hsec. unfold interpret_kind. rewrite Hk. now split.
  - intros Hk. rewrite Hday, Hsec. unfold interpret_kind. rewrite Hk. now split.
  - intros Hk. repeat split.
    + intros Hv. destruct (Hnot day Hv) as (n & En & Hn).
      rewrite Hday, En. now rewrite interpret_kind_short.
    + intros Hv. destruct (Hnot sec Hv) as (n & En & Hn).
      rewrite Hsec, En. now rewrite interpret_kind_short.
    + intros Hfit Hw. rewrite Hday.
      rewrite interpret_kind_fits by assumption. cbn [bind]. cbv zeta.
      rewrite prepare_too_narrow.
      * destruct (shape day); [reflexivity|].
        destruct (combine _ _) as [|[[[y m] d] [i fr]] [|? ?]]; reflexivity.
      * rewrite day_layout_width; auto.
        intros H. apply andb_true_iff in H. now apply ddigits_ge0_digits.
    + intros Hfit Hw. rewrite Hsec.
      rewrite interpret_kind_fits by assumption. cbn [bind]. cbv zeta.
      pose proof (sec_layout_width (char_size (bkind b)) colon suffix
                    (ddigits_ge0 digits) (digits_of digits)
                    (ddigits_ge0_digits digits)) as Hl.
      destruct (sec_layout _ _ _ _ _) as [dt L]. cbn [snd] in Hl.
      rewrite prepare_too_narrow by (rewrite Hl; exact Hw).
      destruct (shape sec); [reflexivity|].
      destruct (combine _ _) as [|[[[h m] s] fr] [|? ?]]; reflexivity.
Qed.

(** Two days into a buffer of one element, and a time of 13 characters into
    a buffer of 12. *)
Lemma encoders_check_the_buffer_witness :
  format_day (F:=Q) Ref.adapter (Array [Int 0; Int 1]) (txt "YMD") 4 (txt "-") None false
             (Some {| bkind := KS; bwidth := 10; belems := [txt "0123456789"] |}) KU
  = Err (BufferTooSmall "buffer shape is too small for the date array") /\
  format_sec (F:=Q) Ref.adapter (Scalar (Flt (3 # 2)%Q)) (Some 3) (txt ":") (txt "Z")
             (Some {| bkind := KU; bwidth := 12; belems := [txt "0123456789ab"] |}) KS
  = Err (BufferTooSmall "buffer itemsize is too small for the ISO time format").
Proof.
  split.
  - refine (proj1 (proj2 (proj2
      (encoders_check_the_buffer (F:=Q) Ref.adapter (Array [Int 0; Int 1]) (txt "YMD") 4
         (txt "-") None false (Scalar (Flt (3 # 2)%Q)) (Some 3) (txt ":") (txt "Z")
         [(0, 0, Flt (3 # 2)%Q)]
         {| bkind := KS; bwidth := 10; belems := [txt "0123456789"] |} KU
         (or_introl eq_refl) (or_intror eq_refl) eq_refl)) eq_refl) _).
    intros H. specialize (H 2%nat eq_refl). vm_compute in H. now apply H.
  - refine (proj2 (proj2 (proj2 (proj2 (proj2
      (encoders_check_the_buffer (F:=Q) Ref.adapter (Array [Int 0; Int 1]) (txt "YMD") 4
         (txt "-") None false (Scalar (Flt (3 # 2)%Q)) (Some 3) (txt ":") (txt "Z")
         [(0, 0, Flt (3 # 2)%Q)]
         {| bkind := KU; bwidth := 12; belems := [txt "0123456789ab"] |} KS
         (or_introl eq_refl) (or_intror eq_refl) eq_refl)) eq_refl))) _ _).
    + intros n H. discriminate H.
    + vm_compute. reflexivity.
Defined.

(** ** Rounding in [format_sec] *)



(** ** Records as tilings of fields *)
Lemma field_prefix (a b : text) (n off : Z) :
  0 <= off -> 0 <= n -> off + n <= len a -> field (n, off) (a ++ b) = field (n, off) a.
Proof.
  intros Ho Hn H. unfold field, slice, len in *; cbn [fst snd].
  rewrite skipn_app, firstn_app, length_skipn.
  replace (Z.to_nat (off + n - off) - (List.length a - Z.to_nat off))%nat with 0%nat by lia.
  cbn [firstn]. apply app_nil_r.
Qed.

Lemma fit_exact (n : Z) (v : text) : len v = n -> fit n v = v.
Proof.
  intros <-. unfold fit, replicate, len.
  rewrite Nat2Z.id, firstn_all, Z.sub_diag.
  cbn [Z.to_nat repeat]. apply app_nil_r.
Qed.

Lemma len_firstn (k : Z) (r : text) : 0 <= k <= len r -> len (firstn (Z.to_nat k) r) = k.
Proof. intros H. unfold len in *. rewrite length_firstn. lia. Qed.

Lemma len_fit (n : Z) (v : text) : 0 <= n -> len (fit n v) = n.
Proof. intros H. unfold len. rewrite fit_length by assumption. lia. Qed.

(** Reading back the field that was just assigned. *)
Lemma field_store_same (w n off : Z) (v r : text) :
  0 <= off / w -> 0 <= n -> off / w + n <= len r -> len v = n ->
  field (n, off / w) (store w (n, off) v r) = v.
Proof.
  intros Ho Hn Hr Hv. unfold store. cbn [fst snd].
  rewrite field_skip by (rewrite len_firstn; lia).
  rewrite len_firstn by lia. replace (off / w - off / w) with 0 by lia.
  rewrite fit_exact by assumption. now apply field_first.
Qed.

(** An assignment leaves the fields it does not overlap as they are. *)
Lemma field_store_other (w n1 k1 n2 off2 : Z) (v r : text) :
  0 <= k1 -> 0 <= n1 -> 0 <= off2 / w -> 0 <= n2 -> off2 / w + n2 <= len r ->
  k1 + n1 <= off2 / w \/ off2 / w + n2 <= k1 ->
  field (n1, k1) (store w (n2, off2) v r) = field (n1, k1) r.
Proof.
  intros Hk1 Hn1 Hk2 Hn2 Hr Hd. unfold store. cbn [fst snd].
  set (k2 := off2 / w) in *.
  set (a := firstn (Z.to_nat k2) r).
  set (b := firstn (Z.to_nat n2) (skipn (Z.to_nat k2) r)).
  set (c := skipn (Z.to_nat (k2 + n2)) r).
  assert (Er : r = a ++ b ++ c).
  { unfold a, b, c. replace (Z.to_nat (k2 + n2)) with (Z.to_nat n2 + Z.to_nat k2)%nat by lia.
    rewrite <- skipn_skipn, !firstn_skipn. reflexivity. }
  assert (Ha : len a = k2) by (unfold a; apply len_firstn; lia).
  assert (Hb : len b = n2).
  { unfold b. apply len_firstn. unfold len in *. rewrite length_skipn. lia. }
  clearbody a b c. rewrite Er.
  destruct Hd as [Hd|Hd].
  - rewrite !field_prefix by lia. reflexivity.
  - rewrite !(field_skip a) by lia.
    rewrite field_skip by (rewrite len_fit; lia).
    rewrite (field_skip b) by lia.
    rewrite len_fit, Hb by lia. reflexivity.
Qed.

Lemma len_store (w n off : Z) (v r : text) :
  0 <= off / w -> 0 <= n -> off / w + n <= len r ->
  len (store w (n, off) v r) = len r.
Proof.
  intros Ho Hn Hr. apply (store_length w (len r)); [|lia].
  unfold within. cbn [fst snd]. lia.
Qed.

Lemma tiles_app (w k : Z) (dt : dtype) (L n : Z) (name : string) :
  0 <= n -> tiles w k dt L -> tiles w k (dt ++ [(name, (n, L * w))]) (L + n).
Proof.
  intros Hn. revert k. induction dt as [|[nm [n' off]] dt IH]; intros k H; cbn [tiles app] in *.
  - subst k. repeat split; auto.
  - destruct H as (H1 & H2 & H3). repeat split; auto.
Qed.

Lemma tiles_le (w k : Z) (dt : dtype) (L : Z) : tiles w k dt L -> k <= L.
Proof.
  revert k. induction dt as [|[nm [n off]] dt IH]; intros k H; cbn [tiles] in H.
  - lia.
  - destruct H as (H1 & H2 & H3). apply IH in H3. lia.
Qed.

Lemma tiles_bounds (w k : Z) (dt : dtype) (L : Z) (name : string) (n off : Z) :
  0 < w -> tiles w k dt L -> In (name, (n, off)) dt ->
  0 <= n /\ k <= off / w /\ off / w + n <= L.
Proof.
  intros Hw. revert k. induction dt as [|[nm [n' off']] dt IH]; intros k H Hin;
    cbn [tiles] in H; [destruct Hin|].
  destruct H as (H1 & H2 & H3). destruct Hin as [E|Hin].
  - injection E as <- <- <-. subst off'. rewrite Z.div_mul by lia.
    apply tiles_le in H3. lia.
  - destruct (IH _ H3 Hin) as (? & ? & ?). lia.
Qed.

Lemma tiles_disjoint (w k : Z) (dt : dtype) (L : Z) (a b : string) (fa fb : Z * Z) :
  0 < w -> tiles w k dt L -> NoDup (map fst dt) ->
  In (a, fa) dt -> In (b, fb) dt -> a <> b ->
  snd fa / w + fst fa <= snd fb / w \/ snd fb / w + fst fb <= snd fa / w.
Proof.
  intros Hw. revert k. induction dt as [|[nm [n off]] dt IH]; intros k H Hnd Ha Hb Hab;
    cbn [tiles] in H; [destruct Ha|].
  destruct H as (H1 & H2 & H3). cbn [map fst] in Hnd. inversion Hnd as [|? ? Hni Hnd']; subst.
  destruct fa as [na oa], fb as [nb ob]. cbn [fst snd].
  destruct Ha as [Ea|Ha], Hb as [Eb|Hb].
  - injection Ea as -> _ _. injection Eb as -> _ _. now elim Hab.
  - injection Ea as <- <- <-. rewrite Z.div_mul by lia.
    destruct (tiles_bounds w _ dt L b nb ob Hw H3 Hb) as (? & ? & ?). lia.
  - injection Eb as <- <- <-. rewrite Z.div_mul by lia.
    destruct (tiles_bounds w _ dt L a na oa Hw H3 Ha) as (? & ? & ?). lia.
  - apply (IH _ H3 Hnd' Ha Hb Hab).
Qed.

Lemma dtype_get_in (dt : dtype) (name : string) (f : Z * Z) :
  dtype_get dt name = Some f -> In (name, f) dt.
Proof.
  induction dt as [|[nm g] dt IH]; cbn [dtype_get]; [discriminate|].
  destruct (String.eqb nm name) eqn:E.
  - apply String.eqb_eq in E. subst nm. intros [= <-]. now left.
  - intros H. right. now apply IH.
Qed.

Lemma in_dtype_get (dt : dtype) (name : string) (f : Z * Z) :
  NoDup (map fst dt) -> In (name, f) dt -> dtype_get dt name = Some f.
Proof.
  induction dt as [|[nm g] dt IH]; intros Hnd Hin; [destruct Hin|].
  cbn [map fst] in Hnd. inversion Hnd as [|? ? Hni Hnd']; subst.
  cbn [dtype_get]. destruct Hin as [E|Hin].
  - injection E as -> ->. now rewrite String.eqb_refl.
  - destruct (String.eqb nm name) eqn:E.
    + apply String.eqb_eq in E. subst nm. elim Hni.
      apply in_map_iff. now exists (name, f).
    + now apply IH.
Qed.

Section Tilings.

Variables (w L : Z) (dt : dtype).
Hypothesis Hw : 0 < w.
Hypothesis Ht : tiles w 0 dt L.
Hypothesis Hnd : NoDup (map fst dt).

Lemma len_store_if (name : string) (v r : text) :
  len r = L -> len (store_if w dt name v r) = L.
Proof.
  intros Hr. unfold store_if. destruct (dtype_get dt name) as [[n off]|] eqn:E; [|exact Hr].
  apply dtype_get_in in E.
  destruct (tiles_bounds w 0 dt L name n off Hw Ht E) as (? & ? & ?).
  rewrite len_store; lia.
Qed.

Lemma len_apply_ops (ops : list (string * text)) (r : text) :
  len r = L -> len (apply_ops w dt ops r) = L.
Proof.
  revert r. induction ops as [|[nm v] ops IH]; intros r Hr; cbn [apply_ops fold_left];
    [exact Hr|].
  apply IH. now apply len_store_if.
Qed.

Lemma field_store_if_other (name name' : string) (n off : Z) (v r : text) :
  len r = L -> In (name, (n, off)) dt -> name' <> name ->
  field (n, off / w) (store_if w dt name' v r) = field (n, off / w) r.
Proof.
  intros Hr Hin Hne. unfold store_if.
  destruct (dtype_get dt name') as [[n' off']|] eqn:E; [|reflexivity].
  apply dtype_get_in in E.
  destruct (tiles_bounds w 0 dt L _ _ _ Hw Ht Hin) as (? & ? & ?).
  destruct (tiles_bounds w 0 dt L _ _ _ Hw Ht E) as (? & ? & ?).
  pose proof (tiles_disjoint w 0 dt L name name' (n, off) (n', off') Hw Ht Hnd Hin E
                ltac:(congruence)) as Hd.
  cbn [fst snd] in Hd. apply field_store_other; lia.
Qed.

Lemma field_apply_ops_other (ops : list (string * text)) (name : string) (n off : Z)
    (r : text) :
  len r = L -> In (name, (n, off)) dt -> ~ In name (map fst ops) ->
  field (n, off / w) (apply_ops w dt ops r) = field (n, off / w) r.
Proof.
  revert r. induction ops as [|[nm v] ops IH]; intros r Hr Hin Hni;
    cbn [apply_ops fold_left]; [reflexivity|].
  cbn [map fst In] in Hni.
  change (fold_left _ ops ?x) with (apply_ops w dt ops x).
  rewrite IH; [|now apply len_store_if | assumption | tauto].
  apply (field_store_if_other name nm n off v r Hr Hin). tauto.
Qed.

(** After a sequence of assignments that names each field once, a field
    holds the value assigned to it. *)
Lemma field_apply_ops (ops : list (string * text)) (name : string) (n off : Z)
    (v r : text) :
  len r = L -> NoDup (map fst ops) ->
  In (name, (n, off)) dt -> In (name, v) ops -> len v = n ->
  field (n, off / w) (apply_ops w dt ops r) = v.
Proof.
  revert r. induction ops as [|[nm v'] ops IH]; intros r Hr Hops Hin Hop Hv;
    [destruct Hop|].
  cbn [map fst] in Hops. apply NoDup_cons_iff in Hops as [Hni Hops'].
  cbn [apply_ops fold_left]. change (fold_left _ ops ?x) with (apply_ops w dt ops x).
  destruct Hop as [E|Hop].
  - injection E as -> ->.
    rewrite (field_apply_ops_other ops name);
      [|now apply len_store_if | assumption | assumption].
    cbn [fst snd]. unfold store_if. rewrite (in_dtype_get dt name (n, off) Hnd Hin).
    destruct (tiles_bounds w 0 dt L _ _ _ Hw Ht Hin) as (? & ? & ?).
    apply field_store_same; lia.
  - apply IH; auto. now apply len_store_if.
Qed.

End Tilings.

(** A record is the concatenation of its fields when they tile it. *)
Lemma tiles_concat (w : Z) (dt : dtype) (L : Z) (vs : list text) (r : text) (k : Z) :
  0 < w -> 0 <= k -> tiles w k dt L -> len r = L ->
  Forall2 (fun nf v => field (fst (snd nf), snd (snd nf) / w) r = v) dt vs ->
  skipn (Z.to_nat k) r = List.concat vs.
Proof.
  intros Hw Hk Ht Hr Hall. revert k Hk Ht.
  induction Hall as [|[nm [n off]] v dt vs Hv Hall IH]; intros k Hk Ht; cbn [tiles] in Ht.
  - subst k. cbn [List.concat]. apply skipn_all2. unfold len in Hr. lia.
  - destruct Ht as (Hn & Ho & Ht). cbn [fst snd] in Hv. subst off.
    rewrite Z.div_mul in Hv by lia.
    cbn [List.concat]. rewrite <- (IH (k + n)) by (auto; lia).
    rewrite <- Hv. unfold field, slice. cbn [fst snd].
    replace (Z.to_nat (k + n - k)) with (Z.to_nat n) by lia.
    replace (Z.to_nat (k + n)) with (Z.to_nat n + Z.to_nat k)%nat by lia.
    rewrite <- skipn_skipn. symmetry. apply firstn_skipn.
Qed.

(** ** The date layout as a tiling *)

Lemma arange_enumerate {T} (ds : list T) (k : Z) :
  arange (List.length ds) k = map fst (enumerate_from k ds).
Proof.
  revert k. induction ds as [|x ds IH]; intros k; cbn; [reflexivity|].
  now rewrite IH.
Qed.

Lemma year_split (y : Z) :
  (y mod 10000) / 100 = (y / 100) mod 100 /\ (y mod 10000) mod 100 = y mod 100.
Proof.
  change 10000 with (100 * 100). rewrite Z.rem_mul_r by lia.
  pose proof (Z.mod_pos_bound y 100 ltac:(lia)).
  split.
  - rewrite (Z.mul_comm 100), Z.div_add by lia.
    rewrite (Z.div_small (y mod 100)) by lia. lia.
  - rewrite (Z.mul_comm 100), Z.mod_add by lia. apply Z.mod_mod. lia.
Qed.


Section DayTiling.

Variables (w : Z) (ops : list (string * text)).
Hypothesis Hw : 0 < w.

Lemma day_tiling_field (l : day_layout) (vs : list text) (name : string) (n : Z)
    (v : text) :
  day_tiling w ops l vs -> len v = n -> In (name, v) ops ->
  day_tiling w ops (dl_field l w name n) (vs ++ [v]).
Proof.
  intros (H0 & Ht & Hv) Hn Hin. pose proof (len_nonneg v).
  unfold day_tiling, dl_field, dtype_set. cbn [dl_lstring dl_dtype].
  split; [lia|]. split.
  - apply tiles_app; [lia | exact Ht].
  - apply Forall2_app; [exact Hv|]. constructor; [|constructor]. now split.
Qed.

Lemma day_tiling_append (l : day_layout) (vs : list text) (it : fmt_item) :
  day_tiling w ops l vs -> day_tiling w ops (dl_append l it) vs.
Proof. intros H. exact H. Qed.

Lemma day_tiling_fraction (ds : list Z) (k : Z) (l : day_layout) (vs : list text) :
  day_tiling w ops l vs ->
  (forall id, In id (enumerate_from k ds) ->
              In (("f" ++ str_int (fst id))%string, zfill 1 (snd id)) ops) ->
  day_tiling w ops
    (fold_left (fun l i => dl_field l w ("f" ++ str_int i) 1) (arange (List.length ds) k) l)
    (vs ++ map (zfill 1) ds).
Proof.
  revert k l vs. induction ds as [|x ds IH]; intros k l vs Hl Hin;
    cbn [List.length arange fold_left map].
  - now rewrite app_nil_r.
  - replace (vs ++ zfill 1 x :: map (zfill 1) ds)
      with ((vs ++ [zfill 1 x]) ++ map (zfill 1) ds)
      by (now rewrite <- app_assoc).
    apply IH.
    + apply day_tiling_field; [exact Hl | apply len_zfill |].
      apply (Hin (k, x)). now left.
    + intros id Hid. apply Hin. now right.
Qed.

End DayTiling.

Section DayLayoutTiling.

Variables (w : Z) (order dash : text) (ydigits : Z) (has_dot : bool) (dd : Z).
Variables (y m d f : Z) (digits : list Z).

Hypothesis Hw : 0 < w.
Hypothesis Hy : ydigits = 2 \/ ydigits = 4.
Hypothesis Hm : 0 <= m < 100.
Hypothesis Hd : 0 <= d < 10 ^ (if len order =? 2 then 3 else 2).
Hypothesis Hf : has_dot && (0 <? dd) = true ->
                len digits = dd /\ List.concat (map (zfill 1) digits) = pct_d dd f.

Let ops := day_ops order dash y m d digits.
Let Y := y mod 10 ^ ydigits.

Lemma year_text :
  pct_d ydigits Y
  = (if ydigits =? 4 then zfill 2 ((y / 100) mod 100) else []) ++ zfill 2 (y mod 100).
Proof.
  unfold Y. destruct Hy as [-> | ->].
  - change (2 =? 4) with false. cbn [app]. change (10 ^ 2) with 100.
    apply (pct_d_zfill 2); [lia|]. apply Z.mod_pos_bound. lia.
  - change (4 =? 4) with true. change (10 ^ 4) with 10000.
    rewrite (pct_d_zfill 4) by (try apply Z.mod_pos_bound; lia).
    change (Z.to_nat 4) with (2 + 2)%nat.
    rewrite zfill_split by (apply Z.mod_pos_bound; lia).
    change (10 ^ Z.of_nat 2) with 100.
    destruct (year_split y) as [-> ->]. reflexivity.
Qed.

Lemma fixed_ops_in (name : string) (v : text) :
  In (name, v)
     [("y12"%string, zfill 2 ((y / 100) mod 100));
      ("y34"%string, zfill 2 (y mod 100));
      ("m"%string, zfill 2 m);
      ("d"%string, zfill (if len order =? 2 then 3 else 2) d);
      ("dash1"%string, dash);
      ("dash2"%string, dash);
      ("dot"%string, txt ".")] ->
  In (name, v) ops.
Proof. intros H. unfold ops, day_ops. apply in_or_app. now left. Qed.

Lemma fraction_ops_in (id : Z * Z) :
  In id (enumerate_from 0 digits) ->
  In (("f" ++ str_int (fst id))%string, zfill 1 (snd id)) ops.
Proof.
  intros H. unfold ops, day_ops. apply in_or_app. right.
  unfold fraction_ops. apply in_map_iff. now exists id.
Qed.

(** One turn of the layout loop keeps the tiling. *)
Lemma day_tiling_step (l : day_layout) (vs : list text) (field : Z) (c : ascii) :
  field = 0 \/ field = 1 \/ field = 2 ->
  day_tiling w ops l vs ->
  List.concat vs = fmt_format (dl_fmt l) Y m d f ->
  exists vs',
    day_tiling w ops (day_layout_step w order dash ydigits has_dot dd l (field, c)) vs' /\
    List.concat vs'
    = fmt_format (dl_fmt (day_layout_step w order dash ydigits has_dot dd l (field, c)))
                 Y m d f.
Proof.
  intros Hfield Hl Hc. rewrite day_layout_step_fmt, <- Hc.
  unfold day_layout_step.
  (* the separator *)
  set (l1 := if (0 <? field) && negb (len dash =? 0) then _ else l).
  assert (H1 : exists vs1, day_tiling w ops l1 vs1 /\
                 List.concat vs1 = List.concat vs ++ (if 0 <? field then dash else [])).
  { unfold l1. destruct (0 <? field) eqn:E0; cbn [andb].
    - destruct (len dash =? 0) eqn:Ed; cbn [negb].
      + apply Z.eqb_eq, len_0_nil in Ed. subst dash.
        exists vs. split; [exact Hl | now rewrite app_nil_r].
      + exists (vs ++ [dash]). split.
        * apply day_tiling_field; [now apply day_tiling_append | reflexivity |].
          apply Z.ltb_lt in E0.
          destruct Hfield as [-> | [-> | ->]]; [lia | |]; apply fixed_ops_in.
          -- change ("dash" ++ str_int 1)%string with "dash1"%string.
             cbn [In]. tauto.
          -- change ("dash" ++ str_int 2)%string with "dash2"%string.
             cbn [In]. tauto.
        * rewrite concat_app. cbn [List.concat]. now rewrite app_nil_r.
    - exists vs. split; [exact Hl | now rewrite app_nil_r]. }
  clearbody l1. destruct H1 as (vs1 & Hl1 & Hc1).
  rewrite app_assoc, <- Hc1. clear Hc1 Hl Hc vs l.
  unfold field_text.
  destruct (Ascii.eqb c "Y").
  { rewrite year_text. destruct (ydigits =? 4).
    - exists ((vs1 ++ [zfill 2 ((y / 100) mod 100)]) ++ [zfill 2 (y mod 100)]). split.
      + apply day_tiling_field; [| apply len_zfill | apply fixed_ops_in; cbn [In]; tauto].
        apply day_tiling_field; [| apply len_zfill | apply fixed_ops_in; cbn [In]; tauto].
        now apply day_tiling_append.
      + rewrite !concat_app. cbn [List.concat]. now rewrite !app_nil_r, <- app_assoc.
    - exists (vs1 ++ [zfill 2 (y mod 100)]). split.
      + apply day_tiling_field; [| apply len_zfill | apply fixed_ops_in; cbn [In]; tauto].
        now apply day_tiling_append.
      + rewrite !concat_app. cbn [List.concat app]. now rewrite !app_nil_r. }
  destruct (Ascii.eqb c "M").
  { exists (vs1 ++ [zfill 2 m]). split.
    - apply day_tiling_field; [| apply len_zfill | apply fixed_ops_in; cbn [In]; tauto].
      now apply day_tiling_append.
    - rewrite !concat_app. cbn [List.concat]. rewrite app_nil_r.
      now rewrite (pct_d_zfill 2 m) by lia. }
  set (dlen := if len order =? 2 then 3 else 2) in *.
  assert (Hdlen : 1 <= dlen) by (unfold dlen; destruct (len order =? 2); lia).
  assert (H2 : day_tiling w ops (dl_field (dl_append l1 (FmtD dlen)) w "d" dlen)
                          (vs1 ++ [zfill (Z.to_nat dlen) d])).
  { apply day_tiling_field; [now apply day_tiling_append | |].
    - rewrite len_zfill. lia.
    - apply fixed_ops_in. right. right. right. left. f_equal. f_equal.
      unfold dlen. now destruct (len order =? 2). }
  rewrite (pct_d_zfill dlen d) by (auto; lia).
  unfold fraction_text.
  destruct has_dot.
  2:{ eexists. split; [exact H2|]. rewrite !concat_app. cbn [List.concat].
      now rewrite !app_nil_r. }
  assert (H3 : day_tiling w ops
                 (dl_field (dl_append (dl_field (dl_append l1 (FmtD dlen)) w "d" dlen)
                                      (Lit (txt "."))) w "dot" 1)
                 ((vs1 ++ [zfill (Z.to_nat dlen) d]) ++ [txt "."])).
  { apply day_tiling_field; [now apply day_tiling_append | reflexivity |].
    apply fixed_ops_in. cbn [In]. tauto. }
  destruct (0 <? dd) eqn:Edd.
  - destruct (Hf eq_refl) as [Hlen Hdig].
    replace (Z.to_nat dd) with (List.length digits) by (unfold len in Hlen; lia).
    eexists. split.
    + apply day_tiling_fraction; [| apply fraction_ops_in].
      apply day_tiling_append. exact H3.
    + rewrite !concat_app. cbn [List.concat]. rewrite !app_nil_r, Hdig, <- !app_assoc.
      reflexivity.
  - eexists. split; [exact H3|]. rewrite !concat_app. cbn [List.concat].
    now rewrite !app_nil_r, <- !app_assoc.
Qed.

Lemma day_tiling_fold (fcs : list (Z * ascii)) (l : day_layout) (vs : list text) :
  Forall (fun fc => fst fc = 0 \/ fst fc = 1 \/ fst fc = 2) fcs ->
  day_tiling w ops l vs ->
  List.concat vs = fmt_format (dl_fmt l) Y m d f ->
  exists vs',
    day_tiling w ops (fold_left (day_layout_step w order dash ydigits has_dot dd) fcs l) vs' /\
    List.concat vs'
    = fmt_format (dl_fmt (fold_left (day_layout_step w order dash ydigits has_dot dd) fcs l))
                 Y m d f.
Proof.
  revert l vs. induction fcs as [|[field c] fcs IH]; intros l vs Hall Hl Hc; cbn [fold_left].
  - now exists vs.
  - inversion Hall as [|? ? Hfc Hall']; subst. cbn [fst] in Hfc.
    destruct (day_tiling_step l vs field c Hfc Hl Hc) as (vs1 & Hl1 & Hc1).
    now apply (IH _ vs1).
Qed.

(** The fields of a date layout tile the record, and the values assigned
    to them, in a row, are the date text. *)
Lemma day_layout_tiling :
  valid_order order ->
  exists vs, day_tiling w ops (day_layout_of w order dash ydigits has_dot dd) vs /\
             List.concat vs = date_text order ydigits dash has_dot dd Y m d f.
Proof.
  intros Ho.
  assert (Hfc : Forall (fun fc : Z * ascii => fst fc = 0 \/ fst fc = 1 \/ fst fc = 2)
                       (enumerate_from 0 order)).
  { order_cases Ho; cbn [txt list_ascii_of_string enumerate_from];
      repeat (apply Forall_cons; [cbn [fst]; lia|]); apply Forall_nil. }
  assert (H0 : day_tiling w ops {| dl_fmt := []; dl_dtype := []; dl_lstring := 0 |} []).
  { unfold day_tiling. cbn [dl_lstring dl_dtype tiles].
    split; [lia|]. split; [reflexivity | apply Forall2_nil]. }
  destruct (day_tiling_fold (enumerate_from 0 order)
              {| dl_fmt := []; dl_dtype := []; dl_lstring := 0 |} [] Hfc H0 eq_refl)
    as (vs & Hl & Hc).
  exists vs. split; [exact Hl|].
  rewrite Hc. apply fmt_format_day_layout.
Qed.

End DayLayoutTiling.

(** ** Batches of strings *)

Lemma bind_ok_inv {X Y} (r : result X) (k : X -> result Y) (y : Y) :
  bind r k = Ok y -> exists x, r = Ok x /\ k x = Ok y.
Proof. destruct r as [x|e]; cbn [bind]; [intros H; now exists x | discriminate]. Qed.

Lemma raise_if_ok (c : bool) (e : error) (u : unit) : raise_if c e = Ok u -> c = false.
Proof. now destruct c. Qed.

Lemma any_differs_cons (dt : dtype) (name : string) (lit r : text) (rs : list text) :
  any_differs dt name lit (r :: rs)
  = any_differs dt name lit [r] || any_differs dt name lit rs.
Proof.
  unfold any_differs. destruct (dtype_get dt name); [|reflexivity].
  cbn [existsb]. now rewrite orb_false_r.
Qed.

Lemma column_contains_cons (dt : dtype) (name : string) (c : ascii) (r : text)
    (rs : list text) :
  column_contains dt name c (r :: rs)
  = column_contains dt name c [r] || column_contains dt name c rs.
Proof.
  unfold column_contains. destruct (dtype_get dt name); [|reflexivity].
  cbn [existsb]. now rewrite orb_false_r.
Qed.

Lemma astype_int_cons (dt : dtype) (name : string) (r : text) (rs : list text)
    (a b : list Z) :
  astype_int dt name [r] = Ok a -> astype_int dt name rs = Ok b ->
  exists n, a = [n] /\ astype_int dt name (r :: rs) = Ok (n :: b).
Proof.
  unfold astype_int, column. destruct (dtype_get dt name) as [f|]; [|discriminate].
  cbn [bind map mapM]. destruct (py_int (field f r)) as [n|]; [|discriminate].
  cbn [bind]. intros [= <-] ->. now exists n.
Qed.

Lemma astype_int_or_0_cons (dt : dtype) (name : string) (r : text) (rs : list text)
    (a b : list Z) :
  astype_int_or_0 dt name [r] = Ok a -> astype_int_or_0 dt name rs = Ok b ->
  exists n, a = [n] /\ astype_int_or_0 dt name (r :: rs) = Ok (n :: b).
Proof.
  unfold astype_int_or_0. destruct (has_field dt name).
  - apply astype_int_cons.
  - cbn [map]. intros [= <-] [= <-]. now exists 0.
Qed.

(** Split every condition on the records into the one on the first record
    and the one on the others, and use what is known of both. *)
Ltac binds_in H :=
  repeat match type of H with
         | bind _ _ = Ok _ =>
             let Hc := fresh "Hc" in
             apply bind_ok_inv in H; destruct H as (? & Hc & H);
             try apply raise_if_ok in Hc
         end.

Ltac syntax_cons H1 H2 r rs :=
  cbn [mapM] in H1, H2 |- *;
  binds_in H1; binds_in H2;
  repeat match goal with
         | H : bind _ _ = Ok _ |- _ => binds_in H
         end;
  repeat match goal with
         | H : _ || _ = false |- _ =>
             let Ha := fresh "Hc" in let Hb := fresh "Hc" in
             apply orb_false_elim in H; destruct H as [Ha Hb]
         end;
  rewrite ?(any_differs_cons _ _ _ r rs), ?(column_contains_cons _ _ _ r rs),
    ?andb_orb_distrib_r;
  repeat match goal with
         | H : _ = false |- _ => rewrite H; clear H
         end;
  reflexivity.

Lemma date_syntax_cons (dt : dtype) (w0 w1 : Z) (r : text) (rs : list text) :
  date_syntax dt w0 w1 [r] = Ok tt -> date_syntax dt w0 w1 rs = Ok tt ->
  date_syntax dt w0 w1 (r :: rs) = Ok tt.
Proof. unfold date_syntax. intros H1 H2. syntax_cons H1 H2 r rs. Qed.

Lemma time_syntax_cons (dt : dtype) (w0 w1 : Z) (r : text) (rs : list text) :
  time_syntax dt w0 w1 [r] = Ok tt -> time_syntax dt w0 w1 rs = Ok tt ->
  time_syntax dt w0 w1 (r :: rs) = Ok tt.
Proof. unfold time_syntax. intros H1 H2. syntax_cons H1 H2 r rs. Qed.

Section Rows.

Context {F : Type} {FO : PyFloat F} (A : Adapter F).

Lemma day_from_iso_S_rows (arr : sarray) (validate syntax strip proleptic : bool) :
  day_from_iso_S A arr validate syntax strip proleptic
  = (first <- first_of arr ;;
     let s := sample_date (itemsize arr) first strip in
     info <- identify_date first s ;;
     let dt := date_dtype s info syntax in
     recs <- np_view arr dt ;;
     out <- date_rows A s info dt validate syntax proleptic recs ;;
     Ok (reshape (if scalar arr then None else Some (List.length out)) out)).
Proof.
  unfold day_from_iso_S, date_rows.
  destruct (first_of arr) as [first|]; cbn [bind]; [|reflexivity].
  destruct (identify_date _ _) as [[[[[y1 m0] d0] dlen] dashes]|]; cbn [bind]; [|reflexivity].
  destruct (np_view _ _) as [recs|]; cbn [bind]; [|reflexivity].
  repeat match goal with
  | |- context [bind ?x _] =>
      lazymatch x with
      | bind _ _ => fail
      | _ => destruct x; cbn [bind]; [|reflexivity]
      end
  end.
  reflexivity.
Qed.

Lemma sec_from_iso_S_rows (arr : sarray) (validate leapsecs strip syntax : bool) :
  sec_from_iso_S A arr validate leapsecs strip syntax
  = (first <- first_of arr ;;
     s <- sample_time (itemsize arr) first strip ;;
     l <- identify_time first s ;;
     let dt := time_dtype s l syntax in
     recs <- np_view arr dt ;;
     out <- time_rows A s l dt validate leapsecs syntax recs ;;
     Ok (reshape (if scalar arr then None else Some (List.length out)) out)).
Proof.
  unfold sec_from_iso_S, time_rows.
  destruct (first_of arr) as [first|]; cbn [bind]; [|reflexivity].
  destruct (sample_time _ _ _) as [s|]; cbn [bind]; [|reflexivity].
  destruct (identify_time _ _) as [l|]; cbn [bind]; [|reflexivity].
  destruct (np_view _ _) as [recs|]; cbn [bind]; [|reflexivity].
  repeat match goal with
  | |- context [bind ?x _] =>
      lazymatch x with
      | bind _ _ => fail
      | _ => destruct x; cbn [bind]; [|reflexivity]
      end
  end.
  reflexivity.
Qed.

Ltac bind_inv H x Hx :=
  apply bind_ok_inv in H; destruct H as (x & Hx & H).

Lemma date_rows_cons (s : date_sample) (info : Z * Z * Z * Z * list Z) (dt : dtype)
    (validate syntax proleptic : bool) (r : text) (rs : list text)
    (o1 os : list (number F)) :
  date_rows A s info dt validate syntax proleptic [r] = Ok o1 ->
  date_rows A s info dt validate syntax proleptic rs = Ok os ->
  exists v, o1 = [v] /\
            date_rows A s info dt validate syntax proleptic (r :: rs) = Ok (v :: os).
Proof.
  unfold date_rows. destruct info as [[[[y1 m0] d0] dlen] dashes].
  intros H1 H2.
  bind_inv H1 ya Hya. bind_inv H1 da Hda. bind_inv H1 ma Hma. bind_inv H1 fa Hfa.
  bind_inv H1 ua Hua. bind_inv H1 daya Hdaya.
  bind_inv H2 yb Hyb. bind_inv H2 db Hdb. bind_inv H2 mb Hmb. bind_inv H2 fb Hfb.
  bind_inv H2 ub Hub. bind_inv H2 dayb Hdayb.
  destruct (astype_int_cons _ _ _ _ _ _ Hya Hyb) as (y & -> & ->).
  destruct (astype_int_cons _ _ _ _ _ _ Hda Hdb) as (d & -> & ->).
  destruct (astype_int_or_0_cons _ _ _ _ _ _ Hma Hmb) as (m & -> & ->).
  destruct (astype_int_or_0_cons _ _ _ _ _ _ Hfa Hfb) as (f & -> & ->).
  cbn [bind].
  assert (Hsyn : (if syntax then date_syntax dt (ds_w0 s) (ds_w1 s) (r :: rs) else Ok tt)
                 = Ok tt).
  { destruct syntax; [|reflexivity]. destruct ua, ub. now apply date_syntax_cons. }
  rewrite Hsyn. cbn [bind zip3 mapM] in *.
  bind_inv Hdaya day Hday. injection Hdaya as <-.
  rewrite Hday, Hdayb. cbn [bind].
  injection H1 as <-. injection H2 as <-.
  destruct (ds_kdot s =? 0); cbn [map combine]; eexists; split; reflexivity.
Qed.

Lemma time_rows_cons (s : time_sample) (l : time_layout) (dt : dtype)
    (validate leapsecs syntax : bool) (r : text) (rs : list text)
    (o1 os : list (number F)) :
  time_rows A s l dt validate leapsecs syntax [r] = Ok o1 ->
  time_rows A s l dt validate leapsecs syntax rs = Ok os ->
  exists v, o1 = [v] /\
            time_rows A s l dt validate leapsecs syntax (r :: rs) = Ok (v :: os).
Proof.
  unfold time_rows. intros H1 H2.
  bind_inv H1 ha Hha. bind_inv H1 ma Hma. bind_inv H1 sa Hsa. bind_inv H1 hmsa Hhmsa.
  bind_inv H1 ua Hua.
  bind_inv H2 hb Hhb. bind_inv H2 mb Hmb. bind_inv H2 sb Hsb. bind_inv H2 hmsb Hhmsb.
  bind_inv H2 ub Hub.
  destruct (astype_int_cons _ _ _ _ _ _ Hha Hhb) as (h & -> & ->).
  destruct (astype_int_or_0_cons _ _ _ _ _ _ Hma Hmb) as (m & -> & ->).
  destruct (astype_int_or_0_cons _ _ _ _ _ _ Hsa Hsb) as (s0 & -> & ->).
  cbn [bind].
  assert (Hsyn : (if syntax then time_syntax dt (ts_w0 s) (ts_w1 s) (r :: rs) else Ok tt)
                 = Ok tt).
  { destruct syntax; [|reflexivity]. destruct ua, ub. now apply time_syntax_cons. }
  destruct (has_field dt "f").
  - bind_inv Hhmsa fa Hfa. bind_inv Hhmsb fb Hfb.
    destruct (astype_int_cons _ _ _ _ _ _ Hfa Hfb) as (f & -> & ->).
    cbn [bind zip3 map combine] in *.
    injection Hhmsa as <-. injection Hhmsb as <-.
    rewrite Hsyn. cbn [bind mapM] in *.
    bind_inv H1 v Hv. injection H1 as <-.
    rewrite Hv, H2. cbn [bind]. now exists v.
  - cbn [bind zip3 map combine] in *.
    injection Hhmsa as <-. injection Hhmsb as <-.
    rewrite Hsyn. cbn [bind mapM] in *.
    bind_inv H1 v Hv. injection H1 as <-.
    rewrite Hv, H2. cbn [bind]. now exists v.
Qed.

End Rows.

Section Batches.

Context {F : Type} {FO : PyFloat F} (A : Adapter F).

Ltac bind_inv H x Hx :=
  apply bind_ok_inv in H; destruct H as (x & Hx & H).

Lemma reshape_scalar_inv (out : list (number F)) (v : number F) :
  reshape None out = Scalar v -> out = [v].
Proof. destruct out as [|x [|y out]]; cbn [reshape]; congruence. Qed.

Lemma reshape_array (n : nat) (out : list (number F)) : reshape (Some n) out = Array out.
Proof. reflexivity. Qed.

Lemma np_view_inv (a : sarray) (dt : dtype) (recs : list text) :
  scalar a = true -> np_view a dt = Ok recs ->
  np_dtype dt = Ok (itemsize a) /\ recs = items a.
Proof.
  intros Hs. unfold np_view. destruct (np_dtype dt) as [size|]; cbn [bind]; [|discriminate].
  destruct (size =? itemsize a) eqn:E.
  - apply Z.eqb_eq in E. subst size. now intros [= <-].
  - rewrite Hs. discriminate.
Qed.

Lemma np_view_same (a : sarray) (dt : dtype) :
  np_dtype dt = Ok (itemsize a) -> np_view a dt = Ok (items a).
Proof. intros H. unfold np_view. rewrite H. cbn [bind]. now rewrite Z.eqb_refl. Qed.

Lemma identify_date_same (first first' : text) (s : date_sample)
    (info : Z * Z * Z * Z * list Z) :
  identify_date first s = Ok info -> identify_date first' s = Ok info.
Proof.
  unfold identify_date. destruct (dict_get _ _); [trivial | discriminate].
Qed.

Lemma date_rows_all (s : date_sample) (info : Z * Z * Z * Z * list Z) (dt : dtype)
    (validate syntax proleptic : bool) (rest : list text) :
  forall (r0 : text) (v0 : number F) (vs : list (number F)),
  date_rows A s info dt validate syntax proleptic [r0] = Ok [v0] ->
  Forall2 (fun r v => date_rows A s info dt validate syntax proleptic [r] = Ok [v])
          rest vs ->
  date_rows A s info dt validate syntax proleptic (r0 :: rest) = Ok (v0 :: vs).
Proof.
  induction rest as [|r1 rest IH]; intros r0 v0 vs H0 Hall.
  - inversion Hall; subst. exact H0.
  - inversion Hall as [|? v1 ? vs' H1 Hrest]; subst.
    specialize (IH r1 v1 vs' H1 Hrest).
    destruct (date_rows_cons A s info dt validate syntax proleptic r0 (r1 :: rest)
                _ _ H0 IH) as (v & [= <-] & E).
    exact E.
Qed.

Lemma time_rows_all (s : time_sample) (l : time_layout) (dt : dtype)
    (validate leapsecs syntax : bool) (rest : list text) :
  forall (r0 : text) (v0 : number F) (vs : list (number F)),
  time_rows A s l dt validate leapsecs syntax [r0] = Ok [v0] ->
  Forall2 (fun r v => time_rows A s l dt validate leapsecs syntax [r] = Ok [v])
          rest vs ->
  time_rows A s l dt validate leapsecs syntax (r0 :: rest) = Ok (v0 :: vs).
Proof.
  induction rest as [|r1 rest IH]; intros r0 v0 vs H0 Hall.
  - inversion Hall; subst. exact H0.
  - inversion Hall as [|? v1 ? vs' H1 Hrest]; subst.
    specialize (IH r1 v1 vs' H1 Hrest).
    destruct (time_rows_cons A s l dt validate leapsecs syntax r0 (r1 :: rest)
                _ _ H0 IH) as (v & [= <-] & E).
    exact E.
Qed.

(** A batch of date records that all show the sample of the first one is
    decoded record by record. *)
Lemma day_from_iso_S_batch (L : Z) (r0 : text) (rest : list text)
    (vs : list (number F)) (validate syntax strip proleptic : bool) :
  Forall (fun r => sample_date L (rstrip_nul r) strip
                   = sample_date L (rstrip_nul r0) strip) (r0 :: rest) ->
  Forall2 (fun r v =>
             day_from_iso_S A {| scalar := true; itemsize := L; items := [r] |}
                            validate syntax strip proleptic = Ok (Scalar v))
          (r0 :: rest) vs ->
  day_from_iso_S A {| scalar := false; itemsize := L; items := r0 :: rest |}
                 validate syntax strip proleptic = Ok (Array vs).
Proof.
  intros Hsame Hall.
  set (s := sample_date L (rstrip_nul r0) strip) in *.
  (* what a successful single decoding says *)
  assert (Hone : forall r v,
            sample_date L (rstrip_nul r) strip = s ->
            day_from_iso_S A {| scalar := true; itemsize := L; items := [r] |}
                           validate syntax strip proleptic = Ok (Scalar v) ->
            exists info,
              identify_date (rstrip_nul r0) s = Ok info /\
              np_dtype (date_dtype s info syntax) = Ok L /\
              date_rows A s info (date_dtype s info syntax) validate syntax proleptic [r]
              = Ok [v]).
  { intros r v Hs H. rewrite day_from_iso_S_rows in H.
    cbn [first_of items itemsize scalar bind] in H. rewrite Hs in H. cbv zeta in H.
    bind_inv H info Hinfo. bind_inv H recs Hrecs. bind_inv H out Hout.
    apply np_view_inv in Hrecs; [|reflexivity]. cbn [itemsize items] in Hrecs.
    destruct Hrecs as [Hdt ->]. injection H as H. apply reshape_scalar_inv in H.
    subst out. exists info. split; [|split]; auto.
    now apply (identify_date_same (rstrip_nul r)). }
  inversion Hall as [|? v0 ? vs0 H0 Hrest]; subst.
  pose proof (Forall_inv Hsame) as Hs0.
  destruct (Hone r0 v0 Hs0 H0) as (info & Hinfo & Hdt & Hr0).
  rewrite day_from_iso_S_rows.
  cbn [first_of items itemsize scalar bind]. fold s. cbv zeta.
  rewrite Hinfo. cbn [bind].
  rewrite np_view_same by exact Hdt. cbn [bind items].
  rewrite (date_rows_all s info _ validate syntax proleptic rest r0 v0 vs0 Hr0).
  - reflexivity.
  - apply Forall_inv_tail in Hsame. clear Hall H0 Hr0.
    revert vs0 Hrest. induction rest as [|r1 rest IH]; intros vs0 Hrest.
    + inversion Hrest. constructor.
    + inversion Hrest as [|? v1 ? vs1 H1 Hrest']; subst. constructor.
      * destruct (Hone r1 v1 (Forall_inv Hsame) H1) as (info' & Hinfo' & _ & Hr1).
        rewrite Hinfo in Hinfo'. injection Hinfo' as <-. exact Hr1.
      * apply IH; [now apply Forall_inv_tail in Hsame | exact Hrest'].
Qed.

Lemma identify_time_same (first first' : text) (s : time_sample) (l : time_layout) :
  identify_time first s = Ok l -> identify_time first' s = Ok l.
Proof.
  unfold identify_time.
  destruct (2 <? len (ts_kcolons s)); cbn [raise_if bind]; [discriminate|].
  destruct (1 <? len (ts_kdots s)); cbn [raise_if bind]; [discriminate|].
  destruct (ts_kcolons s) as [|k ks].
  - destruct (_ || _); cbn [raise_if bind]; [discriminate | trivial].
  - destruct (existsb _ _); cbn [raise_if bind]; [discriminate | trivial].
Qed.

(** A batch of time records that all show the sample of the first one is
    decoded record by record. *)
Lemma sec_from_iso_S_batch (L : Z) (r0 : text) (rest : list text)
    (vs : list (number F)) (validate leapsecs strip syntax : bool) :
  Forall (fun r => sample_time L (rstrip_nul r) strip
                   = sample_time L (rstrip_nul r0) strip) (r0 :: rest) ->
  Forall2 (fun r v =>
             sec_from_iso_S A {| scalar := true; itemsize := L; items := [r] |}
                            validate leapsecs strip syntax = Ok (Scalar v))
          (r0 :: rest) vs ->
  sec_from_iso_S A {| scalar := false; itemsize := L; items := r0 :: rest |}
                 validate leapsecs strip syntax = Ok (Array vs).
Proof.
  intros Hsame Hall.
  set (rs := sample_time L (rstrip_nul r0) strip) in *.
  assert (Hone : forall r v,
            sample_time L (rstrip_nul r) strip = rs ->
            sec_from_iso_S A {| scalar := true; itemsize := L; items := [r] |}
                           validate leapsecs strip syntax = Ok (Scalar v) ->
            exists s l,
              rs = Ok s /\ identify_time (rstrip_nul r0) s = Ok l /\
              np_dtype (time_dtype s l syntax) = Ok L /\
              time_rows A s l (time_dtype s l syntax) validate leapsecs syntax [r]
              = Ok [v]).
  { intros r v Hs H. rewrite sec_from_iso_S_rows in H.
    cbn [first_of items itemsize scalar bind] in H. rewrite Hs in H.
    bind_inv H s Hsm. bind_inv H l Hl. cbv zeta in H.
    bind_inv H recs Hrecs. bind_inv H out Hout.
    apply np_view_inv in Hrecs; [|reflexivity]. cbn [itemsize items] in Hrecs.
    destruct Hrecs as [Hdt ->]. injection H as H. apply reshape_scalar_inv in H.
    subst out. exists s, l. split; [|split; [|split]]; auto.
    now apply (identify_time_same (rstrip_nul r)). }
  inversion Hall as [|? v0 ? vs0 H0 Hrest]; subst.
  pose proof (Forall_inv Hsame) as Hs0.
  destruct (Hone r0 v0 Hs0 H0) as (s & l & Hsm & Hl & Hdt & Hr0).
  rewrite sec_from_iso_S_rows.
  cbn [first_of items itemsize scalar bind]. fold rs. rewrite Hsm. cbn [bind].
  rewrite Hl. cbn [bind]. cbv zeta.
  rewrite np_view_same by exact Hdt. cbn [bind items].
  rewrite (time_rows_all s l _ validate leapsecs syntax rest r0 v0 vs0 Hr0).
  - reflexivity.
  - apply Forall_inv_tail in Hsame. clear Hall H0 Hr0.
    revert vs0 Hrest. induction rest as [|r1 rest IH]; intros vs0 Hrest.
    + inversion Hrest. constructor.
    + inversion Hrest as [|? v1 ? vs1 H1 Hrest']; subst. constructor.
      * destruct (Hone r1 v1 (Forall_inv Hsame) H1) as (s' & l' & Hsm' & Hl' & _ & Hr1).
        rewrite Hsm in Hsm'. injection Hsm' as <-.
        rewrite Hl in Hl'. injection Hl' as <-. exact Hr1.
      * apply IH; [now apply Forall_inv_tail in Hsame | exact Hrest'].
Qed.

End Batches.

(** The arrays NumPy makes of strings of one length that do not end in NUL. *)
Lemma np_array_S_one (t : text) :
  rstrip_nul t = t -> 0 < len t ->
  np_array_S (Str t) = {| scalar := true; itemsize := len t; items := [t] |}.
Proof.
  intros Hr Hl. unfold np_array_S. rewrite Hr, Z.max_r by lia.
  now rewrite pad_nul_exact.
Qed.

Lemma np_array_S_many (L : Z) (t0 : text) (rest : list text) :
  0 < L -> Forall (fun t => rstrip_nul t = t /\ len t = L) (t0 :: rest) ->
  np_array_S (Strs (t0 :: rest))
  = {| scalar := false; itemsize := L; items := t0 :: rest |}.
Proof.
  intros HL Hall. unfold np_array_S.
  assert (Hn : forall l, Forall (fun t => rstrip_nul t = t /\ len t = L) l ->
             fold_right (fun s acc => Z.max (len (rstrip_nul s)) acc) 1 l
             = match l with [] => 1 | _ => L end).
  { induction 1 as [|t l [Hr Hl] Hl' IH]; [reflexivity|].
    cbn [fold_right]. rewrite IH, Hr, Hl. destruct l; lia. }
  assert (Hm : forall l, Forall (fun t => rstrip_nul t = t /\ len t = L) l ->
             map (fun s => pad_nul L (rstrip_nul s)) l = l).
  { induction 1 as [|t l [Hr Hl] Hl' IH]; [reflexivity|].
    cbn [map]. now rewrite IH, Hr, pad_nul_exact. }
  rewrite (Hn _ Hall), (Hm _ Hall). reflexivity.
Qed.


Lemma where_from_ge (c : ascii) (s : text) (i : Z) :
  Forall (fun k => i <= k) (where_from c s i).
Proof.
  revert i. induction s as [|y r IH]; intros i; cbn [where_from]; [constructor|].
  assert (H : Forall (fun k => i <= k) (where_from c r (i + 1))).
  { eapply Forall_impl; [|apply IH]. cbv beta. intros; lia. }
  destruct (Ascii.eqb y c); [constructor; [lia | exact H] | exact H].
Qed.

(** The positions [where_from] lists are those of the character. *)
Lemma where_from_nth (c : ascii) (s : text) (i : Z) (n : nat) (x : ascii) :
  nth_error s n = Some x ->
  existsb (Z.eqb (i + Z.of_nat n)) (where_from c s i) = Ascii.eqb x c.
Proof.
  revert i n. induction s as [|y r IH]; intros i n Hn; [destruct n; discriminate|].
  assert (Hout : existsb (Z.eqb i) (where_from c r (i + 1)) = false).
  { pose proof (where_from_ge c r (i + 1)) as H.
    induction H as [|k l Hk _ IHl]; [reflexivity|].
    cbn [existsb]. rewrite IHl. replace (i =? k) with false; [reflexivity|].
    symmetry. apply Z.eqb_neq. lia. }
  cbn [where_from]. destruct n as [|n]; cbn [nth_error] in Hn.
  - injection Hn as ->. replace (i + Z.of_nat 0) with i by lia.
    destruct (Ascii.eqb x c); cbn [existsb]; [now rewrite Z.eqb_refl | exact Hout].
  - specialize (IH (i + 1) n Hn).
    replace (i + Z.of_nat (S n)) with (i + 1 + Z.of_nat n) by lia.
    destruct (Ascii.eqb y c); cbn [existsb]; [|exact IH].
    rewrite IH. replace (i + 1 + Z.of_nat n =? i) with false; [reflexivity|].
    symmetry. apply Z.eqb_neq. lia.
Qed.

(** Two strings of one length with their Z's at the same places answer the
    question "is this character a Z" alike, at every index. *)
Lemma py_index_Z_same {X} (t t0 : text) (k : Z) (K : ascii -> result X) :
  len t = len t0 -> where_eq "Z" t = where_eq "Z" t0 ->
  (forall c c', Ascii.eqb c "Z" = Ascii.eqb c' "Z" -> K c = K c') ->
  bind (py_index t k) K = bind (py_index t0 k) K.
Proof.
  intros Hl Hz HK. unfold py_index. rewrite Hl.
  set (j := if k <? 0 then k + len t0 else k).
  destruct ((j <? 0) || (len t0 <=? j)) eqn:E; [reflexivity|].
  apply orb_false_elim in E. destruct E as [E1 E2].
  apply Z.ltb_ge in E1. apply Z.leb_gt in E2.
  destruct (nth_error t (Z.to_nat j)) as [c|] eqn:Ec.
  2:{ apply nth_error_None in Ec. unfold len in *. lia. }
  destruct (nth_error t0 (Z.to_nat j)) as [c0|] eqn:Ec0.
  2:{ apply nth_error_None in Ec0. unfold len in *. lia. }
  cbn [bind]. apply HK.
  rewrite <- (where_from_nth "Z" t 0 _ c Ec), <- (where_from_nth "Z" t0 0 _ c0 Ec0).
  unfold where_eq in Hz. now rewrite Hz.
Qed.

Lemma sample_time_same (L : Z) (t t0 : text) (strip : bool) :
  len t = len t0 ->
  where_eq ":" t = where_eq ":" t0 -> where_eq "." t = where_eq "." t0 ->
  where_eq "Z" t = where_eq "Z" t0 ->
  (strip = true -> _count_white t = _count_white t0) ->
  sample_time L t strip = sample_time L t0 strip.
Proof.
  intros Hl Hc Hd Hz Hw. unfold sample_time. rewrite Hl, Hc, Hd.
  assert (E : (if strip then _count_white t else (0, 0))
              = (if strip then _count_white t0 else (0, 0)))
    by (destruct strip; [now apply Hw | reflexivity]).
  rewrite E. destruct (if strip then _count_white t0 else (0, 0)) as [w0 w1].
  apply py_index_Z_same; auto.
  intros c c' Hcc. now rewrite Hcc.
Qed.


(** ** The names of the fields *)

Lemma ndigits_fuel_enough (fuel : nat) (n : Z) :
  0 <= n < 2 ^ (Z.of_nat fuel + 1) -> n < 10 ^ Z.of_nat (ndigits_fuel fuel n).
Proof.
  revert n. induction fuel as [|fuel IH]; intros n Hn; cbn [ndigits_fuel].
  - change (2 ^ (Z.of_nat 0 + 1)) with 2 in Hn. change (10 ^ Z.of_nat 1) with 10. lia.
  - destruct (n <? 10) eqn:E.
    + apply Z.ltb_lt in E. change (10 ^ Z.of_nat 1) with 10. lia.
    + apply Z.ltb_ge in E.
      replace (Z.of_nat (S fuel) + 1) with (1 + (Z.of_nat fuel + 1)) in Hn by lia.
      rewrite Z.pow_add_r, Z.pow_1_r in Hn by lia.
      assert (Hq : 0 <= n / 10 < 2 ^ (Z.of_nat fuel + 1)).
      { split; [apply Z.div_pos; lia|]. apply Z.div_lt_upper_bound; lia. }
      specialize (IH _ Hq).
      replace (Z.of_nat (S (ndigits_fuel fuel (n / 10))))
        with (1 + Z.of_nat (ndigits_fuel fuel (n / 10))) by lia.
      rewrite Z.pow_add_r, Z.pow_1_r by lia.
      pose proof (Z.div_mod n 10 ltac:(lia)).
      pose proof (Z.mod_pos_bound n 10 ltac:(lia)). lia.
Qed.

Lemma ndigits_enough (n : Z) : 0 <= n -> n < 10 ^ Z.of_nat (ndigits n).
Proof.
  intros Hn. unfold ndigits. apply ndigits_fuel_enough. split; [exact Hn|].
  destruct (Z.eq_dec n 0) as [->|Hne]; [reflexivity|].
  rewrite Z2Nat.id by apply Z.log2_nonneg.
  pose proof (Z.log2_spec n ltac:(lia)) as [_ H].
  now rewrite <- Z.add_1_r in H.
Qed.

(** [str(i)] reads back as [i]. *)
Lemma digits_val_str_int (i : Z) : 0 <= i -> digits_val (txt (str_int i)) 0 = Some i.
Proof.
  intros Hi. unfold str_int. rewrite txt_str. unfold pct_d.
  replace (i <? 0) with false by (symmetry; apply Z.ltb_ge; lia).
  rewrite digits_val_zfill by assumption. f_equal.
  rewrite Z.mod_small; [lia|]. split; [exact Hi|].
  pose proof (ndigits_enough i Hi) as H.
  eapply Z.lt_le_trans; [exact H|].
  apply Z.pow_le_mono_r; lia.
Qed.

Lemma str_int_inj (i j : Z) : 0 <= i -> 0 <= j -> str_int i = str_int j -> i = j.
Proof.
  intros Hi Hj E. pose proof (digits_val_str_int i Hi) as H1.
  rewrite E, (digits_val_str_int j Hj) in H1. congruence.
Qed.

(** The names of the fraction fields are all different. *)
Lemma fraction_names_nodup (n : nat) (k : Z) :
  0 <= k -> NoDup (map (fun i => ("f" ++ str_int i)%string) (arange n k)).
Proof.
  revert k. induction n as [|n IH]; intros k Hk; cbn [arange map]; constructor.
  - intros Hin. apply in_map_iff in Hin. destruct Hin as (j & E & Hj).
    pose proof (proj1 (Forall_forall _ _) (arange_bounds n (k + 1)) j Hj) as Hb.
    cbn beta in Hb. injection E as E. apply str_int_inj in E; lia.
  - apply IH. lia.
Qed.

Lemma fraction_name_other (i : Z) (name : string) :
  In name ["y12"; "y34"; "m"; "d"; "dash1"; "dash2"; "dot"; "h"; "s"; "colon1"; "colon2";
           "z"; "extra"]%string ->
  ("f" ++ str_int i)%string <> name.
Proof.
  cbn [In]. intros H E. subst name.
  repeat (destruct H as [H|H]; [discriminate H|]). exact H.
Qed.

Lemma fraction_fold_names (w : Z) (idx : list Z) (l : day_layout) :
  map fst (dl_dtype (fold_left (fun l i => dl_field l w ("f" ++ str_int i) 1) idx l))
  = map fst (dl_dtype l) ++ map (fun i => ("f" ++ str_int i)%string) idx.
Proof.
  revert l. induction idx as [|i idx IH]; intros l; cbn [fold_left map].
  - now rewrite app_nil_r.
  - rewrite IH. cbn [dl_field dl_dtype]. unfold dtype_set.
    rewrite map_app, <- app_assoc. reflexivity.
Qed.

(** The field names one turn of the layout loop declares. *)
Lemma day_layout_step_names (w : Z) (order dash : text) (ydigits : Z)
    (has_dot : bool) (dd : Z) (l : day_layout) (field : Z) (c : ascii) :
  map fst (dl_dtype (day_layout_step w order dash ydigits has_dot dd l (field, c)))
  = map fst (dl_dtype l)
    ++ (if (0 <? field) && negb (len dash =? 0)
        then [("dash" ++ str_int field)%string] else [])
    ++ (if Ascii.eqb c "Y"
        then (if ydigits =? 4 then ["y12"%string] else []) ++ ["y34"%string]
        else if Ascii.eqb c "M" then ["m"%string]
        else "d"%string
             :: (if has_dot
                 then "dot"%string
                      :: (if 0 <? dd then fraction_names (Z.to_nat dd) else [])
                 else [])).
Proof.
  unfold day_layout_step, fraction_names.
  destruct ((0 <? field) && negb (len dash =? 0));
    destruct (Ascii.eqb c "Y"); [destruct (ydigits =? 4)| | destruct (ydigits =? 4)|];
    try (destruct (Ascii.eqb c "M"); [|destruct has_dot; [destruct (0 <? dd)|]]);
    rewrite ?fraction_fold_names;
    cbn [dl_field dl_append dl_dtype]; unfold dtype_set;
    rewrite ?map_app; cbn [map fst app]; rewrite <- ?app_assoc; reflexivity.
Qed.

Lemma NoDup_app_middle {T} (a m b : list T) :
  NoDup (a ++ b) -> NoDup m -> (forall x, In x m -> ~ In x (a ++ b)) ->
  NoDup (a ++ m ++ b).
Proof.
  intros Hab Hm Hd. induction a as [|x a IH]; cbn [app] in *.
  - apply NoDup_app; [exact Hm | exact Hab |]. intros y Hy Hb. now apply (Hd y).
  - apply NoDup_cons_iff in Hab as [Hx Hab]. constructor.
    + intros Hin. apply in_app_or in Hin. destruct Hin as [Hin|Hin].
      * apply Hx. apply in_or_app. now left.
      * apply in_app_or in Hin. destruct Hin as [Hin|Hin].
        -- apply (Hd x Hin). now left.
        -- apply Hx. apply in_or_app. now right.
    + apply IH; [exact Hab|]. intros y Hy Hin. apply (Hd y Hy). now right.
Qed.

Lemma fraction_names_other (n : nat) (x : string) (l : list string) :
  In x (fraction_names n) ->
  incl l ["y12"; "y34"; "m"; "d"; "dash1"; "dash2"; "dot"; "h"; "s"; "colon1"; "colon2";
          "z"; "extra"]%string ->
  ~ In x l.
Proof.
  intros Hx Hl Hin. unfold fraction_names in Hx. apply in_map_iff in Hx.
  destruct Hx as (i & <- & _). apply (fraction_name_other i _ (Hl _ Hin)). reflexivity.
Qed.

(** Closed lists of names. *)
Ltac names_tac :=
  repeat match goal with
  | |- NoDup [] => constructor
  | |- NoDup (_ :: _) => constructor; [cbn [In]; intuition discriminate|]
  | |- incl _ _ => intros ? ?; cbn [In] in *; tauto
  end.

(** No two fields of a date layout have the same name. *)
Lemma day_layout_names_nodup (w : Z) (order dash : text) (ydigits : Z)
    (has_dot : bool) (dd : Z) :
  valid_order order ->
  NoDup (map fst (dl_dtype (day_layout_of w order dash ydigits has_dot dd))).
Proof.
  intros Ho. unfold day_layout_of.
  assert (Hfn : forall a b : list string,
            NoDup (a ++ b) ->
            incl (a ++ b) ["y12"; "y34"; "m"; "d"; "dash1"; "dash2"; "dot"; "h"; "s";
                           "colon1"; "colon2"; "z"; "extra"]%string ->
            NoDup (a ++ fraction_names (Z.to_nat dd) ++ b)).
  { intros a b Hab Hin. apply NoDup_app_middle; [exact Hab | |].
    - apply fraction_names_nodup. lia.
    - intros x Hx. now apply (fraction_names_other (Z.to_nat dd)). }
  order_cases Ho; cbn [txt list_ascii_of_string enumerate_from fold_left];
    rewrite !day_layout_step_names; cbn [dl_dtype map app Ascii.eqb Bool.eqb];
    change (0 <? 0) with false; change (0 <? 0 + 1) with true;
    change (0 <? 0 + 1 + 1) with true;
    change ("dash" ++ str_int (0 + 1))%string with "dash1"%string;
    change ("dash" ++ str_int (0 + 1 + 1))%string with "dash2"%string;
    cbn [andb];
    destruct (len dash =? 0); destruct (ydigits =? 4); destruct has_dot;
    try destruct (0 <? dd);
    cbn [negb app];
    try solve [names_tac];
    rewrite <- ?app_assoc; cbn [app];
    lazymatch goal with
    | |- NoDup ?l =>
        lazymatch l with
        | context [_ ++ _] => idtac
        | _ => rewrite <- (app_nil_r (fraction_names (Z.to_nat dd)))
        end
    end;
    lazymatch goal with
    | |- NoDup ?l =>
        let rec parts l :=
          lazymatch l with
          | ?x :: ?r =>
              lazymatch parts r with
              | (?a, ?b) => constr:((x :: a, b))
              end
          | fraction_names _ ++ ?b => constr:((@nil string, b))
          end in
        lazymatch parts l with
        | (?a, ?b) => change (NoDup (a ++ fraction_names (Z.to_nat dd) ++ b))
        end
    end;
    apply Hfn; cbn [app]; names_tac.
Qed.

(** ** The digit tables *)

Lemma nth_error_arange (n : nat) (lo : Z) (i : nat) :
  (i < n)%nat -> nth_error (arange n lo) i = Some (lo + Z.of_nat i).
Proof.
  revert lo i. induction n as [|n IH]; intros lo i Hi; [lia|].
  destruct i as [|i]; cbn [arange nth_error].
  - f_equal. lia.
  - rewrite IH by lia. f_equal. lia.
Qed.

(** Indexing a digit table: in range, from the end for a negative index, or
    an index error. *)
Lemma take_table (f : Z -> text) (n : nat) (k : Z) :
  take (map f (arange n 0)) k
  = if (0 <=? k) && (k <? Z.of_nat n) then Ok (f k)
    else if (- Z.of_nat n <=? k) && (k <? 0) then Ok (f (k + Z.of_nat n))
    else Err IndexError.
Proof.
  unfold take.
  assert (Hl : len (map f (arange n 0)) = Z.of_nat n)
    by (unfold len; now rewrite length_map, arange_length).
  rewrite Hl.
  destruct (k <? 0) eqn:E0.
  - apply Z.ltb_lt in E0.
    replace (0 <=? k) with false by (symmetry; apply Z.leb_gt; lia).
    cbn [andb]. rewrite andb_true_r.
    destruct (- Z.of_nat n <=? k) eqn:E1.
    + apply Z.leb_le in E1.
      replace (k + Z.of_nat n <? 0) with false by (symmetry; apply Z.ltb_ge; lia).
      replace (Z.of_nat n <=? k + Z.of_nat n) with false
        by (symmetry; apply Z.leb_gt; lia).
      cbn [orb]. rewrite nth_error_map, nth_error_arange by lia.
      cbn [option_map]. do 2 f_equal. lia.
    + apply Z.leb_gt in E1.
      replace (k + Z.of_nat n <? 0) with true by (symmetry; apply Z.ltb_lt; lia).
      reflexivity.
  - apply Z.ltb_ge in E0.
    replace (0 <=? k) with true by (symmetry; apply Z.leb_le; lia).
    replace (k <? 0) with false by (symmetry; apply Z.ltb_ge; lia).
    cbn [andb orb].
    destruct (k <? Z.of_nat n) eqn:E1.
    + apply Z.ltb_lt in E1.
      replace (Z.of_nat n <=? k) with false by (symmetry; apply Z.leb_gt; lia).
      cbn [orb]. rewrite nth_error_map, nth_error_arange by lia.
      cbn [option_map]. do 2 f_equal. lia.
    + apply Z.ltb_ge in E1.
      replace (Z.of_nat n <=? k) with true by (symmetry; apply Z.leb_le; lia).
      rewrite andb_false_r. reflexivity.
Qed.

Lemma take_DIGITS2 (k : Z) : 0 <= k < 100 -> take DIGITS2 k = Ok (zfill 2 k).
Proof.
  intros H. unfold DIGITS2. rewrite take_table.
  replace (0 <=? k) with true by (symmetry; apply Z.leb_le; lia).
  replace (k <? Z.of_nat 100) with true by (symmetry; apply Z.ltb_lt; lia).
  cbn [andb]. f_equal. apply (pct_d_zfill 2 k); lia.
Qed.

Lemma take_DIGITS3 (k : Z) : 0 <= k <= 366 -> take DIGITS3 k = Ok (zfill 3 k).
Proof.
  intros H. unfold DIGITS3. rewrite take_table.
  replace (0 <=? k) with true by (symmetry; apply Z.leb_le; lia).
  replace (k <? Z.of_nat 367) with true by (symmetry; apply Z.ltb_lt; lia).
  cbn [andb]. f_equal. apply (pct_d_zfill 3 k); lia.
Qed.

Lemma take_DIGITS1 (k : Z) : 0 <= k < 10 -> take DIGITS1 k = Ok (zfill 1 k).
Proof.
  intros H. unfold DIGITS1. rewrite take_table.
  replace (0 <=? k) with true by (symmetry; apply Z.leb_le; lia).
  replace (k <? Z.of_nat 10) with true by (symmetry; apply Z.ltb_lt; lia).
  cbn [andb]. f_equal. apply (pct_d_zfill 1 k); lia.
Qed.

(** The century index of a year before 0 counts from the end of the table. *)
Lemma take_DIGITS2_wrapped (k : Z) :
  -100 <= k < 100 -> take DIGITS2 k = Ok (zfill 2 (k mod 100)).
Proof.
  intros H. destruct (Z_lt_le_dec k 0) as [Hn|Hp].
  - unfold DIGITS2. rewrite take_table.
    replace (0 <=? k) with false by (symmetry; apply Z.leb_gt; lia).
    replace (- Z.of_nat 100 <=? k) with true by (symmetry; apply Z.leb_le; lia).
    replace (k <? 0) with true by (symmetry; apply Z.ltb_lt; lia).
    cbn [andb]. f_equal.
    replace (k mod 100) with (k + 100)
      by (apply (Z.mod_unique k 100 (-1)); lia).
    change (Z.of_nat 100) with 100. apply (pct_d_zfill 2); lia.
  - rewrite Z.mod_small by lia. apply take_DIGITS2. lia.
Qed.

Lemma take_DIGITS2_out (k : Z) : k < -100 \/ 100 <= k -> take DIGITS2 k = Err IndexError.
Proof.
  intros H. unfold DIGITS2. rewrite take_table. change (Z.of_nat 100) with 100.
  destruct H as [H|H].
  - replace (0 <=? k) with false by (symmetry; apply Z.leb_gt; lia).
    replace (Z.opp 100 <=? k) with false by (symmetry; apply Z.leb_gt; lia).
    reflexivity.
  - replace (k <? 100) with false by (symmetry; apply Z.ltb_ge; lia).
    replace (k <? 0) with false by (symmetry; apply Z.ltb_ge; lia).
    now rewrite !andb_false_r.
Qed.

(** ** What "Fill in the fields" writes *)

Lemma apply_ops_app (w : Z) (dt : dtype) (a b : list (string * text)) (r : text) :
  apply_ops w dt (a ++ b) r = apply_ops w dt b (apply_ops w dt a r).
Proof. unfold apply_ops. apply fold_left_app. Qed.

Lemma Forall2_impl_in {X Y} (P Q : X -> Y -> Prop) (l : list X) (l' : list Y) :
  (forall a b, In a l -> P a b -> Q a b) -> Forall2 P l l' -> Forall2 Q l l'.
Proof.
  intros H Hall. induction Hall as [|a b l l' Hab Hall IH]; constructor.
  - apply H; [now left | exact Hab].
  - apply IH. intros a' b' Hin. apply H. now right.
Qed.

Lemma fraction_ops_names (digits : list Z) :
  map fst (fraction_ops digits) = fraction_names (List.length digits).
Proof.
  unfold fraction_ops, fraction_names. rewrite arange_enumerate, !map_map. reflexivity.
Qed.

Lemma day_ops_nodup (order dash : text) (y m d : Z) (digits : list Z) :
  NoDup (map fst (day_ops order dash y m d digits)).
Proof.
  unfold day_ops. rewrite map_app, fraction_ops_names. cbn [map fst].
  apply NoDup_app.
  - names_tac.
  - apply fraction_names_nodup. lia.
  - intros x Hx Hf. revert Hx. apply (fraction_names_other _ _ _ Hf). names_tac.
Qed.

Lemma sec_ops_nodup (colon suffix : text) (h m s : Z) (digits : list Z) :
  NoDup (map fst (sec_ops colon suffix h m s digits)).
Proof.
  unfold sec_ops. rewrite map_app, fraction_ops_names. cbn [map fst].
  apply NoDup_app.
  - names_tac.
  - apply fraction_names_nodup. lia.
  - intros x Hx Hf. revert Hx. apply (fraction_names_other _ _ _ Hf). names_tac.
Qed.

Section Records.

Context {F : Type} {FO : PyFloat F}.

(** The fraction loop as a sequence of assignments, when every digit it
    takes off is a digit. *)
Lemma store_fraction_ops (w : Z) (dt : dtype) (n : nat) (k : Z) (fr : F) (rec : text) :
  Forall (fun f => 0 <= f < 10) (fraction_digits n fr) ->
  store_fraction w dt (arange n k) fr rec
  = Ok (fold_left (fun r nv => store_if w dt (fst nv) (snd nv) r)
                  (map (fun id => (("f" ++ str_int (fst id))%string, zfill 1 (snd id)))
                       (enumerate_from k (fraction_digits n fr)))
                  rec).
Proof.
  revert k fr rec. induction n as [|n IH]; intros k fr rec Hall;
    cbn [arange store_fraction fraction_digits enumerate_from map fold_left] in *;
    [reflexivity|].
  apply Forall_cons_iff in Hall as [H0 Hall].
  rewrite take_DIGITS1 by exact H0. cbn [bind fst snd].
  now rewrite IH.
Qed.

(** "Fill in the fields" of [format_day] as a sequence of assignments, for
    calendar fields that index the digit tables in range (the century from
    the end of its table for a year before 0). *)
Lemma day_record_ops (w : Z) (dt : dtype) (order dash : text) (dd width y m d : Z)
    (frac : option F) :
  (has_field dt "y12" = true -> -100 <= y / 100 < 100) ->
  (if len order =? 3 then 0 <= m < 100 /\ 0 <= d < 100
   else len order = 2 /\ 0 <= d <= 366 /\ dtype_get dt "m" = None) ->
  let digits := match frac with
                | Some fr => fraction_digits (Z.to_nat dd) fr
                | None => []
                end in
  Forall (fun f => 0 <= f < 10) digits ->
  day_record w dt order dash dd width y m d frac
  = Ok (apply_ops w dt (day_ops order dash y m d digits) (replicate width NUL)).
Proof.
  intros Hy12 Hmd digits Hdig. unfold day_record, day_ops.
  rewrite apply_ops_app. unfold apply_ops at 2. cbn [fold_left fst snd].
  set (rec0 := replicate width NUL).
  assert (E12 : (if has_field dt "y12"
                 then v <- take DIGITS2 (y / 100) ;; Ok (store_if w dt "y12" v rec0)
                 else Ok rec0)
                = Ok (store_if w dt "y12" (zfill 2 ((y / 100) mod 100)) rec0)).
  { unfold has_field in *. unfold store_if.
    destruct (dtype_get dt "y12") as [f12|]; [|reflexivity].
    now rewrite take_DIGITS2_wrapped by (now apply Hy12). }
  rewrite E12. cbn [bind].
  rewrite take_DIGITS2 by (apply Z.mod_pos_bound; lia). cbn [bind].
  set (rec2 := store_if w dt "y34" _ _).
  assert (Emd : (if len order =? 3
                 then vm <- take DIGITS2 m ;; vd <- take DIGITS2 d ;;
                      Ok (store_if w dt "d" vd (store_if w dt "m" vm rec2))
                 else vd <- take DIGITS3 d ;; Ok (store_if w dt "d" vd rec2))
                = Ok (store_if w dt "d" (zfill (if len order =? 2 then 3 else 2) d)
                               (store_if w dt "m" (zfill 2 m) rec2))).
  { destruct (len order =? 3) eqn:E3.
    - apply Z.eqb_eq in E3. rewrite E3. change (3 =? 2) with false.
      destruct Hmd as [Hm Hd]. now rewrite !take_DIGITS2 by assumption.
    - destruct Hmd as (H2 & Hd & Hnm). rewrite H2. change (2 =? 2) with true.
      rewrite take_DIGITS3 by assumption. cbn [bind].
      unfold store_if at 3. now rewrite Hnm. }
  rewrite Emd. cbn [bind].
  unfold digits in *. destruct frac as [fr|].
  - rewrite store_fraction_ops by exact Hdig. reflexivity.
  - reflexivity.
Qed.

End Records.

Lemma dtype_get_none (dt : dtype) (name : string) :
  ~ In name (map fst dt) -> dtype_get dt name = None.
Proof.
  intros H. destruct (dtype_get dt name) as [f|] eqn:E; [|reflexivity].
  apply dtype_get_in in E. elim H. apply in_map_iff. now exists (name, f).
Qed.

(** An ordinal date has no month field. *)
Lemma day_layout_no_month (w : Z) (order dash : text) (ydigits : Z)
    (has_dot : bool) (dd : Z) :
  valid_order order -> len order = 2 ->
  dtype_get (dl_dtype (day_layout_of w order dash ydigits has_dot dd)) "m" = None.
Proof.
  intros Ho H2. apply dtype_get_none. unfold day_layout_of.
  assert (Hfn : ~ In "m"%string (fraction_names (Z.to_nat dd))).
  { intros Hin. apply (fraction_names_other _ _ ["m"%string] Hin); [names_tac | now left]. }
  order_cases Ho; try discriminate H2;
    cbn [txt list_ascii_of_string enumerate_from fold_left];
    rewrite !day_layout_step_names; cbn [dl_dtype map app Ascii.eqb Bool.eqb];
    change (0 <? 0) with false; change (0 <? 0 + 1) with true;
    change ("dash" ++ str_int (0 + 1))%string with "dash1"%string;
    cbn [andb];
    destruct (len dash =? 0); destruct (ydigits =? 4); destruct has_dot;
    try destruct (0 <? dd);
    cbn [negb app]; intros Hin;
    repeat (progress (cbn [In] in Hin; rewrite ?in_app_iff in Hin));
    intuition (first [discriminate | contradiction | idtac]).
Qed.

Lemma len_replicate (n : Z) (c : ascii) : 0 <= n -> len (replicate n c) = n.
Proof. intros H. unfold len, replicate. rewrite repeat_length. lia. Qed.

Section RecordText.

Context {F : Type} {FO : PyFloat F}.

(** The record [format_day] writes for one element of a batch, without a
    caller's buffer: the date text, with the year reduced modulo 100 or
    10000. *)
Lemma day_record_text (w : Z) (order dash : text) (ydigits : Z) (has_dot : bool)
    (dd y m d f : Z) (frac : option F) :
  0 < w -> valid_order order -> ydigits = 2 \/ ydigits = 4 ->
  (ydigits = 4 -> -10000 <= y < 10000) ->
  0 <= m < 100 ->
  0 <= d < (if len order =? 3 then 100 else 367) ->
  let digits := match frac with
                | Some fr => fraction_digits (Z.to_nat dd) fr
                | None => []
                end in
  Forall (fun f => 0 <= f < 10) digits ->
  (has_dot && (0 <? dd) = true ->
   len digits = dd /\ List.concat (map (zfill 1) digits) = pct_d dd f) ->
  let l := day_layout_of w order dash ydigits has_dot dd in
  day_record w (dl_dtype l) order dash dd (dl_lstring l) y m d frac
  = Ok (date_text order ydigits dash has_dot dd (y mod 10 ^ ydigits) m d f).
Proof.
  intros Hw Ho Hy Hyr Hm Hd digits Hdig Hf l.
  assert (Hlen : len order = 3 \/ len order = 2) by (order_cases Ho; cbn; lia).
  rewrite day_record_ops; fold digits.
  2:{ intros H12. destruct (day_layout_fields w order dash ydigits has_dot dd Ho) as [_ E].
      fold l in E. rewrite E in H12. apply Z.eqb_eq in H12. specialize (Hyr H12).
      split; [apply Z.div_le_lower_bound | apply Z.div_lt_upper_bound]; lia. }
  2:{ destruct Hlen as [E|E]; rewrite E in *.
      - change (3 =? 3) with true in *. split; [exact Hm | exact Hd].
      - change (2 =? 3) with false in *. split; [reflexivity|]. split; [lia|].
        now apply day_layout_no_month. }
  2:{ exact Hdig. }
  assert (Hd' : 0 <= d < 10 ^ (if len order =? 2 then 3 else 2)).
  { destruct Hlen as [E|E]; rewrite E in *.
    - change (3 =? 2) with false. change (3 =? 3) with true in Hd. lia.
    - change (2 =? 2) with true. change (2 =? 3) with false in Hd. lia. }
  destruct (day_layout_tiling w order dash ydigits has_dot dd y m d f digits
              Hy Hm Hd' Hf Ho) as (vs & (H0 & Ht & Hv) & Hc).
  fold l in H0, Ht, Hv. rewrite <- Hc. f_equal.
  set (ops := day_ops order dash y m d digits) in *.
  set (R := apply_ops w (dl_dtype l) ops (replicate (dl_lstring l) NUL)).
  assert (HR : len R = dl_lstring l).
  { unfold R. apply len_apply_ops; [exact Hw | exact Ht |]. now apply len_replicate. }
  change R with (skipn (Z.to_nat 0) R).
  apply (tiles_concat w (dl_dtype l) (dl_lstring l) vs R 0 Hw ltac:(lia) Ht HR).
  eapply Forall2_impl_in; [|exact Hv].
  intros [name [n off]] v Hin [Hlv Hop]. cbn [fst snd] in *.
  unfold R.
  apply (field_apply_ops w (dl_lstring l) (dl_dtype l) Hw Ht
           (day_layout_names_nodup w order dash ydigits has_dot dd Ho)
           ops name n off v (replicate (dl_lstring l) NUL)
           (len_replicate _ _ H0) (day_ops_nodup order dash y m d digits) Hin Hop Hlv).
Qed.

End RecordText.

(** ** Batches of dates *)

Lemma mapM_ok_map {X Y} (f : X -> result Y) (g : X -> Y) (l : list X) :
  (forall x, In x l -> f x = Ok (g x)) -> mapM f l = Ok (map g l).
Proof.
  induction l as [|x l IH]; intros H; cbn [mapM map]; [reflexivity|].
  rewrite (H x) by now left. cbn [bind]. rewrite IH; [reflexivity|].
  intros y Hy. apply H. now right.
Qed.

Lemma mapM_map_ok {W X Y} (h : W -> X) (f : X -> result Y) (g : W -> Y) (l : list W) :
  (forall x, In x l -> f (h x) = Ok (g x)) -> mapM f (map h l) = Ok (map g l).
Proof.
  induction l as [|x l IH]; intros H; cbn [mapM map]; [reflexivity|].
  rewrite (H x) by now left. cbn [bind]. rewrite IH; [reflexivity|].
  intros y Hy. apply H. now right.
Qed.

Lemma combine_map_both {X Y Z'} (f : X -> Y) (g : X -> Z') (l : list X) :
  combine (map f l) (map g l) = map (fun x => (f x, g x)) l.
Proof. induction l as [|x l IH]; cbn [map combine]; [reflexivity | now rewrite IH]. Qed.

Section DayBatch.

Context {F : Type} {FO : PyFloat F} (A : Adapter F).

(** What [format_day] returns for an array of integer days and no buffer. *)
Lemma format_day_batch (xs : list Z) (order : text) (ydigits : Z) (dash : text)
    (ddigits : option Z) (proleptic : bool) (knd : kind) :
  valid_order order -> ydigits = 2 \/ ydigits = 4 -> kind_is_US knd = true ->
  Forall (fun x => let '(y, m, d) := calendar_fields A order x proleptic in
                   (ydigits = 4 -> -10000 <= y < 10000) /\ 0 <= m < 100 /\
                   0 <= d < (if len order =? 3 then 100 else 367)) xs ->
  format_day A (Array (map Int xs)) order ydigits dash ddigits proleptic None knd
  = Ok (Filled {| bkind := knd;
                  bwidth := date_width order ydigits (len dash);
                  belems := map (fun x =>
                                   let '(y, m, d) := calendar_fields A order x proleptic in
                                   date_text order ydigits dash false 0
                                             (y mod 10 ^ ydigits) m d 0) xs |}).
Proof.
  intros Ho Hy Hk Hall. unfold format_day.
  rewrite (proj1 (valid_order_text_in order) Ho).
  assert (Hyd : (ydigits =? 2) || (ydigits =? 4) = true)
    by (destruct Hy as [-> | ->]; reflexivity).
  rewrite Hyd. cbn [negb raise_if bind shape _is_float elements].
  assert (Hint : existsb is_flt (map (@Int F) xs) = false).
  { clear. induction xs as [|x xs IH]; [reflexivity | exact IH]. }
  rewrite Hint. cbn [andb].
  unfold interpret_kind. rewrite Hk. cbn [negb raise_if bind].
  set (w := char_size knd).
  set (dd := digits_of ddigits).
  set (l := day_layout_of w order dash ydigits false dd).
  assert (Hw : 0 < w) by apply char_size_pos.
  assert (HL : dl_lstring l = date_width order ydigits (len dash)).
  { unfold l. rewrite day_layout_width by (auto; discriminate). lia. }
  rewrite !map_map, combine_map_both. cbn [split_number _int fst].
  unfold prepare. cbn [bind bwidth]. unfold broadcast, fill_targets, targets.
  cbn [bkind bwidth belems].
  rewrite (mapM_map_ok _ _
             (fun x => let '(y, m, d) := calendar_fields A order x proleptic in
                       date_text order ydigits dash false 0 (y mod 10 ^ ydigits) m d 0)).
  - cbn [bind]. rewrite length_map, skipn_all2 by (rewrite repeat_length; lia).
    rewrite app_nil_r, HL. reflexivity.
  - intros x Hx.
    pose proof (proj1 (Forall_forall _ _) Hall x Hx) as Hr. cbv beta in Hr.
    fold (calendar_fields A order x proleptic).
    destruct (calendar_fields A order x proleptic) as [[y m] d].
    destruct Hr as (Hyr & Hm & Hd).
    apply (day_record_text w order dash ydigits false dd y m d 0 None Hw Ho Hy Hyr Hm Hd).
    + constructor.
    + discriminate.
Qed.

End DayBatch.

Lemma Forall2_map_r {X Y} (P : X -> Y -> Prop) (g : X -> Y) (l : list X) :
  Forall (fun x => P x (g x)) l -> Forall2 P l (map g l).
Proof. induction 1; cbn [map]; constructor; assumption. Qed.

Lemma take_err (t : list text) (i : Z) (e : error) : take t i = Err e -> e = IndexError.
Proof.
  unfold take. destruct (_ || _); [now intros [= <-]|].
  destruct (nth_error _ _); [discriminate | now intros [= <-]].
Qed.

Lemma mapM_err_any {X Y} (f : X -> result Y) (E : error) (l : list X) :
  (forall x e, In x l -> f x = Err e -> e = E) ->
  (exists x, In x l /\ is_ok (f x) = false) ->
  mapM f l = Err E.
Proof.
  induction l as [|x l IH]; intros Hall (x0 & Hin & Hx0); [destruct Hin|].
  cbn [mapM]. destruct (f x) as [v|e] eqn:Ex.
  - cbn [bind]. destruct Hin as [-> | Hin]; [rewrite Ex in Hx0; discriminate|].
    rewrite IH; [reflexivity | | now exists x0].
    intros y e Hy. apply Hall. now right.
  - cbn [bind]. f_equal. apply (Hall x e); [now left | exact Ex].
Qed.

Section DayBounds.

Context {F : Type} {FO : PyFloat F} (A : Adapter F).

Lemma store_fraction_err (w : Z) (dt : dtype) (idx : list Z) (fr : F) (rec : text)
    (e : error) :
  store_fraction w dt idx fr rec = Err e -> e = IndexError.
Proof.
  revert fr rec. induction idx as [|i idx IH]; intros fr rec; cbn [store_fraction];
    [discriminate|].
  destruct (take DIGITS1 _) as [v|e'] eqn:Et; cbn [bind].
  - apply IH.
  - intros [= <-]. now apply take_err in Et.
Qed.

(** Filling in a record fails only on a table index out of range. *)
Lemma day_record_err (w : Z) (dt : dtype) (order dash : text) (dd width y m d : Z)
    (frac : option F) (e : error) :
  day_record w dt order dash dd width y m d frac = Err e -> e = IndexError.
Proof.
  unfold day_record.
  repeat match goal with
  | |- context [take ?t ?i] =>
      let E := fresh "E" in
      destruct (take t i) eqn:E;
      [|apply take_err in E; subst]
  end;
  repeat match goal with
  | |- context [if ?b then _ else _] => destruct b
  end; cbn [bind]; try discriminate; try (now intros [= <-]);
  destruct frac; try discriminate; try apply store_fraction_err.
Qed.

(** [format_day] on an array of integer days, without a buffer, up to the
    filling of the records. *)
Lemma format_day_ints (xs : list Z) (order : text) (ydigits : Z) (dash : text)
    (ddigits : option Z) (proleptic : bool) (knd : kind) :
  valid_order order -> ydigits = 2 \/ ydigits = 4 -> kind_is_US knd = true ->
  let w := char_size knd in
  let l := day_layout_of w order dash ydigits false (digits_of ddigits) in
  format_day A (Array (map Int xs)) order ydigits dash ddigits proleptic None knd
  = (recs <- mapM (fun x => let '(y, m, d) := calendar_fields A order x proleptic in
                            day_record w (dl_dtype l) order dash (digits_of ddigits)
                                       (dl_lstring l) y m d None) xs ;;
     Ok (Filled {| bkind := knd; bwidth := dl_lstring l; belems := recs |})).
Proof.
  intros Ho Hy Hk w l. unfold format_day.
  rewrite (proj1 (valid_order_text_in order) Ho).
  assert (Hyd : (ydigits =? 2) || (ydigits =? 4) = true)
    by (destruct Hy as [-> | ->]; reflexivity).
  rewrite Hyd. cbn [negb raise_if bind shape _is_float elements].
  assert (Hint : existsb is_flt (map (@Int F) xs) = false).
  { clear. induction xs as [|x xs IH]; [reflexivity | exact IH]. }
  rewrite Hint. cbn [andb].
  unfold interpret_kind. rewrite Hk. cbn [negb raise_if bind].
  fold w. fold l.
  rewrite !map_map, combine_map_both. cbn [split_number _int fst].
  unfold prepare. cbn [bind bwidth]. unfold broadcast, fill_targets, targets.
  cbn [bkind bwidth belems].
  assert (Em : forall (g : Z * Z * Z * (Z * option F) -> result text) h,
            (forall x, g (h x) = (let '(y, m, d) := calendar_fields A order x proleptic in
                                  day_record w (dl_dtype l) order dash (digits_of ddigits)
                                             (dl_lstring l) y m d None)) ->
            mapM g (map h xs)
            = mapM (fun x => let '(y, m, d) := calendar_fields A order x proleptic in
                             day_record w (dl_dtype l) order dash (digits_of ddigits)
                                        (dl_lstring l) y m d None) xs).
  { intros g h Hg. clear - Hg. induction xs as [|x xs IH]; cbn [map mapM]; [reflexivity|].
    now rewrite Hg, IH. }
  rewrite Em.
  2:{ intros x. unfold calendar_fields.
      destruct (len order =? 3); [now destruct (ymd_from_day A x proleptic) as [[? ?] ?]|].
      now destruct (yd_from_day A x proleptic). }
  destruct (mapM _ xs) as [recs|e] eqn:E; cbn [bind]; [|reflexivity].
  apply mapM_length in E.
  rewrite length_map, skipn_all2 by (rewrite repeat_length; lia).
  now rewrite app_nil_r.
Qed.

End DayBounds.

(** ** Arrays of dates against single dates *)

(** [format_day] on an array of integer days, without a buffer, returns a
    fresh array of the given kind and of the date width whose elements are,
    one by one, the strings the scalar call returns -- provided the calendar
    fields fit their columns: a year from 0 to 9999 when four digits are
    shown, a month and a day of month below 100, a day of year up to 366. *)
Theorem format_day_array_matches_scalar {F : Type} {FO : PyFloat F} (A : Adapter F)
    (xs : list Z) (order : text) (ydigits : Z) (dash : text)
    (ddigits : option Z) (proleptic : bool) (knd : kind) :
  valid_order order -> ydigits = 2 \/ ydigits = 4 -> kind_is_US knd = true ->
  Forall (fun x => let '(y, m, d) := calendar_fields A order x proleptic in
                   (ydigits = 4 -> 0 <= y < 10000) /\ 0 <= m < 100 /\
                   0 <= d < (if len order =? 3 then 100 else 367)) xs ->
  exists b,
    format_day A (Array (map Int xs)) order ydigits dash ddigits proleptic None knd
    = Ok (Filled b) /\
    bkind b = knd /\ bwidth b = date_width order ydigits (len dash) /\
    Forall2 (fun x r =>
               format_day A (Scalar (Int x)) order ydigits dash ddigits proleptic None knd
               = Ok (Single r) /\ len r = bwidth b)
            xs (belems b).
Proof.
  intros Ho Hy Hk Hall.
  eexists. split; [|split; [|split]].
  - apply format_day_batch; auto.
    eapply Forall_impl; [|exact Hall]. intros x. cbv beta.
    destruct (calendar_fields A order x proleptic) as [[y m] d].
    intros (Hyr & Hm & Hd). split; [|now split]. intros H4. specialize (Hyr H4). lia.
  - reflexivity.
  - reflexivity.
  - cbn [belems bwidth]. apply Forall2_map_r.
    eapply Forall_impl; [|exact Hall]. intros x. cbv beta.
    pose proof (format_day_scalar A (Int x) order ydigits dash ddigits proleptic knd
                  Ho Hy Hk) as Hs.
    cbv zeta in Hs. cbn [is_flt andb split_number fst snd _int] in Hs.
    destruct (calendar_fields A order x proleptic) as [[y m] d].
    intros (Hyr & Hm & Hd).
    assert (Esh : shown_year ydigits y = y mod 10 ^ ydigits).
    { unfold shown_year. destruct Hy as [E | E]; rewrite E.
      - reflexivity.
      - change (4 =? 2) with false. change (10 ^ 4) with 10000.
        symmetry. apply Z.mod_small. now apply Hyr. }
    rewrite Esh in Hs. split; [exact Hs|].
    apply len_date_text; auto.
    + apply Z.mod_pos_bound. destruct Hy as [E | E]; rewrite E; lia.
    + assert (Hlen : len order = 3 \/ len order = 2) by (order_cases Ho; cbn; lia).
      destruct Hlen as [E|E]; rewrite E in *.
      * exact Hd.
      * change (2 =? 3) with false in *. lia.
Qed.

(** Three days of 2000 and 2001, as bytes. *)
Lemma format_day_array_matches_scalar_witness :
  format_day (F:=Q) Ref.adapter (Array [Int 0; Int 59; Int 366]) (txt "YMD") 4 (txt "-")
             None false None KS
  = Ok (Filled {| bkind := KS; bwidth := 10;
                  belems := [txt "2000-01-01"; txt "2000-02-29"; txt "2001-01-01"] |}).
Proof.
  destruct (format_day_array_matches_scalar (F:=Q) Ref.adapter [0; 59; 366] (txt "YMD") 4
              (txt "-") None false KS (or_introl eq_refl) (or_intror eq_refl) eq_refl)
    as (b & Hb & Hk & Hw & Hall).
  - repeat (apply Forall_cons;
            [vm_compute; repeat split; try reflexivity; intros; discriminate|]).
    apply Forall_nil.
  - cbn [map] in Hb. rewrite Hb. destruct b as [k wd el]. cbn [bkind bwidth belems] in *.
    subst k wd.
    inversion Hall as [|? r1 ? el1 [H1 _] Hall1]; subst.
    inversion Hall1 as [|? r2 ? el2 [H2 _] Hall2]; subst.
    inversion Hall2 as [|? r3 ? el3 [H3 _] Hall3]; subst.
    inversion Hall3; subst.
    vm_compute in H1, H2, H3.
    injection H1 as <-. injection H2 as <-. injection H3 as <-.
    reflexivity.
Defined.

(** With four year digits, the array path of [format_day] looks the
    century up in the table of two-digit strings, where a negative index
    counts from the end: a year from -10000 to -1 is written as the year
    plus 10000, without a sign, where the scalar call formats the year
    itself, sign included. *)
Theorem format_day_array_wraps_years {F : Type} {FO : PyFloat F} (A : Adapter F)
    (xs : list Z) (order : text) (dash : text)
    (ddigits : option Z) (proleptic : bool) (knd : kind) :
  valid_order order -> kind_is_US knd = true ->
  Forall (fun x => let '(y, m, d) := calendar_fields A order x proleptic in
                   -10000 <= y < 10000 /\ 0 <= m < 100 /\
                   0 <= d < (if len order =? 3 then 100 else 367)) xs ->
  exists b,
    format_day A (Array (map Int xs)) order 4 dash ddigits proleptic None knd
    = Ok (Filled b) /\
    Forall2 (fun x r =>
               let '(y, m, d) := calendar_fields A order x proleptic in
               r = date_text order 4 dash false 0 (if y <? 0 then y + 10000 else y) m d 0 /\
               format_day A (Scalar (Int x)) order 4 dash ddigits proleptic None knd
               = Ok (Single (date_text order 4 dash false 0 y m d 0)))
            xs (belems b).
Proof.
  intros Ho Hk Hall.
  eexists. split.
  - apply format_day_batch; auto.
    eapply Forall_impl; [|exact Hall]. intros x. cbv beta.
    destruct (calendar_fields A order x proleptic) as [[y m] d].
    intros (Hyr & Hm & Hd). split; [|now split]. intros _. exact Hyr.
  - cbn [belems]. apply Forall2_map_r.
    eapply Forall_impl; [|exact Hall]. intros x. cbv beta.
    pose proof (format_day_scalar A (Int x) order 4 dash ddigits proleptic knd
                  Ho (or_intror eq_refl) Hk) as Hs.
    cbv zeta in Hs. cbn [is_flt andb split_number fst snd _int] in Hs.
    destruct (calendar_fields A order x proleptic) as [[y m] d].
    intros (Hyr & Hm & Hd). split; [|exact Hs].
    f_equal. change (10 ^ 4) with 10000.
    destruct (y <? 0) eqn:E.
    + apply Z.ltb_lt in E. symmetry. apply (Z.mod_unique y 10000 (-1)); lia.
    + apply Z.ltb_ge in E. apply Z.mod_small. lia.
Qed.

(** 15 June of the year -1 in the reference calendar: 9999 in the array,
    -001 as a string. *)
Lemma format_day_array_wraps_years_witness :
  format_day (F:=Q) Ref.adapter (Array [Int (-730687)]) (txt "YMD") 4 (txt "-")
             None false None KU
  = Ok (Filled {| bkind := KU; bwidth := 10; belems := [txt "9999-06-15"] |}) /\
  format_day (F:=Q) Ref.adapter (Scalar (Int (-730687))) (txt "YMD") 4 (txt "-")
             None false None KU
  = Ok (Single (txt "-001-06-15")).
Proof.
  destruct (format_day_array_wraps_years (F:=Q) Ref.adapter [-730687] (txt "YMD")
              (txt "-") None false KU (or_introl eq_refl) eq_refl)
    as (b & Hb & Hall).
  - repeat (apply Forall_cons;
            [vm_compute; repeat split; try reflexivity; intros; discriminate|]).
    apply Forall_nil.
  - inversion Hall as [|? r1 ? el1 H1 Hall1 E1 E2]; subst.
    inversion Hall1; subst.
    change (calendar_fields Ref.adapter (txt "YMD") (-730687) false)
      with (-1, 6, 15) in H1.
    cbv iota beta in H1. destruct H1 as [Hr Hs]. split; [|exact Hs].
    cbn [map] in Hb. rewrite Hb. destruct b as [k wd el]. cbn [belems] in *.
    subst el. pose proof Hb as Hb'. vm_compute in Hb'.
    injection Hb' as <- <- _. rewrite Hr. vm_compute. reflexivity.
Defined.

(** With four year digits, the array path of [format_day] fails with an
    index error as soon as one element has a year from 10000 on or before
    -10000, for which the table of two-digit strings has no entry; the
    scalar call formats such a year in as many characters as it takes. *)
Theorem format_day_array_year_bounds {F : Type} {FO : PyFloat F} (A : Adapter F)
    (xs : list Z) (x : Z) (order : text) (dash : text)
    (ddigits : option Z) (proleptic : bool) (knd : kind) :
  valid_order order -> kind_is_US knd = true -> In x xs ->
  let '(y, m, d) := calendar_fields A order x proleptic in
  y < -10000 \/ 10000 <= y ->
  format_day A (Array (map Int xs)) order 4 dash ddigits proleptic None knd
  = Err IndexError /\
  format_day A (Scalar (Int x)) order 4 dash ddigits proleptic None knd
  = Ok (Single (date_text order 4 dash false 0 y m d 0)).
Proof.
  intros Ho Hk Hin.
  pose proof (format_day_scalar A (Int x) order 4 dash ddigits proleptic knd
                Ho (or_intror eq_refl) Hk) as Hs.
  cbv zeta in Hs. cbn [is_flt andb split_number fst snd _int] in Hs.
  destruct (calendar_fields A order x proleptic) as [[y m] d] eqn:Ec.
  intros Hy. split; [|exact Hs].
  rewrite format_day_ints by auto.
  rewrite (mapM_err_any _ IndexError); [reflexivity | |].
  - intros x' e _. destruct (calendar_fields A order x' proleptic) as [[y' m'] d'].
    apply day_record_err.
  - exists x. split; [exact Hin|]. rewrite Ec. unfold day_record.
    destruct (day_layout_fields (char_size knd) order dash 4 false (digits_of ddigits) Ho)
      as [_ E12].
    rewrite E12. change (4 =? 4) with true. cbv iota.
    rewrite take_DIGITS2_out; [reflexivity|].
    destruct Hy as [Hy|Hy].
    + left. apply Z.div_lt_upper_bound; lia.
    + right. apply Z.div_le_lower_bound; lia.
Qed.

(** Day 3000000 is in the year 10213 of the reference calendar. *)
Lemma format_day_array_year_bounds_witness :
  format_day (F:=Q) Ref.adapter (Array [Int 0; Int 3000000]) (txt "YMD") 4 (txt "-")
             None false None KU
  = Err IndexError /\
  format_day (F:=Q) Ref.adapter (Scalar (Int 3000000)) (txt "YMD") 4 (txt "-")
             None false None KU
  = Ok (Single (txt "10213-09-21")).
Proof.
  pose proof (format_day_array_year_bounds (F:=Q) Ref.adapter [0; 3000000] 3000000
                (txt "YMD") (txt "-") None false KU (or_introl eq_refl) eq_refl
                (or_intror (or_introl eq_refl))) as H.
  change (calendar_fields Ref.adapter (txt "YMD") 3000000 false)
    with (10213, 9, 21) in H.
  cbv iota beta in H. apply H. right. vm_compute. discriminate.
Defined.


(** [day_from_iso] on a list of strings of one shape -- the same length,
    the same place of the first decimal point, the same number of dashes
    and, under [strip], the same numbers of leading and trailing blanks as
    the first one, none ending in NUL -- returns the array of what it
    returns for each string alone, whenever it accepts each of them. *)
Theorem day_from_iso_batch_is_elementwise {F : Type} {FO : PyFloat F} (A : Adapter F)
    (t0 : text) (rest : list text) (vs : list (number F))
    (validate syntax strip proleptic : bool) :
  Forall (fun t => rstrip_nul t = t /\ len t = len t0 /\
                   find "." t = find "." t0 /\ count "-" t = count "-" t0 /\
                   (strip = true -> _count_white t = _count_white t0))
         (t0 :: rest) ->
  Forall2 (fun t v => day_from_iso A (Str t) validate syntax strip proleptic
                      = Ok (Scalar v))
          (t0 :: rest) vs ->
  day_from_iso A (Strs (t0 :: rest)) validate syntax strip proleptic = Ok (Array vs).
Proof.
  intros Hshape Hall.
  assert (HL : 0 < len t0).
  { destruct t0 as [|c t0]; [|unfold len; cbn [List.length]; lia].
    inversion Hall as [|? v0 ? vs0 H0 _]; subst. exfalso. revert H0.
    unfold day_from_iso, day_from_iso_S. cbn [np_array_S rstrip_nul first_of items bind].
    unfold identify_date. now destruct strip. }
  unfold day_from_iso.
  rewrite (np_array_S_many (len t0)); [|exact HL|].
  2:{ eapply Forall_impl; [|exact Hshape]. cbv beta. tauto. }
  apply day_from_iso_S_batch.
  - eapply Forall_impl; [|exact Hshape]. cbv beta.
    intros t (Hr & Hl & Hd & Hk & Hw).
    rewrite Hr, (proj1 (Forall_inv Hshape)).
    unfold sample_date. rewrite Hl, Hd, Hk.
    destruct strip; [now rewrite Hw|reflexivity].
  - assert (Hgen : forall ts vs',
              Forall (fun t => rstrip_nul t = t /\ len t = len t0 /\
                               find "." t = find "." t0 /\ count "-" t = count "-" t0 /\
                               (strip = true -> _count_white t = _count_white t0)) ts ->
              Forall2 (fun t v => day_from_iso A (Str t) validate syntax strip proleptic
                                  = Ok (Scalar v)) ts vs' ->
              Forall2 (fun r v =>
                         day_from_iso_S A {| scalar := true; itemsize := len t0;
                                             items := [r] |}
                                        validate syntax strip proleptic = Ok (Scalar v))
                      ts vs').
    { induction ts as [|t ts IH]; intros vs' Hs Hall'.
      - inversion Hall'. constructor.
      - inversion Hall' as [|? v ? vs1 H1 Hrest]; subst. constructor.
        + destruct (Forall_inv Hs) as (Hr & Hl & _).
          unfold day_from_iso in H1. rewrite np_array_S_one in H1; auto; [|lia].
          now rewrite Hl in H1.
        + apply IH; [now apply Forall_inv_tail in Hs | exact Hrest]. }
    now apply Hgen.
Qed.

(** Two dates in the layout yyyy-mm-dd. *)
Lemma day_from_iso_batch_is_elementwise_witness :
  day_from_iso (F:=Q) Ref.adapter (Strs [txt "2000-01-01"; txt "2001-12-31"])
               true true true false
  = Ok (Array [Int 0; Int 730]).
Proof.
  apply (day_from_iso_batch_is_elementwise (F:=Q) Ref.adapter (txt "2000-01-01")
           [txt "2001-12-31"] [Int 0; Int 730] true true true false).
  - repeat (apply Forall_cons; [repeat split; reflexivity|]). apply Forall_nil.
  - repeat (apply Forall2_cons; [vm_compute; reflexivity|]). apply Forall2_nil.
Defined.

(** [sec_from_iso] on a list of strings of one shape -- the same length,
    the colons, the decimal point and the letter Z at the same places and,
    under [strip], the same numbers of leading and trailing blanks as the
    first one, none ending in NUL -- returns the array of what it returns
    for each string alone, whenever it accepts each of them. *)
Theorem sec_from_iso_batch_is_elementwise {F : Type} {FO : PyFloat F} (A : Adapter F)
    (t0 : text) (rest : list text) (vs : list (number F))
    (validate leapsecs strip syntax : bool) :
  Forall (fun t => rstrip_nul t = t /\ len t = len t0 /\
                   where_eq ":" t = where_eq ":" t0 /\
                   where_eq "." t = where_eq "." t0 /\
                   where_eq "Z" t = where_eq "Z" t0 /\
                   (strip = true -> _count_white t = _count_white t0))
         (t0 :: rest) ->
  Forall2 (fun t v => sec_from_iso A (Str t) validate leapsecs strip syntax
                      = Ok (Scalar v))
          (t0 :: rest) vs ->
  sec_from_iso A (Strs (t0 :: rest)) validate leapsecs strip syntax = Ok (Array vs).
Proof.
  intros Hshape Hall.
  assert (HL : 0 < len t0).
  { destruct t0 as [|c t0]; [|unfold len; cbn [List.length]; lia].
    inversion Hall as [|? v0 ? vs0 H0 _]; subst. exfalso. revert H0.
    unfold sec_from_iso, sec_from_iso_S. cbn [np_array_S rstrip_nul first_of items bind].
    now destruct strip. }
  unfold sec_from_iso.
  rewrite (np_array_S_many (len t0)); [|exact HL|].
  2:{ eapply Forall_impl; [|exact Hshape]. cbv beta. tauto. }
  apply sec_from_iso_S_batch.
  - eapply Forall_impl; [|exact Hshape]. cbv beta.
    intros t (Hr & Hl & Hc & Hd & Hz & Hw).
    rewrite Hr, (proj1 (Forall_inv Hshape)).
    now apply sample_time_same.
  - assert (Hgen : forall ts vs',
              Forall (fun t => rstrip_nul t = t /\ len t = len t0 /\
                               where_eq ":" t = where_eq ":" t0 /\
                               where_eq "." t = where_eq "." t0 /\
                               where_eq "Z" t = where_eq "Z" t0 /\
                               (strip = true -> _count_white t = _count_white t0)) ts ->
              Forall2 (fun t v => sec_from_iso A (Str t) validate leapsecs strip syntax
                                  = Ok (Scalar v)) ts vs' ->
              Forall2 (fun r v =>
                         sec_from_iso_S A {| scalar := true; itemsize := len t0;
                                             items := [r] |}
                                        validate leapsecs strip syntax = Ok (Scalar v))
                      ts vs').
    { induction ts as [|t ts IH]; intros vs' Hs Hall'.
      - inversion Hall'. constructor.
      - inversion Hall' as [|? v ? vs1 H1 Hrest]; subst. constructor.
        + destruct (Forall_inv Hs) as (Hr & Hl & _).
          unfold sec_from_iso in H1. rewrite np_array_S_one in H1; auto; [|lia].
          now rewrite Hl in H1.
        + apply IH; [now apply Forall_inv_tail in Hs | exact Hrest]. }
    now apply Hgen.
Qed.

(** Two times in the layout hh:mm:ss.fffZ. *)
Lemma sec_from_iso_batch_is_elementwise_witness :
  sec_from_iso (F:=Q) Ref.adapter (Strs [txt "00:00:01.500Z"; txt "23:59:60.250Z"])
               true true false true
  = Ok (Array [Flt (1500 # 1000)%Q; Flt (86400250 # 1000)%Q]).
Proof.
  apply (sec_from_iso_batch_is_elementwise (F:=Q) Ref.adapter (txt "00:00:01.500Z")
           [txt "23:59:60.250Z"] [Flt (1500 # 1000)%Q; Flt (86400250 # 1000)%Q]
           true true false true).
  - repeat (apply Forall_cons; [repeat split; try reflexivity; discriminate|]).
    apply Forall_nil.
  - repeat (apply Forall2_cons; [vm_compute; reflexivity|]). apply Forall2_nil.
Defined.
